(** * WebViewToolkit: the GPU resource bridge and the capture session

    A shallow embedding of the two render back ends
    ([RenderAPI_D3D11.cpp], [RenderAPI_D3D12.cpp]) and of the capture
    session ([WebViewCapture.cpp]), with the properties the specification
    states about them; and of the layers around them, the factory
    ([RenderAPI.cpp]), the web view ([WebView.cpp]), the manager
    ([WebViewManager.cpp]), the plugin ([Plugin.cpp]) and the exported
    functions ([PluginExports.cpp]), with properties read off the code.

    Conventions of the embedding.
    - A pointer is an address in [N]; [0] is [nullptr].
    - COM objects live in a reference-counted heap ([objs]).  Every
      allocation also draws a serial number, which is the identity of the
      object: an address can be reused after the last [Release], a serial
      cannot.
    - A call that the operating system or the driver decides (an HRESULT,
      the address of a new object) takes its answer as an explicit
      argument of the function that makes the call.
    - A function returns [None] where the C++ program has no defined
      behaviour (a method call through a dangling or null pointer) or
      where the answer supplied for the environment is impossible (a new
      object at an address that is in use).
    - [DebugLog::Log] calls and the log callbacks are not modelled; a
      callback is the address of the function.
    - The WebView2 objects and the windows are outside the heap: a member
      that points to one is an address.
    - The mutexes are not modelled: the calls are taken one after the
      other. *)

From stdpp Require Import gmap list.

(** ** Types.h *)

Inductive Result :=
| Success
| ErrorUnknown
| ErrorInvalidHandle
| ErrorNotInitialized
| ErrorAlreadyInitialized
| ErrorUnsupportedGraphicsAPI
| ErrorDeviceCreationFailed
| ErrorTextureCreationFailed
| ErrorResourceBarrierFailed
| ErrorWebViewCreationFailed
| ErrorCompositionFailed
| ErrorNavigationFailed.

Definition Result_value (r : Result) : Z :=
  match r with
  | Success => 0
  | ErrorUnknown => -1
  | ErrorInvalidHandle => -2
  | ErrorNotInitialized => -3
  | ErrorAlreadyInitialized => -4
  | ErrorUnsupportedGraphicsAPI => -100
  | ErrorDeviceCreationFailed => -101
  | ErrorTextureCreationFailed => -102
  | ErrorResourceBarrierFailed => -103
  | ErrorWebViewCreationFailed => -200
  | ErrorCompositionFailed => -201
  | ErrorNavigationFailed => -202
  end%Z.

#[global] Instance Result_eq_dec : EqDecision Result.
Proof. solve_decision. Defined.

(** The device events of the host engine; [kUnityGfxDeviceEventOther]
    stands for any value that reaches the [default] branch. *)
Inductive UnityGfxDeviceEventType :=
| kUnityGfxDeviceEventInitialize
| kUnityGfxDeviceEventShutdown
| kUnityGfxDeviceEventBeforeReset
| kUnityGfxDeviceEventAfterReset
| kUnityGfxDeviceEventOther.

(** ** Machine integers *)

Definition UINT_modulus : Z := 2 ^ 32.
Definition UINT64_modulus : Z := 2 ^ 64.

(** [static_cast<UINT>] and the wrap-around of [UINT] arithmetic. *)
Definition to_UINT (z : Z) : Z := (z mod UINT_modulus)%Z.
Definition UINT_sub (a b : Z) : Z := to_UINT (a - b).
Definition UINT_add (a b : Z) : Z := to_UINT (a + b).
Definition UINT_mul (a b : Z) : Z := to_UINT (a * b).
Definition to_UINT64 (z : Z) : Z := (z mod UINT64_modulus)%Z.

Definition is_null (p : N) : bool := (p =? 0)%N.

(** ** The COM heap and the GPU command log *)

(** What kind of object an address holds.  A texture carries the width
    and height its descriptor reports: [UINT] both for
    [D3D11_TEXTURE2D_DESC]; [UINT64] width and [UINT] height for
    [D3D12_RESOURCE_DESC].  [KWrapped11 target tex] is the
    [ID3D11Resource] that [ID3D11On12Device::CreateWrappedResource] made
    for the D3D12 resource at [target]; [tex] is the descriptor obtained
    through [As<ID3D11Texture2D>] and [GetDesc], [None] when that cast
    fails. *)
Inductive ComKind :=
| KDevice12 (luid_low luid_high : Z)
| KQueue12
| KDevice11On12
| KDevice11 (adapter : option nat)
| KContext11
| KCompositionDevice
| KFence
| KTexture2D (Width Height : Z)
| KResource12 (Width Height : Z)
| KWrapped11 (target : N) (tex : option (Z * Z)).

Record ComObj := mkComObj {
  o_serial : N;
  o_refs : nat;
  o_kind : ComKind
}.

Record D3D11_BOX := mkBox {
  box_left : Z; box_top : Z; box_front : Z;
  box_right : Z; box_bottom : Z; box_back : Z
}.

(** The calls that submit work to a device, a context or a queue. *)
Inductive GpuOp :=
| CopyResource (dst src : N)
| CopySubresourceRegion (dst : N) (DstX DstY DstZ : Z) (src : N) (srcBox : D3D11_BOX)
| UpdateSubresource (dst : N) (dstBox : option D3D11_BOX) (srcOffset : Z) (srcRowPitch : Z)
| CreateStagingTexture2D (Width Height : Z)
| MapStaging
| UnmapStaging
| CreateWrappedResource (target : N)
| AcquireWrappedResources (res : N)
| ReleaseWrappedResources (res : N)
| Flush
| Signal (fence : N) (value : Z)
| SetEventOnCompletion (fence : N) (value : Z) (event : N)
| WaitForSingleObject (event : N).

(** A logged call: the object it was invoked on, and the call. *)
Definition GpuCall : Type := N * GpuOp.

Record World := mkWorld {
  objs : gmap N ComObj;
  next_serial : N;
  handles : gset N;
  gpu_log : list GpuCall
}.

Definition set_objs (f : gmap N ComObj → gmap N ComObj) (w : World) : World :=
  mkWorld (f (objs w)) (next_serial w) (handles w) (gpu_log w).

Definition submit (on : N) (op : GpuOp) (w : World) : World :=
  mkWorld (objs w) (next_serial w) (handles w) (gpu_log w ++ [(on, op)]).

(** [IUnknown::AddRef] and [IUnknown::Release]; the object is destroyed
    when its last reference goes. *)
Definition AddRef (p : N) (w : World) : option World :=
  o ← objs w !! p;
  Some (set_objs (insert p (mkComObj (o_serial o) (S (o_refs o)) (o_kind o))) w).

Definition Release (p : N) (w : World) : option World :=
  o ← objs w !! p;
  Some (match o_refs o with
        | S (S n) => set_objs (insert p (mkComObj (o_serial o) (S n) (o_kind o))) w
        | _ => set_objs (delete p) w
        end).

(** A creation call that succeeded with the new object at [a]; the
    creator holds its one reference. *)
Definition com_new (a : N) (k : ComKind) (w : World) : option World :=
  if is_null a then None
  else match objs w !! a with
       | Some _ => None
       | None =>
           Some (mkWorld (<[a := mkComObj (next_serial w) 1 k]> (objs w))
                         (N.succ (next_serial w)) (handles w) (gpu_log w))
       end.

(** [ComPtr<T>]: [Reset] and [ReleaseAndGetAddressOf] (which [operator&]
    calls) drop the held reference; assignment from a raw pointer does
    nothing when the pointer is the one held, and otherwise takes a
    reference on the new object before dropping the old. *)
Definition ComPtr_Reset (held : N) (w : World) : option World :=
  if is_null held then Some w else Release held w.

Definition ComPtr_assign (held new : N) (w : World) : option World :=
  if decide (held = new) then Some w
  else w1 ← (if is_null new then Some w else AddRef new w);
       ComPtr_Reset held w1.

(** [GetDesc] through a raw pointer cast to the named interface. *)
Definition GetDesc11 (p : N) (w : World) : option (Z * Z) :=
  o ← objs w !! p;
  match o_kind o with
  | KTexture2D W H => Some (W, H)
  | _ => None
  end.

Definition GetDesc12 (p : N) (w : World) : option (Z * Z) :=
  o ← objs w !! p;
  match o_kind o with
  | KResource12 W H => Some (W, H)
  | _ => None
  end.

(** [ComPtr::As<ID3D11Texture2D>] followed by [GetDesc], on the object
    itself. *)
Definition as_Texture2D (k : ComKind) : option (Z * Z) :=
  match k with
  | KTexture2D W H => Some (W, H)
  | KWrapped11 _ tex => tex
  | _ => None
  end.

(** A method call through a [ComPtr] member: undefined when it is null. *)
Definition through (member : N) : option N :=
  if is_null member then None else Some member.

(** [for (UINT y = 0; y < bound; y++) body(y)].  The counter wraps as a
    [UINT] does; [Z.to_nat bound] iterations always suffice. *)
Fixpoint for_UINT_from {A : Type} (fuel : nat) (y bound : Z) (body : Z → A → A) (a : A) : A :=
  match fuel with
  | O => a
  | S fuel' =>
      if (y <? bound)%Z
      then for_UINT_from fuel' (UINT_add y 1) bound body (body y a)
      else a
  end.

Definition for_UINT {A : Type} (bound : Z) (body : Z → A → A) (a : A) : A :=
  for_UINT_from (Z.to_nat bound) 0 bound body a.

(** An output parameter [void** out]: [None] is a null pointer, [Some v]
    a pointer to a slot that holds [v].  A function with such a parameter
    returns the slot as it leaves it. *)
Definition OutPtr : Type := option N.

Definition store (out : OutPtr) (v : N) : OutPtr :=
  match out with
  | Some _ => Some v
  | None => None
  end.

(** ** RenderAPI_D3D11 *)

Module D3D11.

Record State := mkState {
  m_device : N;
  m_context : N;
  m_compositionDevice : N
}.

Definition initial : State := mkState 0 0 0.

Definition IsInitialized (st : State) : bool := negb (is_null (m_device st)).

(** What the host engine and the system answer during device
    initialisation: [interfaces] is [None] for a null [IUnityInterfaces*],
    [Some None] when [Get<IUnityGraphicsD3D11>] is null, and otherwise
    carries the device with its immediate context; [dxgi_As] is the
    outcome of the cast to [IDXGIDevice]; [dcomp] the new composition
    device, [None] on failure. *)
Record InitEnv := mkInitEnv {
  interfaces : option (option (N * N));
  dxgi_As : bool;
  dcomp : option N
}.

(** [m_compositionDevice.GetAddressOf()] hands out the address of the
    member without releasing what it holds, so a device held before the
    call keeps its reference and is no longer reachable afterwards.  On
    failure the callee stores null. *)
Definition InitializeCompositionDevice (env : InitEnv) (st : State) (w : World)
  : option (Result * State * World) :=
  if is_null (m_device st) then Some (ErrorNotInitialized, st, w)
  else if negb (dxgi_As env) then Some (ErrorDeviceCreationFailed, st, w)
  else match dcomp env with
       | None => Some (ErrorCompositionFailed, mkState (m_device st) (m_context st) 0, w)
       | Some c =>
           w1 ← com_new c KCompositionDevice w;
           Some (Success, mkState (m_device st) (m_context st) c, w1)
       end.

Definition ReleaseResources (st : State) (w : World) : option (State * World) :=
  w1 ← ComPtr_Reset (m_compositionDevice st) w;
  w2 ← ComPtr_Reset (m_context st) w1;
  w3 ← ComPtr_Reset (m_device st) w2;
  Some (initial, w3).

Definition ProcessDeviceEvent (eventType : UnityGfxDeviceEventType) (env : InitEnv)
    (st : State) (w : World) : option (State * World) :=
  match eventType with
  | kUnityGfxDeviceEventInitialize | kUnityGfxDeviceEventAfterReset =>
      match interfaces env with
      | Some (Some (dev, ctx)) =>
          w1 ← ComPtr_assign (m_device st) dev w;
          let st1 := mkState dev (m_context st) (m_compositionDevice st) in
          if is_null dev then Some (st1, w1)
          else
            (* GetImmediateContext(&m_context) *)
            w2 ← ComPtr_Reset (m_context st1) w1;
            w3 ← AddRef ctx w2;
            let st2 := mkState dev ctx (m_compositionDevice st1) in
            '(_, st3, w4) ← InitializeCompositionDevice env st2 w3;
            Some (st3, w4)
      | _ => Some (st, w)
      end
  | kUnityGfxDeviceEventShutdown | kUnityGfxDeviceEventBeforeReset =>
      ReleaseResources st w
  | kUnityGfxDeviceEventOther => Some (st, w)
  end.

(** [hr] answers [ID3D11Device::CreateTexture2D]: [None] for a failure,
    [Some a] for a new texture at [a].  [texture.Detach()] passes the one
    reference to the caller. *)
Definition CreateSharedTexture (width height : Z) (outNativePtr : OutPtr)
    (hr : option N) (st : State) (w : World) : option (Result * OutPtr * World) :=
  if is_null (m_device st) || bool_decide (outNativePtr = None)
  then Some (ErrorNotInitialized, outNativePtr, w)
  else match hr with
       | None => Some (ErrorTextureCreationFailed, outNativePtr, w)
       | Some a =>
           w1 ← com_new a (KTexture2D width height) w;
           Some (Success, store outNativePtr a, w1)
       end.

(** [static_cast<ID3D11Texture2D*>(nativePtr)->Release()]: the pointer has
    to denote a live texture. *)
Definition DestroySharedTexture (nativePtr : N) (st : State) (w : World) : option World :=
  if is_null nativePtr then Some w
  else
    _ ← GetDesc11 nativePtr w;
    Release nativePtr w.

Definition ResizeSharedTexture (nativePtr : N) (newWidth newHeight : Z)
    (outNewNativePtr : OutPtr) (hr : option N) (st : State) (w : World)
  : option (Result * OutPtr * World) :=
  if bool_decide (outNewNativePtr = None)
  then Some (ErrorInvalidHandle, outNewNativePtr, w)
  else
    w1 ← DestroySharedTexture nativePtr st w;
    CreateSharedTexture newWidth newHeight outNewNativePtr hr st w1.

Definition BeginRenderToTexture (texturePtr : N) (st : State) (w : World) : World := w.

Definition EndRenderToTexture (texturePtr : N) (st : State) (w : World) : World :=
  if is_null (m_context st) then w else submit (m_context st) Flush w.

Definition WaitForGPU (st : State) (w : World) : World :=
  if is_null (m_context st) then w else submit (m_context st) Flush w.

Definition SignalRenderComplete (st : State) (w : World) : World := w.

(** The box of one iteration of the flipped copy. *)
Definition flip_srcBox (srcW srcH dstW : Z) (y : Z) : D3D11_BOX :=
  {| box_left := 0;
     box_right := Z.min srcW dstW;
     box_top := UINT_sub (UINT_sub srcH 1) y;
     box_bottom := UINT_sub srcH y;
     box_front := 0;
     box_back := 1 |}.

Definition CopyCapturedTextureToUnityTexture (capturedTexture unityTexturePtr : N)
    (flipY : bool) (st : State) (w : World) : option World :=
  if is_null capturedTexture || is_null unityTexturePtr || is_null (m_context st)
  then Some w
  else
    '(srcW, srcH) ← GetDesc11 capturedTexture w;
    '(dstW, dstH) ← GetDesc11 unityTexturePtr w;
    if negb (srcW =? dstW)%Z || negb (srcH =? dstH)%Z then Some w
    else if flipY then
      Some (for_UINT (Z.min srcH dstH)
              (λ y, submit (m_context st)
                      (CopySubresourceRegion unityTexturePtr 0 y 0 capturedTexture
                         (flip_srcBox srcW srcH dstW y)))
              w)
    else Some (submit (m_context st) (CopyResource unityTexturePtr capturedTexture) w).

End D3D11.

(** ** RenderAPI_D3D12 *)

Module D3D12.

(** [struct WrappedResource]; [wr_serial] is the identity of the object
    that [std::make_unique] allocated. *)
Record WrappedResource := mkWrapped {
  wr_serial : N;
  d3d12Resource : N;
  d3d11Resource : N
}.

#[global] Instance WrappedResource_eq_dec : EqDecision WrappedResource.
Proof. solve_decision. Defined.

Record State := mkState {
  m_d3d12Device : N;
  m_d3d12CommandQueue : N;
  m_d3d11Device : N;
  m_d3d11Context : N;
  m_d3d11On12Device : N;
  m_captureD3D11Device : N;
  m_captureD3D11Context : N;
  m_compositionDevice : N;
  m_fence : N;
  m_fenceEvent : N;
  m_fenceValue : Z;
  m_wrappedResources : gmap N WrappedResource
}.

Definition initial : State := mkState 0 0 0 0 0 0 0 0 0 0 0 ∅.

Definition set_d3d12 (dev queue : N) (st : State) : State :=
  mkState dev queue (m_d3d11Device st) (m_d3d11Context st) (m_d3d11On12Device st)
    (m_captureD3D11Device st) (m_captureD3D11Context st) (m_compositionDevice st)
    (m_fence st) (m_fenceEvent st) (m_fenceValue st) (m_wrappedResources st).

Definition set_d3d11 (dev ctx : N) (st : State) : State :=
  mkState (m_d3d12Device st) (m_d3d12CommandQueue st) dev ctx (m_d3d11On12Device st)
    (m_captureD3D11Device st) (m_captureD3D11Context st) (m_compositionDevice st)
    (m_fence st) (m_fenceEvent st) (m_fenceValue st) (m_wrappedResources st).

Definition set_d3d11On12 (dev : N) (st : State) : State :=
  mkState (m_d3d12Device st) (m_d3d12CommandQueue st) (m_d3d11Device st) (m_d3d11Context st) dev
    (m_captureD3D11Device st) (m_captureD3D11Context st) (m_compositionDevice st)
    (m_fence st) (m_fenceEvent st) (m_fenceValue st) (m_wrappedResources st).

Definition set_capture (dev ctx : N) (st : State) : State :=
  mkState (m_d3d12Device st) (m_d3d12CommandQueue st) (m_d3d11Device st) (m_d3d11Context st)
    (m_d3d11On12Device st) dev ctx (m_compositionDevice st)
    (m_fence st) (m_fenceEvent st) (m_fenceValue st) (m_wrappedResources st).

Definition set_compositionDevice (dev : N) (st : State) : State :=
  mkState (m_d3d12Device st) (m_d3d12CommandQueue st) (m_d3d11Device st) (m_d3d11Context st)
    (m_d3d11On12Device st) (m_captureD3D11Device st) (m_captureD3D11Context st) dev
    (m_fence st) (m_fenceEvent st) (m_fenceValue st) (m_wrappedResources st).

Definition set_fence (f : N) (st : State) : State :=
  mkState (m_d3d12Device st) (m_d3d12CommandQueue st) (m_d3d11Device st) (m_d3d11Context st)
    (m_d3d11On12Device st) (m_captureD3D11Device st) (m_captureD3D11Context st)
    (m_compositionDevice st) f (m_fenceEvent st) (m_fenceValue st) (m_wrappedResources st).

Definition set_fenceEvent (h : N) (st : State) : State :=
  mkState (m_d3d12Device st) (m_d3d12CommandQueue st) (m_d3d11Device st) (m_d3d11Context st)
    (m_d3d11On12Device st) (m_captureD3D11Device st) (m_captureD3D11Context st)
    (m_compositionDevice st) (m_fence st) h (m_fenceValue st) (m_wrappedResources st).

Definition set_fenceValue (v : Z) (st : State) : State :=
  mkState (m_d3d12Device st) (m_d3d12CommandQueue st) (m_d3d11Device st) (m_d3d11Context st)
    (m_d3d11On12Device st) (m_captureD3D11Device st) (m_captureD3D11Context st)
    (m_compositionDevice st) (m_fence st) (m_fenceEvent st) v (m_wrappedResources st).

Definition set_wrappedResources (c : gmap N WrappedResource) (st : State) : State :=
  mkState (m_d3d12Device st) (m_d3d12CommandQueue st) (m_d3d11Device st) (m_d3d11Context st)
    (m_d3d11On12Device st) (m_captureD3D11Device st) (m_captureD3D11Context st)
    (m_compositionDevice st) (m_fence st) (m_fenceEvent st) (m_fenceValue st) c.

Definition IsInitialized (st : State) : bool :=
  negb (is_null (m_d3d12Device st)) && negb (is_null (m_d3d11Device st)).

(** What the host engine and the system answer during device
    initialisation.  [interfaces]: [None] for a null [IUnityInterfaces*],
    [Some None] when [Get<IUnityGraphicsD3D12v5>] is null, otherwise the
    device and the command queue.  [on12_create]: the device and context
    of [D3D11On12CreateDevice].  [on12_As], [dxgi_As]: the casts to
    [ID3D11On12Device] and [IDXGIDevice].  [factory_ok]:
    [CreateDXGIFactory1].  [adapters]: the LUID of every adapter, in
    enumeration order.  [capture_create]: the device and context of
    [D3D11CreateDevice].  [dcomp]: [DCompositionCreateDevice].
    [fence_create]: [ID3D12Device::CreateFence].  [event_create]: the
    handle [CreateEvent] returns, null on failure. *)
Record InitEnv := mkInitEnv {
  interfaces : option (option (N * N));
  on12_create : option (N * N);
  on12_As : bool;
  factory_ok : bool;
  adapters : list (Z * Z);
  capture_create : option (N * N);
  dxgi_As : bool;
  dcomp : option N;
  fence_create : option N;
  event_create : N
}.

Definition InitializeD3D11On12 (env : InitEnv) (st : State) (w : World)
  : option (Result * State * World) :=
  if is_null (m_d3d12Device st) || is_null (m_d3d12CommandQueue st)
  then Some (ErrorNotInitialized, st, w)
  else
    (* &m_d3d11Device, &m_d3d11Context *)
    w1 ← ComPtr_Reset (m_d3d11Device st) w;
    w2 ← ComPtr_Reset (m_d3d11Context st) w1;
    match on12_create env with
    | None => Some (ErrorDeviceCreationFailed, set_d3d11 0 0 st, w2)
    | Some (dev, ctx) =>
        w3 ← com_new dev KDevice11On12 w2;
        w4 ← com_new ctx KContext11 w3;
        let st1 := set_d3d11 dev ctx st in
        (* m_d3d11Device.As(&m_d3d11On12Device) *)
        w5 ← ComPtr_Reset (m_d3d11On12Device st1) w4;
        if on12_As env
        then w6 ← AddRef dev w5; Some (Success, set_d3d11On12 dev st1, w6)
        else Some (ErrorDeviceCreationFailed, set_d3d11On12 0 st1, w5)
    end.

(** The adapter loop: the index of the first adapter whose LUID is the
    device's, [None] when the enumeration ends without one. *)
Fixpoint find_adapter (low high : Z) (l : list (Z * Z)) (i : nat) : option nat :=
  match l with
  | [] => None
  | (lo, hi) :: l' =>
      if (lo =? low)%Z && (hi =? high)%Z then Some i
      else find_adapter low high l' (S i)
  end.

Definition GetAdapterLuid (dev : N) (w : World) : option (Z * Z) :=
  o ← objs w !! dev;
  match o_kind o with
  | KDevice12 lo hi => Some (lo, hi)
  | _ => None
  end.

Definition InitializeCaptureDevice (env : InitEnv) (st : State) (w : World)
  : option (Result * State * World) :=
  if is_null (m_d3d12Device st) then Some (ErrorNotInitialized, st, w)
  else
    '(lo, hi) ← GetAdapterLuid (m_d3d12Device st) w;
    if negb (factory_ok env) then Some (ErrorDeviceCreationFailed, st, w)
    else
      let adapter := find_adapter lo hi (adapters env) 0 in
      (* &m_captureD3D11Device, &m_captureD3D11Context *)
      w1 ← ComPtr_Reset (m_captureD3D11Device st) w;
      w2 ← ComPtr_Reset (m_captureD3D11Context st) w1;
      match capture_create env with
      | None => Some (ErrorDeviceCreationFailed, set_capture 0 0 st, w2)
      | Some (dev, ctx) =>
          w3 ← com_new dev (KDevice11 adapter) w2;
          w4 ← com_new ctx KContext11 w3;
          Some (Success, set_capture dev ctx st, w4)
      end.

(** [m_compositionDevice.GetAddressOf()] does not release what the member
    holds; on failure the callee stores null. *)
Definition InitializeCompositionDevice (env : InitEnv) (st : State) (w : World)
  : option (Result * State * World) :=
  if is_null (m_d3d11Device st) then Some (ErrorNotInitialized, st, w)
  else if negb (dxgi_As env) then Some (ErrorDeviceCreationFailed, st, w)
  else match dcomp env with
       | None => Some (ErrorCompositionFailed, set_compositionDevice 0 st, w)
       | Some c =>
           w1 ← com_new c KCompositionDevice w;
           Some (Success, set_compositionDevice c st, w1)
       end.

(** [CreateEvent]: a non-null answer is a handle that was not open. *)
Definition CreateEvent (h : N) (w : World) : option World :=
  if is_null h then Some w
  else if decide (h ∈ handles w) then None
  else Some (mkWorld (objs w) (next_serial w) ({[h]} ∪ handles w) (gpu_log w)).

Definition CloseHandle (h : N) (w : World) : World :=
  mkWorld (objs w) (next_serial w) (handles w ∖ {[h]}) (gpu_log w).

Definition CreateFence (env : InitEnv) (st : State) (w : World)
  : option (Result * State * World) :=
  if is_null (m_d3d12Device st) then Some (ErrorNotInitialized, st, w)
  else
    (* IID_PPV_ARGS(&m_fence) *)
    w1 ← ComPtr_Reset (m_fence st) w;
    match fence_create env with
    | None => Some (ErrorDeviceCreationFailed, set_fence 0 st, w1)
    | Some f =>
        w2 ← com_new f KFence w1;
        let st1 := set_fence f st in
        w3 ← CreateEvent (event_create env) w2;
        let st2 := set_fenceEvent (event_create env) st1 in
        if is_null (m_fenceEvent st2)
        then Some (ErrorDeviceCreationFailed, st2, w3)
        else Some (Success, st2, w3)
    end.

(** [hr] answers [ID3D12Device::CreateCommittedResource]. *)
Definition CreateSharedTexture (width height : Z) (outNativePtr : OutPtr)
    (hr : option N) (st : State) (w : World) : option (Result * OutPtr * World) :=
  if is_null (m_d3d12Device st) || bool_decide (outNativePtr = None)
  then Some (ErrorNotInitialized, outNativePtr, w)
  else match hr with
       | None => Some (ErrorTextureCreationFailed, outNativePtr, w)
       | Some a =>
           w1 ← com_new a (KResource12 width height) w;
           Some (Success, store outNativePtr a, w1)
       end.

(** [~WrappedResource]: the members go in reverse order of declaration. *)
Definition destroy_WrappedResource (wr : WrappedResource) (w : World) : option World :=
  w1 ← ComPtr_Reset (d3d11Resource wr) w;
  ComPtr_Reset (d3d12Resource wr) w1.

(** [m_wrappedResources.erase(key)] *)
Definition erase (key : N) (st : State) (w : World) : option (State * World) :=
  match m_wrappedResources st !! key with
  | Some wr =>
      w1 ← destroy_WrappedResource wr w;
      Some (set_wrappedResources (delete key (m_wrappedResources st)) st, w1)
  | None => Some (st, w)
  end.

(** The wrapper goes first, then the caller's reference, through
    [static_cast<ID3D12Resource*>(nativePtr)], which has to denote a live
    resource at that point. *)
Definition DestroySharedTexture (nativePtr : N) (st : State) (w : World)
  : option (State * World) :=
  if is_null nativePtr then Some (st, w)
  else
    '(st1, w1) ← erase nativePtr st w;
    _ ← GetDesc12 nativePtr w1;
    w2 ← Release nativePtr w1;
    Some (st1, w2).

(** What the queue and the fence answer in [WaitForGPU]: whether [Signal]
    and [SetEventOnCompletion] succeed, and the value the fence has
    completed.  [WaitForSingleObject(…, INFINITE)] is taken to return. *)
Record WaitEnv := mkWaitEnv {
  signal_ok : bool;
  completed : Z;
  set_event_ok : bool
}.

Definition WaitForGPU (env : WaitEnv) (st : State) (w : World) : State * World :=
  if is_null (m_d3d12CommandQueue st) || is_null (m_fence st) || is_null (m_fenceEvent st)
  then (st, w)
  else
    let fenceValueToWait := to_UINT64 (m_fenceValue st + 1) in
    let st1 := set_fenceValue fenceValueToWait st in
    let w1 := submit (m_d3d12CommandQueue st) (Signal (m_fence st) fenceValueToWait) w in
    if negb (signal_ok env) then (st1, w1)
    else if (completed env <? fenceValueToWait)%Z then
      let w2 := submit (m_fence st)
                  (SetEventOnCompletion (m_fence st) fenceValueToWait (m_fenceEvent st)) w1 in
      if set_event_ok env
      then (st1, submit (m_fenceEvent st) (WaitForSingleObject (m_fenceEvent st)) w2)
      else (st1, w2)
    else (st1, w1).

Definition ResizeSharedTexture (nativePtr : N) (newWidth newHeight : Z)
    (outNewNativePtr : OutPtr) (wait : WaitEnv) (hr : option N) (st : State) (w : World)
  : option (Result * OutPtr * State * World) :=
  if bool_decide (outNewNativePtr = None)
  then Some (ErrorInvalidHandle, outNewNativePtr, st, w)
  else
    let '(st1, w1) := WaitForGPU wait st w in
    '(st2, w2) ← DestroySharedTexture nativePtr st1 w1;
    '(r, out, w3) ← CreateSharedTexture newWidth newHeight outNewNativePtr hr st2 w2;
    Some (r, out, st2, w3).

(** The first half of [GetOrCreateWrappedResource]: [inl wr] when the
    cached wrapper is returned, [inr] with the state in which the second
    half builds a wrapper.  The local [cachedTexture] holds a reference of
    its own across [erase]; it is dropped when the block is left, before
    anything else happens. *)
Definition find_cached (d3d12TexturePtr : N) (curW curH : Z) (st : State) (w : World)
  : option (WrappedResource + State * World) :=
  match m_wrappedResources st !! d3d12TexturePtr with
  | Some cached =>
      o ← objs w !! d3d11Resource cached;
      match as_Texture2D (o_kind o) with
      | Some (cachedW, cachedH) =>
          if negb (cachedW =? curW)%Z || negb (cachedH =? curH)%Z
          then inr <$> erase d3d12TexturePtr st w
          else Some (inl cached)
      | None => Some (inr (st, w))
      end
  | None => Some (inr (st, w))
  end.

(** [m_wrappedResources[key] = std::move(wrapped)]: a wrapper already
    stored under the key is destroyed when it is replaced. *)
Definition assign_wrapped (key : N) (wrapped : WrappedResource) (st : State) (w : World)
  : option (State * World) :=
  w1 ← match m_wrappedResources st !! key with
       | Some old => destroy_WrappedResource old w
       | None => Some w
       end;
  Some (set_wrappedResources (<[key := wrapped]> (m_wrappedResources st)) st, w1).

(** The second half of [GetOrCreateWrappedResource], which builds a
    wrapper.  [hr] answers [CreateWrappedResource]: [None] for a failure,
    [Some a] for a new [ID3D11Resource] at [a].  The call is handed the
    raw pointer, which has to denote a live resource.  The wrapped
    resource is a view of the same memory, so its descriptor reports the
    size the D3D12 resource has when it is wrapped, the width as a [UINT].
    The reference of the local [d3d11Resource] passes to the wrapper: the
    wrapper copies the [ComPtr] and the local is dropped on return. *)
Definition create_wrapped (d3d12TexturePtr : N) (curW curH : Z) (hr : option N)
    (st : State) (w : World) : option (option WrappedResource * State * World) :=
  if is_null (m_d3d11On12Device st) then Some (None, st, w)
  else
    _ ← GetDesc12 d3d12TexturePtr w;
    let w1 := submit (m_d3d11On12Device st) (CreateWrappedResource d3d12TexturePtr) w in
    match hr with
    | None => Some (None, st, w1)
    | Some a =>
        w2 ← com_new a (KWrapped11 d3d12TexturePtr (Some (to_UINT curW, curH))) w1;
        (* wrapped->d3d12Resource = d3d12Resource *)
        w3 ← AddRef d3d12TexturePtr w2;
        let wrapped := mkWrapped (next_serial w3) d3d12TexturePtr a in
        let w4 := mkWorld (objs w3) (N.succ (next_serial w3)) (handles w3) (gpu_log w3) in
        '(st1, w5) ← assign_wrapped d3d12TexturePtr wrapped st w4;
        Some (Some wrapped, st1, w5)
    end.

(** The result is the [WrappedResource*], [None] for [nullptr]. *)
Definition GetOrCreateWrappedResource (d3d12TexturePtr : N) (hr : option N)
    (st : State) (w : World) : option (option WrappedResource * State * World) :=
  '(curW, curH) ← GetDesc12 d3d12TexturePtr w;
  found ← find_cached d3d12TexturePtr curW curH st w;
  match found with
  | inl cached => Some (Some cached, st, w)
  | inr (st1, w1) => create_wrapped d3d12TexturePtr curW curH hr st1 w1
  end.

Definition BeginRenderToTexture (texturePtr : N) (hr : option N) (st : State) (w : World)
  : option (State * World) :=
  if is_null (m_d3d11On12Device st) || is_null texturePtr then Some (st, w)
  else
    '(wrapped, st1, w1) ← GetOrCreateWrappedResource texturePtr hr st w;
    match wrapped with
    | None => Some (st1, w1)
    | Some wr =>
        Some (st1, submit (m_d3d11On12Device st1) (AcquireWrappedResources (d3d11Resource wr)) w1)
    end.

Definition EndRenderToTexture (texturePtr : N) (st : State) (w : World) : option World :=
  if is_null (m_d3d11On12Device st) || is_null texturePtr then Some w
  else match m_wrappedResources st !! texturePtr with
       | None => Some w
       | Some wr =>
           let w1 := submit (m_d3d11On12Device st)
                       (ReleaseWrappedResources (d3d11Resource wr)) w in
           ctx ← through (m_d3d11Context st);
           Some (submit ctx Flush w1)
       end.

Definition SignalRenderComplete (st : State) (w : World) : World :=
  if is_null (m_d3d11Context st) then w else submit (m_d3d11Context st) Flush w.

(** What the system answers in the copy: [wrap_hr] for
    [CreateWrappedResource] should a wrapper be built, [staging_hr] for
    the staging texture ([None] for a failure, else its address), and
    [map_hr] for [Map] ([None] for a failure, else the row pitch of the
    mapped memory). *)
Record CopyEnv := mkCopyEnv {
  wrap_hr : option N;
  staging_hr : option N;
  map_hr : option Z
}.

(** The destination box of one iteration of the flipped update. *)
Definition flip_dstBox (minWidth : Z) (y : Z) : D3D11_BOX :=
  {| box_left := 0;
     box_right := minWidth;
     box_top := y;
     box_bottom := UINT_add y 1;
     box_front := 0;
     box_back := 1 |}.

(** [srcRow - mapped.pData], for [srcRow = pData + srcY * RowPitch] with
    the product taken in [UINT]. *)
Definition flip_srcOffset (srcH RowPitch : Z) (y : Z) : Z :=
  UINT_mul (UINT_sub (UINT_sub srcH 1) y) RowPitch.

(** The part of the copy after both size checks.  [stagingTexture] is a
    local [ComPtr]: its reference is dropped on every way out. *)
Definition copy_via_staging (capturedTexture : N) (flipY : bool) (env : CopyEnv)
    (dst : N) (srcW srcH dstW dstH : Z) (st : State) (w : World) : option World :=
  capDev ← through (m_captureD3D11Device st);
  let w1 := submit capDev (CreateStagingTexture2D srcW srcH) w in
  match staging_hr env with
  | None => Some w1
  | Some staging =>
      w2 ← com_new staging (KTexture2D srcW srcH) w1;
      capCtx ← through (m_captureD3D11Context st);
      let w3 := submit capCtx (CopyResource staging capturedTexture) w2 in
      let w4 := submit capCtx MapStaging w3 in
      match map_hr env with
      | None => Release staging w4
      | Some RowPitch =>
          on12 ← through (m_d3d11On12Device st);
          let w5 := submit on12 (AcquireWrappedResources dst) w4 in
          let minWidth := Z.min srcW dstW in
          let minHeight := Z.min srcH dstH in
          ctx ← through (m_d3d11Context st);
          let w6 :=
            if flipY then
              for_UINT minHeight
                (λ y, submit ctx (UpdateSubresource dst (Some (flip_dstBox minWidth y))
                                    (flip_srcOffset srcH RowPitch y) RowPitch))
                w5
            else submit ctx (UpdateSubresource dst None 0 RowPitch) w5 in
          let w7 := submit capCtx UnmapStaging w6 in
          let w8 := submit on12 (ReleaseWrappedResources dst) w7 in
          let w9 := submit ctx Flush w8 in
          Release staging w9
      end
  end.

Definition CopyCapturedTextureToUnityTexture (capturedTexture unityTexturePtr : N)
    (flipY : bool) (env : CopyEnv) (st : State) (w : World) : option (State * World) :=
  if is_null capturedTexture || is_null unityTexturePtr then Some (st, w)
  else
    '(srcW, srcH) ← GetDesc11 capturedTexture w;
    '(resW, resH) ← GetDesc12 unityTexturePtr w;
    let d3d12Width := to_UINT resW in
    let d3d12Height := to_UINT resH in
    if negb (srcW =? d3d12Width)%Z || negb (srcH =? d3d12Height)%Z then Some (st, w)
    else
      '(wrapped, st1, w1) ← GetOrCreateWrappedResource unityTexturePtr (wrap_hr env) st w;
      match wrapped with
      | None => Some (st1, w1)
      | Some wr =>
          o ← objs w1 !! d3d11Resource wr;
          match as_Texture2D (o_kind o) with
          | None => Some (st1, w1)
          | Some (dstW, dstH) =>
              if negb (srcW =? dstW)%Z || negb (srcH =? dstH)%Z then Some (st1, w1)
              else
                w2 ← copy_via_staging capturedTexture flipY env (d3d11Resource wr)
                       srcW srcH dstW dstH st1 w1;
                Some (st1, w2)
          end
      end.

(** [m_wrappedResources.clear()] *)
Fixpoint destroy_all (l : list WrappedResource) (w : World) : option World :=
  match l with
  | [] => Some w
  | wr :: l' => w1 ← destroy_WrappedResource wr w; destroy_all l' w1
  end.

Definition ReleaseResources (wait : WaitEnv) (st : State) (w : World)
  : option (State * World) :=
  let '(st1, w1) := WaitForGPU wait st w in
  w2 ← destroy_all (snd <$> map_to_list (m_wrappedResources st1)) w1;
  let w3 := if is_null (m_fenceEvent st1) then w2 else CloseHandle (m_fenceEvent st1) w2 in
  w4 ← ComPtr_Reset (m_fence st1) w3;
  w5 ← ComPtr_Reset (m_compositionDevice st1) w4;
  w6 ← ComPtr_Reset (m_captureD3D11Context st1) w5;
  w7 ← ComPtr_Reset (m_captureD3D11Device st1) w6;
  w8 ← ComPtr_Reset (m_d3d11On12Device st1) w7;
  w9 ← ComPtr_Reset (m_d3d11Context st1) w8;
  w10 ← ComPtr_Reset (m_d3d11Device st1) w9;
  w11 ← ComPtr_Reset (m_d3d12CommandQueue st1) w10;
  w12 ← ComPtr_Reset (m_d3d12Device st1) w11;
  Some (mkState 0 0 0 0 0 0 0 0 0 0 (m_fenceValue st1) ∅, w12).

Definition initialize (env : InitEnv) (st : State) (w : World) : option (State * World) :=
  match interfaces env with
  | Some (Some (dev, queue)) =>
      w1 ← ComPtr_assign (m_d3d12Device st) dev w;
      w2 ← ComPtr_assign (m_d3d12CommandQueue st) queue w1;
      let st1 := set_d3d12 dev queue st in
      if is_null dev || is_null queue then Some (st1, w2)
      else
        '(result, st2, w3) ← InitializeD3D11On12 env st1 w2;
        if negb (bool_decide (result = Success)) then Some (st2, w3)
        else
          '(result, st3, w4) ← InitializeCaptureDevice env st2 w3;
          if negb (bool_decide (result = Success)) then Some (st3, w4)
          else
            '(result, st4, w5) ← InitializeCompositionDevice env st3 w4;
            if negb (bool_decide (result = Success)) then Some (st4, w5)
            else
              '(result, st5, w6) ← CreateFence env st4 w5;
              Some (st5, w6)
  | _ => Some (st, w)
  end.

Definition ProcessDeviceEvent (eventType : UnityGfxDeviceEventType) (env : InitEnv)
    (wait : WaitEnv) (st : State) (w : World) : option (State * World) :=
  match eventType with
  | kUnityGfxDeviceEventInitialize | kUnityGfxDeviceEventAfterReset => initialize env st w
  | kUnityGfxDeviceEventShutdown | kUnityGfxDeviceEventBeforeReset => ReleaseResources wait st w
  | kUnityGfxDeviceEventOther => Some (st, w)
  end.

End D3D12.

(** ** RenderAPI.h and RenderAPI.cpp: the interface and its factory *)

Module RenderAPI.

(** [enum class GraphicsAPI : int32_t].  The C API casts any [int32_t]
    to the type, so a value of it is an integer. *)
Definition GraphicsAPI_Unknown : Z := 0.
Definition GraphicsAPI_Direct3D11 : Z := 2.
Definition GraphicsAPI_Direct3D12 : Z := 18.

(** The object behind an [IRenderAPI*]: one of the two implementations,
    with its members. *)
Inductive IRenderAPI :=
| RenderAPI_D3D11 (st : D3D11.State)
| RenderAPI_D3D12 (st : D3D12.State).

(** [CreateRenderAPI]; the D3D12 case exists when the plugin is built
    with [WEBVIEW_TOOLKIT_DX12_SUPPORT].  [None] is the null pointer. *)
Definition CreateRenderAPI (WEBVIEW_TOOLKIT_DX12_SUPPORT : bool) (api : Z)
  : option IRenderAPI :=
  if (api =? GraphicsAPI_Direct3D11)%Z then Some (RenderAPI_D3D11 D3D11.initial)
  else if WEBVIEW_TOOLKIT_DX12_SUPPORT && (api =? GraphicsAPI_Direct3D12)%Z
       then Some (RenderAPI_D3D12 D3D12.initial)
       else None.

Definition IsInitialized (api : IRenderAPI) : bool :=
  match api with
  | RenderAPI_D3D11 st => D3D11.IsInitialized st
  | RenderAPI_D3D12 st => D3D12.IsInitialized st
  end.

Definition GetAPIType (api : IRenderAPI) : Z :=
  match api with
  | RenderAPI_D3D11 _ => GraphicsAPI_Direct3D11
  | RenderAPI_D3D12 _ => GraphicsAPI_Direct3D12
  end.

Definition GetCompositionDevice (api : IRenderAPI) : N :=
  match api with
  | RenderAPI_D3D11 st => D3D11.m_compositionDevice st
  | RenderAPI_D3D12 st => D3D12.m_compositionDevice st
  end.

Definition GetD3D11Device (api : IRenderAPI) : N :=
  match api with
  | RenderAPI_D3D11 st => D3D11.m_device st
  | RenderAPI_D3D12 st => D3D12.m_d3d11Device st
  end.

(** The interface's default is [GetD3D11Device()]; the D3D12
    implementation overrides it. *)
Definition GetCaptureD3D11Device (api : IRenderAPI) : N :=
  match api with
  | RenderAPI_D3D11 _ => GetD3D11Device api
  | RenderAPI_D3D12 st => D3D12.m_captureD3D11Device st
  end.

(** The virtual calls.  Each takes the answers of the system for both
    implementations and uses those of the one it dispatches to. *)
Definition ProcessDeviceEvent (eventType : UnityGfxDeviceEventType)
    (env11 : D3D11.InitEnv) (env12 : D3D12.InitEnv) (wait : D3D12.WaitEnv)
    (api : IRenderAPI) (w : World) : option (IRenderAPI * World) :=
  match api with
  | RenderAPI_D3D11 st =>
      '(st', w') ← D3D11.ProcessDeviceEvent eventType env11 st w;
      Some (RenderAPI_D3D11 st', w')
  | RenderAPI_D3D12 st =>
      '(st', w') ← D3D12.ProcessDeviceEvent eventType env12 wait st w;
      Some (RenderAPI_D3D12 st', w')
  end.

Definition CreateSharedTexture (width height : Z) (outNativePtr : OutPtr) (hr : option N)
    (api : IRenderAPI) (w : World) : option (Result * OutPtr * World) :=
  match api with
  | RenderAPI_D3D11 st => D3D11.CreateSharedTexture width height outNativePtr hr st w
  | RenderAPI_D3D12 st => D3D12.CreateSharedTexture width height outNativePtr hr st w
  end.

Definition DestroySharedTexture (nativePtr : N) (api : IRenderAPI) (w : World)
  : option (IRenderAPI * World) :=
  match api with
  | RenderAPI_D3D11 st =>
      w' ← D3D11.DestroySharedTexture nativePtr st w;
      Some (RenderAPI_D3D11 st, w')
  | RenderAPI_D3D12 st =>
      '(st', w') ← D3D12.DestroySharedTexture nativePtr st w;
      Some (RenderAPI_D3D12 st', w')
  end.

Definition ResizeSharedTexture (nativePtr : N) (newWidth newHeight : Z)
    (outNewNativePtr : OutPtr) (wait : D3D12.WaitEnv) (hr : option N)
    (api : IRenderAPI) (w : World) : option (Result * OutPtr * IRenderAPI * World) :=
  match api with
  | RenderAPI_D3D11 st =>
      '(r, out, w') ← D3D11.ResizeSharedTexture nativePtr newWidth newHeight
                         outNewNativePtr hr st w;
      Some (r, out, RenderAPI_D3D11 st, w')
  | RenderAPI_D3D12 st =>
      '(r, out, st', w') ← D3D12.ResizeSharedTexture nativePtr newWidth newHeight
                              outNewNativePtr wait hr st w;
      Some (r, out, RenderAPI_D3D12 st', w')
  end.

Definition CopyCapturedTextureToUnityTexture (capturedTexture unityTexturePtr : N)
    (flipY : bool) (env : D3D12.CopyEnv) (api : IRenderAPI) (w : World)
  : option (IRenderAPI * World) :=
  match api with
  | RenderAPI_D3D11 st =>
      w' ← D3D11.CopyCapturedTextureToUnityTexture capturedTexture unityTexturePtr flipY st w;
      Some (RenderAPI_D3D11 st, w')
  | RenderAPI_D3D12 st =>
      '(st', w') ← D3D12.CopyCapturedTextureToUnityTexture capturedTexture unityTexturePtr
                      flipY env st w;
      Some (RenderAPI_D3D12 st', w')
  end.

(** The destructors: [ReleaseResources()], then the members go, all of
    them null by then. *)
Definition destroy (wait : D3D12.WaitEnv) (api : IRenderAPI) (w : World) : option World :=
  match api with
  | RenderAPI_D3D11 st => snd <$> D3D11.ReleaseResources st w
  | RenderAPI_D3D12 st => snd <$> D3D12.ReleaseResources wait st w
  end.

End RenderAPI.

(** ** WebViewCapture *)

Module Capture.

(** How a block of statements is left other than by running off its end. *)
Inductive Exit := Returned | Thrown.

(** Statements over a state [S]: the value, or the way the block was
    left, with the state at that point. *)
Definition M (S A : Type) : Type := S → (A + Exit) * S.

#[global] Instance M_ret {S} : MRet (M S) := λ A a s, (inl a, s).
#[global] Instance M_bind {S} : MBind (M S) := λ A B k m s,
  match m s with
  | (inl a, s') => k a s'
  | (inr e, s') => (inr e, s')
  end.

Definition modify {S} (f : S → S) : M S unit := λ s, (inl (), f s).
Definition return_ {S A} : M S A := λ s, (inr Returned, s).
Definition throw {S A} : M S A := λ s, (inr Thrown, s).

(** A call that throws ([winrt::check_hresult], [as<T>], a projected
    method) unless the system answers [ok]. *)
Definition checked {S} (ok : bool) : M S unit := if ok then mret () else throw.

(** [try { body } catch (...) { }] in a [void] function: whichever way the
    body is left, the function returns. *)
Definition try_catch_all {S} (body : M S unit) : S → S := λ s, snd (body s).

(** A capture session object and whether [StartCapture] succeeded on it. *)
Record Session := mkSession { started : bool }.

(** The frame pool: its size and number of buffers. *)
Record FramePool := mkFramePool { fp_Width : Z; fp_Height : Z; fp_buffers : Z }.

(** The members of [WebViewCapture] besides the two weak references; a
    visual, compositor or device member is [true] when it is non-null. *)
Record State := mkState {
  m_compositor : bool;
  m_rootVisual : bool;
  m_webViewVisual : bool;
  m_windowTarget : bool;
  m_captureItem : option (Z * Z);
  m_framePool : option FramePool;
  m_session : option Session;
  m_d3dDevice : bool
}.

(** The state the constructor leaves. *)
Definition constructed : State := mkState false false false false None None None false.

Definition set_compositor (st : State) : State :=
  mkState true (m_rootVisual st) (m_webViewVisual st) (m_windowTarget st)
    (m_captureItem st) (m_framePool st) (m_session st) (m_d3dDevice st).
Definition set_rootVisual (st : State) : State :=
  mkState (m_compositor st) true (m_webViewVisual st) (m_windowTarget st)
    (m_captureItem st) (m_framePool st) (m_session st) (m_d3dDevice st).
Definition set_webViewVisual (st : State) : State :=
  mkState (m_compositor st) (m_rootVisual st) true (m_windowTarget st)
    (m_captureItem st) (m_framePool st) (m_session st) (m_d3dDevice st).
Definition set_windowTarget (st : State) : State :=
  mkState (m_compositor st) (m_rootVisual st) (m_webViewVisual st) true
    (m_captureItem st) (m_framePool st) (m_session st) (m_d3dDevice st).
Definition set_d3dDevice (st : State) : State :=
  mkState (m_compositor st) (m_rootVisual st) (m_webViewVisual st) (m_windowTarget st)
    (m_captureItem st) (m_framePool st) (m_session st) true.
Definition set_capture (item : Z * Z) (pool : FramePool) (session : Session) (st : State) : State :=
  mkState (m_compositor st) (m_rootVisual st) (m_webViewVisual st) (m_windowTarget st)
    (Some item) (Some pool) (Some session) (m_d3dDevice st).
Definition set_session (session : Session) (st : State) : State :=
  mkState (m_compositor st) (m_rootVisual st) (m_webViewVisual st) (m_windowTarget st)
    (m_captureItem st) (m_framePool st) (Some session) (m_d3dDevice st).

(** What [m_webView] answers. *)
Record WebView := mkWebView {
  IsReady : bool;
  GetEnvironment : N;
  GetCompositionController : N;
  GetHostWindow : N;
  GetWidth : Z;
  GetHeight : Z
}.

(** What the system answers to the calls of [Initialize], in the order
    they are made.  A field named after a throwing call is [false] when
    the call throws; one named after a call that returns an HRESULT is
    [false] when the HRESULT is a failure. [item_Size] is the size the
    capture item reports, [None] when the call throws. *)
Record Env := mkEnv {
  (* InitializeVisualTree *)
  new_Compositor : bool;
  compositor_interop : bool;
  CreateDesktopWindowTarget : bool;
  windowTarget_as : bool;
  CreateContainerVisual_root : bool;
  root_as_IVisual : bool;
  windowTarget_Root : bool;
  CreateContainerVisual_child : bool;
  child_as_IVisual : bool;
  child_as_IVisual2 : bool;
  get_Children : bool;
  InsertAtTop : bool;
  put_RootVisualTarget : bool;
  (* InitializeGraphicsCapture *)
  GetCaptureD3D11Device : N;
  QueryInterface_IDXGIDevice : bool;
  CreateDirect3D11DeviceFromDXGIDevice : bool;
  inspectable_as_IDirect3DDevice : bool;
  IsWindow : bool;
  get_activation_factory : bool;
  CreateForWindow : bool;
  item_Size : option (Z * Z);
  FramePool_Create : bool;
  CreateCaptureSession : bool;
  StartCapture : bool
}.

Definition InitializeVisualTree (v : WebView) (env : Env) : State → State :=
  try_catch_all (
    if is_null (GetEnvironment v) || is_null (GetCompositionController v)
       || is_null (GetHostWindow v)
    then return_
    else
      checked (new_Compositor env);;
      modify set_compositor;;
      checked (compositor_interop env);;
      checked (CreateDesktopWindowTarget env);;
      checked (windowTarget_as env);;
      modify set_windowTarget;;
      checked (CreateContainerVisual_root env);;
      checked (root_as_IVisual env);;
      modify set_rootVisual;;
      checked (windowTarget_Root env);;
      checked (CreateContainerVisual_child env);;
      checked (child_as_IVisual env);;
      checked (child_as_IVisual2 env);;
      modify set_webViewVisual;;
      checked (get_Children env);;
      checked (InsertAtTop env);;
      checked (put_RootVisualTarget env)).

(** [static_cast<int32_t>] of a [uint32_t]. *)
Definition to_int32 (z : Z) : Z :=
  let m := (z mod 2 ^ 32)%Z in if (m <? 2 ^ 31)%Z then m else (m - 2 ^ 32)%Z.

Definition InitializeGraphicsCapture (v : WebView) (env : Env) : State → State :=
  try_catch_all (
    if is_null (GetCaptureD3D11Device env) then return_
    else if negb (QueryInterface_IDXGIDevice env) then return_
    else if negb (CreateDirect3D11DeviceFromDXGIDevice env) then return_
    else
      checked (inspectable_as_IDirect3DDevice env);;
      modify set_d3dDevice;;
      if is_null (GetHostWindow v) || negb (IsWindow env) then return_
      else
        checked (get_activation_factory env);;
        if negb (CreateForWindow env) then return_
        else
          match item_Size env with
          | None => throw
          | Some (itemW, itemH) =>
              let Width := if (itemW <=? 0)%Z then to_int32 (GetWidth v) else itemW in
              let Height := if (itemH <=? 0)%Z then to_int32 (GetHeight v) else itemH in
              checked (FramePool_Create env);;
              checked (CreateCaptureSession env);;
              modify (set_capture (itemW, itemH) (mkFramePool Width Height 2) (mkSession false));;
              checked (StartCapture env);;
              modify (set_session (mkSession true))
          end).

(** [m_webView] is [None] for a null pointer.  The result pairs what
    [Initialize] returns with whether an exception leaves it. *)
Definition Initialize_body (v : WebView) (env : Env) : M State Result :=
  modify (InitializeVisualTree v env);;
  modify (InitializeGraphicsCapture v env);;
  mret Success.

Definition Initialize (m_webView : option WebView) (env : Env) (st : State)
  : (Result + Exit) * State :=
  match m_webView with
  | None => (inl ErrorNotInitialized, st)
  | Some v =>
      if negb (IsReady v) then (inl ErrorNotInitialized, st)
      else
        (* try { ... return Success; } catch (...) { return ErrorUnknown; } *)
        match Initialize_body v env st with
        | (inl r, st') => (inl r, st')
        | (inr _, st') => (inl ErrorUnknown, st')
        end
  end.

(** *** The rest of the session: [Shutdown], [Resize], [UpdateTexture]

    The session reaches the render API through the weak pointer
    [m_renderAPI]; the calls take the object it denotes. *)

Definition get {S} : M S S := λ s, (inl s, s).

Definition clear_session (st : State) : State :=
  mkState (m_compositor st) (m_rootVisual st) (m_webViewVisual st) (m_windowTarget st)
    (m_captureItem st) (m_framePool st) None (m_d3dDevice st).
Definition clear_framePool (st : State) : State :=
  mkState (m_compositor st) (m_rootVisual st) (m_webViewVisual st) (m_windowTarget st)
    (m_captureItem st) None (m_session st) (m_d3dDevice st).
Definition clear_captureItem (st : State) : State :=
  mkState (m_compositor st) (m_rootVisual st) (m_webViewVisual st) (m_windowTarget st)
    None (m_framePool st) (m_session st) (m_d3dDevice st).
Definition clear_webViewVisual (st : State) : State :=
  mkState (m_compositor st) (m_rootVisual st) false (m_windowTarget st)
    (m_captureItem st) (m_framePool st) (m_session st) (m_d3dDevice st).
Definition clear_rootVisual (st : State) : State :=
  mkState (m_compositor st) false (m_webViewVisual st) (m_windowTarget st)
    (m_captureItem st) (m_framePool st) (m_session st) (m_d3dDevice st).
Definition clear_windowTarget (st : State) : State :=
  mkState (m_compositor st) (m_rootVisual st) (m_webViewVisual st) false
    (m_captureItem st) (m_framePool st) (m_session st) (m_d3dDevice st).
Definition clear_compositor (st : State) : State :=
  mkState false (m_rootVisual st) (m_webViewVisual st) (m_windowTarget st)
    (m_captureItem st) (m_framePool st) (m_session st) (m_d3dDevice st).
Definition clear_d3dDevice (st : State) : State :=
  mkState (m_compositor st) (m_rootVisual st) (m_webViewVisual st) (m_windowTarget st)
    (m_captureItem st) (m_framePool st) (m_session st) false.
Definition set_framePool (pool : FramePool) (st : State) : State :=
  mkState (m_compositor st) (m_rootVisual st) (m_webViewVisual st) (m_windowTarget st)
    (m_captureItem st) (Some pool) (m_session st) (m_d3dDevice st).

(** What the system answers in [Shutdown]: whether [Close] on the
    session and on the frame pool returns; [false] when it throws. *)
Record ShutdownEnv := mkShutdownEnv {
  session_Close : bool;
  framePool_Close : bool
}.

(** [Shutdown]: one [try] block around the whole release sequence, so
    that a [Close] that throws leaves every later member as it is. *)
Definition Shutdown (env : ShutdownEnv) : State → State :=
  try_catch_all (
    st ← get;
    (if bool_decide (m_session st = None) then mret ()
     else checked (session_Close env);; modify clear_session);;
    st ← get;
    (if bool_decide (m_framePool st = None) then mret ()
     else checked (framePool_Close env);; modify clear_framePool);;
    st ← get;
    (if bool_decide (m_captureItem st = None) then mret () else modify clear_captureItem);;
    st ← get;
    (if m_webViewVisual st then modify clear_webViewVisual else mret ());;
    st ← get;
    (if m_rootVisual st then modify clear_rootVisual else mret ());;
    st ← get;
    (if m_windowTarget st then modify clear_windowTarget else mret ());;
    st ← get;
    (if m_compositor st then modify clear_compositor else mret ());;
    st ← get;
    (if m_d3dDevice st then modify clear_d3dDevice else mret ())).

(** What the system answers in [Resize], in the order of the calls:
    [put_Size] returns an HRESULT, the others throw when [false]. *)
Record ResizeEnv := mkResizeEnv {
  resize_put_Size : bool;
  resize_session_Close : bool;
  resize_framePool_Close : bool;
  resize_device_as_IDirect3DDevice : bool;
  resize_FramePool_Create : bool;
  resize_CreateCaptureSession : bool;
  resize_StartCapture : bool
}.

Definition Resize_body (width height : Z) (env : ResizeEnv) : M State Result :=
  st ← get;
  if m_rootVisual st && negb (resize_put_Size env) then mret ErrorUnknown
  else
    (if negb (bool_decide (m_framePool st = None))
        && negb (bool_decide (m_captureItem st = None)) && m_d3dDevice st
     then
       (if bool_decide (m_session st = None) then mret ()
        else checked (resize_session_Close env);; modify clear_session);;
       checked (resize_framePool_Close env);;
       modify clear_framePool;;
       checked (resize_device_as_IDirect3DDevice env);;
       checked (resize_FramePool_Create env);;
       modify (set_framePool (mkFramePool (to_int32 width) (to_int32 height) 2));;
       checked (resize_CreateCaptureSession env);;
       modify (set_session (mkSession false));;
       checked (resize_StartCapture env);;
       modify (set_session (mkSession true))
     else mret ());;
    mret Success.

(** [Resize]: every handler of the [try] block returns [ErrorUnknown]. *)
Definition Resize (width height : Z) (env : ResizeEnv) (st : State) : Result * State :=
  match Resize_body width height env st with
  | (inl r, st') => (r, st')
  | (inr _, st') => (ErrorUnknown, st')
  end.

(** What the frame pool and the frame answer in [UpdateTexture].  A
    projected call that throws ends the function in one of its handlers;
    [GetInterface] leaves a null pointer when it fails. *)
Inductive Frame :=
| TryGetNextFrame_throws
| no_frame
| Surface_throws
| no_surface (Close_ok : bool)
| surface_as_throws
| surface_texture (capturedTexture : N) (Close_ok : bool).

(** [UpdateTexture].  [m_renderAPI] is the object the weak pointer
    denotes, [None] for a null pointer; [GetInterface] takes a reference
    on the frame's texture, which is given back after the copy. *)
Definition UpdateTexture (unityTexturePtr : N) (frame : Frame) (env : D3D12.CopyEnv)
    (st : State) (m_renderAPI : option RenderAPI.IRenderAPI) (w : World)
  : option (option RenderAPI.IRenderAPI * World) :=
  if bool_decide (m_framePool st = None) || is_null unityTexturePtr then Some (m_renderAPI, w)
  else match frame with
       | surface_texture capturedTexture _ =>
           if is_null capturedTexture then Some (m_renderAPI, w)
           else
             w1 ← AddRef capturedTexture w;
             api ← m_renderAPI;
             '(api', w2) ← RenderAPI.CopyCapturedTextureToUnityTexture
                             capturedTexture unityTexturePtr true env api w1;
             w3 ← Release capturedTexture w2;
             Some (Some api', w3)
       | _ => Some (m_renderAPI, w)
       end.

(** The answers of [Initialize] when the capture device is the one
    [m_renderAPI->GetCaptureD3D11Device()] returns. *)
Definition with_GetCaptureD3D11Device (device : N) (env : Env) : Env :=
  mkEnv (new_Compositor env) (compositor_interop env) (CreateDesktopWindowTarget env)
    (windowTarget_as env) (CreateContainerVisual_root env) (root_as_IVisual env)
    (windowTarget_Root env) (CreateContainerVisual_child env) (child_as_IVisual env)
    (child_as_IVisual2 env) (get_Children env) (InsertAtTop env) (put_RootVisualTarget env)
    device
    (QueryInterface_IDXGIDevice env) (CreateDirect3D11DeviceFromDXGIDevice env)
    (inspectable_as_IDirect3DDevice env) (IsWindow env) (get_activation_factory env)
    (CreateForWindow env) (item_Size env) (FramePool_Create env) (CreateCaptureSession env)
    (StartCapture env).

End Capture.

(** ** WebView.h and WebView.cpp

    The WebView2 objects and the host window are outside the modelled
    heap: a member that points to one is an address, and the calls made
    on them leave no trace in the model. *)

Module WebView.

Inductive WebViewState :=
| Uninitialized
| CreatingEnvironment
| CreatingController
| Ready
| Error
| Destroyed.

#[global] Instance WebViewState_eq_dec : EqDecision WebViewState.
Proof. solve_decision. Defined.

(** The members; [m_manager] is [true] for a non-null pointer, and
    [m_capture] is [None] for an empty [unique_ptr].  The strings
    ([m_userDataFolder], [m_pendingUrl]) and [m_devToolsEnabled] only
    reach WebView2 and are left out. *)
Record State := mkState {
  m_handle : Z;
  m_manager : bool;
  m_width : Z;
  m_height : Z;
  m_state : WebViewState;
  m_environment : N;
  m_compositionController : N;
  m_controller : N;
  m_webView : N;
  m_hostWindow : N;
  m_capture : option Capture.State;
  m_texturePtr : N
}.

Definition set_size (width height : Z) (st : State) : State :=
  mkState (m_handle st) (m_manager st) width height (m_state st) (m_environment st)
    (m_compositionController st) (m_controller st) (m_webView st) (m_hostWindow st)
    (m_capture st) (m_texturePtr st).
Definition set_state (s : WebViewState) (st : State) : State :=
  mkState (m_handle st) (m_manager st) (m_width st) (m_height st) s (m_environment st)
    (m_compositionController st) (m_controller st) (m_webView st) (m_hostWindow st)
    (m_capture st) (m_texturePtr st).
Definition set_environment (p : N) (st : State) : State :=
  mkState (m_handle st) (m_manager st) (m_width st) (m_height st) (m_state st) p
    (m_compositionController st) (m_controller st) (m_webView st) (m_hostWindow st)
    (m_capture st) (m_texturePtr st).
Definition set_compositionController (p : N) (st : State) : State :=
  mkState (m_handle st) (m_manager st) (m_width st) (m_height st) (m_state st)
    (m_environment st) p (m_controller st) (m_webView st) (m_hostWindow st)
    (m_capture st) (m_texturePtr st).
Definition set_controller (p : N) (st : State) : State :=
  mkState (m_handle st) (m_manager st) (m_width st) (m_height st) (m_state st)
    (m_environment st) (m_compositionController st) p (m_webView st) (m_hostWindow st)
    (m_capture st) (m_texturePtr st).
Definition set_webView (p : N) (st : State) : State :=
  mkState (m_handle st) (m_manager st) (m_width st) (m_height st) (m_state st)
    (m_environment st) (m_compositionController st) (m_controller st) p (m_hostWindow st)
    (m_capture st) (m_texturePtr st).
Definition set_hostWindow (p : N) (st : State) : State :=
  mkState (m_handle st) (m_manager st) (m_width st) (m_height st) (m_state st)
    (m_environment st) (m_compositionController st) (m_controller st) (m_webView st) p
    (m_capture st) (m_texturePtr st).
Definition set_capture (c : option Capture.State) (st : State) : State :=
  mkState (m_handle st) (m_manager st) (m_width st) (m_height st) (m_state st)
    (m_environment st) (m_compositionController st) (m_controller st) (m_webView st)
    (m_hostWindow st) c (m_texturePtr st).
Definition set_texturePtr (p : N) (st : State) : State :=
  mkState (m_handle st) (m_manager st) (m_width st) (m_height st) (m_state st)
    (m_environment st) (m_compositionController st) (m_controller st) (m_webView st)
    (m_hostWindow st) (m_capture st) p.

(** The constructor. *)
Definition constructed (handle : Z) (width height : Z) (manager : bool) : State :=
  mkState handle manager width height Uninitialized 0 0 0 0 0 None 0.

Definition IsReady (st : State) : bool := bool_decide (m_state st = Ready).
Definition GetTexturePtr (st : State) : N := m_texturePtr st.

(** What [WebViewCapture] reads of its web view. *)
Definition as_seen_by_capture (st : State) : Capture.WebView :=
  Capture.mkWebView (IsReady st) (m_environment st) (m_compositionController st)
    (m_hostWindow st) (m_width st) (m_height st).

(** [m_manager ? m_manager->GetRenderAPI() : nullptr], given the object
    the manager's pointer denotes. *)
Definition GetRenderAPI (st : State) (api : option RenderAPI.IRenderAPI)
  : option RenderAPI.IRenderAPI :=
  if m_manager st then api else None.

(** [Shutdown].  The capture session is shut down and deleted, whatever
    its own [Shutdown] leaves; the texture is destroyed through the
    render API when there is one, and the pointer cleared either way. *)
Definition Shutdown (api : option RenderAPI.IRenderAPI) (st : State) (w : World)
  : option (State * option RenderAPI.IRenderAPI * World) :=
  if bool_decide (m_state st = Destroyed) then Some (st, api, w)
  else
    let st1 := set_state Destroyed st in
    let st2 := set_capture None st1 in
    '(st3, api3, w3) ←
      (if negb (is_null (m_texturePtr st2)) && m_manager st2 then
         match api with
         | Some a =>
             '(a', w') ← RenderAPI.DestroySharedTexture (m_texturePtr st2) a w;
             Some (set_texturePtr 0 st2, Some a', w')
         | None => Some (set_texturePtr 0 st2, None, w)
         end
       else Some (st2, api, w));
    let st4 := set_controller 0 st3 in
    let st5 := set_hostWindow 0 st4 in
    Some (set_environment 0 (set_webView 0 (set_compositionController 0 st5)), api3, w3).

(** What the system answers in [Initialize]: whether [RegisterClassExW]
    succeeds or reports that the class exists, the window of
    [CreateWindowExW] (null on failure), the answer to the texture
    allocation, and whether the creation of the WebView2 environment
    could be started. *)
Record InitAnswers := mkInitAnswers {
  RegisterClassExW_ok : bool;
  CreateWindowExW : N;
  texture_hr : option N;
  CreateEnvironment_ok : bool
}.

(** [CreateHostWindow], with the static [g_windowClassRegistered]. *)
Definition CreateHostWindow (ans : InitAnswers) (g_windowClassRegistered : bool) : bool * N :=
  if g_windowClassRegistered then (true, CreateWindowExW ans)
  else if RegisterClassExW_ok ans then (true, CreateWindowExW ans)
       else (false, 0%N).

Definition Initialize (ans : InitAnswers) (g_windowClassRegistered : bool)
    (api : option RenderAPI.IRenderAPI) (st : State) (w : World)
  : option (Result * State * bool * World) :=
  let '(registered, hwnd) := CreateHostWindow ans g_windowClassRegistered in
  let st1 := set_hostWindow hwnd st in
  if is_null hwnd then Some (ErrorUnknown, st1, registered, w)
  else match GetRenderAPI st1 api with
       | None => Some (ErrorNotInitialized, st1, registered, w)
       | Some renderAPI =>
           '(result, out, w1) ← RenderAPI.CreateSharedTexture (m_width st1) (m_height st1)
                                   (Some (m_texturePtr st1)) (texture_hr ans) renderAPI w;
           let st2 := set_texturePtr (default 0%N out) st1 in
           if negb (bool_decide (result = Success)) then Some (result, st2, registered, w1)
           else
             (* InitializeWebViewEnvironment *)
             let st3 := set_state CreatingEnvironment st2 in
             Some (if CreateEnvironment_ok ans then Success else ErrorWebViewCreationFailed,
                   st3, registered, w1)
       end.

(** The completion handler of the environment, and
    [InitializeCompositionController], which it calls: [env3_ok] is the
    cast to [ICoreWebView2Environment3]. *)
Definition OnEnvironmentCreated (result_ok : bool) (environmentPtr : N) (env3_ok : bool)
    (st : State) : State :=
  if negb result_ok || is_null environmentPtr then set_state Error st
  else
    let st1 := set_environment environmentPtr st in
    let st2 := set_state CreatingController st1 in
    if negb env3_ok then set_state Error st2 else st2.

(** What the system answers in the completion handler of the
    controller: the controller and the [CoreWebView2] ([None] when the
    call fails), and the answers to the initialisation of the capture
    session. *)
Record ControllerAnswers := mkControllerAnswers {
  QueryInterface_Controller : option N;
  get_CoreWebView2 : option N;
  capture_answers : Capture.Env
}.

(** The completion handler of the controller.  It calls [AddRef]
    through the controller and the [CoreWebView2] it is answered, which
    are not null when the call that answers them succeeds; it
    dereferences [m_manager], and the capture session it creates
    dereferences the render API it is given. *)
Definition OnCompositionControllerCreated (result_ok : bool) (controllerPtr : N)
    (ans : ControllerAnswers) (api : option RenderAPI.IRenderAPI) (st : State)
  : option State :=
  if negb result_ok || is_null controllerPtr then Some (set_state Error st)
  else
    let st1 := set_compositionController controllerPtr st in
    match QueryInterface_Controller ans with
    | None => Some (set_state Error st1)
    | Some controller =>
        if is_null controller then None
        else
          let st2 := set_controller controller st1 in
          match get_CoreWebView2 ans with
          | None => Some (set_state Error st2)
          | Some webView =>
              if is_null webView then None
              else
                let st3 := set_state Ready (set_webView webView st2) in
                if m_manager st3 then
                  renderAPI ← api;
                  let env := Capture.with_GetCaptureD3D11Device
                               (RenderAPI.GetCaptureD3D11Device renderAPI)
                               (capture_answers ans) in
                  let capture := snd (Capture.Initialize (Some (as_seen_by_capture st3)) env
                                        Capture.constructed) in
                  Some (set_capture (Some capture) st3)
                else None
          end
    end.

(** The calls that need the [CoreWebView2]; [hr_ok] answers the call. *)
Definition Navigate (hr_ok : bool) (st : State) : Result :=
  if is_null (m_webView st) then ErrorNotInitialized
  else if hr_ok then Success else ErrorNavigationFailed.

Definition NavigateToString (hr_ok : bool) (st : State) : Result :=
  if is_null (m_webView st) then ErrorNotInitialized
  else if hr_ok then Success else ErrorNavigationFailed.

Definition ExecuteScript (hr_ok : bool) (st : State) : Result :=
  if is_null (m_webView st) then ErrorNotInitialized
  else if hr_ok then Success else ErrorUnknown.

Definition GoBack (hr_ok : bool) (st : State) : Result :=
  if is_null (m_webView st) then ErrorNotInitialized
  else if hr_ok then Success else ErrorUnknown.

Definition GoForward (hr_ok : bool) (st : State) : Result :=
  if is_null (m_webView st) then ErrorNotInitialized
  else if hr_ok then Success else ErrorUnknown.

Definition CanGoBack (value : bool) (st : State) : bool :=
  if is_null (m_webView st) then false else value.

Definition CanGoForward (value : bool) (st : State) : bool :=
  if is_null (m_webView st) then false else value.

(** What the system answers in [Resize]. *)
Record ResizeAnswers := mkResizeAnswers {
  resize_wait : D3D12.WaitEnv;
  resize_texture_hr : option N;
  resize_capture : Capture.ResizeEnv
}.

(** [Resize].  The new texture pointer is stored when
    [ResizeSharedTexture] succeeds; the result of the capture session's
    [Resize] is dropped. *)
Definition Resize (width height : Z) (ans : ResizeAnswers)
    (api : option RenderAPI.IRenderAPI) (st : State) (w : World)
  : option (Result * State * option RenderAPI.IRenderAPI * World) :=
  if is_null (m_controller st) then Some (ErrorNotInitialized, st, api, w)
  else
    let st1 := set_size width height st in
    '(st2, api2, w2) ←
      (if negb (is_null (m_texturePtr st1)) && m_manager st1 then
         match api with
         | Some a =>
             '(res, newTexture, a', w') ←
               RenderAPI.ResizeSharedTexture (m_texturePtr st1) width height (Some 0%N)
                 (resize_wait ans) (resize_texture_hr ans) a w;
             Some (if bool_decide (res = Success)
                   then set_texturePtr (default 0%N newTexture) st1 else st1,
                   Some a', w')
         | None => Some (st1, None, w)
         end
       else Some (st1, api, w));
    let st3 :=
      match m_capture st2 with
      | Some capture =>
          set_capture (Some (snd (Capture.Resize width height (resize_capture ans) capture))) st2
      | None => st2
      end in
    Some (Success, st3, api2, w2).

(** The window messages of [SendKeyEvent]. *)
Definition WM_KEYDOWN : Z := 256.
Definition WM_KEYUP : Z := 257.
Definition WM_SYSKEYDOWN : Z := 260.
Definition WM_SYSKEYUP : Z := 261.

(** The [LPARAM] of [SendKeyEvent], for a 64-bit [LPARAM]:
    [(scanCode << 16) | 1] is computed in [uint32_t] and keeps its value;
    [(1 << 30) | (1 << 31)] is an [int], negative, and is sign-extended
    before it is or-ed in. *)
Definition key_lParam (scanCode : Z) (isKeyDown : bool) : Z :=
  let lParam := Z.lor (to_UINT (Z.shiftl scanCode 16)) 1 in
  if isKeyDown then lParam
  else Z.lor lParam (Capture.to_int32 (Z.lor (Z.shiftl 1 30) (Z.shiftl 1 31))).

(** [SendKeyEvent]: the result, and the message posted to the host
    window as (message, [WPARAM], [LPARAM]). *)
Definition SendKeyEvent (virtualKeyCode scanCode : Z) (isKeyDown isSystemKey : bool)
    (st : State) : Result * option (Z * Z * Z) :=
  if is_null (m_hostWindow st) then (ErrorNotInitialized, None)
  else
    let lParam := key_lParam scanCode isKeyDown in
    let msg := if isKeyDown
               then (if isSystemKey then WM_SYSKEYDOWN else WM_KEYDOWN)
               else (if isSystemKey then WM_SYSKEYUP else WM_KEYUP) in
    (Success, Some (msg, virtualKeyCode, lParam)).

(** [UpdateTexture]; the capture session's render API is the manager's. *)
Definition UpdateTexture (frame : Capture.Frame) (env : D3D12.CopyEnv)
    (api : option RenderAPI.IRenderAPI) (st : State) (w : World)
  : option (option RenderAPI.IRenderAPI * World) :=
  match m_capture st with
  | Some capture =>
      if is_null (m_texturePtr st) then Some (api, w)
      else Capture.UpdateTexture (m_texturePtr st) frame env capture api w
  | None => Some (api, w)
  end.

(** [OnDeviceLost]: the texture pointer is dropped, not destroyed. *)
Definition OnDeviceLost (env : Capture.ShutdownEnv) (st : State) : State :=
  let st1 := match m_capture st with
             | Some capture => set_capture (Some (Capture.Shutdown env capture)) st
             | None => st
             end in
  set_state Error (set_texturePtr 0 st1).

(** What the system answers in [OnDeviceRestored]. *)
Record RestoreAnswers := mkRestoreAnswers {
  restore_texture_hr : option N;
  restore_capture : Capture.Env
}.

Definition OnDeviceRestored (ans : RestoreAnswers) (api : option RenderAPI.IRenderAPI)
    (st : State) (w : World) : option (State * World) :=
  if bool_decide (m_state st = Destroyed) then Some (st, w)
  else match GetRenderAPI st api with
       | None => Some (st, w)
       | Some renderAPI =>
           if negb (RenderAPI.IsInitialized renderAPI) then Some (st, w)
           else
             '(result, out, w1) ← RenderAPI.CreateSharedTexture (m_width st) (m_height st)
                                     (Some (m_texturePtr st)) (restore_texture_hr ans)
                                     renderAPI w;
             let st1 := set_texturePtr (default 0%N out) st in
             if negb (bool_decide (result = Success)) then Some (st1, w1)
             else
               let st2 := set_state Ready st1 in
               match m_capture st2 with
               | Some capture =>
                   let env := Capture.with_GetCaptureD3D11Device
                                (RenderAPI.GetCaptureD3D11Device renderAPI)
                                (restore_capture ans) in
                   Some (set_capture
                           (Some (snd (Capture.Initialize (Some (as_seen_by_capture st2))
                                         env capture))) st2, w1)
               | None => Some (st2, w1)
               end
       end.

End WebView.

(** ** WebViewManager.h and WebViewManager.cpp *)

Module WebViewManager.

(** What lives outside the objects: the heap, the render API object
    (the one [g_renderAPI] owns and the manager's weak pointer denotes;
    [None] when there is none), and the statics of [WebViewManager.cpp]
    and [WebView.cpp]. *)
Record Process := mkProcess {
  heap : World;
  renderAPI : option RenderAPI.IRenderAPI;
  s_dispatcherQueueController : bool;
  s_isShuttingDown : bool;
  g_windowClassRegistered : bool
}.

Definition set_heap (w : World) (p : Process) : Process :=
  mkProcess w (renderAPI p) (s_dispatcherQueueController p) (s_isShuttingDown p)
    (g_windowClassRegistered p).
Definition set_render (api : option RenderAPI.IRenderAPI) (w : World) (p : Process) : Process :=
  mkProcess w api (s_dispatcherQueueController p) (s_isShuttingDown p)
    (g_windowClassRegistered p).
Definition set_dispatcherQueueController (b : bool) (p : Process) : Process :=
  mkProcess (heap p) (renderAPI p) b (s_isShuttingDown p) (g_windowClassRegistered p).
Definition set_isShuttingDown (b : bool) (p : Process) : Process :=
  mkProcess (heap p) (renderAPI p) (s_dispatcherQueueController p) b
    (g_windowClassRegistered p).
Definition set_windowClassRegistered (b : bool) (p : Process) : Process :=
  mkProcess (heap p) (renderAPI p) (s_dispatcherQueueController p) (s_isShuttingDown p) b.

(** The members; [m_renderAPI] is [true] for a non-null pointer, and a
    callback is the address of the function, null when there is none. *)
Record State := mkState {
  m_initialized : bool;
  m_shutdownComplete : bool;
  m_renderAPI : bool;
  m_instances : gmap Z WebView.State;
  m_nextHandle : Z;
  m_logCallback : N;
  m_navigationCallback : N;
  m_messageCallback : N;
  m_deviceEventCallback : N
}.

Definition constructed : State := mkState false false false ∅ 1 0 0 0 0.

Definition set_instances (i : gmap Z WebView.State) (m : State) : State :=
  mkState (m_initialized m) (m_shutdownComplete m) (m_renderAPI m) i (m_nextHandle m)
    (m_logCallback m) (m_navigationCallback m) (m_messageCallback m)
    (m_deviceEventCallback m).
Definition set_nextHandle (h : Z) (m : State) : State :=
  mkState (m_initialized m) (m_shutdownComplete m) (m_renderAPI m) (m_instances m) h
    (m_logCallback m) (m_navigationCallback m) (m_messageCallback m)
    (m_deviceEventCallback m).

Definition SetLogCallback (callback : N) (m : State) : State :=
  mkState (m_initialized m) (m_shutdownComplete m) (m_renderAPI m) (m_instances m)
    (m_nextHandle m) callback (m_navigationCallback m) (m_messageCallback m)
    (m_deviceEventCallback m).
Definition SetNavigationCallback (callback : N) (m : State) : State :=
  mkState (m_initialized m) (m_shutdownComplete m) (m_renderAPI m) (m_instances m)
    (m_nextHandle m) (m_logCallback m) callback (m_messageCallback m)
    (m_deviceEventCallback m).
Definition SetMessageCallback (callback : N) (m : State) : State :=
  mkState (m_initialized m) (m_shutdownComplete m) (m_renderAPI m) (m_instances m)
    (m_nextHandle m) (m_logCallback m) (m_navigationCallback m) callback
    (m_deviceEventCallback m).
Definition SetDeviceEventCallback (callback : N) (m : State) : State :=
  mkState (m_initialized m) (m_shutdownComplete m) (m_renderAPI m) (m_instances m)
    (m_nextHandle m) (m_logCallback m) (m_navigationCallback m) (m_messageCallback m)
    callback.

Definition IsInitialized (m : State) : bool := m_initialized m.

(** [GetRenderAPI()], as the object the pointer denotes. *)
Definition GetRenderAPI (m : State) (p : Process) : option RenderAPI.IRenderAPI :=
  if m_renderAPI m then renderAPI p else None.

Definition IsShuttingDown (p : Process) : bool := s_isShuttingDown p.
Definition SignalShuttingDown (p : Process) : Process := set_isShuttingDown true p.

(** What [winrt::init_apartment] does. *)
Inductive ApartmentAnswer :=
| apartment_initialized
| throws_RPC_E_CHANGED_MODE
| throws_other_hresult
| throws_other.

(** [InitializeWinRT]; [controller_ok] answers
    [CreateDispatcherQueueController]. *)
Definition InitializeWinRT (apartment : ApartmentAnswer) (controller_ok : bool)
    (p : Process) : Result * Process :=
  match apartment with
  | throws_other_hresult | throws_other => (ErrorUnknown, p)
  | apartment_initialized | throws_RPC_E_CHANGED_MODE =>
      if negb (s_dispatcherQueueController p) then
        if negb controller_ok then (ErrorUnknown, p)
        else (Success, set_dispatcherQueueController true p)
      else (Success, p)
  end.

(** [Initialize(renderAPI)]; the argument is [true] for a non-null
    pointer, which denotes the process's render API object. *)
Definition Initialize (renderAPI_arg : bool) (apartment : ApartmentAnswer)
    (controller_ok : bool) (m : State) (p : Process) : Result * State * Process :=
  let p1 := set_isShuttingDown false p in
  if m_initialized m then (ErrorAlreadyInitialized, m, p1)
  else
    match (if renderAPI_arg then renderAPI p1 else None) with
    | None => (ErrorNotInitialized, m, p1)
    | Some api =>
        if negb (RenderAPI.IsInitialized api) then (ErrorNotInitialized, m, p1)
        else
          let '(result, p2) := InitializeWinRT apartment controller_ok p1 in
          if negb (bool_decide (result = Success)) then (result, m, p2)
          else
            (Success,
             mkState true (m_shutdownComplete m) true (m_instances m) (m_nextHandle m)
               (m_logCallback m) (m_navigationCallback m) (m_messageCallback m)
               (m_deviceEventCallback m),
             p2)
    end.

(** The destructor of one [WebView]: its [Shutdown]. *)
Definition destroy_WebView (m : State) (wv : WebView.State) (p : Process) : option Process :=
  '(_, api, w) ← WebView.Shutdown (GetRenderAPI m p) wv (heap p);
  Some (if m_renderAPI m then set_render api w p else set_heap w p).

(** [m_instances.clear()] *)
Fixpoint destroy_all (m : State) (l : list WebView.State) (p : Process) : option Process :=
  match l with
  | [] => Some p
  | wv :: l' => p1 ← destroy_WebView m wv p; destroy_all m l' p1
  end.

Definition Shutdown (m : State) (p : Process) : option (State * Process) :=
  if m_shutdownComplete m then Some (m, p)
  else
    let p1 := set_isShuttingDown true p in
    p2 ← destroy_all m (snd <$> map_to_list (m_instances m)) p1;
    Some (mkState false true (m_renderAPI m) ∅ (m_nextHandle m)
            (m_logCallback m) (m_navigationCallback m) (m_messageCallback m)
            (m_deviceEventCallback m),
          p2).

(** [GenerateHandle]: [m_nextHandle++] in [uint32_t]. *)
Definition GenerateHandle (m : State) : Z * State :=
  (m_nextHandle m, set_nextHandle (UINT_add (m_nextHandle m) 1) m).

(** [GetWebView]; [None] is the null pointer. *)
Definition GetWebView (handle : Z) (m : State) : option WebView.State :=
  m_instances m !! handle.

(** [CreateWebView].  The second component of the result is the value
    written to [outHandle], [None] when nothing is written.  A web view
    that fails to initialise is destroyed on return; one already stored
    under the handle is destroyed when it is replaced. *)
Definition CreateWebView (width height : Z) (ans : WebView.InitAnswers)
    (m : State) (p : Process) : option (Result * option Z * State * Process) :=
  if negb (m_initialized m) then Some (ErrorNotInitialized, None, m, p)
  else
    let '(handle, m1) := GenerateHandle m in
    let webView := WebView.constructed handle width height true in
    '(result, webView1, registered, w1) ←
      WebView.Initialize ans (g_windowClassRegistered p) (GetRenderAPI m1 p) webView (heap p);
    let p1 := set_windowClassRegistered registered (set_heap w1 p) in
    if negb (bool_decide (result = Success)) then
      p2 ← destroy_WebView m1 webView1 p1;
      Some (result, Some handle, m1, p2)
    else
      p2 ← match m_instances m1 !! handle with
           | Some old => destroy_WebView m1 old p1
           | None => Some p1
           end;
      Some (Success, Some handle, set_instances (<[handle := webView1]> (m_instances m1)) m1, p2).

Definition DestroyWebView (handle : Z) (m : State) (p : Process)
  : option (Result * State * Process) :=
  match m_instances m !! handle with
  | None => Some (ErrorInvalidHandle, m, p)
  | Some wv =>
      p1 ← destroy_WebView m wv p;
      Some (Success, set_instances (delete handle (m_instances m)) m, p1)
  end.

(** The delegated calls. *)
Definition ResizeWebView (handle : Z) (width height : Z) (ans : WebView.ResizeAnswers)
    (m : State) (p : Process) : option (Result * State * Process) :=
  match GetWebView handle m with
  | None => Some (ErrorInvalidHandle, m, p)
  | Some wv =>
      '(r, wv', api, w) ← WebView.Resize width height ans (GetRenderAPI m p) wv (heap p);
      Some (r, set_instances (<[handle := wv']> (m_instances m)) m,
            if m_renderAPI m then set_render api w p else set_heap w p)
  end.

Definition Navigate (handle : Z) (hr_ok : bool) (m : State) : Result :=
  match GetWebView handle m with
  | Some wv => WebView.Navigate hr_ok wv
  | None => ErrorInvalidHandle
  end.

Definition NavigateToString (handle : Z) (hr_ok : bool) (m : State) : Result :=
  match GetWebView handle m with
  | Some wv => WebView.NavigateToString hr_ok wv
  | None => ErrorInvalidHandle
  end.

Definition ExecuteScript (handle : Z) (hr_ok : bool) (m : State) : Result :=
  match GetWebView handle m with
  | Some wv => WebView.ExecuteScript hr_ok wv
  | None => ErrorInvalidHandle
  end.

Definition GoBack (handle : Z) (hr_ok : bool) (m : State) : Result :=
  match GetWebView handle m with
  | Some wv => WebView.GoBack hr_ok wv
  | None => ErrorInvalidHandle
  end.

Definition GoForward (handle : Z) (hr_ok : bool) (m : State) : Result :=
  match GetWebView handle m with
  | Some wv => WebView.GoForward hr_ok wv
  | None => ErrorInvalidHandle
  end.

Definition CanGoBack (handle : Z) (value : bool) (m : State) : bool :=
  match GetWebView handle m with
  | Some wv => WebView.CanGoBack value wv
  | None => false
  end.

Definition CanGoForward (handle : Z) (value : bool) (m : State) : bool :=
  match GetWebView handle m with
  | Some wv => WebView.CanGoForward value wv
  | None => false
  end.

Definition SendKeyEvent (handle : Z) (virtualKeyCode scanCode : Z)
    (isKeyDown isSystemKey : bool) (m : State) : Result * option (Z * Z * Z) :=
  match GetWebView handle m with
  | Some wv => WebView.SendKeyEvent virtualKeyCode scanCode isKeyDown isSystemKey wv
  | None => (ErrorInvalidHandle, None)
  end.

Definition UpdateTexture (handle : Z) (frame : Capture.Frame) (env : D3D12.CopyEnv)
    (m : State) (p : Process) : option Process :=
  match GetWebView handle m with
  | Some wv =>
      '(api, w) ← WebView.UpdateTexture frame env (GetRenderAPI m p) wv (heap p);
      Some (if m_renderAPI m then set_render api w p else set_heap w p)
  | None => Some p
  end.

(** [UpdateAllTextures]: nothing is done when the mutex is taken;
    [frames] and [envs] answer for each instance. *)
Fixpoint update_each (m : State) (frames : Z → Capture.Frame) (envs : Z → D3D12.CopyEnv)
    (l : list (Z * WebView.State)) (p : Process) : option Process :=
  match l with
  | [] => Some p
  | (handle, wv) :: l' =>
      '(api, w) ← WebView.UpdateTexture (frames handle) (envs handle)
                    (GetRenderAPI m p) wv (heap p);
      update_each m frames envs l' (if m_renderAPI m then set_render api w p else set_heap w p)
  end.

Definition UpdateAllTextures (try_lock : bool) (frames : Z → Capture.Frame)
    (envs : Z → D3D12.CopyEnv) (m : State) (p : Process) : option Process :=
  if negb try_lock then Some p
  else update_each m frames envs (map_to_list (m_instances m)) p.

(** [OnDeviceLost] and [OnDeviceRestored]: every instance is notified,
    then the host's callback, which the model does not follow. *)
Definition OnDeviceLost (envs : Z → Capture.ShutdownEnv) (m : State) : State :=
  set_instances (map_imap (λ handle wv, Some (WebView.OnDeviceLost (envs handle) wv))
                   (m_instances m)) m.

Fixpoint restore_each (m : State) (answers : Z → WebView.RestoreAnswers)
    (l : list (Z * WebView.State)) (acc : gmap Z WebView.State) (p : Process)
  : option (gmap Z WebView.State * Process) :=
  match l with
  | [] => Some (acc, p)
  | (handle, wv) :: l' =>
      '(wv', w) ← WebView.OnDeviceRestored (answers handle) (GetRenderAPI m p) wv (heap p);
      restore_each m answers l' (<[handle := wv']> acc) (set_heap w p)
  end.

Definition OnDeviceRestored (answers : Z → WebView.RestoreAnswers) (m : State) (p : Process)
  : option (State * Process) :=
  '(instances, p') ← restore_each m answers (map_to_list (m_instances m)) (m_instances m) p;
  Some (set_instances instances m, p').

End WebViewManager.

(** ** Plugin.cpp *)

Module Plugin.

Import WebViewManager.

(** The globals of [Plugin.cpp] besides [g_renderAPI], whose object is
    the [renderAPI] of the process: [g_renderAPI] is null exactly when
    there is no such object.  [g_unityInterfaces] is [true] for a non-null
    pointer. *)
Record State := mkState {
  g_webViewManager : option WebViewManager.State;
  g_unityInterfaces : bool;
  g_currentAPI : Z;
  g_logCallback : N;
  g_navigationCallback : N;
  g_messageCallback : N
}.

Definition loaded : State := mkState None false RenderAPI.GraphicsAPI_Unknown 0 0 0.

Definition set_manager (m : option WebViewManager.State) (s : State) : State :=
  mkState m (g_unityInterfaces s) (g_currentAPI s) (g_logCallback s)
    (g_navigationCallback s) (g_messageCallback s).
Definition set_currentAPI (api : Z) (s : State) : State :=
  mkState (g_webViewManager s) (g_unityInterfaces s) api (g_logCallback s)
    (g_navigationCallback s) (g_messageCallback s).

(** What the host engine and the system answer to the plugin: whether
    the plugin is built with D3D12 support; what
    [IUnityInterfaces::Get] returns for each graphics interface ([None] for
    null, otherwise the device with its context or queue); the answers
    to device initialisation (their [interfaces] field is not used: the
    pointer is the plugin's); the answers to [WaitForGPU] and to the
    initialisation of the manager. *)
Record Answers := mkAnswers {
  WEBVIEW_TOOLKIT_DX12_SUPPORT : bool;
  Get_IUnityGraphicsD3D11 : option (N * N);
  Get_IUnityGraphicsD3D12v5 : option (N * N);
  init11 : D3D11.InitEnv;
  init12 : D3D12.InitEnv;
  wait : D3D12.WaitEnv;
  apartment : ApartmentAnswer;
  controller_ok : bool
}.

(** The answers a back end gets when it is handed [g_unityInterfaces]. *)
Definition env11 (s : State) (ans : Answers) : D3D11.InitEnv :=
  D3D11.mkInitEnv
    (if g_unityInterfaces s then Some (Get_IUnityGraphicsD3D11 ans) else None)
    (D3D11.dxgi_As (init11 ans)) (D3D11.dcomp (init11 ans)).

Definition env12 (s : State) (ans : Answers) : D3D12.InitEnv :=
  D3D12.mkInitEnv
    (if g_unityInterfaces s then Some (Get_IUnityGraphicsD3D12v5 ans) else None)
    (D3D12.on12_create (init12 ans)) (D3D12.on12_As (init12 ans))
    (D3D12.factory_ok (init12 ans)) (D3D12.adapters (init12 ans))
    (D3D12.capture_create (init12 ans)) (D3D12.dxgi_As (init12 ans))
    (D3D12.dcomp (init12 ans)) (D3D12.fence_create (init12 ans))
    (D3D12.event_create (init12 ans)).

Definition ProcessDeviceEvent (eventType : UnityGfxDeviceEventType) (s : State)
    (ans : Answers) (api : RenderAPI.IRenderAPI) (w : World)
  : option (RenderAPI.IRenderAPI * World) :=
  RenderAPI.ProcessDeviceEvent eventType (env11 s ans) (env12 s ans) (wait ans) api w.

(** [Initialize(api)].  When the manager cannot be initialised both
    objects are deleted, which runs their destructors.  The assignment
    of the new manager to [g_webViewManager] would delete a manager left
    there, one whose render API is gone; the plugin has a manager only
    while it has a render API, so that no call reaches this case, for
    which the model has no outcome. *)
Definition Initialize (api : Z) (ans : Answers) (s : State) (p : Process)
  : option (Result * State * Process) :=
  match renderAPI p with
  | Some _ =>
      match g_webViewManager s with
      | Some m =>
          let '(_, m', p') :=
            WebViewManager.Initialize true (apartment ans) (controller_ok ans) m p in
          Some (ErrorAlreadyInitialized, set_manager (Some m') s, p')
      | None => Some (ErrorAlreadyInitialized, s, p)
      end
  | None =>
      let s1 := set_currentAPI api s in
      match RenderAPI.CreateRenderAPI (WEBVIEW_TOOLKIT_DX12_SUPPORT ans) api with
      | None => Some (ErrorUnsupportedGraphicsAPI, s1, p)
      | Some created =>
          '(api1, w1) ← (if g_unityInterfaces s1
                         then ProcessDeviceEvent kUnityGfxDeviceEventInitialize s1 ans
                                created (heap p)
                         else Some (created, heap p));
          let p1 := set_render (Some api1) w1 p in
          match g_webViewManager s1 with
          | Some _ => None
          | None =>
              let '(result, m, p2) :=
                WebViewManager.Initialize true (apartment ans) (controller_ok ans)
                  WebViewManager.constructed p1 in
              if negb (bool_decide (result = Success)) then
                '(_, p3) ← WebViewManager.Shutdown m p2;
                api3 ← renderAPI p3;
                w4 ← RenderAPI.destroy (wait ans) api3 (heap p3);
                Some (result, set_manager None s1, set_render None w4 p3)
              else
                let m1 := if is_null (g_navigationCallback s1) then m
                          else SetNavigationCallback (g_navigationCallback s1) m in
                let m2 := if is_null (g_messageCallback s1) then m1
                          else SetMessageCallback (g_messageCallback s1) m1 in
                Some (Success, set_manager (Some m2) s1, p2)
          end
      end
  end.

(** [Shutdown].  Both objects are released, not deleted: no destructor
    runs, and what the render API holds stays in the heap. *)
Definition Shutdown (s : State) (p : Process) : option (State * Process) :=
  match g_webViewManager s, renderAPI p with
  | None, None => Some (s, p)
  | _, _ =>
      p1 ← match g_webViewManager s with
           | Some m => snd <$> WebViewManager.Shutdown m p
           | None => Some p
           end;
      Some (mkState None (g_unityInterfaces s) RenderAPI.GraphicsAPI_Unknown 0 0 0,
            set_render None (heap p1) p1)
  end.

Definition IsInitialized (p : Process) : bool :=
  match renderAPI p with
  | Some api => RenderAPI.IsInitialized api
  | None => false
  end.

Definition GetWebViewManager (s : State) : option WebViewManager.State := g_webViewManager s.

Definition SetLogCallback (callback : N) (s : State) : State :=
  mkState (WebViewManager.SetLogCallback callback <$> g_webViewManager s)
    (g_unityInterfaces s) (g_currentAPI s) callback
    (g_navigationCallback s) (g_messageCallback s).

Definition SetNavigationCallback (callback : N) (s : State) : State :=
  mkState (WebViewManager.SetNavigationCallback callback <$> g_webViewManager s)
    (g_unityInterfaces s) (g_currentAPI s) (g_logCallback s)
    callback (g_messageCallback s).

Definition SetMessageCallback (callback : N) (s : State) : State :=
  mkState (WebViewManager.SetMessageCallback callback <$> g_webViewManager s)
    (g_unityInterfaces s) (g_currentAPI s) (g_logCallback s)
    (g_navigationCallback s) callback.

Definition SetDeviceEventCallback (callback : N) (s : State) : State :=
  set_manager (WebViewManager.SetDeviceEventCallback callback <$> g_webViewManager s) s.

(** [OnGraphicsDeviceEvent]: the render API first, then the manager. *)
Definition OnGraphicsDeviceEvent (eventType : UnityGfxDeviceEventType) (ans : Answers)
    (lost : Z → Capture.ShutdownEnv) (restored : Z → WebView.RestoreAnswers)
    (s : State) (p : Process) : option (State * Process) :=
  p1 ← match renderAPI p with
       | Some api =>
           '(api', w') ← ProcessDeviceEvent eventType s ans api (heap p);
           Some (set_render (Some api') w' p)
       | None => Some p
       end;
  match g_webViewManager s with
  | None => Some (s, p1)
  | Some m =>
      match eventType with
      | kUnityGfxDeviceEventInitialize | kUnityGfxDeviceEventAfterReset =>
          '(m', p2) ← WebViewManager.OnDeviceRestored restored m p1;
          Some (set_manager (Some m') s, p2)
      | kUnityGfxDeviceEventBeforeReset =>
          Some (set_manager (Some (WebViewManager.OnDeviceLost lost m)) s, p1)
      | _ => Some (s, p1)
      end
  end.

(** [enum class RenderEventType] *)
Definition RenderEventType_UpdateTexture : Z := 2.

Definition OnRenderEvent (eventID : Z) (try_lock : bool) (frames : Z → Capture.Frame)
    (envs : Z → D3D12.CopyEnv) (s : State) (p : Process) : option Process :=
  if (eventID =? RenderEventType_UpdateTexture)%Z then
    match g_webViewManager s with
    | Some m =>
        if negb (IsShuttingDown p) && WebViewManager.IsInitialized m
        then WebViewManager.UpdateAllTextures try_lock frames envs m p
        else Some p
    | None => Some p
    end
  else Some p.

(** [data] is the pointer; the handle is its low 32 bits. *)
Definition OnRenderEventAndData (eventID : Z) (data : N) (frame : Capture.Frame)
    (env : D3D12.CopyEnv) (s : State) (p : Process) : option Process :=
  if (eventID =? RenderEventType_UpdateTexture)%Z then
    match g_webViewManager s with
    | Some m =>
        if is_null data then Some p
        else WebViewManager.UpdateTexture (to_UINT (Z.of_N data)) frame env m p
    | None => Some p
    end
  else Some p.

(** [UnityPluginLoad]: [graphics] is [true] when the host has an
    [IUnityGraphics], [renderer] when its renderer is not the null
    renderer. *)
Definition UnityPluginLoad (graphics renderer : bool) (ans : Answers)
    (lost : Z → Capture.ShutdownEnv) (restored : Z → WebView.RestoreAnswers)
    (s : State) (p : Process) : option (State * Process) :=
  let s1 := mkState (g_webViewManager s) true (g_currentAPI s) (g_logCallback s)
              (g_navigationCallback s) (g_messageCallback s) in
  if graphics && renderer
  then OnGraphicsDeviceEvent kUnityGfxDeviceEventInitialize ans lost restored s1 p
  else Some (s1, p).

Definition UnityPluginUnload (s : State) (p : Process) : State * Process := (s, p).

End Plugin.

(** ** PluginExports.cpp

    The exported functions return the result code as an [int32_t]. *)

Module Exports.

Import WebViewManager.

Definition WebViewToolkit_Initialize (graphicsAPI : Z) (ans : Plugin.Answers)
    (s : Plugin.State) (p : Process) : option (Z * Plugin.State * Process) :=
  '(r, s', p') ← Plugin.Initialize graphicsAPI ans s p;
  Some (Result_value r, s', p').

Definition WebViewToolkit_Shutdown (s : Plugin.State) (p : Process)
  : option (Plugin.State * Process) :=
  Plugin.Shutdown s p.

Definition WebViewToolkit_SignalApplicationQuit (p : Process) : Process :=
  SignalShuttingDown p.

Definition WebViewToolkit_IsInitialized (p : Process) : Z :=
  if Plugin.IsInitialized p then 1 else 0.

(** [outHandle] is [None] for a null pointer, [Some v] for a pointer to
    a slot that holds [v]; the slot comes back as the call leaves it. *)
Definition WebViewToolkit_CreateWebView (width height : Z) (outHandle : option Z)
    (ans : WebView.InitAnswers) (s : Plugin.State) (p : Process)
  : option (Z * option Z * Plugin.State * Process) :=
  if IsShuttingDown p then Some (Result_value ErrorNotInitialized, outHandle, s, p)
  else match Plugin.GetWebViewManager s, outHandle with
       | Some manager, Some _ =>
           '(result, handle, manager', p') ←
             WebViewManager.CreateWebView width height ans manager p;
           Some (Result_value result,
                 (if bool_decide (result = Success) then handle else outHandle),
                 Plugin.set_manager (Some manager') s, p')
       | _, _ => Some (Result_value ErrorNotInitialized, outHandle, s, p)
       end.

Definition WebViewToolkit_DestroyWebView (handle : Z) (s : Plugin.State) (p : Process)
  : option (Z * Plugin.State * Process) :=
  if IsShuttingDown p then Some (Result_value ErrorNotInitialized, s, p)
  else match Plugin.GetWebViewManager s with
       | None => Some (Result_value ErrorNotInitialized, s, p)
       | Some manager =>
           '(result, manager', p') ← WebViewManager.DestroyWebView handle manager p;
           Some (Result_value result, Plugin.set_manager (Some manager') s, p')
       end.

Definition WebViewToolkit_GetTexturePtr (handle : Z) (s : Plugin.State) (p : Process) : N :=
  if IsShuttingDown p then 0%N
  else match Plugin.GetWebViewManager s with
       | None => 0%N
       | Some manager =>
           match WebViewManager.GetWebView handle manager with
           | Some webView => WebView.GetTexturePtr webView
           | None => 0%N
           end
       end.

Definition WebViewToolkit_Resize (handle : Z) (width height : Z) (ans : WebView.ResizeAnswers)
    (s : Plugin.State) (p : Process) : option (Z * Plugin.State * Process) :=
  if IsShuttingDown p then Some (Result_value ErrorNotInitialized, s, p)
  else match Plugin.GetWebViewManager s with
       | None => Some (Result_value ErrorNotInitialized, s, p)
       | Some manager =>
           '(result, manager', p') ←
             WebViewManager.ResizeWebView handle width height ans manager p;
           Some (Result_value result, Plugin.set_manager (Some manager') s, p')
       end.

Definition WebViewToolkit_Navigate (handle : Z) (hr_ok : bool) (s : Plugin.State)
    (p : Process) : Z :=
  if IsShuttingDown p then Result_value ErrorNotInitialized
  else match Plugin.GetWebViewManager s with
       | None => Result_value ErrorNotInitialized
       | Some manager => Result_value (WebViewManager.Navigate handle hr_ok manager)
       end.

Definition WebViewToolkit_NavigateToString (handle : Z) (hr_ok : bool) (s : Plugin.State)
    (p : Process) : Z :=
  if IsShuttingDown p then Result_value ErrorNotInitialized
  else match Plugin.GetWebViewManager s with
       | None => Result_value ErrorNotInitialized
       | Some manager => Result_value (WebViewManager.NavigateToString handle hr_ok manager)
       end.

Definition WebViewToolkit_ExecuteScript (handle : Z) (hr_ok : bool) (s : Plugin.State)
    (p : Process) : Z :=
  if IsShuttingDown p then Result_value ErrorNotInitialized
  else match Plugin.GetWebViewManager s with
       | None => Result_value ErrorNotInitialized
       | Some manager => Result_value (WebViewManager.ExecuteScript handle hr_ok manager)
       end.

Definition WebViewToolkit_GoBack (handle : Z) (hr_ok : bool) (s : Plugin.State)
    (p : Process) : Z :=
  if IsShuttingDown p then Result_value ErrorNotInitialized
  else match Plugin.GetWebViewManager s with
       | None => Result_value ErrorNotInitialized
       | Some manager => Result_value (WebViewManager.GoBack handle hr_ok manager)
       end.

Definition WebViewToolkit_GoForward (handle : Z) (hr_ok : bool) (s : Plugin.State)
    (p : Process) : Z :=
  if IsShuttingDown p then Result_value ErrorNotInitialized
  else match Plugin.GetWebViewManager s with
       | None => Result_value ErrorNotInitialized
       | Some manager => Result_value (WebViewManager.GoForward handle hr_ok manager)
       end.

Definition WebViewToolkit_CanGoBack (handle : Z) (value : bool) (s : Plugin.State)
    (p : Process) : Z :=
  if IsShuttingDown p then 0
  else match Plugin.GetWebViewManager s with
       | None => 0
       | Some manager => if WebViewManager.CanGoBack handle value manager then 1 else 0
       end.

Definition WebViewToolkit_CanGoForward (handle : Z) (value : bool) (s : Plugin.State)
    (p : Process) : Z :=
  if IsShuttingDown p then 0
  else match Plugin.GetWebViewManager s with
       | None => 0
       | Some manager => if WebViewManager.CanGoForward handle value manager then 1 else 0
       end.

(** [isKeyDown != 0], [isSystemKey != 0] *)
Definition WebViewToolkit_SendKeyEvent (handle : Z) (virtualKeyCode scanCode : Z)
    (isKeyDown isSystemKey : Z) (s : Plugin.State) (p : Process)
  : Z * option (Z * Z * Z) :=
  if IsShuttingDown p then (Result_value ErrorNotInitialized, None)
  else match Plugin.GetWebViewManager s with
       | None => (Result_value ErrorNotInitialized, None)
       | Some manager =>
           let '(r, msg) :=
             WebViewManager.SendKeyEvent handle virtualKeyCode scanCode
               (negb (isKeyDown =? 0)%Z) (negb (isSystemKey =? 0)%Z) manager in
           (Result_value r, msg)
       end.

End Exports.

(** * The vocabulary of the properties

    Predicates on states and worlds, the command lists the copies are
    compared with, the operations of the D3D12 back end as a type, and
    the concrete states the examples run on. *)

(** The rows a loop with bound [n] visits, in order. *)
Definition rows (n : Z) : list Z := Z.of_nat <$> seq 0 (Z.to_nat n).

(** The texture a successful creation leaves in the world. *)
Definition created (k : ComKind) (a : N) (w w' : World) : Prop :=
  a ≠ 0%N ∧
  objs w' = <[a := mkComObj (next_serial w) 1 k]> (objs w) ∧
  next_serial w' = N.succ (next_serial w) ∧
  handles w' = handles w ∧ gpu_log w' = gpu_log w.

(** The ways an address can stop denoting the object [o] it denoted: it
    denotes nothing, or it denotes an object of another identity. *)
Definition invalidated (p : N) (o : ComObj) (w' : World) : Prop :=
  ∀ o', objs w' !! p = Some o' → o_serial o' ≠ o_serial o.

(** A handle handed out by [CreateSharedTexture] on the D3D11 back end
    and still owned through that one reference. *)
Definition D3D11_owned (h : N) (o : ComObj) (w : World) : Prop :=
  h ≠ 0%N ∧ objs w !! h = Some o ∧ (∃ W H, o_kind o = KTexture2D W H) ∧ o_refs o = 1
  ∧ (o_serial o < next_serial w)%N.

(** An answer of the allocator that is possible once [h] is released. *)
Definition fresh_after_release (h : N) (hr : option N) (w : World) : Prop :=
  ∀ a, hr = Some a → a ≠ 0%N ∧ (a = h ∨ objs w !! a = None).

(** A handle handed out by [CreateSharedTexture] on the D3D12 back end:
    the caller owns one reference; when the texture has a wrapper in the
    cache, the wrapper owns a second one. *)
Definition D3D12_owned (h : N) (o : ComObj) (st : D3D12.State) (w : World) : Prop :=
  h ≠ 0%N ∧ objs w !! h = Some o ∧ (∃ W H, o_kind o = KResource12 W H)
  ∧ (o_serial o < next_serial w)%N
  ∧ match D3D12.m_wrappedResources st !! h with
    | None => o_refs o = 1
    | Some wr =>
        D3D12.d3d12Resource wr = h ∧ D3D12.d3d11Resource wr ≠ h
        ∧ is_Some (objs w !! D3D12.d3d11Resource wr) ∧ o_refs o = 2
    end.

(** The commands of the flipped copy on the D3D11 back end: iteration [y]
    copies the one-row box of source row [H - 1 - y] to row [y] of the
    destination. *)
Definition D3D11_flip_commands (ctx src dst : N) (W H : Z) : list GpuCall :=
  (λ y, (ctx, CopySubresourceRegion dst 0 y 0 src (mkBox 0 (H - 1 - y) 0 W (H - 1 - y + 1) 1)))
    <$> rows H.

(** The updates of the CPU-mediated copy on the D3D12 back end: with the
    flip, iteration [y] writes row [y] of the destination from the mapped
    bytes of source row [H - 1 - y]; without it, one update of the whole
    surface. *)
Definition D3D12_update_commands (ctx dst : N) (flipY : bool) (W H RowPitch : Z)
  : list GpuCall :=
  if flipY then
    (λ y, (ctx, UpdateSubresource dst (Some (mkBox 0 y 0 W (y + 1) 1))
                  ((H - 1 - y) * RowPitch) RowPitch)) <$> rows H
  else [(ctx, UpdateSubresource dst None 0 RowPitch)].

Definition D3D12_copy_commands (st : D3D12.State) (src dst staging : N) (flipY : bool)
    (W H RowPitch : Z) : list GpuCall :=
  [(D3D12.m_captureD3D11Device st, CreateStagingTexture2D W H);
   (D3D12.m_captureD3D11Context st, CopyResource staging src);
   (D3D12.m_captureD3D11Context st, MapStaging);
   (D3D12.m_d3d11On12Device st, AcquireWrappedResources dst)]
  ++ D3D12_update_commands (D3D12.m_d3d11Context st) dst flipY W H RowPitch
  ++ [(D3D12.m_captureD3D11Context st, UnmapStaging);
      (D3D12.m_d3d11On12Device st, ReleaseWrappedResources dst);
      (D3D12.m_d3d11Context st, Flush)].

(** The members the copy calls through. *)
Definition D3D12_copy_devices (st : D3D12.State) : Prop :=
  D3D12.m_captureD3D11Device st ≠ 0%N ∧ D3D12.m_captureD3D11Context st ≠ 0%N
  ∧ D3D12.m_d3d11On12Device st ≠ 0%N ∧ D3D12.m_d3d11Context st ≠ 0%N.

(** ** The wrap cache *)

(** The kinds of object the cache is concerned with. *)
Definition is_resource (k : ComKind) : bool :=
  match k with
  | KResource12 _ _ | KWrapped11 _ _ => true
  | _ => false
  end.

(** The cache and the heap agree.  Every cached wrapper is filed under
    the D3D12 resource it wraps; that resource is alive (the wrapper holds
    a reference to it); the wrapper's D3D11 view is alive and owned by the
    wrapper alone.  Conversely every live D3D11 view of a resource is the
    one the cache holds for that resource: there is no second wrapper of a
    texture, and none of a texture that is gone. *)
Definition cache_wf (st : D3D12.State) (w : World) : Prop :=
  (∀ k wr, D3D12.m_wrappedResources st !! k = Some wr →
     D3D12.d3d12Resource wr = k ∧ k ≠ 0%N ∧ D3D12.d3d11Resource wr ≠ 0%N
     ∧ (∃ o W H, objs w !! k = Some o ∧ o_kind o = KResource12 W H ∧ 0 < o_refs o)
     ∧ (∃ ow tex, objs w !! D3D12.d3d11Resource wr = Some ow
                  ∧ o_kind ow = KWrapped11 k tex ∧ o_refs ow = 1))
  ∧ (∀ a o k tex, objs w !! a = Some o → o_kind o = KWrapped11 k tex →
       ∃ wr, D3D12.m_wrappedResources st !! k = Some wr ∧ D3D12.d3d11Resource wr = a).

(** [cache_wf] looks at the cache and at the resources of the heap only. *)
Definition same_resources (w w' : World) : Prop :=
  ∀ a o, is_resource (o_kind o) = true → objs w !! a = Some o ↔ objs w' !! a = Some o.

(** [p] does not hold a resource. *)
Definition apart (p : N) (w : World) : Prop :=
  ∀ o, objs w !! p = Some o → is_resource (o_kind o) = false.

(** What [Release] leaves of an object. *)
Definition released (o : ComObj) : option ComObj :=
  match o_refs o with
  | S (S n) => Some (mkComObj (o_serial o) (S n) (o_kind o))
  | _ => None
  end.

(** An answer of [CreateWrappedResource] that is possible in [w]. *)
Definition fresh_in (hr : option N) (w : World) : Prop :=
  ∀ a, hr = Some a → a ≠ 0%N ∧ objs w !! a = None.

(** What a returned wrapper is, in the state and world the call leaves:
    it is the one the cache holds for [p], and its view is alive and
    reports the height of [p] and the width of [p], as it is or as a
    [UINT]. *)
Definition returned_wrapper (p : N) (wr : D3D12.WrappedResource) (W H : Z)
    (st' : D3D12.State) (w' : World) : Prop :=
  D3D12.m_wrappedResources st' !! p = Some wr
  ∧ GetDesc12 p w' = Some (W, H)
  ∧ ∃ od cw, objs w' !! D3D12.d3d11Resource wr = Some od
             ∧ as_Texture2D (o_kind od) = Some (cw, H) ∧ (cw = W ∨ cw = to_UINT W).

(** No view of any texture is alive. *)
Definition no_views (w : World) : Prop :=
  ∀ a o k tex, objs w !! a = Some o → o_kind o ≠ KWrapped11 k tex.

(** *** Device events *)

(** The resources of the heap, as a map of their own. *)
Definition resources (w : World) : gmap N ComObj :=
  filter (λ kv, is_resource (o_kind kv.2) = true) (objs w).

(** A member that is null or holds something other than a resource. *)
Definition apart0 (p : N) (w : World) : Prop := p = 0%N ∨ resources w !! p = None.

(** The members that device initialisation releases hold no resource. *)
Definition devices_apart (st : D3D12.State) (w : World) : Prop :=
  apart0 (D3D12.m_d3d12Device st) w ∧ apart0 (D3D12.m_d3d12CommandQueue st) w
  ∧ apart0 (D3D12.m_d3d11Device st) w ∧ apart0 (D3D12.m_d3d11Context st) w
  ∧ apart0 (D3D12.m_d3d11On12Device st) w
  ∧ apart0 (D3D12.m_captureD3D11Device st) w ∧ apart0 (D3D12.m_captureD3D11Context st) w
  ∧ apart0 (D3D12.m_fence st) w.

(** The device and the queue the host engine hands over hold no
    resource either. *)
Definition interfaces_apart (env : D3D12.InitEnv) (w : World) : Prop :=
  ∀ dev queue, D3D12.interfaces env = Some (Some (dev, queue)) →
               apart0 dev w ∧ apart0 queue w.

(** The public operations of the D3D12 back end, each with the answers
    of the environment to the calls it makes. *)
Inductive Op :=
| OpProcessDeviceEvent (eventType : UnityGfxDeviceEventType)
    (env : D3D12.InitEnv) (wait : D3D12.WaitEnv)
| OpCreateSharedTexture (width height : Z) (out : OutPtr) (hr : option N)
| OpDestroySharedTexture (nativePtr : N)
| OpResizeSharedTexture (nativePtr : N) (newWidth newHeight : Z) (out : OutPtr)
    (wait : D3D12.WaitEnv) (hr : option N)
| OpBeginRenderToTexture (texturePtr : N) (hr : option N)
| OpEndRenderToTexture (texturePtr : N)
| OpWaitForGPU (wait : D3D12.WaitEnv)
| OpSignalRenderComplete
| OpCopyCapturedTextureToUnityTexture (capturedTexture unityTexturePtr : N)
    (flipY : bool) (env : D3D12.CopyEnv).

Definition run (op : Op) (st : D3D12.State) (w : World) : option (D3D12.State * World) :=
  match op with
  | OpProcessDeviceEvent e env wait => D3D12.ProcessDeviceEvent e env wait st w
  | OpCreateSharedTexture width height out hr =>
      '(_, _, w') ← D3D12.CreateSharedTexture width height out hr st w; Some (st, w')
  | OpDestroySharedTexture p => D3D12.DestroySharedTexture p st w
  | OpResizeSharedTexture p newWidth newHeight out wait hr =>
      '(_, _, st', w') ← D3D12.ResizeSharedTexture p newWidth newHeight out wait hr st w;
      Some (st', w')
  | OpBeginRenderToTexture p hr => D3D12.BeginRenderToTexture p hr st w
  | OpEndRenderToTexture p => w' ← D3D12.EndRenderToTexture p st w; Some (st, w')
  | OpWaitForGPU wait => Some (D3D12.WaitForGPU wait st w)
  | OpSignalRenderComplete => Some (st, D3D12.SignalRenderComplete st w)
  | OpCopyCapturedTextureToUnityTexture src dst flipY env =>
      D3D12.CopyCapturedTextureToUnityTexture src dst flipY env st w
  end.

(** What is asked of the environment: a view that [CreateWrappedResource]
    answers with is at an address not in use; a device event finds
    devices, not resources, in the members it releases and in what the
    host hands over. *)
Definition answers_possible (op : Op) (st : D3D12.State) (w : World) : Prop :=
  match op with
  | OpProcessDeviceEvent kUnityGfxDeviceEventInitialize env _
  | OpProcessDeviceEvent kUnityGfxDeviceEventAfterReset env _ =>
      devices_apart st w ∧ interfaces_apart env w
  | OpBeginRenderToTexture _ hr => fresh_in hr w
  | OpCopyCapturedTextureToUnityTexture _ _ _ env => fresh_in (D3D12.wrap_hr env) w
  | _ => True
  end.

(** *** A checker for concrete states *)

Definition check_entry (w : World) (kv : N * D3D12.WrappedResource) : bool :=
  let '(k, wr) := kv in
  bool_decide (D3D12.d3d12Resource wr = k)
  && negb (is_null k) && negb (is_null (D3D12.d3d11Resource wr))
  && match objs w !! k with
     | Some o => match o_kind o with
                 | KResource12 _ _ => bool_decide (0 < o_refs o)
                 | _ => false
                 end
     | None => false
     end
  && match objs w !! D3D12.d3d11Resource wr with
     | Some ow => match o_kind ow with
                  | KWrapped11 k' _ => bool_decide (k' = k) && bool_decide (o_refs ow = 1)
                  | _ => false
                  end
     | None => false
     end.

Definition check_object (st : D3D12.State) (ao : N * ComObj) : bool :=
  let '(a, o) := ao in
  match o_kind o with
  | KWrapped11 k _ =>
      match D3D12.m_wrappedResources st !! k with
      | Some wr => bool_decide (D3D12.d3d11Resource wr = a)
      | None => false
      end
  | _ => true
  end.

Definition cache_wf_check (st : D3D12.State) (w : World) : bool :=
  forallb (check_entry w) (map_to_list (D3D12.m_wrappedResources st))
  && forallb (check_object st) (map_to_list (objs w)).

(** ** References held, handles in use, the plugin's globals *)

(** Nothing lives at the null address, and every object of the heap is
    referenced. *)
Definition heap_ok (w : World) : Prop :=
  objs w !! 0%N = None ∧ ∀ p o, objs w !! p = Some o → 0 < o_refs o.

(** The number of references a list of pointers holds on [a]. *)
Definition held (a : N) (l : list N) : nat := length (filter (λ p, p = a) l).

(** [w] is [w0] with, on top, one reference for each pointer of [l]:
    an object of [w0] has that many references more, and an object that
    is not in [w0] lives on the references of [l] alone. *)
Definition holds (l : list N) (w0 w : World) : Prop :=
  ∀ a, match objs w0 !! a, objs w !! a with
       | Some o, Some o' =>
           o_serial o' = o_serial o ∧ o_kind o' = o_kind o
           ∧ o_refs o' = o_refs o + held a l
       | None, Some o' => o_refs o' = held a l ∧ 0 < held a l
       | Some _, None => False
       | None, None => held a l = 0
       end.

(** The pointer a [ComPtr] member holds, if any. *)
Definition nn (p : N) : list N := if is_null p then [] else [p].

(** The references the members of the D3D12 back end hold, in the order
    in which [ReleaseResources] drops them. *)
Definition D3D12_members (st : D3D12.State) : list N :=
  nn (D3D12.m_fence st) ++ nn (D3D12.m_compositionDevice st)
  ++ nn (D3D12.m_captureD3D11Context st) ++ nn (D3D12.m_captureD3D11Device st)
  ++ nn (D3D12.m_d3d11On12Device st) ++ nn (D3D12.m_d3d11Context st)
  ++ nn (D3D12.m_d3d11Device st) ++ nn (D3D12.m_d3d12CommandQueue st)
  ++ nn (D3D12.m_d3d12Device st).

(** The state [ReleaseResources] leaves: no device, no cached wrapper;
    the fence value stays. *)
Definition D3D12_released (fenceValue : Z) : D3D12.State :=
  D3D12.mkState 0 0 0 0 0 0 0 0 0 0 fenceValue ∅.

(** The references the members of the D3D11 back end hold. *)
Definition D3D11_members (st : D3D11.State) : list N :=
  nn (D3D11.m_compositionDevice st) ++ nn (D3D11.m_context st) ++ nn (D3D11.m_device st).

(** The views a list of commands acquires, and the views it releases. *)
Definition views_acquired (l : list GpuCall) : list N :=
  omap (λ c, match c.2 with AcquireWrappedResources v => Some v | _ => None end) l.

Definition views_released (l : list GpuCall) : list N :=
  omap (λ c, match c.2 with ReleaseWrappedResources v => Some v | _ => None end) l.

(** The texture's cached wrapper, if it has one, has a view that casts
    to [ID3D11Texture2D]. *)
Definition cached_view_is_texture (p : N) (st : D3D12.State) (w : World) : Prop :=
  ∀ wr o, D3D12.m_wrappedResources st !! p = Some wr →
          objs w !! D3D12.d3d11Resource wr = Some o →
          as_Texture2D (o_kind o) ≠ None.

(** A handle handed out by [CreateSharedTexture] of the render API and
    owned through that one reference. *)
Definition texture_owned (h : N) (o : ComObj) (api : RenderAPI.IRenderAPI) (w : World)
  : Prop :=
  match api with
  | RenderAPI.RenderAPI_D3D11 _ => D3D11_owned h o w
  | RenderAPI.RenderAPI_D3D12 st => D3D12_owned h o st w
  end.

(** The device [CreateSharedTexture] allocates on, the member its guard
    tests, and the kind of object it allocates. *)
Definition texture_device (api : RenderAPI.IRenderAPI) : N :=
  match api with
  | RenderAPI.RenderAPI_D3D11 st => D3D11.m_device st
  | RenderAPI.RenderAPI_D3D12 st => D3D12.m_d3d12Device st
  end.

Definition texture_kind (api : RenderAPI.IRenderAPI) (width height : Z) : ComKind :=
  match api with
  | RenderAPI.RenderAPI_D3D11 _ => KTexture2D width height
  | RenderAPI.RenderAPI_D3D12 _ => KResource12 width height
  end.

(** The handles in use are positive and below the next handle, which has
    not wrapped around. *)
Definition handles_ok (m : WebViewManager.State) : Prop :=
  (1 ≤ WebViewManager.m_nextHandle m < 2 ^ 32)%Z
  ∧ ∀ h, is_Some (WebViewManager.m_instances m !! h) →
         (1 ≤ h < WebViewManager.m_nextHandle m)%Z.

(** The wrappers a render API has cached; the D3D11 back end has none. *)
Definition wrappers_of (api : RenderAPI.IRenderAPI) : gmap N D3D12.WrappedResource :=
  match api with
  | RenderAPI.RenderAPI_D3D11 _ => ∅
  | RenderAPI.RenderAPI_D3D12 st => D3D12.m_wrappedResources st
  end.

(** The references the members of a render API hold, and the event
    handle it has open (null on the D3D11 back end, which has none). *)
Definition RenderAPI_members (api : RenderAPI.IRenderAPI) : list N :=
  match api with
  | RenderAPI.RenderAPI_D3D11 st => D3D11_members st
  | RenderAPI.RenderAPI_D3D12 st => D3D12_members st
  end.

Definition RenderAPI_event (api : RenderAPI.IRenderAPI) : N :=
  match api with
  | RenderAPI.RenderAPI_D3D11 _ => 0%N
  | RenderAPI.RenderAPI_D3D12 st => D3D12.m_fenceEvent st
  end.

(** The plugin has a manager only while it has a render API. *)
Definition Plugin_consistent (s : Plugin.State) (p : WebViewManager.Process) : Prop :=
  is_Some (Plugin.g_webViewManager s) → is_Some (WebViewManager.renderAPI p).

(** * Concrete states *)

(** A D3D11 back end bound to a device, and a world with a captured
    frame of 4 by 3 at address 5, a shared texture of the same size at 6
    and one of 8 by 3 at 7. *)
Definition ex_st11 : D3D11.State := D3D11.mkState 1 2 3.

Definition ex_w11 : World :=
  mkWorld (<[5%N := mkComObj 0 1 (KTexture2D 4 3)]>
          (<[6%N := mkComObj 1 1 (KTexture2D 4 3)]>
          (<[7%N := mkComObj 2 1 (KTexture2D 8 3)]> ∅)))
          3 ∅ [].

(** An initialised D3D12 back end.  The world has the captured frame at
    5; a shared texture of 4 by 3 at 30 with its wrapper view at 31; a
    shared texture of 8 by 3 at 40 that was never wrapped; and a texture
    of 4 by 3 at 50 whose cached view at 51 reports 2 by 2. *)
Definition ex_st12 : D3D12.State :=
  D3D12.mkState 100 101 200 201 200 210 211 220 230 60 0
    (<[30%N := D3D12.mkWrapped 7 30 31]> (<[50%N := D3D12.mkWrapped 8 50 51]> ∅)).

Definition ex_w12 : World :=
  mkWorld (<[5%N := mkComObj 0 1 (KTexture2D 4 3)]>
          (<[30%N := mkComObj 1 2 (KResource12 4 3)]>
          (<[31%N := mkComObj 2 1 (KWrapped11 30 (Some (4, 3)%Z))]>
          (<[40%N := mkComObj 3 1 (KResource12 8 3)]>
          (<[50%N := mkComObj 4 2 (KResource12 4 3)]>
          (<[51%N := mkComObj 5 1 (KWrapped11 50 (Some (2, 2)%Z))]> ∅))))))
          10 {[60%N]} [].

Definition ex_copy_env : D3D12.CopyEnv := D3D12.mkCopyEnv None (Some 70%N) (Some 16%Z).
Definition ex_wait : D3D12.WaitEnv := D3D12.mkWaitEnv true 0 true.

(** The host engine's device (adapter LUID 7, 0) at 100 and its queue at
    101, before the back end is initialised. *)
Definition ex_w_host : World :=
  mkWorld (<[100%N := mkComObj 0 1 (KDevice12 7 0)]>
          (<[101%N := mkComObj 1 1 KQueue12]> ∅))
          2 ∅ [].

(** Every call of the initialisation succeeds. *)
Definition ex_init_ok (base : N) (event : N) : D3D12.InitEnv :=
  D3D12.mkInitEnv (Some (Some (100, 101)%N))
    (Some (base, base + 1)%N) true true [(3, 0)%Z; (7, 0)%Z]
    (Some (base + 2, base + 3)%N) true (Some (base + 4)%N) (Some (base + 5)%N) event.

(** The interop device is created; the capture device is not. *)
Definition ex_init_capture_fails : D3D12.InitEnv :=
  D3D12.mkInitEnv (Some (Some (100, 101)%N))
    (Some (200, 201)%N) true true [(3, 0)%Z; (7, 0)%Z]
    None true (Some 204%N) (Some 205%N) 60.

(** A ready browser instance of 800 by 600. *)
Definition ex_webView : Capture.WebView := Capture.mkWebView true 1 2 3 800 600.

(** The visual tree can be built; the back end has no capture device. *)
Definition ex_capture_env_no_device : Capture.Env :=
  Capture.mkEnv true true true true true true true true true true true true true
    0 true true true true true true (Some (800, 600)%Z) true true true.

(** The host engine's D3D11 device at 1 and its immediate context at 2,
    before the back end is initialised. *)
Definition ex_w11_host : World :=
  mkWorld (<[1%N := mkComObj 0 1 (KDevice11 None)]>
          (<[2%N := mkComObj 1 1 KContext11]> ∅))
          2 ∅ [].

Definition ex_init11 : D3D11.InitEnv := D3D11.mkInitEnv (Some (Some (1, 2)%N)) true (Some 3%N).

(** Every call of [Initialize] succeeds; the capture item reports a
    size of 640 by 480. *)
Definition ex_capture_env_ok : Capture.Env :=
  Capture.mkEnv true true true true true true true true true true true true true
    210 true true true true true true (Some (640, 480)%Z) true true true.

(** A started capture session of 640 by 480, as [Initialize] leaves it. *)
Definition ex_capture_started : Capture.State :=
  Capture.mkState true true true true (Some (640, 480)%Z)
    (Some (Capture.mkFramePool 640 480 2)) (Some (Capture.mkSession true)) true.

Definition ex_resize_ok : Capture.ResizeEnv :=
  Capture.mkResizeEnv true true true true true true true.

(** A ready web view of 4 by 3 that owns the texture at 5, and the
    answers to a resize whose allocation gives the address 9. *)
Definition ex_view : WebView.State :=
  WebView.mkState 1 true 4 3 WebView.Ready 11 12 13 14 15 None 5.

Definition ex_resize_answers : WebView.ResizeAnswers :=
  WebView.mkResizeAnswers ex_wait (Some 9%N) ex_resize_ok.

(** An initialised manager without web views, in a process whose render
    API is the D3D11 back end of the examples; the answers to the creation
    of a web view whose window is at 15 and whose texture at 9, and the
    same with a WebView2 environment that cannot be created. *)
Definition ex_manager : WebViewManager.State :=
  WebViewManager.mkState true false true ∅ 1 0 0 0 0.

Definition ex_process : WebViewManager.Process :=
  WebViewManager.mkProcess ex_w11 (Some (RenderAPI.RenderAPI_D3D11 ex_st11)) true false false.

Definition ex_init_answers : WebView.InitAnswers :=
  WebView.mkInitAnswers true 15 (Some 9%N) true.

Definition ex_init_answers_no_environment : WebView.InitAnswers :=
  WebView.mkInitAnswers true 15 (Some 9%N) false.

(** The plugin as the host has loaded it, in a process with the host's
    D3D11 device; the answers of a host on D3D11, with an apartment that
    can be initialised, and with one that cannot. *)
Definition ex_plugin : Plugin.State := Plugin.mkState None true 0 21 22 23.

Definition ex_process_host : WebViewManager.Process :=
  WebViewManager.mkProcess ex_w11_host None false false false.

Definition ex_answers (apartment : WebViewManager.ApartmentAnswer) : Plugin.Answers :=
  Plugin.mkAnswers true (Some (1, 2)%N) None ex_init11 (ex_init_ok 200 60) ex_wait
    apartment true.

(** The answers to the handler of the controller: the controller at 33,
    the [CoreWebView2] at 34. *)
Definition ex_controller_answers : WebView.ControllerAnswers :=
  WebView.mkControllerAnswers (Some 33%N) (Some 34%N) ex_capture_env_ok.

Definition ex_restore_answers : WebView.RestoreAnswers :=
  WebView.mkRestoreAnswers (Some 9%N) ex_capture_env_ok.

(** The initialised plugin, with the manager and the process of the
    examples. *)
Definition ex_plugin_initialized : Plugin.State :=
  Plugin.mkState (Some ex_manager) true RenderAPI.GraphicsAPI_Direct3D11 0 0 0.

(** The web view of [ex_view] with a started capture session. *)
Definition ex_view_capturing : WebView.State :=
  WebView.mkState 1 true 4 3 WebView.Ready 11 12 13 14 15 (Some ex_capture_started) 5.

(** * Properties *)

(** ** Machine integers and the counted loop *)

Lemma to_UINT_small z : (0 ≤ z < UINT_modulus)%Z → to_UINT z = z.
Proof. intros. unfold to_UINT. by rewrite Z.mod_small. Qed.

Lemma is_null_false p : is_null p = false ↔ p ≠ 0%N.
Proof. unfold is_null. by rewrite N.eqb_neq. Qed.

Lemma is_null_true p : is_null p = true ↔ p = 0%N.
Proof. unfold is_null. by rewrite N.eqb_eq. Qed.

Lemma for_UINT_from_foldl {A} (body : Z → A → A) bound fuel : ∀ (y : nat) (a : A),
  (Z.of_nat y + Z.of_nat fuel = bound)%Z → (bound < UINT_modulus)%Z →
  for_UINT_from fuel (Z.of_nat y) bound body a
  = foldl (λ acc r, body r acc) a (Z.of_nat <$> seq y fuel).
Proof.
  induction fuel as [|fuel IH]; intros y a Hsum Hlt; simpl; [done|].
  destruct (Z.ltb_spec (Z.of_nat y) bound) as [_|?]; [|lia].
  replace (UINT_add (Z.of_nat y) 1) with (Z.of_nat (S y)).
  - apply IH; lia.
  - unfold UINT_add. rewrite to_UINT_small; lia.
Qed.

Lemma for_UINT_foldl {A} (body : Z → A → A) bound (a : A) :
  (0 ≤ bound < UINT_modulus)%Z →
  for_UINT bound body a = foldl (λ acc r, body r acc) a (rows bound).
Proof.
  intros [? ?]. unfold for_UINT, rows.
  apply (for_UINT_from_foldl body bound (Z.to_nat bound) 0 a); lia.
Qed.

Lemma elem_of_rows n y : y ∈ rows n ↔ (0 ≤ y < n)%Z.
Proof.
  unfold rows. rewrite list_elem_of_fmap. split.
  - intros (k & -> & Hk). apply elem_of_seq in Hk. lia.
  - intros [? ?]. exists (Z.to_nat y). split; [lia|]. apply elem_of_seq. lia.
Qed.

Lemma rows_lookup n (i : nat) : (Z.of_nat i < n)%Z → rows n !! i = Some (Z.of_nat i).
Proof.
  intros. unfold rows. rewrite list_lookup_fmap, lookup_seq_lt; [done|lia].
Qed.

Lemma length_rows n : length (rows n) = Z.to_nat n.
Proof. unfold rows. by rewrite length_fmap, length_seq. Qed.

(** A run of [submit]s only appends to the log. *)
Lemma foldl_submit (on : N) (f : Z → GpuOp) (l : list Z) (w : World) :
  foldl (λ acc r, submit on (f r) acc) w l
  = mkWorld (objs w) (next_serial w) (handles w) (gpu_log w ++ ((λ r, (on, f r)) <$> l)).
Proof.
  revert w. induction l as [|r l IH]; intros w; simpl.
  - rewrite app_nil_r. by destruct w.
  - rewrite IH. simpl. by rewrite <- app_assoc.
Qed.

(** ** The COM heap *)

Lemma GetDesc11_Some p w W H :
  GetDesc11 p w = Some (W, H) ↔ ∃ o, objs w !! p = Some o ∧ o_kind o = KTexture2D W H.
Proof.
  unfold GetDesc11. split.
  - destruct (objs w !! p) as [o|] eqn:E; simpl; [|done].
    destruct (o_kind o) eqn:K; try done. intros [= -> ->]. eauto.
  - intros (o & -> & K). simpl. by rewrite K.
Qed.

Lemma GetDesc12_Some p w W H :
  GetDesc12 p w = Some (W, H) ↔ ∃ o, objs w !! p = Some o ∧ o_kind o = KResource12 W H.
Proof.
  unfold GetDesc12. split.
  - destruct (objs w !! p) as [o|] eqn:E; simpl; [|done].
    destruct (o_kind o) eqn:K; try done. intros [= -> ->]. eauto.
  - intros (o & -> & K). simpl. by rewrite K.
Qed.

Lemma com_new_Some a k w :
  a ≠ 0%N → objs w !! a = None →
  com_new a k w = Some (mkWorld (<[a := mkComObj (next_serial w) 1 k]> (objs w))
                          (N.succ (next_serial w)) (handles w) (gpu_log w)).
Proof.
  intros Ha Hfree. unfold com_new.
  apply is_null_false in Ha. by rewrite Ha, Hfree.
Qed.

Lemma com_new_inv a k w w' :
  com_new a k w = Some w' →
  a ≠ 0%N ∧ objs w !! a = None ∧
  w' = mkWorld (<[a := mkComObj (next_serial w) 1 k]> (objs w))
         (N.succ (next_serial w)) (handles w) (gpu_log w).
Proof.
  unfold com_new. destruct (is_null a) eqn:Hn; [done|].
  destruct (objs w !! a) eqn:E; [done|]. intros [= <-].
  by apply is_null_false in Hn.
Qed.

(** ** Mismatched sizes: the frame is skipped *)

Lemma dims_differ_test (a b c d : Z) :
  a ≠ c ∨ b ≠ d → negb (a =? c)%Z || negb (b =? d)%Z = true.
Proof.
  intros [?|?]; apply orb_true_iff; [left|right];
    apply negb_true_iff, Z.eqb_neq; done.
Qed.

Lemma D3D11_copy_mismatch src dst flipY st w srcW srcH dstW dstH :
  GetDesc11 src w = Some (srcW, srcH) →
  GetDesc11 dst w = Some (dstW, dstH) →
  srcW ≠ dstW ∨ srcH ≠ dstH →
  D3D11.CopyCapturedTextureToUnityTexture src dst flipY st w = Some w.
Proof.
  intros Hs Hd Hne. unfold D3D11.CopyCapturedTextureToUnityTexture.
  destruct (_ || _ || _); [done|].
  rewrite Hs. simpl. rewrite Hd. simpl.
  by rewrite dims_differ_test.
Qed.

Lemma D3D12_copy_mismatch src dst flipY env st w srcW srcH dstW dstH :
  GetDesc11 src w = Some (srcW, srcH) →
  GetDesc12 dst w = Some (dstW, dstH) →
  (0 ≤ dstW < UINT_modulus)%Z → (0 ≤ dstH < UINT_modulus)%Z →
  srcW ≠ dstW ∨ srcH ≠ dstH →
  D3D12.CopyCapturedTextureToUnityTexture src dst flipY env st w = Some (st, w).
Proof.
  intros Hs Hd HW HH Hne. unfold D3D12.CopyCapturedTextureToUnityTexture.
  destruct (_ || _); [done|].
  rewrite Hs. simpl. rewrite Hd. simpl.
  rewrite !to_UINT_small by done.
  by rewrite dims_differ_test.
Qed.

(** C1.  When the captured surface and the destination surface differ in
    width or in height, [CopyCapturedTextureToUnityTexture] returns
    normally on both back ends and leaves everything as it was: no command
    is submitted, no object is created or released, and on the D3D12 back
    end the wrap cache is not consulted.  The destination of the D3D12
    back end is a 2D texture, whose dimensions fit a [UINT]. *)
Theorem C1_mismatch_skips_frame :
  (∀ src dst flipY st w srcW srcH dstW dstH,
      GetDesc11 src w = Some (srcW, srcH) →
      GetDesc11 dst w = Some (dstW, dstH) →
      srcW ≠ dstW ∨ srcH ≠ dstH →
      D3D11.CopyCapturedTextureToUnityTexture src dst flipY st w = Some w)
  ∧
  (∀ src dst flipY env st w srcW srcH dstW dstH,
      GetDesc11 src w = Some (srcW, srcH) →
      GetDesc12 dst w = Some (dstW, dstH) →
      (0 ≤ dstW < UINT_modulus)%Z → (0 ≤ dstH < UINT_modulus)%Z →
      srcW ≠ dstW ∨ srcH ≠ dstH →
      D3D12.CopyCapturedTextureToUnityTexture src dst flipY env st w = Some (st, w)).
Proof.
  split.
  - intros. by eapply D3D11_copy_mismatch.
  - intros. by eapply D3D12_copy_mismatch.
Qed.

(** ** CreateSharedTexture *)

Lemma D3D11_create_null_out width height hr st w :
  D3D11.CreateSharedTexture width height None hr st w = Some (ErrorNotInitialized, None, w).
Proof.
  unfold D3D11.CreateSharedTexture. by rewrite bool_decide_eq_true_2, orb_true_r.
Qed.

Lemma D3D12_create_null_out width height hr st w :
  D3D12.CreateSharedTexture width height None hr st w = Some (ErrorNotInitialized, None, w).
Proof.
  unfold D3D12.CreateSharedTexture. by rewrite bool_decide_eq_true_2, orb_true_r.
Qed.

Lemma D3D11_create_spec width height out hr st w :
  D3D11.CreateSharedTexture width height out hr st w =
    if is_null (D3D11.m_device st) then Some (ErrorNotInitialized, out, w)
    else match out, hr with
         | None, _ => Some (ErrorNotInitialized, out, w)
         | Some _, None => Some (ErrorTextureCreationFailed, out, w)
         | Some _, Some a =>
             w1 ← com_new a (KTexture2D width height) w; Some (Success, Some a, w1)
         end.
Proof.
  unfold D3D11.CreateSharedTexture.
  destruct (is_null (D3D11.m_device st)); [done|]. by destruct out, hr.
Qed.

Lemma D3D12_create_spec width height out hr st w :
  D3D12.CreateSharedTexture width height out hr st w =
    if is_null (D3D12.m_d3d12Device st) then Some (ErrorNotInitialized, out, w)
    else match out, hr with
         | None, _ => Some (ErrorNotInitialized, out, w)
         | Some _, None => Some (ErrorTextureCreationFailed, out, w)
         | Some _, Some a =>
             w1 ← com_new a (KResource12 width height) w; Some (Success, Some a, w1)
         end.
Proof.
  unfold D3D12.CreateSharedTexture.
  destruct (is_null (D3D12.m_d3d12Device st)); [done|]. by destruct out, hr.
Qed.

(** C10.  With a null output pointer [CreateSharedTexture] returns
    [ErrorNotInitialized] on both back ends, whether or not a device is
    bound and whatever the allocation would have answered; the world is
    left as it was, so no texture is allocated. *)
Theorem C10_null_output_is_NotInitialized :
  ∀ width height hr w,
    (∀ st, D3D11.CreateSharedTexture width height None hr st w
           = Some (ErrorNotInitialized, None, w))
    ∧ (∀ st, D3D12.CreateSharedTexture width height None hr st w
             = Some (ErrorNotInitialized, None, w)).
Proof.
  intros. split; intros st.
  - apply D3D11_create_null_out.
  - apply D3D12_create_null_out.
Qed.

Lemma com_new_created a k w :
  a ≠ 0%N → objs w !! a = None → ∃ w', com_new a k w = Some w' ∧ created k a w w'.
Proof.
  intros Ha Hfree. rewrite com_new_Some by done.
  eexists. split; [done|]. by repeat split.
Qed.

(** C8.  For every width and height and an output pointer that is not
    null, [CreateSharedTexture] returns [ErrorNotInitialized] when no
    device is bound, [ErrorTextureCreationFailed] when a device is bound
    and the allocation fails, and otherwise [Success] with the address
    of the new texture stored through the output pointer.  Whenever it
    returns [Success] the handle is not null and denotes a new texture
    of that size with one reference.  A successful allocation answers
    with an address that is not null and not in use. *)
Theorem C8_CreateSharedTexture_results :
  ∀ width height (v : N) (hr : option N) w,
    (∀ st,
        (is_null (D3D11.m_device st) = true →
         D3D11.CreateSharedTexture width height (Some v) hr st w
         = Some (ErrorNotInitialized, Some v, w))
        ∧ (is_null (D3D11.m_device st) = false → hr = None →
           D3D11.CreateSharedTexture width height (Some v) hr st w
           = Some (ErrorTextureCreationFailed, Some v, w))
        ∧ (∀ a, is_null (D3D11.m_device st) = false → hr = Some a →
                a ≠ 0%N → objs w !! a = None →
                ∃ w', D3D11.CreateSharedTexture width height (Some v) hr st w
                      = Some (Success, Some a, w')
                      ∧ created (KTexture2D width height) a w w')
        ∧ (∀ out' w',
             D3D11.CreateSharedTexture width height (Some v) hr st w
             = Some (Success, out', w') →
             ∃ a, out' = Some a ∧ a ≠ 0%N ∧ hr = Some a
                  ∧ is_null (D3D11.m_device st) = false
                  ∧ created (KTexture2D width height) a w w'))
    ∧
    (∀ st,
        (is_null (D3D12.m_d3d12Device st) = true →
         D3D12.CreateSharedTexture width height (Some v) hr st w
         = Some (ErrorNotInitialized, Some v, w))
        ∧ (is_null (D3D12.m_d3d12Device st) = false → hr = None →
           D3D12.CreateSharedTexture width height (Some v) hr st w
           = Some (ErrorTextureCreationFailed, Some v, w))
        ∧ (∀ a, is_null (D3D12.m_d3d12Device st) = false → hr = Some a →
                a ≠ 0%N → objs w !! a = None →
                ∃ w', D3D12.CreateSharedTexture width height (Some v) hr st w
                      = Some (Success, Some a, w')
                      ∧ created (KResource12 width height) a w w')
        ∧ (∀ out' w',
             D3D12.CreateSharedTexture width height (Some v) hr st w
             = Some (Success, out', w') →
             ∃ a, out' = Some a ∧ a ≠ 0%N ∧ hr = Some a
                  ∧ is_null (D3D12.m_d3d12Device st) = false
                  ∧ created (KResource12 width height) a w w')).
Proof.
  intros width height v hr w. split; intros st.
  - rewrite D3D11_create_spec. split; [|split; [|split]].
    + by intros ->.
    + by intros -> ->.
    + intros a -> -> Ha Hfree.
      destruct (com_new_created a (KTexture2D width height) w Ha Hfree) as (w' & -> & ?).
      eauto.
    + intros out' w'. destruct (is_null (D3D11.m_device st)); [done|].
      destruct hr as [a|]; [|done].
      destruct (com_new a _ w) as [w1|] eqn:Hn; simpl; [|done].
      intros [= <- <-]. apply com_new_inv in Hn as (Ha & Hfree & ->).
      exists a. by repeat split.
  - rewrite D3D12_create_spec. split; [|split; [|split]].
    + by intros ->.
    + by intros -> ->.
    + intros a -> -> Ha Hfree.
      destruct (com_new_created a (KResource12 width height) w Ha Hfree) as (w' & -> & ?).
      eauto.
    + intros out' w'. destruct (is_null (D3D12.m_d3d12Device st)); [done|].
      destruct hr as [a|]; [|done].
      destruct (com_new a _ w) as [w1|] eqn:Hn; simpl; [|done].
      intros [= <- <-]. apply com_new_inv in Hn as (Ha & Hfree & ->).
      exists a. by repeat split.
Qed.

(** ** ResizeSharedTexture *)

Lemma Release_last p w o :
  objs w !! p = Some o → o_refs o ≤ 1 → Release p w = Some (set_objs (delete p) w).
Proof.
  intros Ho Hr. unfold Release. rewrite Ho. simpl.
  destruct (o_refs o) as [|[|n]]; [done|done|lia].
Qed.

Lemma Release_shared p w o n :
  objs w !! p = Some o → o_refs o = S (S n) →
  Release p w = Some (set_objs (insert p (mkComObj (o_serial o) (S n) (o_kind o))) w).
Proof. intros Ho Hr. unfold Release. rewrite Ho. simpl. by rewrite Hr. Qed.

Lemma Release_is_Some p w : is_Some (objs w !! p) → is_Some (Release p w).
Proof. intros [o Ho]. unfold Release. rewrite Ho. simpl. eauto. Qed.

Lemma D3D11_resize_null_out h newW newH hr st w :
  D3D11.ResizeSharedTexture h newW newH None hr st w = Some (ErrorInvalidHandle, None, w).
Proof. done. Qed.

Lemma invalidated_delete p o w : invalidated p o (set_objs (delete p) w).
Proof. intros o'. simpl. by rewrite lookup_delete_eq. Qed.

Lemma D3D11_resize_destroys h o newW newH v hr st w :
  D3D11_owned h o w → fresh_after_release h hr w →
  ∃ r out' w',
    D3D11.ResizeSharedTexture h newW newH (Some v) hr st w = Some (r, out', w')
    ∧ invalidated h o w'
    ∧ (r = Success →
       ∃ a o', out' = Some a ∧ a ≠ 0%N ∧ objs w' !! a = Some o'
               ∧ o_kind o' = KTexture2D newW newH ∧ o_refs o' = 1
               ∧ o_serial o' = next_serial w)
    ∧ (r ≠ Success → out' = Some v ∧ objs w' !! h = None).
Proof.
  intros (Hh & Ho & (W & H & Hk) & Hrefs & Hser) Hfresh.
  unfold D3D11.ResizeSharedTexture, D3D11.DestroySharedTexture. simpl.
  rewrite (proj2 (is_null_false h) Hh).
  rewrite (proj2 (GetDesc11_Some h w W H)) by eauto. simpl.
  rewrite (Release_last h w o) by (done || lia). simpl.
  rewrite D3D11_create_spec.
  set (w1 := set_objs (delete h) w).
  destruct (is_null (D3D11.m_device st)).
  { exists ErrorNotInitialized, (Some v), w1. split; [done|].
    split; [apply invalidated_delete|]. split; [done|].
    intros _. split; [done|]. apply lookup_delete_eq. }
  destruct hr as [a|].
  2:{ exists ErrorTextureCreationFailed, (Some v), w1. split; [done|].
      split; [apply invalidated_delete|]. split; [done|].
      intros _. split; [done|]. apply lookup_delete_eq. }
  destruct (Hfresh a eq_refl) as [Ha Hfree].
  assert (objs w1 !! a = None) as Hfree1.
  { subst w1. simpl. destruct Hfree as [->|?]; [apply lookup_delete_eq|].
    rewrite lookup_delete. by case_decide. }
  rewrite (com_new_Some a _ w1) by done. simpl.
  eexists Success, (Some a), _. split; [done|]. split; [|split].
  - intros o'. simpl. destruct (decide (a = h)) as [->|Hne].
    + rewrite lookup_insert_eq. intros [= <-]. simpl. lia.
    + rewrite lookup_insert_ne, lookup_delete_eq by done. done.
  - intros _. eexists a, _. simpl. rewrite lookup_insert_eq. done.
  - done.
Qed.

Lemma Release_inv p w w' :
  Release p w = Some w' →
  ∃ o, objs w !! p = Some o ∧
       next_serial w' = next_serial w ∧ handles w' = handles w ∧ gpu_log w' = gpu_log w ∧
       ((o_refs o ≤ 1 ∧ objs w' = delete p (objs w))
        ∨ (∃ n, o_refs o = S (S n)
                ∧ objs w' = <[p := mkComObj (o_serial o) (S n) (o_kind o)]> (objs w))).
Proof.
  unfold Release. destruct (objs w !! p) as [o|] eqn:Ho; simpl; [|done].
  intros [= <-]. exists o. split; [done|].
  destruct (o_refs o) as [|[|n]] eqn:Hr; simpl; repeat split; eauto; left; split; (lia || done).
Qed.

Lemma Release_lookup_ne p q w w' :
  Release p w = Some w' → q ≠ p → objs w' !! q = objs w !! q.
Proof.
  intros (o & _ & _ & _ & _ & [[_ ->]|(n & _ & ->)])%Release_inv Hne.
  - by rewrite lookup_delete_ne.
  - by rewrite lookup_insert_ne.
Qed.

Lemma Release_lookup_None p q w w' :
  Release p w = Some w' → objs w !! q = None → objs w' !! q = None.
Proof.
  intros HR Hq. destruct (decide (q = p)) as [->|Hne].
  - apply Release_inv in HR as (o & Ho & _). congruence.
  - by rewrite (Release_lookup_ne p q w w').
Qed.

Lemma ComPtr_Reset_inv p w w' :
  ComPtr_Reset p w = Some w' → w' = w ∨ (p ≠ 0%N ∧ Release p w = Some w').
Proof.
  unfold ComPtr_Reset. destruct (is_null p) eqn:Hn.
  - intros [= <-]. by left.
  - intros. right. split; [by apply is_null_false|done].
Qed.

Lemma ComPtr_Reset_lookup_ne p q w w' :
  ComPtr_Reset p w = Some w' → q ≠ p → objs w' !! q = objs w !! q.
Proof.
  intros [->|[_ HR]]%ComPtr_Reset_inv Hne; [done|]. by eapply Release_lookup_ne.
Qed.

Lemma ComPtr_Reset_lookup_None p q w w' :
  ComPtr_Reset p w = Some w' → objs w !! q = None → objs w' !! q = None.
Proof.
  intros [->|[_ HR]]%ComPtr_Reset_inv Hq; [done|]. by eapply Release_lookup_None.
Qed.

Lemma ComPtr_Reset_serial p w w' :
  ComPtr_Reset p w = Some w' →
  next_serial w' = next_serial w ∧ handles w' = handles w ∧ gpu_log w' = gpu_log w.
Proof.
  intros [->|[_ HR]]%ComPtr_Reset_inv; [done|].
  apply Release_inv in HR as (o & _ & ? & ? & ? & _). done.
Qed.

Lemma ComPtr_Reset_is_Some p w :
  p = 0%N ∨ is_Some (objs w !! p) → is_Some (ComPtr_Reset p w).
Proof.
  unfold ComPtr_Reset. destruct (is_null p) eqn:Hn; [eauto|].
  intros [->|?]; [done|]. by apply Release_is_Some.
Qed.

(** [WaitForGPU] advances the fence value and submits to the queue and
    the fence; it leaves the heap and every other member alone. *)
Lemma D3D12_WaitForGPU_inv wait st w st1 w1 :
  D3D12.WaitForGPU wait st w = (st1, w1) →
  (∃ v, st1 = D3D12.set_fenceValue v st) ∧
  objs w1 = objs w ∧ next_serial w1 = next_serial w ∧ handles w1 = handles w
  ∧ ∃ l, gpu_log w1 = gpu_log w ++ l.
Proof.
  unfold D3D12.WaitForGPU.
  destruct (_ || _ || _).
  { intros [= <- <-]. split; [exists (D3D12.m_fenceValue st); by destruct st|].
    repeat split. exists []. by rewrite app_nil_r. }
  destruct (negb _).
  { intros [= <- <-]. split; [eauto|]. repeat split. simpl. eauto. }
  destruct (_ <? _)%Z.
  2:{ intros [= <- <-]. split; [eauto|]. repeat split. simpl. eauto. }
  destruct (D3D12.set_event_ok wait); intros [= <- <-]; (split; [eauto|]); repeat split; simpl.
  - rewrite <- !app_assoc. eauto.
  - rewrite <- !app_assoc. eauto.
Qed.

Lemma D3D12_resize_null_out h newW newH wait hr st w :
  D3D12.ResizeSharedTexture h newW newH None wait hr st w
  = Some (ErrorInvalidHandle, None, st, w).
Proof. done. Qed.

(** Destroying an owned texture: the wrapper goes first, then the
    texture itself. *)
Lemma D3D12_destroy_owned h o st w :
  D3D12_owned h o st w →
  ∃ st' w',
    D3D12.DestroySharedTexture h st w = Some (st', w')
    ∧ st' = D3D12.set_wrappedResources (delete h (D3D12.m_wrappedResources st)) st
    ∧ objs w' !! h = None
    ∧ (∀ q, objs w !! q = None → objs w' !! q = None)
    ∧ next_serial w' = next_serial w ∧ handles w' = handles w ∧ gpu_log w' = gpu_log w.
Proof.
  intros (Hh & Ho & (W & H & Hk) & Hser & Hcache).
  unfold D3D12.DestroySharedTexture, D3D12.erase.
  rewrite (proj2 (is_null_false h) Hh).
  destruct (D3D12.m_wrappedResources st !! h) as [wr|] eqn:Hwr.
  - destruct Hcache as (Hk12 & Hne & Hlive & Hrefs).
    unfold D3D12.destroy_WrappedResource.
    destruct (ComPtr_Reset_is_Some (D3D12.d3d11Resource wr) w) as [w1 Hw1]; [by right|].
    rewrite Hw1. simpl. rewrite Hk12.
    assert (objs w1 !! h = Some o) as Ho1.
    { rewrite <- Ho. eapply ComPtr_Reset_lookup_ne; eauto. }
    unfold ComPtr_Reset at 1. rewrite (proj2 (is_null_false h) Hh).
    rewrite (Release_shared h w1 o 0) by done. simpl.
    set (w2 := set_objs _ w1).
    assert (objs w2 !! h = Some (mkComObj (o_serial o) 1 (o_kind o))) as Ho2.
    { subst w2. simpl. apply lookup_insert_eq. }
    rewrite (proj2 (GetDesc12_Some h w2 W H)) by eauto. simpl.
    rewrite (Release_last h w2 _ Ho2) by (simpl; lia). simpl.
    destruct (ComPtr_Reset_serial _ _ _ Hw1) as (? & ? & ?).
    eexists _, _. split; [done|]. split; [done|]. simpl. repeat split; try done.
    + apply lookup_delete_eq.
    + intros q Hq. destruct (decide (q = h)) as [->|Hqh]; [apply lookup_delete_eq|].
      rewrite lookup_delete_ne, lookup_insert_ne by done.
      eapply ComPtr_Reset_lookup_None; eauto.
  - simpl. rewrite (proj2 (GetDesc12_Some h w W H)) by eauto. simpl.
    rewrite (Release_last h w o) by (done || lia). simpl.
    eexists _, _. split; [done|]. split.
    { rewrite delete_id by done. by destruct st. }
    simpl. repeat split; try done.
    + apply lookup_delete_eq.
    + intros q Hq. rewrite lookup_delete. by case_decide.
Qed.

Lemma D3D12_resize_destroys h o newW newH v wait hr st w :
  D3D12_owned h o st w → fresh_after_release h hr w →
  ∃ r out' st' w',
    D3D12.ResizeSharedTexture h newW newH (Some v) wait hr st w = Some (r, out', st', w')
    ∧ invalidated h o w'
    ∧ D3D12.m_wrappedResources st' !! h = None
    ∧ (r = Success →
       ∃ a o', out' = Some a ∧ a ≠ 0%N ∧ objs w' !! a = Some o'
               ∧ o_kind o' = KResource12 newW newH ∧ o_refs o' = 1
               ∧ o_serial o' = next_serial w)
    ∧ (r ≠ Success → out' = Some v ∧ objs w' !! h = None).
Proof.
  intros Hown Hfresh.
  unfold D3D12.ResizeSharedTexture. simpl.
  destruct (D3D12.WaitForGPU wait st w) as [st1 w1] eqn:Hwait.
  apply D3D12_WaitForGPU_inv in Hwait as ((fv & ->) & Hobjs & Hser1 & _ & _).
  assert (D3D12_owned h o (D3D12.set_fenceValue fv st) w1) as Hown1.
  { unfold D3D12_owned in *. simpl. rewrite Hobjs, Hser1. done. }
  destruct (D3D12_destroy_owned h o _ w1 Hown1)
    as (st2 & w2 & -> & -> & Hgone & Hkeep & Hser2 & _ & _).
  simpl. rewrite D3D12_create_spec. simpl.
  destruct Hown as (Hh & Ho & _ & Hser & _).
  assert (invalidated h o w2) as Hinv2 by (intros o'; by rewrite Hgone).
  destruct (is_null (D3D12.m_d3d12Device st)).
  { eexists ErrorNotInitialized, (Some v), _, w2. split; [done|].
    split; [done|]. split; [apply lookup_delete_eq|]. split; done. }
  destruct hr as [a|].
  2:{ eexists ErrorTextureCreationFailed, (Some v), _, w2. split; [done|].
      split; [done|]. split; [apply lookup_delete_eq|]. split; done. }
  destruct (Hfresh a eq_refl) as [Ha Hfree].
  assert (objs w2 !! a = None) as Hfree2.
  { destruct Hfree as [->|?]; [done|]. apply Hkeep. by rewrite Hobjs. }
  rewrite (com_new_Some a _ w2) by done. simpl.
  eexists Success, (Some a), _, _. split; [done|]. split; [|split; [|split]].
  - intros o'. simpl. destruct (decide (a = h)) as [->|Hne].
    + rewrite lookup_insert_eq. intros [= <-]. simpl. lia.
    + rewrite lookup_insert_ne, Hgone by done. done.
  - apply lookup_delete_eq.
  - intros _. eexists a, _. simpl. rewrite lookup_insert_eq.
    repeat split; try done. simpl. congruence.
  - done.
Qed.

(** What [ResizeSharedTexture] does on the D3D11 back end with an output
    pointer that is not null: the creation, in the world the destruction
    leaves. *)
Lemma D3D11_resize_is_destroy_then_create h o newW newH v hr st w :
  D3D11_owned h o w →
  ∃ w1,
    D3D11.DestroySharedTexture h st w = Some w1
    ∧ objs w1 = delete h (objs w) ∧ next_serial w1 = next_serial w
    ∧ D3D11.ResizeSharedTexture h newW newH (Some v) hr st w
      = D3D11.CreateSharedTexture newW newH (Some v) hr st w1.
Proof.
  intros (Hh & Ho & (W & H & Hk) & Hrefs & Hser).
  unfold D3D11.ResizeSharedTexture, D3D11.DestroySharedTexture. simpl.
  rewrite (proj2 (is_null_false h) Hh).
  rewrite (proj2 (GetDesc11_Some h w W H)) by eauto. simpl.
  rewrite (Release_last h w o) by (done || lia). simpl.
  eexists. split; [reflexivity|]. done.
Qed.

(** The same on the D3D12 back end, where the GPU is waited for first. *)
Lemma D3D12_resize_is_destroy_then_create h o newW newH v wait hr st w :
  D3D12_owned h o st w →
  ∃ st0 w0 st1 w1,
    D3D12.WaitForGPU wait st w = (st0, w0)
    ∧ D3D12.DestroySharedTexture h st0 w0 = Some (st1, w1)
    ∧ objs w1 !! h = None ∧ D3D12.m_wrappedResources st1 !! h = None
    ∧ (∀ q, objs w !! q = None → objs w1 !! q = None)
    ∧ next_serial w1 = next_serial w
    ∧ D3D12.m_d3d12Device st1 = D3D12.m_d3d12Device st
    ∧ D3D12.ResizeSharedTexture h newW newH (Some v) wait hr st w
      = '(r, out', w') ← D3D12.CreateSharedTexture newW newH (Some v) hr st1 w1;
        Some (r, out', st1, w').
Proof.
  intros Hown. unfold D3D12.ResizeSharedTexture. simpl.
  destruct (D3D12.WaitForGPU wait st w) as [st0 w0] eqn:Hwait.
  apply D3D12_WaitForGPU_inv in Hwait as ((fv & ->) & Hobjs & Hser1 & _ & _).
  assert (D3D12_owned h o (D3D12.set_fenceValue fv st) w0) as Hown1.
  { unfold D3D12_owned in *. simpl. rewrite Hobjs, Hser1. done. }
  destruct (D3D12_destroy_owned h o _ w0 Hown1)
    as (st1 & w1 & Hd & -> & Hgone & Hkeep & Hser2 & _ & _).
  eexists _, _, _, _. split; [reflexivity|]. split; [exact Hd|].
  split; [done|]. split; [simpl; apply lookup_delete_eq|].
  split; [intros q Hq; apply Hkeep; by rewrite Hobjs|].
  split; [congruence|]. split; [done|].
  rewrite Hd. simpl.
  by destruct (D3D12.CreateSharedTexture _ _ _ _ _ _) as [[[? ?] ?]|].
Qed.

(** C3.  For every owned handle and every new size, the old one
    included, [ResizeSharedTexture] is the destruction of the old texture
    followed by a creation: its result, the handle it stores and the
    world it leaves are those of [CreateSharedTexture] run after
    [DestroySharedTexture] (on the D3D12 back end after [WaitForGPU], and
    with the cached wrapper gone as well).  The old handle no longer
    denotes its texture after the call, whether the call succeeds or not.
    The call succeeds exactly when a device is bound and the allocation
    succeeds; the new handle is then not null and denotes a texture of
    the new size with one reference and an identity that is not the old
    one's.  When the call fails, the output is left as it was and the
    old texture is gone all the same.  The handle is one that
    [CreateSharedTexture] handed out and that is owned through that
    reference alone; the output pointer is not null; an allocation that
    succeeds answers with an address that is not null and not in use
    once the old texture is released. *)
Theorem C3_resize_is_destroy_then_create :
  (∀ h o newWidth newHeight v hr st w,
      D3D11_owned h o w → fresh_after_release h hr w →
      ∃ w1 r out' w',
        D3D11.DestroySharedTexture h st w = Some w1
        ∧ objs w1 = delete h (objs w)
        ∧ D3D11.CreateSharedTexture newWidth newHeight (Some v) hr st w1 = Some (r, out', w')
        ∧ D3D11.ResizeSharedTexture h newWidth newHeight (Some v) hr st w = Some (r, out', w')
        ∧ invalidated h o w'
        ∧ (r = Success ↔ is_null (D3D11.m_device st) = false ∧ is_Some hr)
        ∧ (r = Success →
           ∃ a o', hr = Some a ∧ out' = Some a ∧ a ≠ 0%N ∧ objs w' !! a = Some o'
                   ∧ o_kind o' = KTexture2D newWidth newHeight ∧ o_refs o' = 1
                   ∧ o_serial o' = next_serial w ∧ o_serial o' ≠ o_serial o)
        ∧ (r ≠ Success → out' = Some v ∧ objs w' = delete h (objs w)))
  ∧
  (∀ h o newWidth newHeight v wait hr st w,
      D3D12_owned h o st w → fresh_after_release h hr w →
      ∃ st0 w0 st1 w1 r out' w',
        D3D12.WaitForGPU wait st w = (st0, w0)
        ∧ D3D12.DestroySharedTexture h st0 w0 = Some (st1, w1)
        ∧ objs w1 !! h = None ∧ D3D12.m_wrappedResources st1 !! h = None
        ∧ D3D12.CreateSharedTexture newWidth newHeight (Some v) hr st1 w1
          = Some (r, out', w')
        ∧ D3D12.ResizeSharedTexture h newWidth newHeight (Some v) wait hr st w
          = Some (r, out', st1, w')
        ∧ invalidated h o w'
        ∧ (r = Success ↔ is_null (D3D12.m_d3d12Device st) = false ∧ is_Some hr)
        ∧ (r = Success →
           ∃ a o', hr = Some a ∧ out' = Some a ∧ a ≠ 0%N ∧ objs w' !! a = Some o'
                   ∧ o_kind o' = KResource12 newWidth newHeight ∧ o_refs o' = 1
                   ∧ o_serial o' = next_serial w ∧ o_serial o' ≠ o_serial o)
        ∧ (r ≠ Success → out' = Some v ∧ objs w' = objs w1)).
Proof.
  split.
  - intros h o newWidth newHeight v hr st w Hown Hfresh.
    destruct (D3D11_resize_is_destroy_then_create h o newWidth newHeight v hr st w Hown)
      as (w1 & Hd & Ho1 & Hs1 & ->).
    destruct Hown as (Hh & Ho & _ & _ & Hser).
    exists w1. rewrite D3D11_create_spec.
    destruct (is_null (D3D11.m_device st)).
    { eexists _, _, _. split; [done|]. split; [done|]. split; [reflexivity|].
      split; [reflexivity|].
      split; [intros o'; by rewrite Ho1, lookup_delete_eq|].
      split; [split; [done|by intros [? _]]|]. split; done. }
    destruct hr as [a|].
    2:{ eexists _, _, _. split; [done|]. split; [done|]. split; [reflexivity|].
        split; [reflexivity|].
        split; [intros o'; by rewrite Ho1, lookup_delete_eq|].
        split; [split; [done|by intros [_ [? ?]]]|]. split; done. }
    destruct (Hfresh a eq_refl) as [Ha Hfree].
    assert (objs w1 !! a = None) as Hfree1.
    { rewrite Ho1. destruct Hfree as [->|?]; [apply lookup_delete_eq|].
      rewrite lookup_delete. by case_decide. }
    rewrite (com_new_Some a _ w1) by done. simpl.
    eexists _, _, _. split; [done|]. split; [done|]. split; [reflexivity|].
    split; [reflexivity|]. simpl. split.
    { intros o'. simpl. destruct (decide (a = h)) as [->|Hne].
      - rewrite lookup_insert_eq. intros [= <-]. simpl. lia.
      - by rewrite lookup_insert_ne, Ho1, lookup_delete_eq. }
    split; [split; eauto|]. split; [|done].
    intros _. eexists a, _. rewrite lookup_insert_eq. rewrite Hs1.
    repeat split; try done. simpl. lia.
  - intros h o newWidth newHeight v wait hr st w Hown Hfresh.
    destruct (D3D12_resize_is_destroy_then_create h o newWidth newHeight v wait hr st w Hown)
      as (st0 & w0 & st1 & w1 & Hw & Hd & Hgone & Hcache & Hkeep & Hs1 & Hdev & ->).
    destruct Hown as (Hh & Ho & _ & Hser & _).
    exists st0, w0, st1, w1. rewrite D3D12_create_spec, Hdev.
    destruct (is_null (D3D12.m_d3d12Device st)).
    { simpl. eexists _, _, _. split; [done|]. split; [done|]. split; [done|].
      split; [done|]. split; [reflexivity|]. split; [reflexivity|].
      split; [intros o'; by rewrite Hgone|].
      split; [split; [done|by intros [? _]]|]. split; done. }
    destruct hr as [a|].
    2:{ simpl. eexists _, _, _. split; [done|]. split; [done|]. split; [done|].
        split; [done|]. split; [reflexivity|]. split; [reflexivity|].
        split; [intros o'; by rewrite Hgone|].
        split; [split; [done|by intros [_ [? ?]]]|]. split; done. }
    destruct (Hfresh a eq_refl) as [Ha Hfree].
    assert (objs w1 !! a = None) as Hfree1.
    { destruct Hfree as [->|?]; [done|]. by apply Hkeep. }
    rewrite (com_new_Some a _ w1) by done. simpl.
    eexists _, _, _. split; [done|]. split; [done|]. split; [done|].
    split; [done|]. split; [reflexivity|]. split; [reflexivity|]. simpl. split.
    { intros o'. simpl. destruct (decide (a = h)) as [->|Hne].
      - rewrite lookup_insert_eq. intros [= <-]. simpl. lia.
      - by rewrite lookup_insert_ne, Hgone. }
    split; [split; eauto|]. split; [|done].
    intros _. eexists a, _. rewrite lookup_insert_eq. rewrite Hs1.
    repeat split; try done. simpl. lia.
Qed.

(** ** The copy *)

Lemma flip_srcBox_row W H y :
  (0 ≤ H < UINT_modulus)%Z → (0 ≤ y < H)%Z →
  D3D11.flip_srcBox W H W y = mkBox 0 (H - 1 - y) 0 W (H - y) 1.
Proof.
  intros HH Hy. unfold D3D11.flip_srcBox, UINT_sub.
  rewrite Z.min_id.
  rewrite (to_UINT_small (H - 1)) by lia.
  rewrite (to_UINT_small (H - 1 - y)) by lia.
  rewrite (to_UINT_small (H - y)) by lia.
  done.
Qed.

Lemma D3D11_copy_equal_size src dst flipY st w W H :
  src ≠ 0%N → dst ≠ 0%N → D3D11.m_context st ≠ 0%N →
  GetDesc11 src w = Some (W, H) →
  GetDesc11 dst w = Some (W, H) →
  (0 ≤ H < UINT_modulus)%Z →
  D3D11.CopyCapturedTextureToUnityTexture src dst flipY st w
  = Some (mkWorld (objs w) (next_serial w) (handles w)
            (gpu_log w ++
               if flipY then D3D11_flip_commands (D3D11.m_context st) src dst W H
               else [(D3D11.m_context st, CopyResource dst src)])).
Proof.
  intros Hs Hd Hc Hsd Hdd HH. unfold D3D11.CopyCapturedTextureToUnityTexture.
  rewrite (proj2 (is_null_false src) Hs), (proj2 (is_null_false dst) Hd),
    (proj2 (is_null_false _) Hc). simpl.
  rewrite Hsd. simpl. rewrite Hdd. simpl.
  rewrite !Z.eqb_refl. simpl.
  destruct flipY; [|done].
  rewrite Z.min_id, for_UINT_foldl by done.
  rewrite foldl_submit. do 3 f_equal. unfold D3D11_flip_commands.
  apply list_fmap_ext. intros i y Hy.
  assert (0 ≤ y < H)%Z by (apply elem_of_rows; eapply list_elem_of_lookup_2; eauto).
  rewrite flip_srcBox_row by done. do 3 f_equal. lia.
Qed.

Lemma through_Some p : p ≠ 0%N → through p = Some p.
Proof. intros Hp. unfold through. by rewrite (proj2 (is_null_false p) Hp). Qed.

Lemma flip_dstBox_row W H y :
  (0 ≤ H < UINT_modulus)%Z → (0 ≤ y < H)%Z →
  D3D12.flip_dstBox W y = mkBox 0 y 0 W (y + 1) 1.
Proof.
  intros HH Hy. unfold D3D12.flip_dstBox, UINT_add.
  by rewrite (to_UINT_small (y + 1)) by lia.
Qed.

Lemma flip_srcOffset_row H RowPitch y :
  (0 ≤ H < UINT_modulus)%Z → (0 ≤ RowPitch)%Z → (H * RowPitch < UINT_modulus)%Z →
  (0 ≤ y < H)%Z →
  D3D12.flip_srcOffset H RowPitch y = ((H - 1 - y) * RowPitch)%Z.
Proof.
  intros HH HP Hsize Hy. unfold D3D12.flip_srcOffset, UINT_mul, UINT_sub.
  rewrite (to_UINT_small (H - 1)) by lia.
  rewrite (to_UINT_small (H - 1 - y)) by lia.
  apply to_UINT_small. nia.
Qed.

Lemma D3D12_copy_via_staging src flipY env dst W H st w staging RowPitch :
  D3D12_copy_devices st →
  D3D12.staging_hr env = Some staging → staging ≠ 0%N → objs w !! staging = None →
  D3D12.map_hr env = Some RowPitch →
  (0 ≤ H < UINT_modulus)%Z → (0 ≤ RowPitch)%Z → (H * RowPitch < UINT_modulus)%Z →
  D3D12.copy_via_staging src flipY env dst W H W H st w
  = Some (mkWorld (objs w) (N.succ (next_serial w)) (handles w)
            (gpu_log w ++ D3D12_copy_commands st src dst staging flipY W H RowPitch)).
Proof.
  intros (Hcd & Hcc & Hon & Hctx) Hst Hsa Hfree Hmap HH HP Hsize.
  unfold D3D12.copy_via_staging.
  rewrite (through_Some _ Hcd). simpl. rewrite Hst.
  rewrite com_new_Some by done. simpl.
  rewrite (through_Some _ Hcc). simpl. rewrite Hmap.
  rewrite (through_Some _ Hon). simpl.
  rewrite (through_Some _ Hctx). simpl.
  rewrite !Z.min_id.
  match goal with |- Release staging ?w9 = _ => set (wl := w9) end.
  assert (objs wl = <[staging := mkComObj (next_serial w) 1 (KTexture2D W H)]> (objs w)
          ∧ next_serial wl = N.succ (next_serial w) ∧ handles wl = handles w
          ∧ gpu_log wl = gpu_log w ++ D3D12_copy_commands st src dst staging flipY W H RowPitch)
    as (Hobjs & Hser & Hh & Hlog).
  { subst wl. destruct flipY; simpl.
    - rewrite for_UINT_foldl by done. rewrite foldl_submit. simpl.
      repeat split. unfold D3D12_copy_commands, D3D12_update_commands.
      rewrite <- !(assoc_L (++)). simpl. do 6 f_equal.
      apply list_fmap_ext. intros i y Hy.
      assert (0 ≤ y < H)%Z by (apply elem_of_rows; eapply list_elem_of_lookup_2; eauto).
      rewrite (flip_dstBox_row W H) by done.
      by rewrite flip_srcOffset_row by done.
    - repeat split. unfold D3D12_copy_commands, D3D12_update_commands.
      by rewrite <- !(assoc_L (++)). }
  rewrite (Release_last staging wl (mkComObj (next_serial w) 1 (KTexture2D W H))).
  - f_equal. unfold set_objs. rewrite Hobjs, Hser, Hh, Hlog.
    by rewrite delete_insert_id.
  - rewrite Hobjs. apply lookup_insert_eq.
  - simpl. lia.
Qed.

Lemma D3D12_copy_equal_size src dst flipY env st w W H wr st1 w1 od staging RowPitch :
  src ≠ 0%N → dst ≠ 0%N →
  GetDesc11 src w = Some (W, H) →
  GetDesc12 dst w = Some (W, H) →
  (0 ≤ W < UINT_modulus)%Z → (0 ≤ H < UINT_modulus)%Z →
  D3D12.GetOrCreateWrappedResource dst (D3D12.wrap_hr env) st w = Some (Some wr, st1, w1) →
  objs w1 !! D3D12.d3d11Resource wr = Some od → as_Texture2D (o_kind od) = Some (W, H) →
  D3D12_copy_devices st1 →
  D3D12.staging_hr env = Some staging → staging ≠ 0%N → objs w1 !! staging = None →
  D3D12.map_hr env = Some RowPitch →
  (0 ≤ RowPitch)%Z → (H * RowPitch < UINT_modulus)%Z →
  D3D12.CopyCapturedTextureToUnityTexture src dst flipY env st w
  = Some (st1,
          mkWorld (objs w1) (N.succ (next_serial w1)) (handles w1)
            (gpu_log w1 ++
               D3D12_copy_commands st1 src (D3D12.d3d11Resource wr) staging flipY W H RowPitch)).
Proof.
  intros Hs Hd Hsd Hdd HW HH Hget Hod Htex Hdev Hst Hsa Hfree Hmap HP Hsize.
  unfold D3D12.CopyCapturedTextureToUnityTexture.
  rewrite (proj2 (is_null_false src) Hs), (proj2 (is_null_false dst) Hd). simpl.
  rewrite Hsd. simpl. rewrite Hdd. simpl.
  rewrite !to_UINT_small, !Z.eqb_refl by done. simpl.
  rewrite Hget. simpl. rewrite Hod. simpl. rewrite Htex.
  rewrite !Z.eqb_refl. simpl.
  by rewrite (D3D12_copy_via_staging src flipY env _ W H st1 w1 staging RowPitch).
Qed.

(** C5.  For a source and a destination of the same size [W] by [H]: on
    the D3D11 back end the copy without flip is the single command
    [CopyResource], and the copy with flip is one [CopySubresourceRegion]
    per row, in the order [y = 0, …, H - 1], iteration [y] taking the
    one-row box of source row [H - 1 - y] to row [y] of the destination.
    On the D3D12 back end the CPU-mediated copy follows the same
    convention: with flip, iteration [y] updates the one-row box of row
    [y] of the wrapped destination from the mapped bytes at offset
    [(H - 1 - y) * RowPitch], that is source row [H - 1 - y]; without
    flip, one update of the whole surface.  The mapped image is smaller
    than 4 GiB. *)
Theorem C5_copy_and_flip :
  (∀ src dst flipY st w W H,
      src ≠ 0%N → dst ≠ 0%N → D3D11.m_context st ≠ 0%N →
      GetDesc11 src w = Some (W, H) →
      GetDesc11 dst w = Some (W, H) →
      (0 ≤ H < UINT_modulus)%Z →
      D3D11.CopyCapturedTextureToUnityTexture src dst flipY st w
      = Some (mkWorld (objs w) (next_serial w) (handles w)
                (gpu_log w ++
                   if flipY
                   then (λ y, (D3D11.m_context st,
                               CopySubresourceRegion dst 0 y 0 src
                                 (mkBox 0 (H - 1 - y) 0 W (H - 1 - y + 1) 1))) <$> rows H
                   else [(D3D11.m_context st, CopyResource dst src)])))
  ∧
  (∀ src dst flipY env st w W H wr st1 w1 od staging RowPitch,
      src ≠ 0%N → dst ≠ 0%N →
      GetDesc11 src w = Some (W, H) →
      GetDesc12 dst w = Some (W, H) →
      (0 ≤ W < UINT_modulus)%Z → (0 ≤ H < UINT_modulus)%Z →
      D3D12.GetOrCreateWrappedResource dst (D3D12.wrap_hr env) st w = Some (Some wr, st1, w1) →
      objs w1 !! D3D12.d3d11Resource wr = Some od → as_Texture2D (o_kind od) = Some (W, H) →
      D3D12_copy_devices st1 →
      D3D12.staging_hr env = Some staging → staging ≠ 0%N → objs w1 !! staging = None →
      D3D12.map_hr env = Some RowPitch →
      (0 ≤ RowPitch)%Z → (H * RowPitch < UINT_modulus)%Z →
      D3D12.CopyCapturedTextureToUnityTexture src dst flipY env st w
      = Some (st1,
              mkWorld (objs w1) (N.succ (next_serial w1)) (handles w1)
                (gpu_log w1 ++
                   [(D3D12.m_captureD3D11Device st1, CreateStagingTexture2D W H);
                    (D3D12.m_captureD3D11Context st1, CopyResource staging src);
                    (D3D12.m_captureD3D11Context st1, MapStaging);
                    (D3D12.m_d3d11On12Device st1,
                     AcquireWrappedResources (D3D12.d3d11Resource wr))]
                   ++ (if flipY
                       then (λ y, (D3D12.m_d3d11Context st1,
                                   UpdateSubresource (D3D12.d3d11Resource wr)
                                     (Some (mkBox 0 y 0 W (y + 1) 1))
                                     ((H - 1 - y) * RowPitch) RowPitch)) <$> rows H
                       else [(D3D12.m_d3d11Context st1,
                              UpdateSubresource (D3D12.d3d11Resource wr) None 0 RowPitch)])
                   ++ [(D3D12.m_captureD3D11Context st1, UnmapStaging);
                       (D3D12.m_d3d11On12Device st1,
                        ReleaseWrappedResources (D3D12.d3d11Resource wr));
                       (D3D12.m_d3d11Context st1, Flush)]))).
Proof.
  split.
  - intros. by apply D3D11_copy_equal_size.
  - intros. by eapply D3D12_copy_equal_size.
Qed.

(** ** The wrap cache: what the agreement gives *)

(** At most one live wrapper per texture. *)
Lemma cache_wf_one_wrapper st w a1 a2 o1 o2 k tex1 tex2 :
  cache_wf st w →
  objs w !! a1 = Some o1 → o_kind o1 = KWrapped11 k tex1 →
  objs w !! a2 = Some o2 → o_kind o2 = KWrapped11 k tex2 →
  a1 = a2.
Proof.
  intros [_ Hii] H1 K1 H2 K2.
  destruct (Hii a1 o1 k tex1 H1 K1) as (wr1 & Hc1 & <-).
  destruct (Hii a2 o2 k tex2 H2 K2) as (wr2 & Hc2 & <-).
  congruence.
Qed.

(** No wrapper outlives its texture. *)
Lemma cache_wf_texture_alive st w a o k tex :
  cache_wf st w →
  objs w !! a = Some o → o_kind o = KWrapped11 k tex →
  ∃ ok W H, objs w !! k = Some ok ∧ o_kind ok = KResource12 W H.
Proof.
  intros [Hi Hii] Ha Hk.
  destruct (Hii a o k tex Ha Hk) as (wr & Hc & _).
  destruct (Hi k wr Hc) as (_ & _ & _ & (ok & W & H & ? & ? & _) & _). eauto.
Qed.

Lemma same_resources_refl w : same_resources w w.
Proof. by intros a o _. Qed.

Lemma same_resources_trans w1 w2 w3 :
  same_resources w1 w2 → same_resources w2 w3 → same_resources w1 w3.
Proof. intros H12 H23 a o Hk. rewrite (H12 a o Hk). apply (H23 a o Hk). Qed.

Lemma same_resources_objs w w' : objs w' = objs w → same_resources w w'.
Proof. intros Heq a o _. by rewrite Heq. Qed.

Lemma cache_wf_same_resources st st' w w' :
  D3D12.m_wrappedResources st' = D3D12.m_wrappedResources st →
  same_resources w w' → cache_wf st w → cache_wf st' w'.
Proof.
  intros Hc Hsame [Hi Hii]. split.
  - intros k wr Hk. rewrite Hc in Hk.
    destruct (Hi k wr Hk)
      as (Hkey & Hk0 & Ha0 & (o & W & H & Ho & Hko & Hpos) & (ow & tex & How & Hkw & Hr)).
    do 3 (split; [done|]). split.
    + exists o, W, H. split; [|done]. apply (Hsame k o); [by rewrite Hko|done].
    + exists ow, tex. split; [|done]. apply (Hsame _ ow); [by rewrite Hkw|done].
  - intros a o k tex Ha Hk. rewrite Hc.
    apply (Hii a o k tex); [|done]. apply (Hsame a o); [by rewrite Hk|done].
Qed.

Lemma same_resources_submit on op w : same_resources w (submit on op w).
Proof. by apply same_resources_objs. Qed.

Lemma apart_same_resources p w w' : same_resources w w' → apart p w → apart p w'.
Proof.
  intros Hsame Hp o Ho. destruct (is_resource (o_kind o)) eqn:Hk; [|done].
  apply (Hsame p o Hk) in Ho. by rewrite (Hp o Ho) in Hk.
Qed.

Lemma Release_same_resources p w w' :
  Release p w = Some w' → apart p w → same_resources w w'.
Proof.
  intros (o & Ho & _ & _ & _ & Hobjs)%Release_inv Hp a o' Hk.
  specialize (Hp o Ho).
  destruct (decide (a = p)) as [->|Hne].
  - split.
    + rewrite Ho. intros [= <-]. congruence.
    + destruct Hobjs as [[_ ->]|(n & _ & ->)].
      * by rewrite lookup_delete_eq.
      * rewrite lookup_insert_eq. intros [= <-]. simpl in Hk. congruence.
  - destruct Hobjs as [[_ ->]|(n & _ & ->)].
    + by rewrite lookup_delete_ne.
    + by rewrite lookup_insert_ne.
Qed.

Lemma AddRef_same_resources p w w' :
  AddRef p w = Some w' → apart p w → same_resources w w'.
Proof.
  unfold AddRef. destruct (objs w !! p) as [o|] eqn:Ho; simpl; [|done].
  intros [= <-] Hp a o' Hk. specialize (Hp o Ho). simpl.
  destruct (decide (a = p)) as [->|Hne].
  - rewrite lookup_insert_eq, Ho. split; intros [= <-]; simpl in *; congruence.
  - by rewrite lookup_insert_ne.
Qed.

Lemma ComPtr_Reset_same_resources p w w' :
  ComPtr_Reset p w = Some w' → apart p w → same_resources w w'.
Proof.
  intros [->|[_ HR]]%ComPtr_Reset_inv Hp; [apply same_resources_refl|].
  by eapply Release_same_resources.
Qed.

Lemma ComPtr_assign_same_resources held new w w' :
  ComPtr_assign held new w = Some w' → apart held w → apart new w → same_resources w w'.
Proof.
  unfold ComPtr_assign. case_decide.
  { intros [= <-] _ _. apply same_resources_refl. }
  destruct (is_null new); simpl.
  - intros HR Hh _. by eapply ComPtr_Reset_same_resources.
  - destruct (AddRef new w) as [w1|] eqn:HA; simpl; [|done].
    intros HR Hh Hn.
    assert (same_resources w w1) as H1 by by eapply AddRef_same_resources.
    eapply same_resources_trans; [done|].
    eapply ComPtr_Reset_same_resources; [done|]. by eapply apart_same_resources.
Qed.

Lemma com_new_same_resources a k w w' :
  com_new a k w = Some w' → is_resource k = false → same_resources w w' ∧ apart a w'.
Proof.
  intros (Ha & Hfree & ->)%com_new_inv Hk. split.
  - intros q o Ho. simpl. destruct (decide (q = a)) as [->|Hne].
    + rewrite lookup_insert_eq, Hfree. split; [done|]. intros [= <-]. simpl in Ho. congruence.
    + by rewrite lookup_insert_ne.
  - intros o. simpl. rewrite lookup_insert_eq. by intros [= <-].
Qed.

Lemma released_kind o o' : released o = Some o' → o_kind o' = o_kind o ∧ o_serial o' = o_serial o.
Proof. unfold released. destruct (o_refs o) as [|[|n]]; [done|done|]. by intros [= <-]. Qed.

Lemma Release_lookup p w o :
  objs w !! p = Some o →
  ∃ w', Release p w = Some w'
        ∧ next_serial w' = next_serial w ∧ handles w' = handles w ∧ gpu_log w' = gpu_log w
        ∧ objs w' !! p = released o
        ∧ ∀ q, q ≠ p → objs w' !! q = objs w !! q.
Proof.
  intros Ho. unfold Release, released. rewrite Ho. simpl.
  eexists. split; [done|].
  destruct (o_refs o) as [|[|n]]; simpl; repeat split;
    try apply lookup_delete_eq; try apply lookup_insert_eq;
    intros q Hq; by rewrite ?lookup_delete_ne, ?lookup_insert_ne.
Qed.

(** Erasing a cached wrapper destroys its D3D11 view and drops its
    reference to the texture. *)
Lemma D3D12_erase_cached p st w wr :
  cache_wf st w → D3D12.m_wrappedResources st !! p = Some wr →
  ∃ op ow w1,
    objs w !! p = Some op ∧ objs w !! D3D12.d3d11Resource wr = Some ow
    ∧ D3D12.erase p st w
      = Some (D3D12.set_wrappedResources (delete p (D3D12.m_wrappedResources st)) st, w1)
    ∧ next_serial w1 = next_serial w ∧ handles w1 = handles w ∧ gpu_log w1 = gpu_log w
    ∧ objs w1 !! D3D12.d3d11Resource wr = None
    ∧ objs w1 !! p = released op
    ∧ (∀ q, q ≠ p → q ≠ D3D12.d3d11Resource wr → objs w1 !! q = objs w !! q)
    ∧ cache_wf (D3D12.set_wrappedResources (delete p (D3D12.m_wrappedResources st)) st) w1.
Proof.
  intros [Hi Hii] Hc.
  destruct (Hi p wr Hc)
    as (Hkey & Hp0 & Ha0 & (op & W & H & Hop & Hkp & Hpos) & (ow & tex & How & Hkw & Hrefs)).
  set (a := D3D12.d3d11Resource wr) in *.
  assert (a ≠ p) as Hap by (intros Heq; rewrite Heq in How; congruence).
  exists op, ow.
  destruct (Release_lookup a w ow How) as (w1 & HR1 & Hs1 & Hh1 & Hl1 & Ha1 & Hq1).
  assert (objs w1 !! p = Some op) as Hop1 by (rewrite Hq1; done).
  destruct (Release_lookup p w1 op Hop1) as (w2 & HR2 & Hs2 & Hh2 & Hl2 & Ha2 & Hq2).
  assert (released ow = None) as Hrel by (unfold released; by rewrite Hrefs).
  exists w2. split; [done|]. split; [done|]. split.
  { unfold D3D12.erase. rewrite Hc. unfold D3D12.destroy_WrappedResource.
    fold a. rewrite Hkey. unfold ComPtr_Reset.
    rewrite (proj2 (is_null_false a) Ha0), (proj2 (is_null_false p) Hp0).
    rewrite HR1. simpl. by rewrite HR2. }
  split; [congruence|]. split; [congruence|]. split; [congruence|].
  assert (objs w2 !! a = None) as Hgone by (rewrite Hq2, Ha1; done).
  split; [done|]. split; [done|].
  assert (∀ q, q ≠ p → q ≠ a → objs w2 !! q = objs w !! q) as Hother.
  { intros q ? ?. rewrite Hq2, Hq1; done. }
  split; [done|].
  split; simpl.
  - intros k wrk Hk. apply lookup_delete_Some in Hk as [Hkp' Hk].
    destruct (Hi k wrk Hk)
      as (Hkey' & Hk0 & Hak0 & (ok & Wk & Hk' & Hok & Hkk & Hposk)
          & (owk & texk & Howk & Hkwk & Hrk)).
    do 3 (split; [done|]).
    assert (k ≠ a) as Hka by (intros Heq; rewrite Heq in Hok; congruence).
    assert (D3D12.d3d11Resource wrk ≠ p) as Hakp
      by (intros Heq; rewrite Heq in Howk; congruence).
    assert (D3D12.d3d11Resource wrk ≠ a) as Haka.
    { intros Heq. rewrite Heq in Howk. rewrite How in Howk.
      injection Howk as <-. rewrite Hkw in Hkwk. by injection Hkwk. }
    split.
    + exists ok, Wk, Hk'. by rewrite Hother.
    + exists owk, texk. by rewrite Hother.
  - intros q o k texq Hq Hkq.
    assert (q ≠ a) as Hqa by (intros ->; congruence).
    assert (q ≠ p) as Hqp.
    { intros ->. rewrite Ha2 in Hq. apply released_kind in Hq as [Hk' _]. congruence. }
    rewrite Hother in Hq by done.
    destruct (Hii q o k texq Hq Hkq) as (wrk & Hk & Hd).
    exists wrk. split; [|done]. rewrite lookup_delete_ne; [done|].
    intros <-. rewrite Hc in Hk. injection Hk as <-. done.
Qed.

Lemma AddRef_lookup p w o :
  objs w !! p = Some o →
  ∃ w', AddRef p w = Some w'
        ∧ next_serial w' = next_serial w ∧ handles w' = handles w ∧ gpu_log w' = gpu_log w
        ∧ objs w' !! p = Some (mkComObj (o_serial o) (S (o_refs o)) (o_kind o))
        ∧ ∀ q, q ≠ p → objs w' !! q = objs w !! q.
Proof.
  intros Ho. unfold AddRef. rewrite Ho. simpl. eexists. split; [done|].
  simpl. repeat split; [apply lookup_insert_eq|].
  intros q Hq. by rewrite lookup_insert_ne.
Qed.

(** Building a wrapper for a live texture [p], in a state whose cache
    may still hold a wrapper for [p]. *)
Lemma D3D12_create_wrapped_spec p W H hr st w op Wp Hp :
  cache_wf st w → p ≠ 0%N →
  objs w !! p = Some op → o_kind op = KResource12 Wp Hp →
  fresh_in hr w →
  ∃ r st' w',
    D3D12.create_wrapped p W H hr st w = Some (r, st', w')
    ∧ cache_wf st' w'
    ∧ handles w' = handles w
    ∧ (∃ l, gpu_log w' = gpu_log w ++ l)
    ∧ (∃ op', objs w' !! p = Some op' ∧ o_kind op' = o_kind op ∧ o_serial op' = o_serial op)
    ∧ match r with
      | None =>
          (is_null (D3D12.m_d3d11On12Device st) = true ∨ hr = None)
          ∧ st' = st ∧ objs w' = objs w ∧ next_serial w' = next_serial w
      | Some wr' =>
          is_null (D3D12.m_d3d11On12Device st) = false
          ∧ ∃ a, hr = Some a
            ∧ wr' = D3D12.mkWrapped (N.succ (next_serial w)) p a
            ∧ st' = D3D12.set_wrappedResources (<[p := wr']> (D3D12.m_wrappedResources st)) st
            ∧ objs w' !! a
              = Some (mkComObj (next_serial w) 1 (KWrapped11 p (Some (to_UINT W, H))))
            ∧ next_serial w' = N.succ (N.succ (next_serial w))
            ∧ (∀ old, D3D12.m_wrappedResources st !! p = Some old →
                 objs w' !! D3D12.d3d11Resource old = None)
            ∧ (∀ q, q ≠ a → objs w !! q = None → objs w' !! q = None)
      end.
Proof.
  intros Hwf Hp0 Hop Hkp Hfresh. unfold D3D12.create_wrapped.
  destruct (is_null (D3D12.m_d3d11On12Device st)) eqn:Hon.
  { exists None, st, w. split; [done|]. split; [done|]. split; [done|].
    split; [exists []; by rewrite app_nil_r|]. split; [eauto|]. auto. }
  rewrite (proj2 (GetDesc12_Some p w Wp Hp)) by eauto. simpl.
  set (w1 := submit _ _ w).
  assert (cache_wf st w1) as Hwf1.
  { eapply cache_wf_same_resources; [done| |done]. apply same_resources_submit. }
  destruct hr as [a|].
  2:{ exists None, st, w1. split; [done|]. split; [done|]. split; [done|].
      split; [simpl; eauto|]. split; [eauto|]. auto. }
  destruct (Hfresh a eq_refl) as [Ha0 Hafree].
  rewrite (com_new_Some a _ w1) by done. simpl.
  set (view := mkComObj (next_serial w) 1 (KWrapped11 p (Some (to_UINT W, H)))).
  set (w2 := mkWorld _ _ _ _).
  assert (a ≠ p) as Hap by (intros ->; congruence).
  assert (objs w2 !! p = Some op) as Hop2 by (simpl; by rewrite lookup_insert_ne).
  destruct (AddRef_lookup p w2 op Hop2) as (w3 & HA & Hs3 & Hh3 & Hl3 & Hp3 & Hq3).
  rewrite HA. simpl. rewrite Hs3. simpl.
  set (wr' := D3D12.mkWrapped (N.succ (next_serial w)) p a).
  set (w4 := mkWorld _ _ _ _).
  assert (objs w4 !! a = Some view) as Ha4.
  { simpl. rewrite Hq3 by done. simpl. apply lookup_insert_eq. }
  assert (∀ q, q ≠ a → q ≠ p → objs w4 !! q = objs w !! q) as Hq4.
  { intros q ? ?. simpl. rewrite Hq3 by done. simpl. by rewrite lookup_insert_ne. }
  destruct Hwf as [Hi Hii].
  unfold D3D12.assign_wrapped.
  destruct (D3D12.m_wrappedResources st !! p) as [old|] eqn:Hold.
  - (* the wrapper stored under [p] is replaced *)
    destruct (Hi p old Hold)
      as (Hkey & _ & Hb0 & (op0 & _ & _ & Hop0 & _ & Hpos) & (ow & tex & How & Hkw & Hrefs)).
    rewrite Hop in Hop0. injection Hop0 as <-.
    set (b := D3D12.d3d11Resource old) in *.
    assert (b ≠ a) as Hba by (intros Heq; rewrite Heq in How; congruence).
    assert (b ≠ p) as Hbp by (intros Heq; rewrite Heq in How; congruence).
    assert (objs w4 !! b = Some ow) as Hb4 by (rewrite Hq4; done).
    destruct (Release_lookup b w4 ow Hb4) as (w5 & HR5 & Hs5 & Hh5 & Hl5 & Hb5 & Hq5).
    assert (released ow = None) as Hrel by (unfold released; by rewrite Hrefs).
    assert (objs w5 !! p = Some (mkComObj (o_serial op) (S (o_refs op)) (o_kind op))) as Hp5.
    { rewrite Hq5 by done. simpl. done. }
    destruct (Release_lookup p w5 _ Hp5) as (w6 & HR6 & Hs6 & Hh6 & Hl6 & Hp6 & Hq6).
    assert (objs w6 !! p = Some (mkComObj (o_serial op) (o_refs op) (o_kind op))) as Hp6'.
    { rewrite Hp6. unfold released. simpl. destruct (o_refs op); [lia|done]. }
    assert (objs w6 !! a = Some view) as Ha6 by (rewrite Hq6, Hq5; done).
    assert (objs w6 !! b = None) as Hb6 by (rewrite Hq6, Hb5; done).
    assert (∀ q, q ≠ a → q ≠ p → q ≠ b → objs w6 !! q = objs w !! q) as Hq6'.
    { intros q ? ? ?. rewrite Hq6, Hq5, Hq4; done. }
    unfold D3D12.destroy_WrappedResource. fold b. rewrite Hkey. unfold ComPtr_Reset.
    rewrite (proj2 (is_null_false b) Hb0), (proj2 (is_null_false p) Hp0).
    rewrite HR5. simpl. rewrite HR6. simpl.
    eexists (Some wr'), _, w6. split; [done|]. split; [|split; [|split; [|split]]].
    + split; simpl.
      * intros k wrk Hk. apply lookup_insert_Some in Hk as [[<- <-]|[Hkp' Hk]].
        { simpl. do 3 (split; [done|]). split.
          - exists (mkComObj (o_serial op) (o_refs op) (o_kind op)), Wp, Hp. done.
          - exists view, (Some (to_UINT W, H)). done. }
        destruct (Hi k wrk Hk)
          as (Hkey' & Hk0 & Hak0 & (ok & Wk & Hk' & Hok & Hkk & Hposk)
              & (owk & texk & Howk & Hkwk & Hrk)).
        do 3 (split; [done|]).
        assert (k ≠ a) as Hka by (intros Heq; rewrite Heq in Hok; congruence).
        assert (k ≠ b) as Hkb by (intros Heq; rewrite Heq in Hok; congruence).
        assert (D3D12.d3d11Resource wrk ≠ a) by (intros Heq; rewrite Heq in Howk; congruence).
        assert (D3D12.d3d11Resource wrk ≠ p) by (intros Heq; rewrite Heq in Howk; congruence).
        assert (D3D12.d3d11Resource wrk ≠ b).
        { intros Heq. rewrite Heq in Howk. rewrite How in Howk.
          injection Howk as <-. rewrite Hkw in Hkwk. by injection Hkwk. }
        split.
        { exists ok, Wk, Hk'. by rewrite Hq6'. }
        { exists owk, texk. by rewrite Hq6'. }
      * intros q o k texq Hq Hkq.
        destruct (decide (q = a)) as [->|Hqa].
        { rewrite Ha6 in Hq. injection Hq as <-. simpl in Hkq. injection Hkq as <- _.
          exists wr'. by rewrite lookup_insert_eq. }
        assert (q ≠ p) as Hqp by (intros ->; rewrite Hp6' in Hq; injection Hq as <-;
                                  simpl in Hkq; congruence).
        assert (q ≠ b) as Hqb by (intros ->; congruence).
        rewrite Hq6' in Hq by done.
        destruct (Hii q o k texq Hq Hkq) as (wrk & Hk & Hd).
        exists wrk. split; [|done]. rewrite lookup_insert_ne; [done|].
        intros <-. rewrite Hold in Hk. injection Hk as <-. done.
    + rewrite Hh6, Hh5. simpl. by rewrite Hh3.
    + rewrite Hl6, Hl5. simpl. rewrite Hl3. simpl. eauto.
    + eauto.
    + split; [done|]. exists a. do 3 (split; [done|]). split; [done|]. split.
      * rewrite Hs6, Hs5. done.
      * split; [intros old' [= <-]; done|].
        intros q Hqa Hq. destruct (decide (q = b)) as [->|Hqb]; [done|].
        rewrite Hq6'; [done|done| |done]. intros ->. congruence.
  - (* no wrapper is stored under [p] *)
    simpl. eexists (Some wr'), _, w4. split; [done|]. split; [|split; [|split; [|split]]].
    + split; cbn [D3D12.m_wrappedResources D3D12.set_wrappedResources].
      * intros k wrk Hk. apply lookup_insert_Some in Hk as [[<- <-]|[Hkp' Hk]].
        { simpl. do 3 (split; [done|]). split.
          - exists (mkComObj (o_serial op) (S (o_refs op)) (o_kind op)), Wp, Hp.
            split; [exact Hp3|]. split; [done|]. simpl. lia.
          - exists view, (Some (to_UINT W, H)). done. }
        destruct (Hi k wrk Hk)
          as (Hkey' & Hk0 & Hak0 & (ok & Wk & Hk' & Hok & Hkk & Hposk)
              & (owk & texk & Howk & Hkwk & Hrk)).
        do 3 (split; [done|]).
        assert (k ≠ a) as Hka by (intros Heq; rewrite Heq in Hok; congruence).
        assert (D3D12.d3d11Resource wrk ≠ a) by (intros Heq; rewrite Heq in Howk; congruence).
        assert (D3D12.d3d11Resource wrk ≠ p) by (intros Heq; rewrite Heq in Howk; congruence).
        split.
        { exists ok, Wk, Hk'. by rewrite (Hq4 k). }
        { exists owk, texk. by rewrite (Hq4 _). }
      * intros q o k texq Hq Hkq.
        destruct (decide (q = a)) as [->|Hqa].
        { rewrite Ha4 in Hq. injection Hq as <-. simpl in Hkq. injection Hkq as <- _.
          exists wr'. by rewrite lookup_insert_eq. }
        assert (q ≠ p) as Hqp.
        { intros ->. simpl in Hq. rewrite Hp3 in Hq. injection Hq as <-.
          simpl in Hkq. congruence. }
        rewrite (Hq4 q) in Hq by done.
        destruct (Hii q o k texq Hq Hkq) as (wrk & Hk & Hd).
        exists wrk. split; [|done]. rewrite lookup_insert_ne; [done|].
        intros <-. congruence.
    + simpl. by rewrite Hh3.
    + simpl. rewrite Hl3. simpl. eauto.
    + exists (mkComObj (o_serial op) (S (o_refs op)) (o_kind op)). split; [exact Hp3|done].
    + split; [done|]. exists a. do 3 (split; [done|]). split; [done|]. split; [done|].
      split; [intros old' [=]|].
      intros q Hqa Hq. rewrite (Hq4 q); [done|done|]. intros ->. congruence.
Qed.

#[local] Arguments D3D12.create_wrapped : simpl never.
#[local] Arguments D3D12.erase : simpl never.

(** Reuse: a cached wrapper whose view reports the current size is
    returned as it is, and nothing changes. *)
Lemma D3D12_GetOrCreate_reuse p hr st w wr od W H :
  D3D12.m_wrappedResources st !! p = Some wr →
  GetDesc12 p w = Some (W, H) →
  objs w !! D3D12.d3d11Resource wr = Some od →
  as_Texture2D (o_kind od) = Some (W, H) →
  D3D12.GetOrCreateWrappedResource p hr st w = Some (Some wr, st, w).
Proof.
  intros Hc Hd Hod Htex. unfold D3D12.GetOrCreateWrappedResource, D3D12.find_cached.
  rewrite Hd. simpl. rewrite Hc, Hod. simpl. rewrite Htex.
  by rewrite !Z.eqb_refl.
Qed.

Lemma dims_equal_test (a b c d : Z) :
  negb (a =? c)%Z || negb (b =? d)%Z = false → a = c ∧ b = d.
Proof.
  intros [H1 H2]%orb_false_iff.
  apply negb_false_iff, Z.eqb_eq in H1. apply negb_false_iff, Z.eqb_eq in H2. done.
Qed.

Lemma D3D12_GetOrCreate_wf p hr st w r st' w' :
  cache_wf st w → p ≠ 0%N → fresh_in hr w →
  D3D12.GetOrCreateWrappedResource p hr st w = Some (r, st', w') →
  cache_wf st' w'
  ∧ handles w' = handles w
  ∧ (∃ l, gpu_log w' = gpu_log w ++ l)
  ∧ (∀ wr, r = Some wr → ∃ W H, GetDesc12 p w = Some (W, H) ∧ returned_wrapper p wr W H st' w')
  ∧ (r = None → D3D12.m_wrappedResources st' !! p = None
                ∨ D3D12.m_wrappedResources st' !! p = D3D12.m_wrappedResources st !! p).
Proof.
  intros Hwf Hp0 Hfresh. unfold D3D12.GetOrCreateWrappedResource.
  destruct (GetDesc12 p w) as [[W H]|] eqn:Hd; simpl; [|done].
  pose proof Hd as (op & Hop & Hkp)%GetDesc12_Some.
  unfold D3D12.find_cached.
  destruct (D3D12.m_wrappedResources st !! p) as [wr|] eqn:Hc.
  - pose proof Hwf as [Hi Hii].
    destruct (Hi p wr Hc) as (Hkey & _ & Ha0 & _ & (ow & tex & How & Hkw & Hrefs)).
    rewrite How. simpl. rewrite Hkw. simpl.
    destruct tex as [[cw ch]|].
    + destruct (negb (cw =? W)%Z || negb (ch =? H)%Z) eqn:Htest.
      * (* stale *)
        destruct (D3D12_erase_cached p st w wr Hwf Hc)
          as (op' & ow' & w1 & Hop' & How' & -> & Hs1 & Hh1 & Hl1 & Hgone & Hp1 & Hq1 & Hwf1).
        rewrite Hop in Hop'. injection Hop' as <-.
        simpl.
        assert (fresh_in hr w1) as Hfresh1.
        { intros a Ha. destruct (Hfresh a Ha) as [? Hfree]. split; [done|].
          rewrite Hq1; [done| |]; intros ->; congruence. }
        destruct (released op) as [op1|] eqn:Hrel.
        -- destruct (released_kind _ _ Hrel) as [Hk1 _].
           destruct (D3D12_create_wrapped_spec p W H hr _ w1 op1 W H Hwf1 Hp0 Hp1
                       ltac:(congruence) Hfresh1)
             as (r0 & st0 & w0 & -> & Hwf0 & Hh0 & (l & Hl0) & (op2 & Hop2 & Hk2 & _) & Hr0).
           intros [= <- <- <-]. split; [done|]. split; [congruence|].
           split; [exists l; congruence|]. split.
           ++ intros wr' ->. destruct Hr0 as (_ & a & _ & -> & -> & Ha & _).
              exists W, H. split; [done|]. split; [simpl; apply lookup_insert_eq|].
              split; [apply GetDesc12_Some; exists op2; split; [done|congruence]|].
              eexists _, _. split; [exact Ha|]. simpl. eauto.
           ++ intros ->. destruct Hr0 as (_ & -> & _). left. simpl. apply lookup_delete_eq.
        -- unfold D3D12.create_wrapped. simpl.
           destruct (is_null (D3D12.m_d3d11On12Device st)); simpl.
           ++ intros [= <- <- <-]. split; [done|]. split; [done|].
              split; [exists []; by rewrite app_nil_r, Hl1|]. split; [done|].
              intros _. left. simpl. apply lookup_delete_eq.
           ++ unfold GetDesc12. rewrite Hp1. done.
      * (* fresh *)
        intros [= <- <- <-]. apply dims_equal_test in Htest as [-> ->].
        split; [done|]. split; [done|]. split; [exists []; by rewrite app_nil_r|]. split.
        -- intros wr' [= <-]. exists W, H. split; [done|]. split; [done|]. split; [done|].
           exists ow, W. rewrite Hkw. simpl. auto.
        -- done.
    + (* the view is not a 2D texture *)
      simpl.
      destruct (D3D12_create_wrapped_spec p W H hr st w op W H Hwf Hp0 Hop Hkp Hfresh)
        as (r0 & st0 & w0 & -> & Hwf0 & Hh0 & (l & Hl0) & (op2 & Hop2 & Hk2 & _) & Hr0).
      intros [= <- <- <-]. split; [done|]. split; [done|]. split; [eauto|]. split.
      * intros wr' ->. destruct Hr0 as (_ & a & _ & -> & -> & Ha & _).
        exists W, H. split; [done|]. split; [simpl; apply lookup_insert_eq|].
        split; [apply GetDesc12_Some; exists op2; split; [done|congruence]|].
        eexists _, _. split; [exact Ha|]. simpl. eauto.
      * intros ->. destruct Hr0 as (_ & -> & _). by right.
  - simpl.
    destruct (D3D12_create_wrapped_spec p W H hr st w op W H Hwf Hp0 Hop Hkp Hfresh)
      as (r0 & st0 & w0 & -> & Hwf0 & Hh0 & (l & Hl0) & (op2 & Hop2 & Hk2 & _) & Hr0).
    intros [= <- <- <-]. split; [done|]. split; [done|]. split; [eauto|]. split.
    + intros wr' ->. destruct Hr0 as (_ & a & _ & -> & -> & Ha & _).
      exists W, H. split; [done|]. split; [simpl; apply lookup_insert_eq|].
      split; [apply GetDesc12_Some; exists op2; split; [done|congruence]|].
      eexists _, _. split; [exact Ha|]. simpl. eauto.
    + intros ->. destruct Hr0 as (_ & -> & _). by right.
Qed.

(** Rebuild: a cached wrapper whose view reports another size than the
    texture has is destroyed; a new wrapper takes its place when the
    interop device is there and [CreateWrappedResource] succeeds, and
    otherwise the result is null and the texture is left without a
    wrapper.  The caller owns a reference to the texture. *)
Lemma D3D12_GetOrCreate_stale p hr st w wr op od W H cw ch :
  cache_wf st w →
  D3D12.m_wrappedResources st !! p = Some wr →
  objs w !! p = Some op → o_kind op = KResource12 W H → 2 ≤ o_refs op →
  objs w !! D3D12.d3d11Resource wr = Some od →
  as_Texture2D (o_kind od) = Some (cw, ch) →
  cw ≠ W ∨ ch ≠ H →
  fresh_in hr w →
  ∃ r st' w',
    D3D12.GetOrCreateWrappedResource p hr st w = Some (r, st', w')
    ∧ cache_wf st' w'
    ∧ objs w' !! D3D12.d3d11Resource wr = None
    ∧ match r with
      | Some wr' =>
          is_null (D3D12.m_d3d11On12Device st) = false
          ∧ ∃ a, hr = Some a
                 ∧ wr' = D3D12.mkWrapped (N.succ (next_serial w)) p a
                 ∧ wr' ≠ wr
                 ∧ D3D12.m_wrappedResources st' !! p = Some wr'
                 ∧ objs w' !! a
                   = Some (mkComObj (next_serial w) 1 (KWrapped11 p (Some (to_UINT W, H))))
      | None =>
          (is_null (D3D12.m_d3d11On12Device st) = true ∨ hr = None)
          ∧ D3D12.m_wrappedResources st' !! p = None
      end.
Proof.
  intros Hwf Hc Hop Hkp Hrefs Hod Htex Hne Hfresh.
  unfold D3D12.GetOrCreateWrappedResource, D3D12.find_cached.
  rewrite (proj2 (GetDesc12_Some p w W H)) by eauto. simpl.
  rewrite Hc, Hod. simpl. rewrite Htex. rewrite dims_differ_test by done.
  destruct (D3D12_erase_cached p st w wr Hwf Hc)
    as (op' & ow' & w1 & Hop' & How' & -> & Hs1 & Hh1 & Hl1 & Hgone & Hp1 & Hq1 & Hwf1).
  rewrite Hop in Hop'. injection Hop' as <-. simpl.
  assert (p ≠ 0%N) as Hp0 by (destruct Hwf as [Hi _]; by destruct (Hi p wr Hc) as (_ & ? & _)).
  assert (fresh_in hr w1) as Hfresh1.
  { intros a Ha. destruct (Hfresh a Ha) as [? Hfree]. split; [done|].
    rewrite Hq1; [done| |]; intros ->; congruence. }
  assert (∃ op1, released op = Some op1) as [op1 Hrel].
  { unfold released. destruct (o_refs op) as [|[|n]]; [lia|lia|eauto]. }
  rewrite Hrel in Hp1. destruct (released_kind _ _ Hrel) as [Hk1 _].
  destruct (D3D12_create_wrapped_spec p W H hr _ w1 op1 W H Hwf1 Hp0 Hp1
              ltac:(congruence) Hfresh1)
    as (r0 & st0 & w0 & -> & Hwf0 & Hh0 & (l & Hl0) & _ & Hr0).
  exists r0, st0, w0. split; [done|]. split; [done|].
  destruct r0 as [wr'|].
  - destruct Hr0 as (Hon & a & -> & -> & -> & Ha & Hs0 & _ & Hframe).
    destruct (Hfresh a eq_refl) as [Ha0 Hafree].
    assert (D3D12.d3d11Resource wr ≠ a) as Hba by (intros Heq; congruence).
    split; [by apply Hframe|]. split; [done|]. exists a. split; [done|].
    split; [by rewrite Hs1|]. split; [intros Heq; by rewrite <- Heq in Hba|].
    split; [simpl; apply lookup_insert_eq|]. by rewrite <- Hs1.
  - destruct Hr0 as (Hwhy & -> & -> & _). split; [done|]. split; [done|].
    simpl. apply lookup_delete_eq.
Qed.

(** A wrapper that a call returned is returned again, with nothing
    changed, by the next call, as long as the texture is the same. *)
Lemma D3D12_GetOrCreate_twice p hr hr' st w wr st' w' W H :
  cache_wf st w → p ≠ 0%N → fresh_in hr w →
  GetDesc12 p w = Some (W, H) → (0 ≤ W < UINT_modulus)%Z →
  D3D12.GetOrCreateWrappedResource p hr st w = Some (Some wr, st', w') →
  D3D12.GetOrCreateWrappedResource p hr' st' w' = Some (Some wr, st', w').
Proof.
  intros Hwf Hp0 Hfresh Hd HW Hcall.
  destruct (D3D12_GetOrCreate_wf p hr st w _ st' w' Hwf Hp0 Hfresh Hcall)
    as (_ & _ & _ & Hret & _).
  destruct (Hret wr eq_refl) as (W0 & H0 & Hd0 & Hc' & Hd' & od & cw & Hod & Htex & Hcw).
  rewrite Hd in Hd0. injection Hd0 as <- <-.
  eapply D3D12_GetOrCreate_reuse; eauto.
  rewrite Htex. destruct Hcw as [->| ->]; [done|]. by rewrite to_UINT_small.
Qed.

(** C2, as amended.  For a texture that has a wrapper in the cache: when
    the size the wrapper's view reports is the size the texture has,
    [GetOrCreateWrappedResource] returns that very wrapper and changes
    nothing, so a second call returns it again; when the sizes differ,
    the cached wrapper is destroyed, and the call either returns a newly
    built wrapper that is stored in its place (the interop device is there
    and [CreateWrappedResource] succeeds) or returns null and leaves the
    texture without a wrapper.  A wrapper returned by one call is returned
    by the next. *)
Theorem C2_cached_wrapper_reused_or_rebuilt :
  ∀ p st w wr op od W H cw ch,
    cache_wf st w →
    D3D12.m_wrappedResources st !! p = Some wr →
    objs w !! p = Some op → o_kind op = KResource12 W H →
    objs w !! D3D12.d3d11Resource wr = Some od →
    as_Texture2D (o_kind od) = Some (cw, ch) →
    (cw = W ∧ ch = H →
     ∀ hr, D3D12.GetOrCreateWrappedResource p hr st w = Some (Some wr, st, w))
    ∧ (cw ≠ W ∨ ch ≠ H → 2 ≤ o_refs op →
       ∀ hr, fresh_in hr w →
         ∃ r st' w',
           D3D12.GetOrCreateWrappedResource p hr st w = Some (r, st', w')
           ∧ cache_wf st' w'
           ∧ objs w' !! D3D12.d3d11Resource wr = None
           ∧ match r with
             | Some wr' =>
                 is_null (D3D12.m_d3d11On12Device st) = false
                 ∧ ∃ a, hr = Some a
                        ∧ wr' = D3D12.mkWrapped (N.succ (next_serial w)) p a
                        ∧ wr' ≠ wr
                        ∧ D3D12.m_wrappedResources st' !! p = Some wr'
                        ∧ objs w' !! a
                          = Some (mkComObj (next_serial w) 1
                                    (KWrapped11 p (Some (to_UINT W, H))))
             | None =>
                 (is_null (D3D12.m_d3d11On12Device st) = true ∨ hr = None)
                 ∧ D3D12.m_wrappedResources st' !! p = None
             end)
    ∧ (∀ hr hr' wr' st' w',
         fresh_in hr w → (0 ≤ W < UINT_modulus)%Z →
         D3D12.GetOrCreateWrappedResource p hr st w = Some (Some wr', st', w') →
         D3D12.GetOrCreateWrappedResource p hr' st' w' = Some (Some wr', st', w')).
Proof.
  intros p st w wr op od W H cw ch Hwf Hc Hop Hkp Hod Htex.
  assert (GetDesc12 p w = Some (W, H)) as Hd by (apply GetDesc12_Some; eauto).
  assert (p ≠ 0%N) as Hp0 by (destruct Hwf as [Hi _]; by destruct (Hi p wr Hc) as (_ & ? & _)).
  split; [|split].
  - intros [-> ->] hr. by eapply D3D12_GetOrCreate_reuse.
  - intros Hne Hrefs hr Hfresh. by eapply D3D12_GetOrCreate_stale.
  - intros hr hr' wr' st' w' Hfresh HW Hcall. by eapply D3D12_GetOrCreate_twice.
Qed.

(** *** Every operation keeps the cache and the heap in agreement *)

Lemma cache_wf_new_texture a W H st w w' :
  cache_wf st w → com_new a (KResource12 W H) w = Some w' → cache_wf st w'.
Proof.
  intros [Hi Hii] (Ha & Hfree & ->)%com_new_inv. split; simpl.
  - intros k wr Hk.
    destruct (Hi k wr Hk)
      as (Hkey & Hk0 & Ha0 & (o & Wk & Hk' & Ho & Hko & Hpos) & (ow & tex & How & Hkw & Hr)).
    do 3 (split; [done|]). split.
    + exists o, Wk, Hk'. rewrite lookup_insert_ne; [done|]. intros ->. congruence.
    + exists ow, tex. rewrite lookup_insert_ne; [done|].
      intros Heq. rewrite <- Heq in How. congruence.
  - intros q o k tex Hq Hkq. destruct (decide (q = a)) as [->|Hne].
    + rewrite lookup_insert_eq in Hq. injection Hq as <-. done.
    + rewrite lookup_insert_ne in Hq by done. eauto.
Qed.

Lemma cache_wf_release_uncached p st w w' W H :
  cache_wf st w → D3D12.m_wrappedResources st !! p = None →
  GetDesc12 p w = Some (W, H) → Release p w = Some w' → cache_wf st w'.
Proof.
  intros [Hi Hii] Hc (op & Hop & Hkp)%GetDesc12_Some HR.
  destruct (Release_lookup p w op Hop) as (w1 & HR1 & _ & _ & _ & Hp1 & Hq1).
  rewrite HR in HR1. injection HR1 as <-. split.
  - intros k wr Hk.
    destruct (Hi k wr Hk)
      as (Hkey & Hk0 & Ha0 & (o & Wk & Hk' & Ho & Hko & Hpos) & (ow & tex & How & Hkw & Hr)).
    do 3 (split; [done|]). split.
    + exists o, Wk, Hk'. rewrite Hq1; [done|]. intros ->. congruence.
    + exists ow, tex. rewrite Hq1; [done|].
      intros Heq. rewrite Heq in How. congruence.
  - intros q o k tex Hq Hkq. destruct (decide (q = p)) as [->|Hne].
    + rewrite Hp1 in Hq. apply released_kind in Hq as [Hk' _]. congruence.
    + rewrite Hq1 in Hq by done. eauto.
Qed.

Lemma D3D12_erase_wf p st w st1 w1 :
  cache_wf st w → D3D12.erase p st w = Some (st1, w1) →
  cache_wf st1 w1 ∧ D3D12.m_wrappedResources st1 !! p = None
  ∧ st1 = D3D12.set_wrappedResources (delete p (D3D12.m_wrappedResources st)) st
  ∧ handles w1 = handles w ∧ gpu_log w1 = gpu_log w.
Proof.
  intros Hwf. destruct (D3D12.m_wrappedResources st !! p) as [wr|] eqn:Hc.
  - destruct (D3D12_erase_cached p st w wr Hwf Hc)
      as (_ & _ & w2 & _ & _ & -> & _ & ? & ? & _ & _ & _ & ?).
    intros [= <- <-]. do 2 (split; [done || (simpl; apply lookup_delete_eq)|]).
    done.
  - unfold D3D12.erase. rewrite Hc. intros [= <- <-].
    split; [done|]. split; [done|]. split; [|done].
    rewrite delete_id by done. by destruct st.
Qed.

Lemma D3D12_Destroy_wf p st w st' w' :
  cache_wf st w → D3D12.DestroySharedTexture p st w = Some (st', w') →
  cache_wf st' w'
  ∧ st' = (if is_null p then st
           else D3D12.set_wrappedResources (delete p (D3D12.m_wrappedResources st)) st)
  ∧ handles w' = handles w ∧ gpu_log w' = gpu_log w.
Proof.
  intros Hwf. unfold D3D12.DestroySharedTexture.
  destruct (is_null p); [by intros [= <- <-]|].
  destruct (D3D12.erase p st w) as [[st1 w1]|] eqn:He; simpl; [|done].
  destruct (D3D12_erase_wf p st w st1 w1 Hwf He) as (Hwf1 & Hc1 & -> & Hh1 & Hl1).
  destruct (GetDesc12 p w1) as [[W H]|] eqn:Hd; simpl; [|done].
  destruct (Release p w1) as [w2|] eqn:HR; simpl; [|done].
  intros [= <- <-]. split; [by eapply cache_wf_release_uncached|]. split; [done|].
  apply Release_inv in HR as (_ & _ & _ & ? & ? & _). split; congruence.
Qed.

Lemma D3D12_Create_wf width height out hr st w r out' w' :
  cache_wf st w →
  D3D12.CreateSharedTexture width height out hr st w = Some (r, out', w') →
  cache_wf st w' ∧ handles w' = handles w ∧ gpu_log w' = gpu_log w.
Proof.
  intros Hwf. rewrite D3D12_create_spec.
  destruct (is_null _); [by intros [= <- <- <-]|].
  destruct out, hr as [a|]; try by intros [= <- <- <-].
  destruct (com_new a _ w) as [w1|] eqn:Hn; simpl; [|done].
  intros [= <- <- <-]. split; [by eapply cache_wf_new_texture|].
  by apply com_new_inv in Hn as (_ & _ & ->).
Qed.

Lemma D3D12_WaitForGPU_wf wait st w st1 w1 :
  cache_wf st w → D3D12.WaitForGPU wait st w = (st1, w1) →
  cache_wf st1 w1 ∧ handles w1 = handles w
  ∧ D3D12.m_wrappedResources st1 = D3D12.m_wrappedResources st.
Proof.
  intros Hwf ((v & ->) & Hobjs & _ & Hh & _)%D3D12_WaitForGPU_inv.
  split; [|done]. eapply cache_wf_same_resources; [|by apply same_resources_objs|done]. done.
Qed.

Lemma D3D12_Resize_wf p newW newH out wait hr st w r out' st' w' :
  cache_wf st w →
  D3D12.ResizeSharedTexture p newW newH out wait hr st w = Some (r, out', st', w') →
  cache_wf st' w' ∧ handles w' = handles w.
Proof.
  intros Hwf. unfold D3D12.ResizeSharedTexture.
  case_bool_decide; [by intros [= <- <- <- <-]|].
  destruct (D3D12.WaitForGPU wait st w) as [st1 w1] eqn:Hwait.
  destruct (D3D12_WaitForGPU_wf _ _ _ _ _ Hwf Hwait) as (Hwf1 & Hh1 & _).
  destruct (D3D12.DestroySharedTexture p st1 w1) as [[st2 w2]|] eqn:Hdes; simpl; [|done].
  destruct (D3D12_Destroy_wf _ _ _ _ _ Hwf1 Hdes) as (Hwf2 & _ & Hh2 & _).
  destruct (D3D12.CreateSharedTexture _ _ _ _ st2 w2) as [[[r3 out3] w3]|] eqn:Hcr;
    simpl; [|done].
  destruct (D3D12_Create_wf _ _ _ _ _ _ _ _ _ Hwf2 Hcr) as (Hwf3 & Hh3 & _).
  intros [= <- <- <- <-]. split; [done|congruence].
Qed.

Lemma D3D12_Begin_wf p hr st w st' w' :
  cache_wf st w → fresh_in hr w →
  D3D12.BeginRenderToTexture p hr st w = Some (st', w') →
  cache_wf st' w' ∧ handles w' = handles w.
Proof.
  intros Hwf Hfresh. unfold D3D12.BeginRenderToTexture.
  destruct (is_null (D3D12.m_d3d11On12Device st)); simpl; [by intros [= <- <-]|].
  destruct (is_null p) eqn:Hp; [by intros [= <- <-]|]. apply is_null_false in Hp.
  destruct (D3D12.GetOrCreateWrappedResource p hr st w) as [[[r st1] w1]|] eqn:Hget;
    simpl; [|done].
  destruct (D3D12_GetOrCreate_wf _ _ _ _ _ _ _ Hwf Hp Hfresh Hget) as (Hwf1 & Hh1 & _).
  destruct r; intros [= <- <-]; (split; [|done]); [|done].
  eapply cache_wf_same_resources; [done|apply same_resources_submit|done].
Qed.

Lemma D3D12_End_wf p st w w' :
  cache_wf st w → D3D12.EndRenderToTexture p st w = Some w' →
  cache_wf st w' ∧ handles w' = handles w.
Proof.
  intros Hwf. unfold D3D12.EndRenderToTexture.
  destruct (_ || _); [by intros [= <-]|].
  destruct (D3D12.m_wrappedResources st !! p); [|by intros [= <-]].
  destruct (through _); simpl; [|done]. intros [= <-]. split; [|done].
  eapply cache_wf_same_resources; [done| |done].
  by apply same_resources_objs.
Qed.

Lemma for_UINT_submit_frame (on : N) (f : Z → GpuOp) (bound : Z) (w : World) :
  objs (for_UINT bound (λ y, submit on (f y)) w) = objs w
  ∧ handles (for_UINT bound (λ y, submit on (f y)) w) = handles w.
Proof.
  unfold for_UINT. generalize (Z.to_nat bound) 0%Z w.
  induction n as [|fuel IH]; intros y w0; simpl; [done|].
  destruct (y <? bound)%Z; [|done].
  destruct (IH (UINT_add y 1) (submit on (f y) w0)) as [-> ->]. done.
Qed.

Lemma D3D12_copy_via_staging_same src flipY env dst sW sH dW dH st w w' :
  D3D12.copy_via_staging src flipY env dst sW sH dW dH st w = Some w' →
  same_resources w w' ∧ handles w' = handles w.
Proof.
  unfold D3D12.copy_via_staging.
  destruct (through (D3D12.m_captureD3D11Device st)) as [capDev|]; simpl; [|done].
  destruct (D3D12.staging_hr env) as [staging|].
  2:{ intros [= <-]. split; [|done]. by apply same_resources_objs. }
  destruct (com_new staging _ _) as [w2|] eqn:Hn; simpl; [|done].
  pose proof Hn as (_ & _ & Hw2)%com_new_inv.
  apply com_new_same_resources in Hn as [Hsame Hap]; [|done].
  destruct (through (D3D12.m_captureD3D11Context st)) as [capCtx|]; simpl; [|done].
  assert (∀ wx, objs wx = objs w2 → handles wx = handles w2 →
                Release staging wx = Some w' →
                same_resources w w' ∧ handles w' = handles w) as Hfin.
  { intros wx Hox Hhx HR. split.
    - eapply same_resources_trans; [apply same_resources_submit|].
      eapply same_resources_trans; [exact Hsame|].
      eapply same_resources_trans; [apply same_resources_objs; exact Hox|].
      eapply Release_same_resources; [done|].
      eapply apart_same_resources; [apply same_resources_objs; exact Hox|done].
    - apply Release_inv in HR as (_ & _ & _ & -> & _). rewrite Hhx, Hw2. done. }
  destruct (D3D12.map_hr env) as [RowPitch|].
  2:{ apply Hfin; done. }
  destruct (through (D3D12.m_d3d11On12Device st)) as [on12|]; simpl; [|done].
  destruct (through (D3D12.m_d3d11Context st)) as [ctx|]; simpl; [|done].
  apply Hfin; simpl.
  - destruct flipY; [|done]. by rewrite (proj1 (for_UINT_submit_frame _ _ _ _)).
  - destruct flipY; [|done]. by rewrite (proj2 (for_UINT_submit_frame _ _ _ _)).
Qed.

Lemma D3D12_Copy_wf src dst flipY env st w st' w' :
  cache_wf st w → fresh_in (D3D12.wrap_hr env) w →
  D3D12.CopyCapturedTextureToUnityTexture src dst flipY env st w = Some (st', w') →
  cache_wf st' w' ∧ handles w' = handles w.
Proof.
  intros Hwf Hfresh. unfold D3D12.CopyCapturedTextureToUnityTexture.
  destruct (is_null src); simpl; [by intros [= <- <-]|].
  destruct (is_null dst) eqn:Hp; [by intros [= <- <-]|]. apply is_null_false in Hp.
  destruct (GetDesc11 src w) as [[sW sH]|]; simpl; [|done].
  destruct (GetDesc12 dst w) as [[rW rH]|]; simpl; [|done].
  destruct (_ || _); [by intros [= <- <-]|].
  destruct (D3D12.GetOrCreateWrappedResource dst _ st w) as [[[r st1] w1]|] eqn:Hget;
    simpl; [|done].
  destruct (D3D12_GetOrCreate_wf _ _ _ _ _ _ _ Hwf Hp Hfresh Hget) as (Hwf1 & Hh1 & _).
  destruct r as [wr|]; [|by intros [= <- <-]].
  destruct (objs w1 !! D3D12.d3d11Resource wr) as [o|]; simpl; [|done].
  destruct (as_Texture2D (o_kind o)) as [[dW dH]|]; [|by intros [= <- <-]].
  destruct (_ || _); [by intros [= <- <-]|].
  destruct (D3D12.copy_via_staging _ _ _ _ _ _ _ _ _ _) as [w2|] eqn:Hcopy; simpl; [|done].
  apply D3D12_copy_via_staging_same in Hcopy as [Hsame Hh2].
  intros [= <- <-]. split; [|congruence].
  by eapply cache_wf_same_resources.
Qed.

Lemma cache_wf_empty st w :
  D3D12.m_wrappedResources st = ∅ → cache_wf st w ↔ no_views w.
Proof.
  intros Hc. split.
  - intros [_ Hii] a o k tex Ha Hk. destruct (Hii a o k tex Ha Hk) as (wr & Hwr & _).
    by rewrite Hc in Hwr.
  - intros Hno. split.
    + intros k wr Hk. by rewrite Hc in Hk.
    + intros a o k tex Ha Hk. by destruct (Hno a o k tex Ha).
Qed.

Lemma Release_no_views p w w' : no_views w → Release p w = Some w' → no_views w'.
Proof.
  intros Hno (o & Ho & _ & _ & _ & Hobjs)%Release_inv a o' k tex Ha.
  destruct (decide (a = p)) as [->|Hne].
  - destruct Hobjs as [[_ Hobjs]|(n & _ & Hobjs)]; rewrite Hobjs in Ha.
    + by rewrite lookup_delete_eq in Ha.
    + rewrite lookup_insert_eq in Ha. injection Ha as <-. simpl. by eapply Hno.
  - destruct Hobjs as [[_ Hobjs]|(n & _ & Hobjs)]; rewrite Hobjs in Ha.
    + rewrite lookup_delete_ne in Ha by done. by eapply Hno.
    + rewrite lookup_insert_ne in Ha by done. by eapply Hno.
Qed.

Lemma ComPtr_Reset_no_views p w w' : no_views w → ComPtr_Reset p w = Some w' → no_views w'.
Proof.
  intros Hno [->|[_ HR]]%ComPtr_Reset_inv; [done|]. by eapply Release_no_views.
Qed.

Lemma D3D12_destroy_all_wf l : ∀ st w w',
  snd <$> map_to_list (D3D12.m_wrappedResources st) ≡ₚ l →
  cache_wf st w → D3D12.destroy_all l w = Some w' →
  no_views w' ∧ handles w' = handles w.
Proof.
  induction l as [|wr l IH]; intros st w w' Hperm Hwf; simpl.
  - intros [= <-]. split; [|done].
    apply Permutation_nil_r, fmap_nil_inv, map_to_list_empty_iff in Hperm.
    by apply (cache_wf_empty st w).
  - destruct (D3D12.destroy_WrappedResource wr w) as [w1|] eqn:Hd; simpl; [|done].
    intros Hall.
    assert (wr ∈ snd <$> map_to_list (D3D12.m_wrappedResources st)) as Hin.
    { rewrite Hperm. by left. }
    apply list_elem_of_fmap in Hin as ([k wr0] & Heq & Hin). simpl in Heq. subst wr0.
    apply elem_of_map_to_list in Hin.
    assert (D3D12.erase k st w
            = Some (D3D12.set_wrappedResources (delete k (D3D12.m_wrappedResources st)) st, w1))
      as He.
    { unfold D3D12.erase. rewrite Hin, Hd. done. }
    destruct (D3D12_erase_wf k st w _ w1 Hwf He) as (Hwf1 & _ & _ & Hh1 & _).
    destruct (IH (D3D12.set_wrappedResources (delete k (D3D12.m_wrappedResources st)) st)
                w1 w') as [Hno Hh]; [|done|done|].
    + simpl. apply (Permutation_cons_inv (a := wr)). rewrite <- Hperm.
      rewrite <- (map_to_list_delete _ k wr Hin). done.
    + split; [done|congruence].
Qed.

Lemma D3D12_ReleaseResources_wf wait st w st' w' :
  cache_wf st w → D3D12.ReleaseResources wait st w = Some (st', w') →
  cache_wf st' w' ∧ D3D12.m_wrappedResources st' = ∅.
Proof.
  intros Hwf. unfold D3D12.ReleaseResources.
  destruct (D3D12.WaitForGPU wait st w) as [st1 w1] eqn:Hwait.
  destruct (D3D12_WaitForGPU_wf _ _ _ _ _ Hwf Hwait) as (Hwf1 & _ & _).
  destruct (D3D12.destroy_all _ w1) as [w2|] eqn:Hall; simpl; [|done].
  destruct (D3D12_destroy_all_wf _ st1 w1 w2 (reflexivity _) Hwf1 Hall) as [Hno _].
  set (w3 := if is_null _ then w2 else _).
  assert (no_views w3) as Hno3 by (subst w3; by destruct (is_null _)).
  clearbody w3.
  repeat match goal with
  | |- context [ComPtr_Reset ?p ?wx] =>
      let wn := fresh "wn" in let HR := fresh "HR" in
      destruct (ComPtr_Reset p wx) as [wn|] eqn:HR; simpl; [|done];
      match goal with Hn : no_views wx |- _ =>
        apply (ComPtr_Reset_no_views p wx wn Hn) in HR end
  end.
  intros [= <- <-]. split; [|done]. by apply cache_wf_empty.
Qed.

(** ** The wrap cache across device events *)

Lemma resources_lookup_Some w a o :
  resources w !! a = Some o ↔ objs w !! a = Some o ∧ is_resource (o_kind o) = true.
Proof. unfold resources. by rewrite map_lookup_filter_Some. Qed.

Lemma same_resources_eq w w' : same_resources w w' ↔ resources w = resources w'.
Proof.
  split.
  - intros Hsame. apply map_eq. intros a. apply option_eq. intros o.
    rewrite !resources_lookup_Some. split; intros [Ho Hk]; (split; [|done]);
      by apply (Hsame a o Hk).
  - intros Heq a o Hk. split; intros Ho.
    + apply (proj1 (resources_lookup_Some w' a o)). rewrite <- Heq.
      by apply resources_lookup_Some.
    + apply (proj1 (resources_lookup_Some w a o)). rewrite Heq.
      by apply resources_lookup_Some.
Qed.

Lemma apart_resources p w : apart p w ↔ resources w !! p = None.
Proof.
  split.
  - intros Hp. destruct (resources w !! p) as [o|] eqn:Ho; [|done].
    apply resources_lookup_Some in Ho as [Ho Hk]. by rewrite (Hp o Ho) in Hk.
  - intros Hnone o Ho. destruct (is_resource (o_kind o)) eqn:Hk; [|done].
    assert (resources w !! p = Some o) by by apply resources_lookup_Some. congruence.
Qed.

Lemma ComPtr_Reset_resources p w w' :
  apart0 p w → ComPtr_Reset p w = Some w' → resources w' = resources w.
Proof.
  intros [->|Hp] HR.
  - unfold ComPtr_Reset in HR. simpl in HR. congruence.
  - symmetry. apply same_resources_eq. eapply ComPtr_Reset_same_resources; [done|].
    by apply apart_resources.
Qed.

Lemma AddRef_resources p w w' :
  resources w !! p = None → AddRef p w = Some w' → resources w' = resources w.
Proof.
  intros Hp HA. symmetry. apply same_resources_eq.
  eapply AddRef_same_resources; [done|]. by apply apart_resources.
Qed.

Lemma ComPtr_assign_resources held new w w' :
  apart0 held w → apart0 new w → ComPtr_assign held new w = Some w' →
  resources w' = resources w.
Proof.
  intros Hh Hn. unfold ComPtr_assign. case_decide; [congruence|].
  destruct (is_null new) eqn:Hnull; simpl.
  - by apply ComPtr_Reset_resources.
  - destruct Hn as [->|Hn]; [done|].
    destruct (AddRef new w) as [w1|] eqn:HA; simpl; [|done].
    apply AddRef_resources in HA; [|done]. intros HR.
    apply ComPtr_Reset_resources in HR; [congruence|].
    destruct Hh as [->|Hh]; [by left|right; congruence].
Qed.

Lemma com_new_resources a k w w' :
  is_resource k = false → com_new a k w = Some w' →
  resources w' = resources w ∧ resources w' !! a = None.
Proof.
  intros Hk Hn. destruct (com_new_same_resources a k w w' Hn Hk) as [Hsame Hap].
  split; [symmetry; by apply same_resources_eq|by apply apart_resources].
Qed.

Ltac apart_solve :=
  unfold devices_apart, apart0 in *; simpl;
  repeat match goal with H : _ ∧ _ |- _ => destruct H end;
  repeat split;
  repeat match goal with H : _ ∨ _ |- _ => destruct H end;
  first [left; done | right; congruence | left; congruence | congruence].

Lemma D3D12_InitializeD3D11On12_res env st w r st' w' :
  devices_apart st w → D3D12.InitializeD3D11On12 env st w = Some (r, st', w') →
  resources w' = resources w ∧ devices_apart st' w'
  ∧ D3D12.m_wrappedResources st' = D3D12.m_wrappedResources st.
Proof.
  intros Hap. unfold D3D12.InitializeD3D11On12.
  destruct (_ || _); [by intros [= <- <- <-]|].
  destruct (ComPtr_Reset (D3D12.m_d3d11Device st) w) as [w1|] eqn:H1; simpl; [|done].
  apply ComPtr_Reset_resources in H1; [|apart_solve].
  destruct (ComPtr_Reset (D3D12.m_d3d11Context st) w1) as [w2|] eqn:H2; simpl; [|done].
  apply ComPtr_Reset_resources in H2; [|apart_solve].
  destruct (D3D12.on12_create env) as [[dev ctx]|].
  2:{ intros [= <- <- <-]. split; [congruence|]. split; [apart_solve|done]. }
  destruct (com_new dev _ w2) as [w3|] eqn:H3; simpl; [|done].
  apply com_new_resources in H3 as [H3 H3']; [|done].
  destruct (com_new ctx _ w3) as [w4|] eqn:H4; simpl; [|done].
  apply com_new_resources in H4 as [H4 H4']; [|done].
  destruct (ComPtr_Reset (D3D12.m_d3d11On12Device st) w4) as [w5|] eqn:H5; simpl; [|done].
  apply ComPtr_Reset_resources in H5; [|apart_solve].
  destruct (D3D12.on12_As env).
  - destruct (AddRef dev w5) as [w6|] eqn:H6; simpl; [|done].
    apply AddRef_resources in H6; [|congruence].
    intros [= <- <- <-]. split; [congruence|]. split; [apart_solve|done].
  - intros [= <- <- <-]. split; [congruence|]. split; [apart_solve|done].
Qed.

Lemma D3D12_InitializeCaptureDevice_res env st w r st' w' :
  devices_apart st w → D3D12.InitializeCaptureDevice env st w = Some (r, st', w') →
  resources w' = resources w ∧ devices_apart st' w'
  ∧ D3D12.m_wrappedResources st' = D3D12.m_wrappedResources st.
Proof.
  intros Hap. unfold D3D12.InitializeCaptureDevice.
  destruct (is_null _); [by intros [= <- <- <-]|].
  destruct (D3D12.GetAdapterLuid _ w) as [[lo hi]|]; simpl; [|done].
  destruct (negb _); [by intros [= <- <- <-]|].
  destruct (ComPtr_Reset (D3D12.m_captureD3D11Device st) w) as [w1|] eqn:H1; simpl; [|done].
  apply ComPtr_Reset_resources in H1; [|apart_solve].
  destruct (ComPtr_Reset (D3D12.m_captureD3D11Context st) w1) as [w2|] eqn:H2; simpl; [|done].
  apply ComPtr_Reset_resources in H2; [|apart_solve].
  destruct (D3D12.capture_create env) as [[dev ctx]|].
  2:{ intros [= <- <- <-]. split; [congruence|]. split; [apart_solve|done]. }
  destruct (com_new dev _ w2) as [w3|] eqn:H3; simpl; [|done].
  apply com_new_resources in H3 as [H3 H3']; [|done].
  destruct (com_new ctx _ w3) as [w4|] eqn:H4; simpl; [|done].
  apply com_new_resources in H4 as [H4 H4']; [|done].
  intros [= <- <- <-]. split; [congruence|]. split; [apart_solve|done].
Qed.

Lemma D3D12_InitializeCompositionDevice_res env st w r st' w' :
  devices_apart st w → D3D12.InitializeCompositionDevice env st w = Some (r, st', w') →
  resources w' = resources w ∧ devices_apart st' w'
  ∧ D3D12.m_wrappedResources st' = D3D12.m_wrappedResources st.
Proof.
  intros Hap. unfold D3D12.InitializeCompositionDevice.
  destruct (is_null _); [by intros [= <- <- <-]|].
  destruct (negb _); [by intros [= <- <- <-]|].
  destruct (D3D12.dcomp env) as [c|].
  2:{ intros [= <- <- <-]. split; [done|]. split; [apart_solve|done]. }
  destruct (com_new c _ w) as [w1|] eqn:H1; simpl; [|done].
  apply com_new_resources in H1 as [H1 H1']; [|done].
  intros [= <- <- <-]. split; [congruence|]. split; [apart_solve|done].
Qed.

Lemma CreateEvent_resources h w w' :
  D3D12.CreateEvent h w = Some w' → resources w' = resources w.
Proof.
  unfold D3D12.CreateEvent. destruct (is_null h); [congruence|].
  case_decide; [done|]. by intros [= <-].
Qed.

Lemma D3D12_CreateFence_res env st w r st' w' :
  devices_apart st w → D3D12.CreateFence env st w = Some (r, st', w') →
  resources w' = resources w ∧ devices_apart st' w'
  ∧ D3D12.m_wrappedResources st' = D3D12.m_wrappedResources st.
Proof.
  intros Hap. unfold D3D12.CreateFence.
  destruct (is_null _); [by intros [= <- <- <-]|].
  destruct (ComPtr_Reset (D3D12.m_fence st) w) as [w1|] eqn:H1; simpl; [|done].
  apply ComPtr_Reset_resources in H1; [|apart_solve].
  destruct (D3D12.fence_create env) as [f|].
  2:{ intros [= <- <- <-]. split; [congruence|]. split; [apart_solve|done]. }
  destruct (com_new f _ w1) as [w2|] eqn:H2; simpl; [|done].
  apply com_new_resources in H2 as [H2 H2']; [|done].
  destruct (D3D12.CreateEvent _ w2) as [w3|] eqn:H3; simpl; [|done].
  apply CreateEvent_resources in H3.
  destruct (is_null _); intros [= <- <- <-];
    (split; [congruence|]); (split; [apart_solve|done]).
Qed.

Lemma D3D12_initialize_wf env st w st' w' :
  cache_wf st w → devices_apart st w → interfaces_apart env w →
  D3D12.initialize env st w = Some (st', w') →
  cache_wf st' w'.
Proof.
  intros Hwf Hap Hif. unfold D3D12.initialize.
  destruct (D3D12.interfaces env) as [[[dev queue]|]|] eqn:Hi; try by intros [= <- <-].
  destruct (Hif dev queue Hi) as [Hdev Hqueue].
  destruct (ComPtr_assign _ dev w) as [w1|] eqn:H1; simpl; [|done].
  apply ComPtr_assign_resources in H1; [|apart_solve|done].
  destruct (ComPtr_assign _ queue w1) as [w2|] eqn:H2; simpl; [|done].
  apply ComPtr_assign_resources in H2; [|apart_solve|apart_solve].
  set (st1 := D3D12.set_d3d12 dev queue st).
  assert (devices_apart st1 w2) as Hap1 by (subst st1; apart_solve).
  assert (∀ stx wx, resources wx = resources w2 →
                    D3D12.m_wrappedResources stx = D3D12.m_wrappedResources st1 →
                    cache_wf stx wx) as Hfin.
  { intros stx wx Hr Hc. eapply cache_wf_same_resources; [exact Hc| |exact Hwf].
    apply same_resources_eq. congruence. }
  destruct (_ || _); [intros [= <- <-]; by apply Hfin|].
  destruct (D3D12.InitializeD3D11On12 env st1 w2) as [[[r2 st2] w3]|] eqn:S1; simpl; [|done].
  apply D3D12_InitializeD3D11On12_res in S1 as (R1 & A1 & C1); [|done].
  destruct (negb _); [intros [= <- <-]; apply Hfin; congruence|].
  destruct (D3D12.InitializeCaptureDevice env st2 w3) as [[[r3 st3] w4]|] eqn:S2;
    simpl; [|done].
  apply D3D12_InitializeCaptureDevice_res in S2 as (R2 & A2 & C2); [|done].
  destruct (negb _); [intros [= <- <-]; apply Hfin; congruence|].
  destruct (D3D12.InitializeCompositionDevice env st3 w4) as [[[r4 st4] w5]|] eqn:S3;
    simpl; [|done].
  apply D3D12_InitializeCompositionDevice_res in S3 as (R3 & A3 & C3); [|done].
  destruct (negb _); [intros [= <- <-]; apply Hfin; congruence|].
  destruct (D3D12.CreateFence env st4 w5) as [[[r5 st5] w6]|] eqn:S4; simpl; [|done].
  apply D3D12_CreateFence_res in S4 as (R4 & A4 & C4); [|done].
  intros [= <- <-]. apply Hfin; congruence.
Qed.

Lemma run_preserves_cache_wf op st w st' w' :
  cache_wf st w → answers_possible op st w → run op st w = Some (st', w') →
  cache_wf st' w'.
Proof.
  intros Hwf Hans. destruct op; simpl.
  - destruct eventType; simpl in *.
    + destruct Hans. by apply D3D12_initialize_wf.
    + intros H. by apply D3D12_ReleaseResources_wf in H as [? _].
    + intros H. by apply D3D12_ReleaseResources_wf in H as [? _].
    + destruct Hans. by apply D3D12_initialize_wf.
    + by intros [= <- <-].
  - destruct (D3D12.CreateSharedTexture _ _ _ _ _ _) as [[[r o] w1]|] eqn:H; simpl; [|done].
    intros [= <- <-]. by apply D3D12_Create_wf in H as [? _].
  - intros H. by apply D3D12_Destroy_wf in H as [? _].
  - destruct (D3D12.ResizeSharedTexture _ _ _ _ _ _ _ _) as [[[[r o] st1] w1]|] eqn:H;
      simpl; [|done].
    intros [= <- <-]. by apply D3D12_Resize_wf in H as [? _].
  - intros H. by apply D3D12_Begin_wf in H as [? _].
  - destruct (D3D12.EndRenderToTexture _ _ _) as [w1|] eqn:H; simpl; [|done].
    intros [= <- <-]. by apply D3D12_End_wf in H as [? _].
  - intros [= H]. by apply D3D12_WaitForGPU_wf in H as [? _].
  - intros [= <- <-]. unfold D3D12.SignalRenderComplete.
    destruct (is_null _); [done|].
    eapply cache_wf_same_resources; [done|apply same_resources_submit|done].
  - intros H. by apply D3D12_Copy_wf in H as [? _].
Qed.

(** ** The checker is sound *)

Lemma cache_wf_check_sound st w : cache_wf_check st w = true → cache_wf st w.
Proof.
  unfold cache_wf_check. intros [H1 H2]%andb_true_iff.
  rewrite forallb_forall in H1, H2. split.
  - intros k wr Hk.
    specialize (H1 (k, wr)). simpl in H1.
    rewrite <- list_elem_of_In, elem_of_map_to_list in H1. specialize (H1 Hk).
    repeat match type of H1 with (_ && _ = true) => apply andb_true_iff in H1 as [H1 ?] end.
    destruct (objs w !! k) as [o|]; [|done].
    destruct (o_kind o) eqn:Hko; try done.
    destruct (objs w !! D3D12.d3d11Resource wr) as [ow|]; [|done].
    destruct (o_kind ow) eqn:Hkw; try done.
    repeat match goal with
           | H : _ && _ = true |- _ => apply andb_true_iff in H as [? ?]
           | H : bool_decide _ = true |- _ => apply bool_decide_eq_true in H
           | H : negb (is_null _) = true |- _ => apply negb_true_iff, is_null_false in H
           end.
    subst. repeat split; eauto 10.
  - intros a o k tex Ha Hk.
    specialize (H2 (a, o)). simpl in H2.
    rewrite <- list_elem_of_In, elem_of_map_to_list in H2. specialize (H2 Ha).
    rewrite Hk in H2. destruct (D3D12.m_wrappedResources st !! k) as [wr|]; [|done].
    apply bool_decide_eq_true in H2. eauto.
Qed.

(** C9, as amended.  The wrap cache and the heap stay in agreement: a
    fresh back end has the property [cache_wf] in exactly the worlds
    where no wrapper view is alive, and every operation of the back end
    that returns leaves it in force.  Under [cache_wf] a texture has at most one live
    wrapper view, and the texture of a live view is itself alive, so no
    wrapper outlives its texture.  [DestroySharedTexture] leaves the
    destroyed texture without a cache entry and without a live view.  A
    cached wrapper whose view reports another size than the texture has
    is never handed out by [GetOrCreateWrappedResource], through which
    [BeginRenderToTexture] and the copy obtain their wrapper: its view is
    destroyed.  When the interop device is there and
    [CreateWrappedResource] succeeds, the call returns a new wrapper,
    filed under the texture, whose view is a new object of the texture's
    size; when the interop device is missing or [CreateWrappedResource]
    fails, the call returns null and leaves the texture with neither a
    cache entry nor a live view. *)
Theorem C9_wrap_cache_invariant :
  (∀ w, cache_wf D3D12.initial w ↔ no_views w)
  ∧ (∀ op st w st' w',
       cache_wf st w → answers_possible op st w → run op st w = Some (st', w') →
       cache_wf st' w')
  ∧ (∀ st w, cache_wf st w →
       (∀ a1 a2 o1 o2 k tex1 tex2,
          objs w !! a1 = Some o1 → o_kind o1 = KWrapped11 k tex1 →
          objs w !! a2 = Some o2 → o_kind o2 = KWrapped11 k tex2 → a1 = a2)
       ∧ (∀ a o k tex,
            objs w !! a = Some o → o_kind o = KWrapped11 k tex →
            ∃ ok W H, objs w !! k = Some ok ∧ o_kind ok = KResource12 W H))
  ∧ (∀ p st w st' w',
       cache_wf st w → p ≠ 0%N →
       D3D12.DestroySharedTexture p st w = Some (st', w') →
       D3D12.m_wrappedResources st' !! p = None
       ∧ ∀ a o tex, objs w' !! a = Some o → o_kind o ≠ KWrapped11 p tex)
  ∧ (∀ p hr st w wr op od W H cw ch,
       cache_wf st w →
       D3D12.m_wrappedResources st !! p = Some wr →
       objs w !! p = Some op → o_kind op = KResource12 W H → 2 ≤ o_refs op →
       objs w !! D3D12.d3d11Resource wr = Some od →
       as_Texture2D (o_kind od) = Some (cw, ch) →
       cw ≠ W ∨ ch ≠ H →
       fresh_in hr w →
       ∃ r st' w',
         D3D12.GetOrCreateWrappedResource p hr st w = Some (r, st', w')
         ∧ r ≠ Some wr
         ∧ objs w' !! D3D12.d3d11Resource wr = None
         ∧ (∀ wr', r = Some wr' → returned_wrapper p wr' W H st' w')
         ∧ (∀ a, is_null (D3D12.m_d3d11On12Device st) = false → hr = Some a →
              r = Some (D3D12.mkWrapped (N.succ (next_serial w)) p a)
              ∧ D3D12.m_wrappedResources st' !! p = r
              ∧ objs w' !! a
                = Some (mkComObj (next_serial w) 1 (KWrapped11 p (Some (to_UINT W, H)))))
         ∧ (is_null (D3D12.m_d3d11On12Device st) = true ∨ hr = None →
              r = None
              ∧ D3D12.m_wrappedResources st' !! p = None
              ∧ ∀ a o tex, objs w' !! a = Some o → o_kind o ≠ KWrapped11 p tex)).
Proof.
  split; [|split; [|split; [|split]]].
  - intros w. by apply cache_wf_empty.
  - apply run_preserves_cache_wf.
  - intros st w Hwf. split.
    + intros. by eapply cache_wf_one_wrapper.
    + intros. by eapply cache_wf_texture_alive.
  - intros p st w st' w' Hwf Hp Hdes.
    apply D3D12_Destroy_wf in Hdes as (Hwf' & -> & _); [|done].
    rewrite (proj2 (is_null_false p) Hp) in *. simpl.
    split; [apply lookup_delete_eq|].
    intros a o tex Ha Hk. destruct Hwf' as [_ Hii].
    destruct (Hii a o p tex Ha Hk) as (wr & Hwr & _).
    simpl in Hwr. by rewrite lookup_delete_eq in Hwr.
  - intros p hr st w wr op od W H cw ch Hwf Hc Hop Hkp Hrefs Hod Htex Hne Hfresh.
    destruct (D3D12_GetOrCreate_stale p hr st w wr op od W H cw ch)
      as (r & st' & w' & Hcall & Hwf' & Hgone & Hr); try done.
    exists r, st', w'. split; [done|].
    assert (p ≠ 0%N) as Hp0
      by (destruct Hwf as [Hi _]; by destruct (Hi p wr Hc) as (_ & ? & _)).
    destruct (D3D12_GetOrCreate_wf p hr st w r st' w' Hwf Hp0 Hfresh Hcall)
      as (_ & _ & _ & Hret & _).
    split; [|split; [done|split; [|split]]].
    + destruct r as [wr'|]; [|done]. destruct Hr as (_ & a & _ & _ & Hnew & _).
      congruence.
    + intros wr' ->. destruct (Hret wr' eq_refl) as (W0 & H0 & Hd0 & Hrw).
      assert (GetDesc12 p w = Some (W, H)) as Hd by (apply GetDesc12_Some; eauto).
      rewrite Hd in Hd0. by injection Hd0 as <- <-.
    + intros a Hon ->. destruct r as [wr'|].
      * destruct Hr as (_ & a' & [= <-] & -> & _ & Hcache & Hview). done.
      * destruct Hr as ([Hoff|?] & _); congruence.
    + intros Hwhy. destruct r as [wr'|].
      * destruct Hr as (Hon & a & -> & _). destruct Hwhy; congruence.
      * destruct Hr as (_ & Hcache). split; [done|]. split; [done|].
        intros a o tex Ha Hk. destruct Hwf' as [_ Hii].
        destruct (Hii a o p tex Ha Hk) as (wr' & Hwr' & _). congruence.
Qed.

(** ** Initialisation that stops half way *)

(** The steps after the first leave the two members alone that
    [IsInitialized] looks at. *)
Lemma D3D12_InitializeCaptureDevice_keeps env st w r st' w' :
  D3D12.InitializeCaptureDevice env st w = Some (r, st', w') →
  D3D12.m_d3d12Device st' = D3D12.m_d3d12Device st
  ∧ D3D12.m_d3d11Device st' = D3D12.m_d3d11Device st.
Proof.
  unfold D3D12.InitializeCaptureDevice.
  destruct (is_null _); [by intros [= <- <- <-]|].
  destruct (D3D12.GetAdapterLuid _ w) as [[lo hi]|]; simpl; [|done].
  destruct (negb _); [by intros [= <- <- <-]|].
  destruct (ComPtr_Reset _ w) as [w1|]; simpl; [|done].
  destruct (ComPtr_Reset _ w1) as [w2|]; simpl; [|done].
  destruct (D3D12.capture_create env) as [[d c]|]; [|by intros [= <- <- <-]].
  destruct (com_new d _ w2) as [w3|]; simpl; [|done].
  destruct (com_new c _ w3) as [w4|]; simpl; [|done].
  by intros [= <- <- <-].
Qed.

Lemma D3D12_InitializeCompositionDevice_keeps env st w r st' w' :
  D3D12.InitializeCompositionDevice env st w = Some (r, st', w') →
  D3D12.m_d3d12Device st' = D3D12.m_d3d12Device st
  ∧ D3D12.m_d3d11Device st' = D3D12.m_d3d11Device st.
Proof.
  unfold D3D12.InitializeCompositionDevice.
  destruct (is_null _); [by intros [= <- <- <-]|].
  destruct (negb _); [by intros [= <- <- <-]|].
  destruct (D3D12.dcomp env) as [c|]; [|by intros [= <- <- <-]].
  destruct (com_new c _ w) as [w1|]; simpl; [|done].
  by intros [= <- <- <-].
Qed.

Lemma D3D12_CreateFence_keeps env st w r st' w' :
  D3D12.CreateFence env st w = Some (r, st', w') →
  D3D12.m_d3d12Device st' = D3D12.m_d3d12Device st
  ∧ D3D12.m_d3d11Device st' = D3D12.m_d3d11Device st.
Proof.
  unfold D3D12.CreateFence.
  destruct (is_null (D3D12.m_d3d12Device st)); [by intros [= <- <- <-]|].
  destruct (ComPtr_Reset _ w) as [w1|]; simpl; [|done].
  destruct (D3D12.fence_create env) as [f|]; [|by intros [= <- <- <-]].
  destruct (com_new f _ w1) as [w2|]; simpl; [|done].
  destruct (D3D12.CreateEvent _ w2) as [w3|]; simpl; [|done].
  destruct (is_null _); by intros [= <- <- <-].
Qed.

(** Once the interop device exists the back end reports itself
    initialised, whatever the later steps answer. *)
Lemma D3D12_initialize_reports_initialized env st w st' w' dev queue d c :
  D3D12.interfaces env = Some (Some (dev, queue)) → dev ≠ 0%N → queue ≠ 0%N →
  D3D12.on12_create env = Some (d, c) → D3D12.on12_As env = true →
  D3D12.initialize env st w = Some (st', w') →
  D3D12.IsInitialized st' = true ∧ D3D12.m_d3d12Device st' = dev.
Proof.
  intros Hi Hdev Hqueue Hcreate HAs. unfold D3D12.initialize. rewrite Hi.
  destruct (ComPtr_assign _ dev w) as [w1|]; simpl; [|done].
  destruct (ComPtr_assign _ queue w1) as [w2|]; simpl; [|done].
  rewrite (proj2 (is_null_false dev) Hdev), (proj2 (is_null_false queue) Hqueue). simpl.
  unfold D3D12.InitializeD3D11On12. simpl.
  rewrite (proj2 (is_null_false dev) Hdev), (proj2 (is_null_false queue) Hqueue). simpl.
  destruct (ComPtr_Reset _ w2) as [w3|]; simpl; [|done].
  destruct (ComPtr_Reset _ w3) as [w4|]; simpl; [|done].
  rewrite Hcreate.
  destruct (com_new d _ w4) as [w5|] eqn:Hd; simpl; [|done].
  apply com_new_inv in Hd as (Hd0 & _).
  destruct (com_new c _ w5) as [w6|]; simpl; [|done].
  destruct (ComPtr_Reset _ w6) as [w7|]; simpl; [|done].
  rewrite HAs. destruct (AddRef d w7) as [w8|]; simpl; [|done].
  set (st2 := D3D12.set_d3d11On12 d _).
  assert (D3D12.IsInitialized st2 = true ∧ D3D12.m_d3d12Device st2 = dev) as Hst2.
  { unfold D3D12.IsInitialized. simpl.
    by rewrite (proj2 (is_null_false dev) Hdev), (proj2 (is_null_false d) Hd0). }
  assert (∀ stx, D3D12.m_d3d12Device stx = D3D12.m_d3d12Device st2 →
                 D3D12.m_d3d11Device stx = D3D12.m_d3d11Device st2 →
                 D3D12.IsInitialized stx = true ∧ D3D12.m_d3d12Device stx = dev) as Hkeep.
  { intros stx H12 H11. unfold D3D12.IsInitialized in *. rewrite H12, H11. exact Hst2. }
  clearbody st2.
  destruct (D3D12.InitializeCaptureDevice env st2 w8) as [[[r3 st3] w9]|] eqn:S2;
    simpl; [|done].
  apply D3D12_InitializeCaptureDevice_keeps in S2 as [E312 E311].
  destruct (negb _); [intros [= <- <-]; by apply Hkeep|].
  destruct (D3D12.InitializeCompositionDevice env st3 w9) as [[[r4 st4] w10]|] eqn:S3;
    simpl; [|done].
  apply D3D12_InitializeCompositionDevice_keeps in S3 as [E412 E411].
  destruct (negb _); [intros [= <- <-]; apply Hkeep; congruence|].
  destruct (D3D12.CreateFence env st4 w10) as [[[r5 st5] w11]|] eqn:S4; simpl; [|done].
  apply D3D12_CreateFence_keeps in S4 as [E512 E511].
  intros [= <- <-]. apply Hkeep; congruence.
Qed.

(** Initialisation closes no handle: an event that was open before is
    open afterwards, whether or not a member still holds it. *)
Lemma D3D12_initialize_keeps_handles_open env st w st' w' :
  D3D12.initialize env st w = Some (st', w') → handles w ⊆ handles w'.
Proof.
  assert (∀ p wa wb, ComPtr_Reset p wa = Some wb → handles wb = handles wa) as HR.
  { intros p wa wb Hr. by apply ComPtr_Reset_serial in Hr as (_ & ? & _). }
  assert (∀ p wa wb, AddRef p wa = Some wb → handles wb = handles wa) as HA.
  { intros p wa wb. unfold AddRef. destruct (objs wa !! p); simpl; [|done].
    by intros [= <-]. }
  assert (∀ a k wa wb, com_new a k wa = Some wb → handles wb = handles wa) as HN.
  { intros a k wa wb Hn. by apply com_new_inv in Hn as (_ & _ & ->). }
  assert (∀ h n wa wb, ComPtr_assign h n wa = Some wb → handles wb = handles wa) as HC.
  { intros h n wa wb. unfold ComPtr_assign. case_decide; [by intros [= <-]|].
    destruct (is_null n); simpl; [apply HR|].
    destruct (AddRef n wa) as [wc|] eqn:Hc; simpl; [|done].
    intros Hr. rewrite (HR _ _ _ Hr). by eapply HA. }
  assert (∀ h wa wb, D3D12.CreateEvent h wa = Some wb → handles wa ⊆ handles wb) as HE.
  { intros h wa wb. unfold D3D12.CreateEvent. destruct (is_null h); [by intros [= <-]|].
    case_decide; [done|]. intros [= <-]. simpl. apply union_subseteq_r. }
  unfold D3D12.initialize.
  destruct (D3D12.interfaces env) as [[[dev queue]|]|]; try by intros [= <- <-].
  destruct (ComPtr_assign _ dev w) as [w1|] eqn:H1; simpl; [|done]. apply HC in H1.
  destruct (ComPtr_assign _ queue w1) as [w2|] eqn:H2; simpl; [|done]. apply HC in H2.
  destruct (_ || _); [intros [= <- <-]; by rewrite H2, H1|].
  destruct (D3D12.InitializeD3D11On12 env _ w2) as [[[r2 st2] w3]|] eqn:S1; simpl; [|done].
  assert (handles w3 = handles w2) as E3.
  { unfold D3D12.InitializeD3D11On12 in S1.
    destruct (_ || _); [by injection S1 as <- <- <-|].
    destruct (ComPtr_Reset _ w2) as [wa|] eqn:Ha; simpl in S1; [|done]. apply HR in Ha.
    destruct (ComPtr_Reset _ wa) as [wb|] eqn:Hb; simpl in S1; [|done]. apply HR in Hb.
    destruct (D3D12.on12_create env) as [[d c]|]; [|injection S1 as <- <- <-; congruence].
    destruct (com_new d _ wb) as [wc|] eqn:Hc; simpl in S1; [|done]. apply HN in Hc.
    destruct (com_new c _ wc) as [wd|] eqn:Hd; simpl in S1; [|done]. apply HN in Hd.
    destruct (ComPtr_Reset _ wd) as [we|] eqn:He; simpl in S1; [|done]. apply HR in He.
    destruct (D3D12.on12_As env); [|injection S1 as <- <- <-; congruence].
    destruct (AddRef d we) as [wf|] eqn:Hf; simpl in S1; [|done]. apply HA in Hf.
    injection S1 as <- <- <-. congruence. }
  destruct (negb _); [intros [= <- <-]; by rewrite E3, H2, H1|].
  destruct (D3D12.InitializeCaptureDevice env st2 w3) as [[[r3 st3] w4]|] eqn:S2;
    simpl; [|done].
  assert (handles w4 = handles w3) as E4.
  { unfold D3D12.InitializeCaptureDevice in S2.
    destruct (is_null _); [by injection S2 as <- <- <-|].
    destruct (D3D12.GetAdapterLuid _ w3) as [[lo hi]|]; simpl in S2; [|done].
    destruct (negb _); [by injection S2 as <- <- <-|].
    destruct (ComPtr_Reset _ w3) as [wa|] eqn:Ha; simpl in S2; [|done]. apply HR in Ha.
    destruct (ComPtr_Reset _ wa) as [wb|] eqn:Hb; simpl in S2; [|done]. apply HR in Hb.
    destruct (D3D12.capture_create env) as [[d c]|]; [|injection S2 as <- <- <-; congruence].
    destruct (com_new d _ wb) as [wc|] eqn:Hc; simpl in S2; [|done]. apply HN in Hc.
    destruct (com_new c _ wc) as [wd|] eqn:Hd; simpl in S2; [|done]. apply HN in Hd.
    injection S2 as <- <- <-. congruence. }
  destruct (negb _); [intros [= <- <-]; by rewrite E4, E3, H2, H1|].
  destruct (D3D12.InitializeCompositionDevice env st3 w4) as [[[r4 st4] w5]|] eqn:S3;
    simpl; [|done].
  assert (handles w5 = handles w4) as E5.
  { unfold D3D12.InitializeCompositionDevice in S3.
    destruct (is_null _); [by injection S3 as <- <- <-|].
    destruct (negb _); [by injection S3 as <- <- <-|].
    destruct (D3D12.dcomp env) as [c|]; [|by injection S3 as <- <- <-].
    destruct (com_new c _ w4) as [wa|] eqn:Ha; simpl in S3; [|done]. apply HN in Ha.
    by injection S3 as <- <- <-. }
  destruct (negb _); [intros [= <- <-]; by rewrite E5, E4, E3, H2, H1|].
  destruct (D3D12.CreateFence env st4 w5) as [[[r5 st5] w6]|] eqn:S4; simpl; [|done].
  assert (handles w5 ⊆ handles w6) as E6.
  { unfold D3D12.CreateFence in S4.
    destruct (is_null _); [by injection S4 as <- <- <-|].
    destruct (ComPtr_Reset _ w5) as [wa|] eqn:Ha; simpl in S4; [|done]. apply HR in Ha.
    destruct (D3D12.fence_create env) as [f|]; [|injection S4 as <- <- <-; by rewrite Ha].
    destruct (com_new f _ wa) as [wb|] eqn:Hb; simpl in S4; [|done]. apply HN in Hb.
    destruct (D3D12.CreateEvent _ wb) as [wc|] eqn:Hc; simpl in S4; [|done]. apply HE in Hc.
    destruct (is_null _); injection S4 as <- <- <-; by rewrite <- Ha, <- Hb. }
  intros [= <- <-]. by rewrite <- E6, E5, E4, E3, H2, H1.
Qed.

(** * Witnesses, counterexamples and failing inputs *)

Lemma ex_st12_wf : cache_wf ex_st12 ex_w12.
Proof. apply cache_wf_check_sound. vm_compute. reflexivity. Qed.

Lemma C1_witness :
  D3D11.CopyCapturedTextureToUnityTexture 5 7 true ex_st11 ex_w11 = Some ex_w11
  ∧ D3D12.CopyCapturedTextureToUnityTexture 5 40 true ex_copy_env ex_st12 ex_w12
    = Some (ex_st12, ex_w12).
Proof.
  split.
  - apply (proj1 C1_mismatch_skips_frame 5%N 7%N true ex_st11 ex_w11 4%Z 3%Z 8%Z 3%Z);
      [reflexivity|reflexivity|left; lia].
  - apply (proj2 C1_mismatch_skips_frame 5%N 40%N true ex_copy_env ex_st12 ex_w12
             4%Z 3%Z 8%Z 3%Z);
      [reflexivity|reflexivity|unfold UINT_modulus; lia|unfold UINT_modulus; lia|left; lia].
Defined.

Lemma C2_witness :
  D3D12.GetOrCreateWrappedResource 30 None ex_st12 ex_w12
  = Some (Some (D3D12.mkWrapped 7 30 31), ex_st12, ex_w12)
  ∧ ∃ r st' w',
      D3D12.GetOrCreateWrappedResource 50 (Some 91%N) ex_st12 ex_w12 = Some (r, st', w')
      ∧ cache_wf st' w' ∧ objs w' !! 51%N = None.
Proof.
  split.
  - apply (proj1 (C2_cached_wrapper_reused_or_rebuilt 30%N ex_st12 ex_w12
                    (D3D12.mkWrapped 7 30 31) (mkComObj 1 2 (KResource12 4 3))
                    (mkComObj 2 1 (KWrapped11 30 (Some (4, 3)%Z))) 4%Z 3%Z 4%Z 3%Z
                    ex_st12_wf eq_refl eq_refl eq_refl eq_refl eq_refl)).
    split; reflexivity.
  - assert (fresh_in (Some 91%N) ex_w12) as Hfresh.
    { intros a [= <-]. split; [done|reflexivity]. }
    assert ((2 ≠ 4)%Z ∨ (2 ≠ 3)%Z) as Hne by (left; lia).
    assert (2 ≤ o_refs (mkComObj 4 2 (KResource12 4 3))) as Hrefs by (simpl; lia).
    destruct (proj1 (proj2 (C2_cached_wrapper_reused_or_rebuilt 50%N ex_st12 ex_w12
                              (D3D12.mkWrapped 8 50 51) (mkComObj 4 2 (KResource12 4 3))
                              (mkComObj 5 1 (KWrapped11 50 (Some (2, 2)%Z)))
                              4%Z 3%Z 2%Z 2%Z
                              ex_st12_wf eq_refl eq_refl eq_refl eq_refl eq_refl))
                Hne Hrefs (Some 91%N) Hfresh)
      as (r & st' & w' & Hcall & Hwf & Hgone & _).
    exists r, st', w'. split; [assumption|]. split; assumption.
Defined.

(** The claim fails where the rebuild fails: the texture at 50 has a
    stale wrapper, [CreateWrappedResource] answers with a failure, and the
    call returns null, leaving the texture without a wrapper. *)
Lemma C2_counterexample :
  D3D12.m_wrappedResources ex_st12 !! 50%N = Some (D3D12.mkWrapped 8 50 51)
  ∧ GetDesc12 50 ex_w12 = Some (4, 3)%Z
  ∧ (o_kind <$> objs ex_w12 !! 51%N) = Some (KWrapped11 50 (Some (2, 2)%Z))
  ∧ ∃ st' w',
      D3D12.GetOrCreateWrappedResource 50 None ex_st12 ex_w12 = Some (None, st', w')
      ∧ D3D12.m_wrappedResources st' !! 50%N = None.
Proof.
  split; [reflexivity|]. split; [reflexivity|]. split; [reflexivity|].
  eexists _, _. split; [vm_compute; reflexivity|]. reflexivity.
Qed.

Lemma C3_witness :
  (∃ w', D3D11.ResizeSharedTexture 6 4 3 (Some 0%N) (Some 9%N) ex_st11 ex_w11
         = Some (Success, Some 9%N, w')
         ∧ invalidated 6 (mkComObj 1 1 (KTexture2D 4 3)) w'
         ∧ ∃ o', objs w' !! 9%N = Some o' ∧ o_kind o' = KTexture2D 4 3
                 ∧ o_refs o' = 1 ∧ o_serial o' = 3%N)
  ∧ (∃ st' w',
        D3D12.ResizeSharedTexture 30 4 3 (Some 0%N) ex_wait (Some 90%N) ex_st12 ex_w12
        = Some (Success, Some 90%N, st', w')
        ∧ invalidated 30 (mkComObj 1 2 (KResource12 4 3)) w'
        ∧ D3D12.m_wrappedResources st' !! 30%N = None
        ∧ ∃ o', objs w' !! 90%N = Some o' ∧ o_kind o' = KResource12 4 3
                ∧ o_refs o' = 1 ∧ o_serial o' = 10%N).
Proof.
  assert (D3D11_owned 6 (mkComObj 1 1 (KTexture2D 4 3)) ex_w11) as Hown11.
  { split; [done|]. split; [reflexivity|]. split; [by exists 4%Z, 3%Z|].
    split; [reflexivity|]. simpl. lia. }
  assert (fresh_after_release 6 (Some 9%N) ex_w11) as Hfresh11.
  { intros a [= <-]. split; [done|right; reflexivity]. }
  assert (D3D12_owned 30 (mkComObj 1 2 (KResource12 4 3)) ex_st12 ex_w12) as Hown12.
  { split; [done|]. split; [reflexivity|]. split; [by exists 4%Z, 3%Z|].
    split; [simpl; lia|]. simpl. repeat split; [done|by eexists]. }
  assert (fresh_after_release 30 (Some 90%N) ex_w12) as Hfresh12.
  { intros a [= <-]. split; [done|right; reflexivity]. }
  split.
  - destruct (proj1 C3_resize_is_destroy_then_create 6%N (mkComObj 1 1 (KTexture2D 4 3))
                4%Z 3%Z 0%N (Some 9%N) ex_st11 ex_w11 Hown11 Hfresh11)
      as (w1 & r & out' & w' & _ & _ & _ & Hcall & Hinv & Hiff & Hok & _).
    assert (r = Success) as -> by (apply Hiff; split; [reflexivity|by eexists]).
    destruct (Hok eq_refl) as (a & o' & [= <-] & -> & _ & Ho' & Hk & Hrefs & Hser & _).
    exists w'. split; [exact Hcall|]. split; [exact Hinv|].
    exists o'. split; [exact Ho'|]. split; [exact Hk|]. split; [exact Hrefs|exact Hser].
  - destruct (proj2 C3_resize_is_destroy_then_create 30%N
                (mkComObj 1 2 (KResource12 4 3)) 4%Z 3%Z 0%N ex_wait (Some 90%N)
                ex_st12 ex_w12 Hown12 Hfresh12)
      as (st0 & w0 & st1 & w1 & r & out' & w' & _ & _ & _ & Hcache & _ & Hcall & Hinv
          & Hiff & Hok & _).
    assert (r = Success) as -> by (apply Hiff; split; [reflexivity|by eexists]).
    destruct (Hok eq_refl) as (a & o' & [= <-] & -> & _ & Ho' & Hk & Hrefs & Hser & _).
    exists st1, w'. split; [exact Hcall|]. split; [exact Hinv|]. split; [exact Hcache|].
    exists o'. split; [exact Ho'|]. split; [exact Hk|]. split; [exact Hrefs|exact Hser].
Defined.

Lemma C5_witness :
  (∃ w', D3D11.CopyCapturedTextureToUnityTexture 5 6 true ex_st11 ex_w11 = Some w'
         ∧ length (gpu_log w') = 3)
  ∧ (∃ w', D3D12.CopyCapturedTextureToUnityTexture 5 30 true ex_copy_env ex_st12 ex_w12
           = Some (ex_st12, w')
           ∧ length (gpu_log w') = 10).
Proof.
  split.
  - eexists. split.
    + apply (proj1 C5_copy_and_flip 5%N 6%N true ex_st11 ex_w11 4%Z 3%Z);
        [done|done|done|reflexivity|reflexivity|unfold UINT_modulus; lia].
    + reflexivity.
  - eexists. split.
    + apply (proj2 C5_copy_and_flip 5%N 30%N true ex_copy_env ex_st12 ex_w12 4%Z 3%Z
               (D3D12.mkWrapped 7 30 31) ex_st12 ex_w12
               (mkComObj 2 1 (KWrapped11 30 (Some (4, 3)%Z))) 70%N 16%Z);
        try reflexivity; try done; try (unfold UINT_modulus; lia).
    + reflexivity.
Defined.

Lemma C8_witness :
  ∃ w', D3D11.CreateSharedTexture 800 600 (Some 0%N) (Some 9%N) ex_st11 ex_w11
        = Some (Success, Some 9%N, w')
        ∧ created (KTexture2D 800 600) 9 ex_w11 w'.
Proof.
  apply (proj1 (proj2 (proj2 (proj1 (C8_CreateSharedTexture_results 800%Z 600%Z 0%N
                                       (Some 9%N) ex_w11) ex_st11))) 9%N);
    [reflexivity|reflexivity|done|reflexivity].
Defined.

Lemma C9_witness :
  (∃ st' w', run (OpDestroySharedTexture 30) ex_st12 ex_w12 = Some (st', w')
             ∧ cache_wf st' w')
  ∧ (∃ st' w', run (OpCopyCapturedTextureToUnityTexture 5 50 true
                      (D3D12.mkCopyEnv (Some 91%N) (Some 70%N) (Some 16%Z)))
                 ex_st12 ex_w12 = Some (st', w')
               ∧ cache_wf st' w')
  ∧ (∃ st' w',
       D3D12.GetOrCreateWrappedResource 50 (Some 91%N) ex_st12 ex_w12
       = Some (Some (D3D12.mkWrapped 11 50 91), st', w')
       ∧ D3D12.m_wrappedResources st' !! 50%N = Some (D3D12.mkWrapped 11 50 91)
       ∧ objs w' !! 51%N = None
       ∧ objs w' !! 91%N = Some (mkComObj 10 1 (KWrapped11 50 (Some (4, 3)%Z)))).
Proof.
  split; [|split].
  - destruct (run (OpDestroySharedTexture 30) ex_st12 ex_w12) as [[st' w']|] eqn:Hrun;
      [|by vm_compute in Hrun].
    exists st', w'. split; [done|].
    exact (proj1 (proj2 C9_wrap_cache_invariant) (OpDestroySharedTexture 30) ex_st12 ex_w12
             st' w' ex_st12_wf I Hrun).
  - destruct (run (OpCopyCapturedTextureToUnityTexture 5 50 true
                     (D3D12.mkCopyEnv (Some 91%N) (Some 70%N) (Some 16%Z)))
                ex_st12 ex_w12) as [[st' w']|] eqn:Hrun;
      [|by vm_compute in Hrun].
    exists st', w'. split; [done|].
    refine (proj1 (proj2 C9_wrap_cache_invariant) _ ex_st12 ex_w12 st' w' ex_st12_wf _ Hrun).
    intros a [= <-]. split; [done|reflexivity].
  - assert (fresh_in (Some 91%N) ex_w12) as Hfresh.
    { intros a [= <-]. split; [done|reflexivity]. }
    assert ((2 ≠ 4)%Z ∨ (2 ≠ 3)%Z) as Hne by (left; lia).
    assert (2 ≤ o_refs (mkComObj 4 2 (KResource12 4 3))) as Hrefs by (simpl; lia).
    destruct (proj2 (proj2 (proj2 (proj2 C9_wrap_cache_invariant))) 50%N (Some 91%N)
                ex_st12 ex_w12 (D3D12.mkWrapped 8 50 51) (mkComObj 4 2 (KResource12 4 3))
                (mkComObj 5 1 (KWrapped11 50 (Some (2, 2)%Z))) 4%Z 3%Z 2%Z 2%Z
                ex_st12_wf eq_refl eq_refl eq_refl Hrefs eq_refl eq_refl Hne Hfresh)
      as (r & st' & w' & Hcall & _ & Hgone & _ & Hbuilt & _).
    destruct (Hbuilt 91%N eq_refl eq_refl) as (-> & Hcache & Hview).
    exists st', w'. split; [exact Hcall|]. split; [exact Hcache|].
    split; [exact Hgone|exact Hview].
Defined.

(** The claim fails where the rebuild fails.  The texture at 50 has a
    stale wrapper, the interop device is there, and
    [CreateWrappedResource] answers with a failure:
    [BeginRenderToTexture] returns with the stale wrapper destroyed and
    none built in its place, and the failed call is all the interop
    device has seen: no wrapper is acquired. *)
Lemma C9_counterexample :
  cache_wf ex_st12 ex_w12
  ∧ D3D12.m_wrappedResources ex_st12 !! 50%N = Some (D3D12.mkWrapped 8 50 51)
  ∧ GetDesc12 50 ex_w12 = Some (4, 3)%Z
  ∧ (o_kind <$> objs ex_w12 !! 51%N) = Some (KWrapped11 50 (Some (2, 2)%Z))
  ∧ is_null (D3D12.m_d3d11On12Device ex_st12) = false
  ∧ ∃ st' w',
      run (OpBeginRenderToTexture 50 None) ex_st12 ex_w12 = Some (st', w')
      ∧ D3D12.m_wrappedResources st' !! 50%N = None
      ∧ objs w' !! 51%N = None
      ∧ (∀ a o tex, objs w' !! a = Some o → o_kind o ≠ KWrapped11 50 tex)
      ∧ gpu_log w' = [(200%N, CreateWrappedResource 50)].
Proof.
  split; [exact ex_st12_wf|]. split; [reflexivity|]. split; [reflexivity|].
  split; [reflexivity|]. split; [reflexivity|].
  destruct (run (OpBeginRenderToTexture 50 None) ex_st12 ex_w12) as [[st' w']|] eqn:Hrun;
    [|by vm_compute in Hrun].
  assert (cache_wf st' w') as [_ Hii].
  { eapply run_preserves_cache_wf; [exact ex_st12_wf| |exact Hrun]. by intros a. }
  pose proof Hrun as Hres. vm_compute in Hres. injection Hres as Hst Hw.
  assert (D3D12.m_wrappedResources st' !! 50%N = None) as Hcache
    by (rewrite <- Hst; reflexivity).
  exists st', w'. split; [reflexivity|]. split; [exact Hcache|].
  split; [rewrite <- Hw; reflexivity|]. split; [|rewrite <- Hw; reflexivity].
  intros a o tex Ha Hk. destruct (Hii a o 50%N tex Ha Hk) as (wr & Hwr & _).
  congruence.
Qed.

(** ** Failing inputs *)

(** C4.  The capture device cannot be created.  Initialisation stops
    there, before the composition device and the fence, and the back end
    reports itself initialised and creates textures. *)
Theorem C4_failed_step_leaves_backend_initialized :
  ∃ st' w',
    D3D12.ProcessDeviceEvent kUnityGfxDeviceEventInitialize ex_init_capture_fails ex_wait
      D3D12.initial ex_w_host = Some (st', w')
    ∧ D3D12.m_captureD3D11Device st' = 0%N
    ∧ D3D12.m_compositionDevice st' = 0%N
    ∧ D3D12.m_fence st' = 0%N ∧ D3D12.m_fenceEvent st' = 0%N
    ∧ D3D12.IsInitialized st' = true
    ∧ ∃ w'', D3D12.CreateSharedTexture 800 600 (Some 0%N) (Some 300%N) st' w'
             = Some (Success, Some 300%N, w'').
Proof.
  eexists _, _. split; [vm_compute; reflexivity|].
  repeat split. eexists. vm_compute. reflexivity.
Qed.

(** C6.  Two initialise events in a row, every call succeeding.  The
    event handle of the first initialisation is still open after the
    second and no member holds it; the same goes for the first
    composition device, which keeps its reference. *)
Theorem C6_second_initialize_leaks :
  ∃ st1 w1 st2 w2,
    D3D12.ProcessDeviceEvent kUnityGfxDeviceEventInitialize (ex_init_ok 200 60) ex_wait
      D3D12.initial ex_w_host = Some (st1, w1)
    ∧ D3D12.ProcessDeviceEvent kUnityGfxDeviceEventInitialize (ex_init_ok 300 61) ex_wait
        st1 w1 = Some (st2, w2)
    ∧ D3D12.m_fenceEvent st1 = 60%N ∧ elements (handles w1) = [60%N]
    ∧ D3D12.m_fenceEvent st2 = 61%N ∧ elements (handles w2) = [60%N; 61%N]
    ∧ D3D12.m_compositionDevice st1 = 204%N ∧ D3D12.m_compositionDevice st2 = 304%N
    ∧ objs w2 !! 204%N = Some (mkComObj 6 1 KCompositionDevice).
Proof.
  eexists _, _, _, _. split; [vm_compute; reflexivity|].
  split; [vm_compute; reflexivity|]. repeat split.
Qed.

(** With a ready browser instance [Initialize] returns [Success]
    whatever fails inside it. *)
Lemma Capture_Initialize_ready v env st :
  Capture.IsReady v = true →
  ∃ st', Capture.Initialize (Some v) env st = (inl Success, st').
Proof. intros Hready. unfold Capture.Initialize. rewrite Hready. simpl. eauto. Qed.

(** C7.  The back end has no capture device.  [Initialize] returns
    [Success]; no session exists, and the visuals built before the
    failure stay in place. *)
Theorem C7_failed_capture_setup_reports_Success :
  Capture.Initialize (Some ex_webView) ex_capture_env_no_device Capture.constructed
  = (inl Success, Capture.mkState true true true true None None None false)
  ∧ Capture.mkState true true true true None None None false ≠ Capture.constructed.
Proof. split; [reflexivity|discriminate]. Qed.

(** * Further properties

    Properties of the code beyond those the specification states. *)

(** ** Reference accounting *)

Lemma held_nil a : held a [] = 0.
Proof. done. Qed.

Lemma held_cons a p l : held a (p :: l) = (if decide (p = a) then 1 else 0) + held a l.
Proof. unfold held. rewrite filter_cons. by destruct (decide (p = a)). Qed.

Lemma held_app a l1 l2 : held a (l1 ++ l2) = held a l1 + held a l2.
Proof. unfold held. by rewrite filter_app, length_app. Qed.

Lemma held_perm a l l' : l ≡ₚ l' → held a l = held a l'.
Proof. intros Hp. unfold held. by rewrite Hp. Qed.

Lemma holds_perm l l' w0 w : l ≡ₚ l' → holds l w0 w → holds l' w0 w.
Proof. intros Hp H a. specialize (H a). by rewrite <- (held_perm a l l' Hp). Qed.

Lemma holds_objs l w0 w w' : objs w' = objs w → holds l w0 w → holds l w0 w'.
Proof. intros He H a. specialize (H a). by rewrite He. Qed.

Lemma holds_refl w : holds [] w w.
Proof.
  intros a. destruct (objs w !! a) as [o|]; [|done].
  rewrite held_nil. repeat split; lia.
Qed.

Lemma holds_nil w0 w : holds [] w0 w → objs w = objs w0.
Proof.
  intros H. apply map_eq. intros a. specialize (H a). rewrite held_nil in H.
  destruct (objs w0 !! a) as [o|], (objs w !! a) as [o'|]; try done.
  - destruct H as (? & ? & ?). destruct o, o'; simpl in *. f_equal. f_equal; [done|lia|done].
  - lia.
Qed.

Lemma holds_AddRef l w0 w p w' :
  holds l w0 w → AddRef p w = Some w' → holds (p :: l) w0 w'.
Proof.
  intros H HA. unfold AddRef in HA.
  destruct (objs w !! p) as [o|] eqn:Ho; simpl in HA; [|done].
  injection HA as <-. intros a. specialize (H a). rewrite held_cons. simpl.
  destruct (decide (p = a)) as [->|Hne].
  - rewrite lookup_insert_eq. rewrite Ho in H.
    destruct (objs w0 !! a) as [o0|]; simpl.
    + destruct H as (? & ? & ?). repeat split; [done|done|lia].
    + destruct H. split; lia.
  - by rewrite lookup_insert_ne.
Qed.

Lemma holds_com_new l w0 w a k w' :
  holds l w0 w → com_new a k w = Some w' → holds (a :: l) w0 w'.
Proof.
  intros H HN. unfold com_new in HN.
  destruct (is_null a); [done|].
  destruct (objs w !! a) as [o|] eqn:Ho; [done|].
  injection HN as <-. intros q. pose proof (H q) as Hq. rewrite held_cons. simpl.
  destruct (decide (a = q)) as [->|Hne].
  - rewrite lookup_insert_eq. rewrite Ho in Hq.
    destruct (objs w0 !! q) as [o0|]; [done|]. simpl. split; lia.
  - by rewrite lookup_insert_ne.
Qed.

Lemma holds_Release l w0 w p :
  heap_ok w0 → holds (p :: l) w0 w →
  ∃ w', Release p w = Some w' ∧ holds l w0 w'
        ∧ next_serial w' = next_serial w ∧ handles w' = handles w ∧ gpu_log w' = gpu_log w.
Proof.
  intros Hok H.
  pose proof (H p) as Hp. rewrite held_cons in Hp.
  destruct (decide (p = p)) as [_|]; [|done].
  destruct (objs w !! p) as [o|] eqn:Ho.
  2:{ destruct (objs w0 !! p); [done|lia]. }
  destruct (Release_lookup p w o Ho) as (w' & HR & Hs & Hh & Hl & Hpp & Hother).
  exists w'. split; [done|]. split; [|done].
  intros a. specialize (H a). rewrite held_cons in H.
  destruct (decide (p = a)) as [<-|Hne].
  - rewrite Hpp. rewrite Ho in H. unfold released.
    destruct (objs w0 !! p) as [o0|] eqn:Ho0.
    + destruct H as (Hser & Hkind & Hrefs). pose proof (proj2 Hok p o0 Ho0).
      destruct (o_refs o) as [|[|n]]; [lia|lia|]. simpl. repeat split; [done|done|lia].
    + destruct H as [Hrefs _].
      destruct (o_refs o) as [|[|n]]; [lia|lia|]. simpl. split; lia.
  - rewrite (Hother a) by done. exact H.
Qed.

Lemma holds_ComPtr_Reset l w0 w p :
  heap_ok w0 → holds (nn p ++ l) w0 w →
  ∃ w', ComPtr_Reset p w = Some w' ∧ holds l w0 w'
        ∧ next_serial w' = next_serial w ∧ handles w' = handles w ∧ gpu_log w' = gpu_log w.
Proof.
  intros Hok H. unfold ComPtr_Reset, nn in *. destruct (is_null p).
  - exists w. done.
  - by apply holds_Release.
Qed.

Lemma holds_ComPtr_assign_null l w0 w new w' :
  holds l w0 w → ComPtr_assign 0 new w = Some w' → holds (nn new ++ l) w0 w'.
Proof.
  intros H HA. unfold ComPtr_assign in HA. unfold nn.
  destruct (decide (0%N = new)) as [<-|Hne].
  - by injection HA as <-.
  - destruct (is_null new) eqn:Hn.
    { apply is_null_true in Hn. congruence. }
    destruct (AddRef new w) as [w1|] eqn:HA1; simpl in HA; [|done].
    injection HA as <-. by eapply holds_AddRef.
Qed.

Lemma nn_nonnull p : is_null p = false → nn p = [p].
Proof. unfold nn. by intros ->. Qed.

Lemma com_new_nonnull a k w w' : com_new a k w = Some w' → is_null a = false.
Proof. unfold com_new. by destruct (is_null a). Qed.

Lemma com_new_frame a k w w' :
  com_new a k w = Some w' → handles w' = handles w ∧ gpu_log w' = gpu_log w.
Proof.
  unfold com_new. destruct (is_null a); [done|]. destruct (objs w !! a); [done|].
  by intros [= <-].
Qed.

Lemma AddRef_frame p w w' :
  AddRef p w = Some w' → handles w' = handles w ∧ gpu_log w' = gpu_log w.
Proof.
  unfold AddRef. destruct (objs w !! p); simpl; [|done]. by intros [= <-].
Qed.

Lemma ComPtr_assign_null_frame new w w' :
  ComPtr_assign 0 new w = Some w' → handles w' = handles w ∧ gpu_log w' = gpu_log w.
Proof.
  unfold ComPtr_assign. destruct (decide _); [by intros [= <-]|].
  destruct (is_null new); simpl.
  - by intros [= <-].
  - destruct (AddRef new w) as [w1|] eqn:HA; simpl; [|done]. intros [= <-].
    by eapply AddRef_frame.
Qed.

(** Device initialisation from the released state: every object it
    creates and every reference it takes is held by a member when it
    returns, whichever step fails; the one handle it opens is the fence
    event. *)
Lemma D3D12_initialize_holds env fv w st1 w1 :
  D3D12.initialize env (D3D12_released fv) w = Some (st1, w1) →
  holds (D3D12_members st1) w w1
  ∧ D3D12.m_wrappedResources st1 = ∅ ∧ D3D12.m_fenceValue st1 = fv
  ∧ gpu_log w1 = gpu_log w
  ∧ ((D3D12.m_fenceEvent st1 = 0%N ∧ handles w1 = handles w)
     ∨ (is_null (D3D12.m_fenceEvent st1) = false
        ∧ (D3D12.m_fenceEvent st1 ∉ handles w)
        ∧ handles w1 = {[D3D12.m_fenceEvent st1]} ∪ handles w)).
Proof.
  unfold D3D12.initialize.
  destruct (D3D12.interfaces env) as [[[dev queue]|]|].
  2,3: intros [= <- <-]; split; [apply holds_refl|]; repeat split; by left.
  simpl.
  destruct (ComPtr_assign 0 dev w) as [wa|] eqn:Ha; simpl; [|done].
  destruct (ComPtr_assign 0 queue wa) as [wb|] eqn:Hb; simpl; [|done].
  pose proof (holds_ComPtr_assign_null [] w w dev wa (holds_refl w) Ha) as H1.
  pose proof (holds_ComPtr_assign_null _ w wa queue wb H1 Hb) as H2.
  apply ComPtr_assign_null_frame in Ha as [Hha Hla].
  apply ComPtr_assign_null_frame in Hb as [Hhb Hlb].
  assert (handles wb = handles w) as Hh0 by congruence.
  assert (gpu_log wb = gpu_log w) as Hl0 by congruence.
  clear Hha Hla Hhb Hlb.
  destruct (is_null dev || is_null queue) eqn:Hnull.
  { intros [= <- <-]. split.
    { eapply holds_perm; [|exact H2]. unfold D3D12_members. simpl.
      rewrite !app_nil_r. done. }
    repeat split; [done|]. by left. }
  apply orb_false_iff in Hnull as [Hdev Hqueue].
  rewrite (nn_nonnull dev Hdev), (nn_nonnull queue Hqueue) in H2. simpl in H2.
  (* InitializeD3D11On12 *)
  unfold D3D12.InitializeD3D11On12. simpl. rewrite Hdev, Hqueue. simpl.
  destruct (D3D12.on12_create env) as [[d c]|]; simpl.
  2:{ intros [= <- <-]. split.
      { eapply holds_perm; [|exact H2]. unfold D3D12_members. simpl.
        rewrite (nn_nonnull dev Hdev), (nn_nonnull queue Hqueue). done. }
      repeat split; [done|]. by left. }
  destruct (com_new d KDevice11On12 wb) as [wc|] eqn:Hc; simpl; [|done].
  destruct (com_new c KContext11 wc) as [wd|] eqn:Hd; simpl; [|done].
  pose proof (holds_com_new _ _ _ _ _ _ H2 Hc) as H3.
  pose proof (holds_com_new _ _ _ _ _ _ H3 Hd) as H4.
  pose proof (com_new_nonnull _ _ _ _ Hc) as Hdn.
  pose proof (com_new_nonnull _ _ _ _ Hd) as Hcn.
  apply com_new_frame in Hc as [Hhc Hlc]. apply com_new_frame in Hd as [Hhd Hld].
  assert (handles wd = handles w) as Hh1 by congruence.
  assert (gpu_log wd = gpu_log w) as Hl1 by congruence.
  clear Hhc Hlc Hhd Hld Hh0 Hl0.
  destruct (D3D12.on12_As env); simpl.
  2:{ intros [= <- <-]. split.
      { eapply holds_perm; [|exact H4]. unfold D3D12_members. simpl.
        rewrite (nn_nonnull dev Hdev), (nn_nonnull queue Hqueue),
          (nn_nonnull d Hdn), (nn_nonnull c Hcn). simpl. solve_Permutation. }
      repeat split; [done|]. by left. }
  destruct (AddRef d wd) as [we|] eqn:He; simpl; [|done].
  pose proof (holds_AddRef _ _ _ _ _ H4 He) as H5.
  apply AddRef_frame in He as [Hhe Hle].
  assert (handles we = handles w) as Hh2 by congruence.
  assert (gpu_log we = gpu_log w) as Hl2 by congruence.
  clear Hhe Hle Hh1 Hl1.
  (* InitializeCaptureDevice *)
  unfold D3D12.InitializeCaptureDevice. simpl. rewrite Hdev. simpl.
  destruct (D3D12.GetAdapterLuid dev we) as [[lo hi]|]; simpl; [|done].
  destruct (D3D12.factory_ok env); simpl.
  2:{ intros [= <- <-]. split.
      { eapply holds_perm; [|exact H5]. unfold D3D12_members. simpl.
        rewrite (nn_nonnull dev Hdev), (nn_nonnull queue Hqueue),
          (nn_nonnull d Hdn), (nn_nonnull c Hcn). simpl. solve_Permutation. }
      repeat split; [done|]. by left. }
  destruct (D3D12.capture_create env) as [[cd cc]|]; simpl.
  2:{ intros [= <- <-]. split.
      { eapply holds_perm; [|exact H5]. unfold D3D12_members. simpl.
        rewrite (nn_nonnull dev Hdev), (nn_nonnull queue Hqueue),
          (nn_nonnull d Hdn), (nn_nonnull c Hcn). simpl. solve_Permutation. }
      repeat split; [done|]. by left. }
  destruct (com_new cd _ we) as [wf|] eqn:Hf; simpl; [|done].
  destruct (com_new cc KContext11 wf) as [wg|] eqn:Hg; simpl; [|done].
  pose proof (holds_com_new _ _ _ _ _ _ H5 Hf) as H6.
  pose proof (holds_com_new _ _ _ _ _ _ H6 Hg) as H7.
  pose proof (com_new_nonnull _ _ _ _ Hf) as Hcdn.
  pose proof (com_new_nonnull _ _ _ _ Hg) as Hccn.
  apply com_new_frame in Hf as [Hhf Hlf]. apply com_new_frame in Hg as [Hhg Hlg].
  assert (handles wg = handles w) as Hh3 by congruence.
  assert (gpu_log wg = gpu_log w) as Hl3 by congruence.
  clear Hhf Hlf Hhg Hlg Hh2 Hl2.
  (* InitializeCompositionDevice *)
  unfold D3D12.InitializeCompositionDevice. simpl. rewrite Hdn. simpl.
  destruct (D3D12.dxgi_As env); simpl.
  2:{ intros [= <- <-]. split.
      { eapply holds_perm; [|exact H7]. unfold D3D12_members. simpl.
        rewrite (nn_nonnull dev Hdev), (nn_nonnull queue Hqueue),
          (nn_nonnull d Hdn), (nn_nonnull c Hcn), (nn_nonnull cd Hcdn),
          (nn_nonnull cc Hccn). simpl. solve_Permutation. }
      repeat split; [done|]. by left. }
  destruct (D3D12.dcomp env) as [k|]; simpl.
  2:{ intros [= <- <-]. split.
      { eapply holds_perm; [|exact H7]. unfold D3D12_members. simpl.
        rewrite (nn_nonnull dev Hdev), (nn_nonnull queue Hqueue),
          (nn_nonnull d Hdn), (nn_nonnull c Hcn), (nn_nonnull cd Hcdn),
          (nn_nonnull cc Hccn). simpl. solve_Permutation. }
      repeat split; [done|]. by left. }
  destruct (com_new k KCompositionDevice wg) as [wh|] eqn:Hh; simpl; [|done].
  pose proof (holds_com_new _ _ _ _ _ _ H7 Hh) as H8.
  pose proof (com_new_nonnull _ _ _ _ Hh) as Hkn.
  apply com_new_frame in Hh as [Hhh Hlh].
  assert (handles wh = handles w) as Hh4 by congruence.
  assert (gpu_log wh = gpu_log w) as Hl4 by congruence.
  clear Hhh Hlh Hh3 Hl3.
  (* CreateFence *)
  unfold D3D12.CreateFence. simpl. rewrite Hdev. simpl.
  destruct (D3D12.fence_create env) as [f|]; simpl.
  2:{ intros [= <- <-]. split.
      { eapply holds_perm; [|exact H8]. unfold D3D12_members. simpl.
        rewrite (nn_nonnull dev Hdev), (nn_nonnull queue Hqueue),
          (nn_nonnull d Hdn), (nn_nonnull c Hcn), (nn_nonnull cd Hcdn),
          (nn_nonnull cc Hccn), (nn_nonnull k Hkn). simpl. solve_Permutation. }
      repeat split; [done|]. by left. }
  destruct (com_new f KFence wh) as [wi|] eqn:Hi; simpl; [|done].
  pose proof (holds_com_new _ _ _ _ _ _ H8 Hi) as H9.
  pose proof (com_new_nonnull _ _ _ _ Hi) as Hfn.
  pose proof Hi as Hi'. apply com_new_frame in Hi' as [Hhi Hli].
  assert (handles wi = handles w) as Hh5 by congruence.
  assert (gpu_log wi = gpu_log w) as Hl5 by congruence.
  clear Hhi Hli Hh4 Hl4.
  unfold D3D12.CreateEvent.
  destruct (is_null (D3D12.event_create env)) eqn:Hev; simpl.
  { intros [= <- <-]. split.
    { eapply holds_perm; [|exact H9]. unfold D3D12_members. simpl.
      rewrite (nn_nonnull dev Hdev), (nn_nonnull queue Hqueue),
        (nn_nonnull d Hdn), (nn_nonnull c Hcn), (nn_nonnull cd Hcdn),
        (nn_nonnull cc Hccn), (nn_nonnull k Hkn), (nn_nonnull f Hfn). simpl.
      solve_Permutation. }
    repeat split; [done|]. left. simpl. split; [by apply is_null_true|done]. }
  destruct (decide (D3D12.event_create env ∈ handles wi)) as [Hin|Hnin]; simpl; [done|].
  intros [= <- <-]. split.
  { apply holds_objs with wi; [done|].
    eapply holds_perm; [|exact H9]. unfold D3D12_members. simpl.
    rewrite (nn_nonnull dev Hdev), (nn_nonnull queue Hqueue),
      (nn_nonnull d Hdn), (nn_nonnull c Hcn), (nn_nonnull cd Hcdn),
      (nn_nonnull cc Hccn), (nn_nonnull k Hkn), (nn_nonnull f Hfn). simpl.
    solve_Permutation. }
  repeat split; [done|]. right. simpl. rewrite Hh5 in Hnin.
  split; [done|]. split; [done|]. by rewrite Hh5.
Qed.

Lemma D3D12_WaitForGPU_members wait st w st1 w1 :
  D3D12.WaitForGPU wait st w = (st1, w1) →
  D3D12_members st1 = D3D12_members st
  ∧ D3D12.m_wrappedResources st1 = D3D12.m_wrappedResources st
  ∧ D3D12.m_fenceEvent st1 = D3D12.m_fenceEvent st
  ∧ D3D12.m_fence st1 = D3D12.m_fence st
  ∧ D3D12.m_compositionDevice st1 = D3D12.m_compositionDevice st
  ∧ D3D12.m_captureD3D11Context st1 = D3D12.m_captureD3D11Context st
  ∧ D3D12.m_captureD3D11Device st1 = D3D12.m_captureD3D11Device st
  ∧ D3D12.m_d3d11On12Device st1 = D3D12.m_d3d11On12Device st
  ∧ D3D12.m_d3d11Context st1 = D3D12.m_d3d11Context st
  ∧ D3D12.m_d3d11Device st1 = D3D12.m_d3d11Device st
  ∧ D3D12.m_d3d12CommandQueue st1 = D3D12.m_d3d12CommandQueue st
  ∧ D3D12.m_d3d12Device st1 = D3D12.m_d3d12Device st.
Proof.
  intros ([v ->] & _)%D3D12_WaitForGPU_inv. done.
Qed.

(** [ReleaseResources] on a back end whose members hold the references
    in [w] beyond [w0], and whose cache is empty: it returns, and the heap
    is [w0]'s again. *)
Lemma D3D12_ReleaseResources_holds wait st w0 w :
  heap_ok w0 → holds (D3D12_members st) w0 w → D3D12.m_wrappedResources st = ∅ →
  ∃ fv w', D3D12.ReleaseResources wait st w = Some (D3D12_released fv, w')
           ∧ objs w' = objs w0
           ∧ handles w' = (if is_null (D3D12.m_fenceEvent st) then handles w
                           else handles w ∖ {[D3D12.m_fenceEvent st]}).
Proof.
  intros Hok H Hc. unfold D3D12.ReleaseResources.
  destruct (D3D12.WaitForGPU wait st w) as [st1 w1] eqn:HW.
  pose proof (D3D12_WaitForGPU_members _ _ _ _ _ HW)
    as (Hm & Hcache & -> & E1 & E2 & E3 & E4 & E5 & E6 & E7 & E8 & E9).
  apply D3D12_WaitForGPU_inv in HW as (_ & Ho & _ & Hh & _).
  rewrite Hcache, Hc. rewrite map_to_list_empty. simpl.
  set (w3 := if is_null (D3D12.m_fenceEvent st) then w1
             else D3D12.CloseHandle (D3D12.m_fenceEvent st) w1).
  assert (objs w3 = objs w) as Ho3.
  { unfold w3. destruct (is_null _); [done|]. simpl. done. }
  assert (handles w3 = (if is_null (D3D12.m_fenceEvent st) then handles w
                        else handles w ∖ {[D3D12.m_fenceEvent st]})) as Hh3.
  { unfold w3. destruct (is_null _); [done|]. simpl. by rewrite Hh. }
  clearbody w3.
  assert (holds (D3D12_members st) w0 w3) as H3 by (by apply holds_objs with w).
  unfold D3D12_members in H3. rewrite E1, E2, E3, E4, E5, E6, E7, E8, E9.
  destruct (holds_ComPtr_Reset _ _ _ _ Hok H3) as (w4 & -> & H4 & _ & Hh4 & _). simpl.
  destruct (holds_ComPtr_Reset _ _ _ _ Hok H4) as (w5 & -> & H5 & _ & Hh5 & _). simpl.
  destruct (holds_ComPtr_Reset _ _ _ _ Hok H5) as (w6 & -> & H6 & _ & Hh6 & _). simpl.
  destruct (holds_ComPtr_Reset _ _ _ _ Hok H6) as (w7 & -> & H7 & _ & Hh7 & _). simpl.
  destruct (holds_ComPtr_Reset _ _ _ _ Hok H7) as (w8 & -> & H8 & _ & Hh8 & _). simpl.
  destruct (holds_ComPtr_Reset _ _ _ _ Hok H8) as (w9 & -> & H9 & _ & Hh9 & _). simpl.
  destruct (holds_ComPtr_Reset _ _ _ _ Hok H9) as (w10 & -> & H10 & _ & Hh10 & _). simpl.
  destruct (holds_ComPtr_Reset _ _ _ _ Hok H10) as (w11 & -> & H11 & _ & Hh11 & _). simpl.
  rewrite <- (app_nil_r (nn _)) in H11.
  destruct (holds_ComPtr_Reset _ _ _ _ Hok H11) as (w12 & -> & H12 & _ & Hh12 & _). simpl.
  exists (D3D12.m_fenceValue st1), w12. split; [done|]. split; [by apply holds_nil|].
  congruence.
Qed.

Lemma D3D11_initialize_holds e env w st1 w1 :
  objs w !! 0%N = None →
  e = kUnityGfxDeviceEventInitialize ∨ e = kUnityGfxDeviceEventAfterReset →
  D3D11.ProcessDeviceEvent e env D3D11.initial w = Some (st1, w1) →
  holds (D3D11_members st1) w w1 ∧ handles w1 = handles w ∧ gpu_log w1 = gpu_log w.
Proof.
  intros Hnull He.
  assert (D3D11.ProcessDeviceEvent e env D3D11.initial w
          = D3D11.ProcessDeviceEvent kUnityGfxDeviceEventInitialize env D3D11.initial w) as ->
    by (by destruct He as [-> | ->]).
  unfold D3D11.ProcessDeviceEvent.
  destruct (D3D11.interfaces env) as [[[dev ctx]|]|].
  2,3: intros [= <- <-]; split; [apply holds_refl|done].
  simpl.
  destruct (ComPtr_assign 0 dev w) as [wa|] eqn:Ha; simpl; [|done].
  pose proof (holds_ComPtr_assign_null [] w w dev wa (holds_refl w) Ha) as H1.
  apply ComPtr_assign_null_frame in Ha as [Hha Hla].
  destruct (is_null dev) eqn:Hdev.
  { intros [= <- <-]. split; [|done].
    unfold D3D11_members. simpl. unfold nn in *. rewrite Hdev in *. done. }
  rewrite (nn_nonnull dev Hdev) in H1. simpl in H1.
  destruct (AddRef ctx wa) as [wb|] eqn:Hb; simpl; [|done].
  pose proof (holds_AddRef _ _ _ _ _ H1 Hb) as H2.
  assert (is_null ctx = false) as Hctx.
  { destruct (is_null ctx) eqn:Hc; [|done]. apply is_null_true in Hc as ->.
    specialize (H1 0%N). rewrite Hnull, held_cons, held_nil in H1.
    apply is_null_false in Hdev. destruct (decide (dev = 0%N)); [done|].
    unfold AddRef in Hb. destruct (objs wa !! 0%N); [lia|done]. }
  apply AddRef_frame in Hb as [Hhb Hlb].
  unfold D3D11.InitializeCompositionDevice. simpl. rewrite Hdev. simpl.
  destruct (D3D11.dxgi_As env); simpl.
  2:{ intros [= <- <-]. split; [|split; congruence].
      unfold D3D11_members. simpl. rewrite (nn_nonnull dev Hdev), (nn_nonnull ctx Hctx). done. }
  destruct (D3D11.dcomp env) as [k|]; simpl.
  2:{ intros [= <- <-]. split; [|split; congruence].
      unfold D3D11_members. simpl. rewrite (nn_nonnull dev Hdev), (nn_nonnull ctx Hctx). done. }
  destruct (com_new k KCompositionDevice wb) as [wc|] eqn:Hc; simpl; [|done].
  pose proof (holds_com_new _ _ _ _ _ _ H2 Hc) as H3.
  pose proof (com_new_nonnull _ _ _ _ Hc) as Hkn.
  apply com_new_frame in Hc as [Hhc Hlc].
  intros [= <- <-]. split; [|split; congruence].
  unfold D3D11_members. simpl.
  rewrite (nn_nonnull dev Hdev), (nn_nonnull ctx Hctx), (nn_nonnull k Hkn). done.
Qed.

(** ** Device events give back what they acquired *)

Lemma heap_ok_check w :
  bool_decide (objs w !! 0%N = None)
  && bool_decide (map_Forall (λ _ o, 0 < o_refs o) (objs w)) = true →
  heap_ok w.
Proof.
  intros [H1 H2]%andb_prop. apply bool_decide_eq_true in H1, H2.
  split; [done|]. intros p o Hp. by apply (H2 p o).
Qed.

Lemma D3D11_ReleaseResources_holds st w0 w :
  heap_ok w0 → holds (D3D11_members st) w0 w →
  ∃ w', D3D11.ReleaseResources st w = Some (D3D11.initial, w')
        ∧ objs w' = objs w0 ∧ handles w' = handles w ∧ gpu_log w' = gpu_log w.
Proof.
  intros Hok H. unfold D3D11.ReleaseResources, D3D11_members in *.
  destruct (holds_ComPtr_Reset _ _ _ _ Hok H) as (w1 & -> & H1 & _ & Hh1 & Hl1). simpl.
  destruct (holds_ComPtr_Reset _ _ _ _ Hok H1) as (w2 & -> & H2 & _ & Hh2 & Hl2). simpl.
  rewrite <- (app_nil_r (nn _)) in H2.
  destruct (holds_ComPtr_Reset _ _ _ _ Hok H2) as (w3 & -> & H3 & _ & Hh3 & Hl3). simpl.
  exists w3. split; [done|]. split; [by apply holds_nil|]. split; congruence.
Qed.

(** X1.  On the D3D11 back end a shutdown (or before-reset) event gives
    back everything the preceding initialise (or after-reset) event
    acquired, whatever the system answered during initialisation: it
    returns, the back end is in its initial state again, and the heap,
    with every reference count, is what it was before the
    initialisation.  Every object of the heap is referenced, and nothing
    lives at the null address. *)
Theorem D3D11_initialize_shutdown_round_trip :
  ∀ e e' env env' w st1 w1,
    heap_ok w →
    e = kUnityGfxDeviceEventInitialize ∨ e = kUnityGfxDeviceEventAfterReset →
    e' = kUnityGfxDeviceEventShutdown ∨ e' = kUnityGfxDeviceEventBeforeReset →
    D3D11.ProcessDeviceEvent e env D3D11.initial w = Some (st1, w1) →
    ∃ w2, D3D11.ProcessDeviceEvent e' env' st1 w1 = Some (D3D11.initial, w2)
          ∧ objs w2 = objs w ∧ handles w2 = handles w ∧ gpu_log w2 = gpu_log w.
Proof.
  intros e e' env env' w st1 w1 Hok He He' Hinit.
  destruct (D3D11_initialize_holds e env w st1 w1 (proj1 Hok) He Hinit) as (H & Hh & Hl).
  destruct (D3D11_ReleaseResources_holds st1 w w1 Hok H) as (w2 & HR & Ho & Hh2 & Hl2).
  exists w2. split; [by destruct He' as [-> | ->]|]. split; [done|]. split; congruence.
Qed.

Lemma D3D11_initialize_shutdown_round_trip_witness :
  ∃ st1 w1 w2,
    D3D11.ProcessDeviceEvent kUnityGfxDeviceEventInitialize ex_init11 D3D11.initial ex_w11_host
    = Some (st1, w1)
    ∧ D3D11.IsInitialized st1 = true
    ∧ D3D11.ProcessDeviceEvent kUnityGfxDeviceEventShutdown ex_init11 st1 w1
      = Some (D3D11.initial, w2)
    ∧ objs w2 = objs ex_w11_host.
Proof.
  destruct (D3D11.ProcessDeviceEvent kUnityGfxDeviceEventInitialize ex_init11 D3D11.initial
              ex_w11_host) as [[st1 w1]|] eqn:Hinit; [|by vm_compute in Hinit].
  assert (heap_ok ex_w11_host) as Hok by (apply heap_ok_check; vm_compute; reflexivity).
  destruct (D3D11_initialize_shutdown_round_trip kUnityGfxDeviceEventInitialize
              kUnityGfxDeviceEventShutdown ex_init11 ex_init11 ex_w11_host st1 w1 Hok
              (or_introl eq_refl) (or_introl eq_refl) Hinit) as (w2 & Hshut & Ho & _).
  exists st1, w1, w2. split; [done|]. split; [|done].
  vm_compute in Hinit. injection Hinit as <- _. reflexivity.
Defined.

(** X2.  On the D3D12 back end a shutdown (or before-reset) event gives
    back everything the preceding initialise (or after-reset) event
    acquired, at whichever of its steps the initialisation stopped: it
    returns, no member and no cached wrapper is left, and the heap, with
    every reference count, and the set of open event handles are what
    they were before the initialisation.  The back end starts without
    devices, as it is when constructed or after an earlier release; every
    object of the heap is referenced, and nothing lives at the null
    address. *)
Theorem D3D12_initialize_shutdown_round_trip :
  ∀ e e' env env' wait wait' fv w st1 w1,
    heap_ok w →
    e = kUnityGfxDeviceEventInitialize ∨ e = kUnityGfxDeviceEventAfterReset →
    e' = kUnityGfxDeviceEventShutdown ∨ e' = kUnityGfxDeviceEventBeforeReset →
    D3D12.ProcessDeviceEvent e env wait (D3D12_released fv) w = Some (st1, w1) →
    ∃ fv' w2,
      D3D12.ProcessDeviceEvent e' env' wait' st1 w1 = Some (D3D12_released fv', w2)
      ∧ objs w2 = objs w ∧ handles w2 = handles w.
Proof.
  intros e e' env env' wait wait' fv w st1 w1 Hok He He' Hinit.
  assert (D3D12.initialize env (D3D12_released fv) w = Some (st1, w1)) as Hi
    by (by destruct He as [-> | ->]).
  destruct (D3D12_initialize_holds env fv w st1 w1 Hi) as (H & Hc & _ & _ & Hh).
  destruct (D3D12_ReleaseResources_holds wait' st1 w w1 Hok H Hc) as (fv' & w2 & HR & Ho & Hh2).
  exists fv', w2. split; [by destruct He' as [-> | ->]|]. split; [done|].
  rewrite Hh2. destruct Hh as [[-> ->]|(-> & Hnin & ->)]; [done|].
  apply set_eq. intros x. rewrite elem_of_difference, elem_of_union, elem_of_singleton.
  split; [by intros [[->|?] ?]|]. intros Hx. split; [by right|]. by intros ->.
Qed.

Lemma D3D12_initialize_shutdown_round_trip_witness :
  ∃ st1 w1 fv' w2,
    D3D12.ProcessDeviceEvent kUnityGfxDeviceEventInitialize (ex_init_ok 200 60) ex_wait
      D3D12.initial ex_w_host = Some (st1, w1)
    ∧ D3D12.IsInitialized st1 = true
    ∧ D3D12.ProcessDeviceEvent kUnityGfxDeviceEventShutdown (ex_init_ok 200 60) ex_wait st1 w1
      = Some (D3D12_released fv', w2)
    ∧ objs w2 = objs ex_w_host ∧ handles w2 = handles ex_w_host.
Proof.
  destruct (D3D12.ProcessDeviceEvent kUnityGfxDeviceEventInitialize (ex_init_ok 200 60) ex_wait
              D3D12.initial ex_w_host) as [[st1 w1]|] eqn:Hinit; [|by vm_compute in Hinit].
  assert (heap_ok ex_w_host) as Hok by (apply heap_ok_check; vm_compute; reflexivity).
  destruct (D3D12_initialize_shutdown_round_trip kUnityGfxDeviceEventInitialize
              kUnityGfxDeviceEventShutdown (ex_init_ok 200 60) (ex_init_ok 200 60)
              ex_wait ex_wait 0%Z ex_w_host st1 w1 Hok
              (or_introl eq_refl) (or_introl eq_refl) Hinit) as (fv' & w2 & Hshut & Ho & Hh).
  exists st1, w1, fv', w2. split; [done|]. split; [|done].
  vm_compute in Hinit. injection Hinit as <- _. reflexivity.
Defined.

(** ** The capture device *)

(** The adapter loop finds the first adapter with the given LUID. *)
Lemma D3D12_find_adapter_spec lo hi l : ∀ n,
  match D3D12.find_adapter lo hi l n with
  | Some i => n ≤ i ∧ l !! (i - n) = Some (lo, hi)
              ∧ ∀ j, j < i - n → l !! j ≠ Some (lo, hi)
  | None => (lo, hi) ∉ l
  end.
Proof.
  induction l as [|[lo' hi'] l IH]; intros n; simpl.
  { apply not_elem_of_nil. }
  destruct ((lo' =? lo)%Z && (hi' =? hi)%Z) eqn:Heq.
  - apply andb_prop in Heq as [->%Z.eqb_eq ->%Z.eqb_eq].
    split; [done|]. rewrite Nat.sub_diag. split; [done|]. intros j Hj. lia.
  - specialize (IH (S n)). destruct (D3D12.find_adapter lo hi l (S n)) as [i|].
    + destruct IH as (Hle & Hi & Hbefore). split; [lia|].
      replace (i - n) with (S (i - S n)) by lia. split; [done|].
      intros [|j] Hj; simpl.
      * intros [= -> ->]. by rewrite !Z.eqb_refl in Heq.
      * apply Hbefore. lia.
    + intros [[= -> ->]|Hin]%elem_of_cons; [|done].
      by rewrite !Z.eqb_refl in Heq.
Qed.

(** X3.  When [InitializeCaptureDevice] succeeds, the capture device it
    created is on the first adapter of the enumeration whose LUID is the
    LUID of the host's D3D12 device; it is on the default adapter exactly
    when no adapter of the enumeration has that LUID.  The capture device
    and its context are new objects with one reference each. *)
Theorem D3D12_capture_device_on_first_matching_adapter :
  ∀ env st w st' w',
    D3D12.InitializeCaptureDevice env st w = Some (Success, st', w') →
    ∃ lo hi adapter,
      D3D12.GetAdapterLuid (D3D12.m_d3d12Device st) w = Some (lo, hi)
      ∧ objs w' !! D3D12.m_captureD3D11Device st'
        = Some (mkComObj (next_serial w) 1 (KDevice11 adapter))
      ∧ (∃ oc, objs w' !! D3D12.m_captureD3D11Context st' = Some oc
               ∧ o_kind oc = KContext11 ∧ o_refs oc = 1)
      ∧ match adapter with
        | Some i => D3D12.adapters env !! i = Some (lo, hi)
                    ∧ ∀ j, j < i → D3D12.adapters env !! j ≠ Some (lo, hi)
        | None => (lo, hi) ∉ D3D12.adapters env
        end.
Proof.
  intros env st w st' w'. unfold D3D12.InitializeCaptureDevice.
  destruct (is_null (D3D12.m_d3d12Device st)); [done|].
  destruct (D3D12.GetAdapterLuid _ w) as [[lo hi]|] eqn:Hluid; simpl; [|done].
  destruct (negb _); [done|].
  destruct (ComPtr_Reset (D3D12.m_captureD3D11Device st) w) as [w1|] eqn:H1; simpl; [|done].
  destruct (ComPtr_Reset (D3D12.m_captureD3D11Context st) w1) as [w2|] eqn:H2; simpl; [|done].
  destruct (D3D12.capture_create env) as [[dev ctx]|]; [|done].
  destruct (com_new dev _ w2) as [w3|] eqn:H3; simpl; [|done].
  destruct (com_new ctx KContext11 w3) as [w4|] eqn:H4; simpl; [|done].
  intros [= <- <-]. exists lo, hi, (D3D12.find_adapter lo hi (D3D12.adapters env) 0).
  split; [done|]. simpl.
  apply ComPtr_Reset_serial in H1 as (Hs1 & _). apply ComPtr_Reset_serial in H2 as (Hs2 & _).
  unfold com_new in H3, H4.
  destruct (is_null dev); [done|]. destruct (objs w2 !! dev); [done|].
  injection H3 as <-. simpl in H4.
  destruct (is_null ctx); [done|].
  destruct (<[dev:=_]> (objs w2) !! ctx) eqn:Hctx; [done|].
  injection H4 as <-. simpl.
  assert (ctx ≠ dev) as Hne by (intros ->; by rewrite lookup_insert_eq in Hctx).
  split.
  { rewrite lookup_insert_ne by done. rewrite lookup_insert_eq. by rewrite Hs2, Hs1. }
  split.
  { eexists. rewrite lookup_insert_eq. done. }
  pose proof (D3D12_find_adapter_spec lo hi (D3D12.adapters env) 0) as Hspec.
  destruct (D3D12.find_adapter lo hi (D3D12.adapters env) 0) as [i|]; [|done].
  destruct Hspec as (_ & Hi & Hb). rewrite Nat.sub_0_r in Hi, Hb. done.
Qed.

Lemma D3D12_capture_device_on_first_matching_adapter_witness :
  ∃ st' w' lo hi adapter,
    D3D12.InitializeCaptureDevice (ex_init_ok 200 60) (D3D12.set_d3d12 100 101 D3D12.initial)
      ex_w_host = Some (Success, st', w')
    ∧ D3D12.GetAdapterLuid 100 ex_w_host = Some (lo, hi)
    ∧ objs w' !! D3D12.m_captureD3D11Device st'
      = Some (mkComObj (next_serial ex_w_host) 1 (KDevice11 adapter))
    ∧ match adapter with
      | Some i => D3D12.adapters (ex_init_ok 200 60) !! i = Some (lo, hi)
                  ∧ ∀ j, j < i → D3D12.adapters (ex_init_ok 200 60) !! j ≠ Some (lo, hi)
      | None => (lo, hi) ∉ D3D12.adapters (ex_init_ok 200 60)
      end.
Proof.
  destruct (D3D12.InitializeCaptureDevice (ex_init_ok 200 60)
              (D3D12.set_d3d12 100 101 D3D12.initial) ex_w_host) as [[[r st'] w']|] eqn:H;
    [|by vm_compute in H].
  assert (r = Success) as -> by (vm_compute in H; by injection H as <- _ _).
  destruct (D3D12_capture_device_on_first_matching_adapter _ _ _ _ _ H)
    as (lo & hi & adapter & Hluid & Hdev & _ & Hadapter).
  by exists st', w', lo, hi, adapter.
Defined.

(** ** The life of a shared texture on the D3D12 back end *)

(** X4.  The life of a shared texture on the D3D12 back end, from
    creation over one rendering bracket to destruction, leaves nothing
    behind.  [CreateSharedTexture] hands out the new texture;
    [BeginRenderToTexture] wraps it, caches the wrapper and acquires the
    wrapper's view; [EndRenderToTexture] releases that same view and
    flushes; [DestroySharedTexture] removes the wrapper and the texture.
    Every call returns, and afterwards the back end and the heap are what
    they were before the creation.  The allocator's two answers are
    addresses that are not null and not in use. *)
Theorem D3D12_texture_lifecycle_round_trip :
  ∀ W H v a b st w,
    is_null (D3D12.m_d3d12Device st) = false →
    is_null (D3D12.m_d3d11On12Device st) = false →
    is_null (D3D12.m_d3d11Context st) = false →
    D3D12.m_wrappedResources st !! a = None →
    a ≠ 0%N → objs w !! a = None → b ≠ 0%N → b ≠ a → objs w !! b = None →
    ∃ w1 st2 w2 w3 w4,
      D3D12.CreateSharedTexture W H (Some v) (Some a) st w = Some (Success, Some a, w1)
      ∧ D3D12.BeginRenderToTexture a (Some b) st w1 = Some (st2, w2)
      ∧ D3D12.m_wrappedResources st2 !! a
        = Some (D3D12.mkWrapped (N.succ (N.succ (next_serial w))) a b)
      ∧ D3D12.EndRenderToTexture a st2 w2 = Some w3
      ∧ D3D12.DestroySharedTexture a st2 w3 = Some (st, w4)
      ∧ objs w4 = objs w ∧ handles w4 = handles w
      ∧ gpu_log w4 = gpu_log w ++
          [(D3D12.m_d3d11On12Device st, CreateWrappedResource a);
           (D3D12.m_d3d11On12Device st, AcquireWrappedResources b);
           (D3D12.m_d3d11On12Device st, ReleaseWrappedResources b);
           (D3D12.m_d3d11Context st, Flush)].
Proof.
  intros W H v a b st w Hdev Hon12 Hctx Hcache Ha Hafresh Hb Hba Hbfresh.
  assert (is_null a = false) as Hna by (by apply is_null_false).
  assert (is_null b = false) as Hnb by (by apply is_null_false).
  eexists _, _, _, _, _.
  (* creation *)
  split.
  { unfold D3D12.CreateSharedTexture. rewrite Hdev. simpl.
    unfold com_new. rewrite Hna, Hafresh. simpl. reflexivity. }
  (* begin *)
  split.
  { unfold D3D12.BeginRenderToTexture. rewrite Hon12, Hna. simpl.
    unfold D3D12.GetOrCreateWrappedResource, GetDesc12. simpl.
    rewrite lookup_insert_eq. simpl.
    unfold D3D12.find_cached. rewrite Hcache. simpl.
    unfold D3D12.create_wrapped. rewrite Hon12.
    unfold GetDesc12. simpl. rewrite lookup_insert_eq. simpl.
    unfold com_new. rewrite Hnb. simpl.
    rewrite lookup_insert_ne by done. rewrite Hbfresh. simpl.
    unfold AddRef. simpl. rewrite lookup_insert_ne by done. rewrite lookup_insert_eq. simpl.
    unfold D3D12.assign_wrapped. simpl. rewrite Hcache. simpl. reflexivity. }
  split.
  { simpl. by rewrite lookup_insert_eq. }
  (* end *)
  split.
  { unfold D3D12.EndRenderToTexture. simpl. rewrite Hon12, Hna. simpl.
    rewrite lookup_insert_eq. unfold through. rewrite Hctx. simpl. reflexivity. }
  (* destruction *)
  split.
  { unfold D3D12.DestroySharedTexture. rewrite Hna.
    unfold D3D12.erase. simpl. rewrite lookup_insert_eq.
    unfold D3D12.destroy_WrappedResource, ComPtr_Reset. simpl. rewrite Hnb, Hna.
    erewrite (Release_last b); [|simpl; rewrite lookup_insert_ne by done; apply lookup_insert_eq|simpl; lia].
    simpl.
    erewrite (Release_shared a); [|simpl; rewrite lookup_delete_ne by done; apply lookup_insert_eq|reflexivity].
    simpl. unfold GetDesc12. simpl. rewrite lookup_insert_eq. simpl.
    erewrite (Release_last a); [|simpl; apply lookup_insert_eq|simpl; lia].
    simpl.
    rewrite delete_insert_id by done. apply f_equal.
    apply (f_equal2 pair); [by destruct st|reflexivity]. }
  simpl. split; [|split; [done|by rewrite <- !(assoc_L (++))]].
  apply map_eq. intros q.
  destruct (decide (q = a)) as [->|Hqa].
  { by rewrite lookup_delete_eq, Hafresh. }
  rewrite lookup_delete_ne by done. rewrite lookup_insert_ne by done.
  destruct (decide (q = b)) as [->|Hqb].
  { by rewrite lookup_delete_eq, Hbfresh. }
  rewrite lookup_delete_ne by done. rewrite lookup_insert_ne by done.
  rewrite lookup_insert_ne by done. by rewrite lookup_insert_ne.
Qed.

Lemma Release_frame p w w' :
  Release p w = Some w' → handles w' = handles w ∧ gpu_log w' = gpu_log w.
Proof. intros (o & _ & _ & ? & ? & _)%Release_inv. done. Qed.

Lemma ComPtr_Reset_frame p w w' :
  ComPtr_Reset p w = Some w' → handles w' = handles w ∧ gpu_log w' = gpu_log w.
Proof. intros (_ & ? & ?)%ComPtr_Reset_serial. done. Qed.

Lemma D3D12_destroy_WrappedResource_frame wr w w' :
  D3D12.destroy_WrappedResource wr w = Some w' →
  handles w' = handles w ∧ gpu_log w' = gpu_log w.
Proof.
  unfold D3D12.destroy_WrappedResource.
  destruct (ComPtr_Reset _ w) as [w1|] eqn:H1; simpl; [|done].
  intros H2. apply ComPtr_Reset_frame in H1 as [? ?], H2 as [? ?]. split; congruence.
Qed.

Lemma D3D12_erase_frame p st w st' w' :
  D3D12.erase p st w = Some (st', w') →
  D3D12.m_wrappedResources st' = delete p (D3D12.m_wrappedResources st)
  ∧ D3D12.m_d3d11On12Device st' = D3D12.m_d3d11On12Device st
  ∧ D3D12.m_d3d11Context st' = D3D12.m_d3d11Context st
  ∧ handles w' = handles w ∧ gpu_log w' = gpu_log w.
Proof.
  unfold D3D12.erase. destruct (D3D12.m_wrappedResources st !! p) as [wr|] eqn:Hc.
  - destruct (D3D12.destroy_WrappedResource wr w) as [w1|] eqn:Hd; simpl; [|done].
    intros [= <- <-]. apply D3D12_destroy_WrappedResource_frame in Hd as [? ?]. done.
  - intros [= <- <-]. by rewrite delete_id.
Qed.

(** What building a wrapper does to the cache and to the command log. *)
Lemma D3D12_create_wrapped_frame p curW curH hr st w r st' w' :
  D3D12.create_wrapped p curW curH hr st w = Some (r, st', w') →
  D3D12.m_d3d11On12Device st' = D3D12.m_d3d11On12Device st
  ∧ D3D12.m_d3d11Context st' = D3D12.m_d3d11Context st
  ∧ handles w' = handles w
  ∧ (∃ l, gpu_log w' = gpu_log w ++ l ∧ views_acquired l = [] ∧ views_released l = [])
  ∧ match r with
    | Some wr => D3D12.m_wrappedResources st' !! p = Some wr
    | None => D3D12.m_wrappedResources st' = D3D12.m_wrappedResources st
    end.
Proof.
  unfold D3D12.create_wrapped.
  destruct (is_null (D3D12.m_d3d11On12Device st)).
  { intros [= <- <- <-]. repeat split. exists []. by rewrite app_nil_r. }
  destruct (GetDesc12 p w); simpl; [|done].
  destruct hr as [a|].
  2:{ intros [= <- <- <-]. repeat split. simpl. eexists. done. }
  destruct (com_new a _ _) as [w2|] eqn:H2; simpl; [|done].
  destruct (AddRef p w2) as [w3|] eqn:H3; simpl; [|done].
  unfold D3D12.assign_wrapped. simpl.
  apply com_new_frame in H2 as [Hh2 Hl2]. apply AddRef_frame in H3 as [Hh3 Hl3].
  destruct (D3D12.m_wrappedResources st !! p) as [old|].
  - destruct (D3D12.destroy_WrappedResource old _) as [w5|] eqn:H5; simpl; [|done].
    apply D3D12_destroy_WrappedResource_frame in H5 as [Hh5 Hl5]. simpl in *.
    intros [= <- <- <-]. simpl. repeat split; [congruence| |apply lookup_insert_eq].
    eexists. split; [rewrite Hl5, Hl3, Hl2; reflexivity|done].
  - simpl in *. intros [= <- <- <-]. simpl. repeat split; [congruence| |apply lookup_insert_eq].
    eexists. split; [rewrite Hl3, Hl2; reflexivity|done].
Qed.

(** What [GetOrCreateWrappedResource] does to the cache and to the
    command log: a wrapper it returns is the one cached for the texture;
    when it returns none, the texture is without a cached wrapper, unless
    a cached view that does not cast to a texture was left in place. *)
Lemma D3D12_GetOrCreate_frame p hr st w r st' w' :
  cached_view_is_texture p st w →
  D3D12.GetOrCreateWrappedResource p hr st w = Some (r, st', w') →
  D3D12.m_d3d11On12Device st' = D3D12.m_d3d11On12Device st
  ∧ D3D12.m_d3d11Context st' = D3D12.m_d3d11Context st
  ∧ handles w' = handles w
  ∧ (∃ l, gpu_log w' = gpu_log w ++ l ∧ views_acquired l = [] ∧ views_released l = [])
  ∧ D3D12.m_wrappedResources st' !! p = r.
Proof.
  intros Htex. unfold D3D12.GetOrCreateWrappedResource.
  destruct (GetDesc12 p w) as [[curW curH]|]; simpl; [|done].
  unfold D3D12.find_cached.
  destruct (D3D12.m_wrappedResources st !! p) as [cached|] eqn:Hc; simpl.
  - destruct (objs w !! D3D12.d3d11Resource cached) as [o|] eqn:Ho; simpl; [|done].
    specialize (Htex cached o Hc Ho).
    destruct (as_Texture2D (o_kind o)) as [[cw ch]|]; [|done].
    destruct (negb _ || negb _).
    + destruct (D3D12.erase p st w) as [[st1 w1]|] eqn:He; simpl; [|done].
      apply D3D12_erase_frame in He as (Hc1 & Hon & Hctx & Hh & Hl).
      intros Hcw. apply D3D12_create_wrapped_frame in Hcw as (? & ? & ? & (l & Hll & ? & ?) & Hr).
      split; [congruence|]. split; [congruence|]. split; [congruence|].
      split; [exists l; by rewrite Hll, Hl|].
      destruct r as [wr|]; [done|]. rewrite Hr, Hc1. apply lookup_delete_eq.
    + simpl. intros [= <- <- <-]. repeat split; [|done]. exists []. by rewrite app_nil_r.
  - intros Hcw. apply D3D12_create_wrapped_frame in Hcw as (? & ? & ? & Hl & Hr).
    repeat split; try done. destruct r as [wr|]; [done|]. by rewrite Hr.
Qed.

(** X5.  A rendering bracket on the D3D12 back end is balanced: what
    [EndRenderToTexture] releases is exactly what the preceding
    [BeginRenderToTexture] of the same texture acquired, be it the view
    of the cached wrapper, the view of a wrapper built by the call, or
    nothing at all (no interop device, a null texture, a wrapper that
    could not be built).  The texture's cached view, if it has one, casts
    to [ID3D11Texture2D]. *)
Theorem D3D12_render_bracket_balanced :
  ∀ p hr st w st1 w1 w2,
    cached_view_is_texture p st w →
    D3D12.BeginRenderToTexture p hr st w = Some (st1, w1) →
    D3D12.EndRenderToTexture p st1 w1 = Some w2 →
    ∃ l, gpu_log w2 = gpu_log w ++ l
         ∧ views_acquired l = views_released l
         ∧ length (views_acquired l) ≤ 1
         ∧ objs w2 = objs w1 ∧ handles w2 = handles w.
Proof.
  intros p hr st w st1 w1 w2 Htex.
  unfold D3D12.BeginRenderToTexture, D3D12.EndRenderToTexture.
  destruct (is_null (D3D12.m_d3d11On12Device st) || is_null p) eqn:Hnull.
  { intros [= <- <-]. rewrite Hnull. intros [= <-]. exists []. rewrite app_nil_r.
    repeat split. simpl. lia. }
  destruct (D3D12.GetOrCreateWrappedResource p hr st w) as [[[r st'] w']|] eqn:Hg;
    simpl; [|done].
  apply (D3D12_GetOrCreate_frame p hr st w r st' w' Htex) in Hg
    as (Hon & Hctx & Hh & (l & Hl & Hacq & Hrel) & Hc).
  destruct r as [wr|]; intros [= <- <-]; rewrite Hon, Hnull, Hc.
  - destruct (through (D3D12.m_d3d11Context st')) as [ctx|]; simpl; [|done].
    intros [= <-]. simpl.
    exists (l ++ [(D3D12.m_d3d11On12Device st, AcquireWrappedResources (D3D12.d3d11Resource wr));
                  (D3D12.m_d3d11On12Device st, ReleaseWrappedResources (D3D12.d3d11Resource wr));
                  (ctx, Flush)]).
    split; [rewrite Hl, <- !(assoc_L (++)); done|].
    unfold views_acquired, views_released in *. rewrite !omap_app, Hacq, Hrel. simpl.
    repeat split; [lia|done].
  - intros [= <-]. exists l. rewrite Hacq, Hrel. repeat split; [done|simpl; lia|done].
Qed.

(** ** The factory and the capture session *)

(** [CreateRenderAPI] returns a back end exactly for [Direct3D11]
    and, in a build with D3D12 support, for [Direct3D12], and a null
    pointer for every other value; the back end it returns reports the
    graphics API it was asked for and is not initialised. *)
Lemma CreateRenderAPI_returns_the_API_asked_for :
  ∀ dx12 api,
    match RenderAPI.CreateRenderAPI dx12 api with
    | Some r =>
        RenderAPI.GetAPIType r = api
        ∧ RenderAPI.IsInitialized r = false
        ∧ (api = RenderAPI.GraphicsAPI_Direct3D11
           ∨ (dx12 = true ∧ api = RenderAPI.GraphicsAPI_Direct3D12))
    | None =>
        api ≠ RenderAPI.GraphicsAPI_Direct3D11
        ∧ (dx12 = true → api ≠ RenderAPI.GraphicsAPI_Direct3D12)
    end.
Proof.
  intros dx12 api. unfold RenderAPI.CreateRenderAPI.
  destruct (api =? RenderAPI.GraphicsAPI_Direct3D11)%Z eqn:H11.
  { apply Z.eqb_eq in H11 as ->. simpl. repeat split. by left. }
  apply Z.eqb_neq in H11.
  destruct dx12; simpl.
  - destruct (api =? RenderAPI.GraphicsAPI_Direct3D12)%Z eqn:H12.
    + apply Z.eqb_eq in H12 as ->. simpl. repeat split. by right.
    + apply Z.eqb_neq in H12. done.
  - done.
Qed.

(** What every statement of a block keeps, the block keeps. *)
Lemma Capture_bind_keeps {S A B X} (P : S → X) (m : Capture.M S A) (k : A → Capture.M S B) :
  (∀ s, P (m s).2 = P s) → (∀ a s, P (k a s).2 = P s) → ∀ s, P ((m ≫= k) s).2 = P s.
Proof.
  intros Hm Hk s. unfold mbind, Capture.M_bind. specialize (Hm s).
  destruct (m s) as [[a|e] s']; simpl in *; [by rewrite Hk|done].
Qed.

Lemma Capture_checked_keeps {S X} (P : S → X) ok : ∀ s, P (Capture.checked ok s).2 = P s.
Proof. by destruct ok. Qed.

(** The visual tree touches none of the capture members. *)
Lemma Capture_InitializeVisualTree_capture v env st :
  let st' := Capture.InitializeVisualTree v env st in
  Capture.m_session st' = Capture.m_session st
  ∧ Capture.m_framePool st' = Capture.m_framePool st
  ∧ Capture.m_captureItem st' = Capture.m_captureItem st
  ∧ Capture.m_d3dDevice st' = Capture.m_d3dDevice st.
Proof.
  set (P := λ s, (Capture.m_session s, Capture.m_framePool s, Capture.m_captureItem s,
                  Capture.m_d3dDevice s)).
  assert (P (Capture.InitializeVisualTree v env st) = P st) as H.
  { unfold Capture.InitializeVisualTree, Capture.try_catch_all. generalize st.
    destruct (is_null _ || is_null _ || is_null _); [done|].
    repeat (apply Capture_bind_keeps; [|intros []]);
      (apply Capture_checked_keeps || (by intros [])). }
  unfold P in H. simpl. by injection H as -> -> -> ->.
Qed.

(** X6.  When capture starts.  For a ready web view and a capture
    session without a session object, [Initialize] leaves a started
    capture session exactly when the render API has a capture device, the
    host window is a window, and every call of
    [InitializeGraphicsCapture] succeeds; the outcome of the visual tree
    plays no part in it.  The frame pool then has two buffers and the
    size of the capture item, with the web view's width or height in
    place of one that is not positive.  The result is [Success] in every
    case. *)
Theorem Capture_session_started_iff :
  ∀ v env st,
    Capture.IsReady v = true → Capture.m_session st = None →
    ∃ st',
      Capture.Initialize (Some v) env st = (inl Success, st')
      ∧ (Capture.m_session st' = Some (Capture.mkSession true)
         ↔ Capture.GetCaptureD3D11Device env ≠ 0%N
           ∧ Capture.QueryInterface_IDXGIDevice env = true
           ∧ Capture.CreateDirect3D11DeviceFromDXGIDevice env = true
           ∧ Capture.inspectable_as_IDirect3DDevice env = true
           ∧ Capture.GetHostWindow v ≠ 0%N
           ∧ Capture.IsWindow env = true
           ∧ Capture.get_activation_factory env = true
           ∧ Capture.CreateForWindow env = true
           ∧ is_Some (Capture.item_Size env)
           ∧ Capture.FramePool_Create env = true
           ∧ Capture.CreateCaptureSession env = true
           ∧ Capture.StartCapture env = true)
      ∧ (Capture.m_session st' = Some (Capture.mkSession true) →
         ∃ itemW itemH,
           Capture.item_Size env = Some (itemW, itemH)
           ∧ Capture.m_captureItem st' = Some (itemW, itemH)
           ∧ Capture.m_framePool st'
             = Some (Capture.mkFramePool
                       (if (itemW <=? 0)%Z then Capture.to_int32 (Capture.GetWidth v)
                        else itemW)
                       (if (itemH <=? 0)%Z then Capture.to_int32 (Capture.GetHeight v)
                        else itemH)
                       2)
           ∧ Capture.m_d3dDevice st' = true).
Proof.
  intros v env st Hready Hsession.
  unfold Capture.Initialize. rewrite Hready. simpl.
  eexists. split; [reflexivity|].
  pose proof (Capture_InitializeVisualTree_capture v env st) as (Hs & _).
  rewrite Hsession in Hs. simpl in Hs.
  set (st1 := Capture.InitializeVisualTree v env st) in *. clearbody st1.
  unfold Capture.InitializeGraphicsCapture, Capture.try_catch_all.
  destruct (is_null (Capture.GetCaptureD3D11Device env)) eqn:Hdev; simpl.
  { rewrite Hs. apply is_null_true in Hdev. split; [|done]. split; [done|]. by intros (? & _). }
  apply is_null_false in Hdev.
  destruct (Capture.QueryInterface_IDXGIDevice env); simpl.
  2:{ rewrite Hs. split; [|done]. split; [done|]. by intros (_ & ? & _). }
  destruct (Capture.CreateDirect3D11DeviceFromDXGIDevice env); simpl.
  2:{ rewrite Hs. split; [|done]. split; [done|]. by intros (_ & _ & ? & _). }
  destruct (Capture.inspectable_as_IDirect3DDevice env); simpl.
  2:{ rewrite Hs. split; [|done]. split; [done|]. by intros (_ & _ & _ & ? & _). }
  destruct (is_null (Capture.GetHostWindow v)) eqn:Hwnd; simpl.
  { rewrite Hs. apply is_null_true in Hwnd. split; [|done]. split; [done|].
    by intros (_ & _ & _ & _ & ? & _). }
  apply is_null_false in Hwnd.
  destruct (Capture.IsWindow env); simpl.
  2:{ rewrite Hs. split; [|done]. split; [done|]. by intros (_ & _ & _ & _ & _ & ? & _). }
  destruct (Capture.get_activation_factory env); simpl.
  2:{ rewrite Hs. split; [|done]. split; [done|]. by intros (_ & _ & _ & _ & _ & _ & ? & _). }
  destruct (Capture.CreateForWindow env); simpl.
  2:{ rewrite Hs. split; [|done]. split; [done|].
      by intros (_ & _ & _ & _ & _ & _ & _ & ? & _). }
  destruct (Capture.item_Size env) as [[itemW itemH]|]; simpl.
  2:{ rewrite Hs. split; [|done]. split; [done|].
      intros (_ & _ & _ & _ & _ & _ & _ & _ & [? ?] & _). done. }
  destruct (Capture.FramePool_Create env); simpl.
  2:{ rewrite Hs. split; [|done]. split; [done|].
      by intros (_ & _ & _ & _ & _ & _ & _ & _ & _ & ? & _). }
  destruct (Capture.CreateCaptureSession env); simpl.
  2:{ rewrite Hs. split; [|done]. split; [done|].
      by intros (_ & _ & _ & _ & _ & _ & _ & _ & _ & _ & ? & _). }
  destruct (Capture.StartCapture env); simpl.
  2:{ split; [|done]. split; [done|].
      by intros (_ & _ & _ & _ & _ & _ & _ & _ & _ & _ & _ & ?). }
  split.
  - split; [|done]. intros _. repeat split; try done.
  - intros _. exists itemW, itemH. done.
Qed.

Lemma Capture_session_started_iff_witness :
  ∃ st',
    Capture.Initialize (Some ex_webView) ex_capture_env_ok Capture.constructed
    = (inl Success, st')
    ∧ Capture.m_session st' = Some (Capture.mkSession true)
    ∧ Capture.m_framePool st' = Some (Capture.mkFramePool 640 480 2).
Proof.
  destruct (Capture_session_started_iff ex_webView ex_capture_env_ok Capture.constructed
              eq_refl eq_refl) as (st' & Hinit & Hiff & Hpool).
  exists st'. split; [done|].
  assert (Capture.m_session st' = Some (Capture.mkSession true)) as Hs.
  { apply Hiff. repeat split; try done. }
  split; [done|].
  destruct (Hpool Hs) as (itemW & itemH & Hsize & _ & Hp & _).
  injection Hsize as <- <-. exact Hp.
Defined.

(** X7.  [WebViewCapture::Shutdown] brings the session back to the
    state its constructor leaves exactly when no [Close] throws: the
    session's, if there is a session, and the frame pool's, if there is a
    frame pool.  When the session's [Close] throws nothing at all is
    released; when the frame pool's throws, only the session is. *)
Theorem Capture_Shutdown_resets_iff :
  ∀ env st,
    (Capture.Shutdown env st = Capture.constructed
     ↔ (Capture.m_session st = None ∨ Capture.session_Close env = true)
       ∧ (Capture.m_framePool st = None ∨ Capture.framePool_Close env = true))
    ∧ (Capture.m_session st ≠ None → Capture.session_Close env = false →
       Capture.Shutdown env st = st)
    ∧ (Capture.m_framePool st ≠ None →
       (Capture.m_session st = None ∨ Capture.session_Close env = true) →
       Capture.framePool_Close env = false →
       Capture.Shutdown env st = Capture.clear_session st).
Proof.
  intros [sc fc] [c r v t item pool session d].
  unfold Capture.Shutdown, Capture.try_catch_all. simpl.
  destruct session as [s|], pool as [fp|], item as [i|], sc, fc, c, r, v, t, d; simpl;
    (split; [split; [try done; intros _; split; (by left) || (by right)
                    |intros [[?|?] [?|?]]; done]|]);
    (split; [intros ? ?; done|intros ? [?|?] ?; done]).
Qed.

Lemma Capture_Shutdown_resets_iff_witness :
  ∃ st',
    Capture.Initialize (Some ex_webView) ex_capture_env_ok Capture.constructed
    = (inl Success, st')
    ∧ Capture.m_session st' ≠ None
    ∧ Capture.Shutdown (Capture.mkShutdownEnv true true) st' = Capture.constructed.
Proof.
  eexists. split; [reflexivity|]. split; [done|].
  apply (proj1 (Capture_Shutdown_resets_iff (Capture.mkShutdownEnv true true) _)).
  split; by right.
Defined.

(** Closes a branch of the case analysis of [Resize]: the call is
    evaluated, and an assumption that the branch contradicts is refuted
    with [Hno]. *)
Ltac Resize_fin Hno :=
  solve [eexists _, _; (split; [reflexivity|]); repeat split;
         try done; try ((by left) || (by right));
         try (exfalso; eapply Hno; [| | |eassumption]; done)].

(** X8.  [WebViewCapture::Resize].  Where the session has no frame
    pool, no capture item or no device, it changes nothing and creates
    nothing: it returns [Success], or [ErrorUnknown] when the root visual
    could not be resized.  Where it has all three, a [Success] means that
    the frame pool was replaced by one of two buffers with the new size,
    as [int32_t], and that a new session was started on it; any other
    result is [ErrorUnknown] and leaves either nothing changed or no
    started session.  The capture item and the visuals are never
    touched. *)
Theorem Capture_Resize_recreates_or_stops :
  ∀ width height env st,
    ∃ r st',
      Capture.Resize width height env st = (r, st')
      ∧ Capture.m_captureItem st' = Capture.m_captureItem st
      ∧ Capture.m_compositor st' = Capture.m_compositor st
      ∧ Capture.m_rootVisual st' = Capture.m_rootVisual st
      ∧ Capture.m_webViewVisual st' = Capture.m_webViewVisual st
      ∧ Capture.m_windowTarget st' = Capture.m_windowTarget st
      ∧ Capture.m_d3dDevice st' = Capture.m_d3dDevice st
      ∧ (Capture.m_framePool st = None ∨ Capture.m_captureItem st = None
         ∨ Capture.m_d3dDevice st = false →
         st' = st
         ∧ r = (if Capture.m_rootVisual st && negb (Capture.resize_put_Size env)
                then ErrorUnknown else Success))
      ∧ (Capture.m_framePool st ≠ None → Capture.m_captureItem st ≠ None →
         Capture.m_d3dDevice st = true →
         (r = Success →
          Capture.m_framePool st'
          = Some (Capture.mkFramePool (Capture.to_int32 width) (Capture.to_int32 height) 2)
          ∧ Capture.m_session st' = Some (Capture.mkSession true))
         ∧ (r ≠ Success →
            r = ErrorUnknown
            ∧ (st' = st ∨ Capture.m_session st' ≠ Some (Capture.mkSession true)))).
Proof.
  intros width height [ps sc fc da fcr ccs stc] [c rv v t item pool session d].
  unfold Capture.Resize, Capture.Resize_body, Capture.get, mbind, Capture.M_bind. simpl.
  assert (∀ A B C : Prop, ¬ A → ¬ B → ¬ C → A ∨ B ∨ C → False) as Hno by tauto.
  destruct rv, ps; simpl; try Resize_fin Hno.
  all: destruct pool as [fp|]; simpl; try Resize_fin Hno.
  all: destruct item as [i|]; simpl; try Resize_fin Hno.
  all: destruct d; simpl; try Resize_fin Hno.
  all: destruct session as [s|]; simpl; try Resize_fin Hno.
  all: try (destruct sc; simpl; try Resize_fin Hno).
  all: destruct fc; simpl; try Resize_fin Hno.
  all: destruct da; simpl; try Resize_fin Hno.
  all: destruct fcr; simpl; try Resize_fin Hno.
  all: destruct ccs; simpl; try Resize_fin Hno.
  all: destruct stc; simpl; Resize_fin Hno.
Qed.

Lemma Capture_Resize_recreates_or_stops_witness :
  ∃ st',
    Capture.Resize 1024 768 ex_resize_ok ex_capture_started = (Success, st')
    ∧ Capture.m_framePool st' = Some (Capture.mkFramePool 1024 768 2)
    ∧ Capture.m_session st' = Some (Capture.mkSession true).
Proof.
  destruct (Capture_Resize_recreates_or_stops 1024 768 ex_resize_ok ex_capture_started)
    as (r & st' & Hcall & _ & _ & _ & _ & _ & _ & _ & Hcapture).
  assert (r = Success) as -> by (vm_compute in Hcall; by injection Hcall as <- _).
  exists st'. split; [done|].
  by apply (proj1 (Hcapture ltac:(done) ltac:(done) eq_refl)).
Defined.

Lemma AddRef_Release_id t w o :
  objs w !! t = Some o → 0 < o_refs o →
  ∃ w1, AddRef t w = Some w1
        ∧ handles w1 = handles w ∧ gpu_log w1 = gpu_log w
        ∧ (∀ k, (o_kind <$> objs w1 !! k) = (o_kind <$> objs w !! k))
        ∧ ∀ w2, objs w2 = objs w1 →
                ∃ w3, Release t w2 = Some w3 ∧ objs w3 = objs w
                      ∧ next_serial w3 = next_serial w2 ∧ handles w3 = handles w2
                      ∧ gpu_log w3 = gpu_log w2.
Proof.
  intros Ho Hr. unfold AddRef. rewrite Ho. simpl. eexists. split; [done|].
  split; [done|]. split; [done|]. split.
  { intros k. simpl. destruct (decide (k = t)) as [->|Hne].
    - by rewrite lookup_insert_eq, Ho.
    - by rewrite lookup_insert_ne. }
  intros w2 Hw2. simpl in Hw2.
  erewrite (Release_shared t w2 _ (Nat.pred (o_refs o))).
  2:{ rewrite Hw2. apply lookup_insert_eq. }
  2:{ simpl. lia. }
  eexists. split; [done|]. simpl. repeat split.
  rewrite Hw2, insert_insert_eq. apply insert_id. rewrite Ho. destruct o; simpl in *.
  do 2 f_equal. lia.
Qed.

Lemma GetDesc11_kind p w w' :
  (∀ k, (o_kind <$> objs w' !! k) = (o_kind <$> objs w !! k)) →
  GetDesc11 p w' = GetDesc11 p w.
Proof.
  intros H. unfold GetDesc11. specialize (H p).
  destruct (objs w' !! p) as [o'|], (objs w !! p) as [o|]; simpl in *; try done.
  by injection H as ->.
Qed.

(** X9.  [WebViewCapture::UpdateTexture] on the D3D11 back end.  When a
    frame with a texture arrives, the texture is copied to the
    destination with the Y flip (one row copy per row, source row
    [H - 1 - y] to row [y]) if the two have the same size, and not at all
    if they differ; either way the reference taken on the frame's texture
    is given back, so the heap is as before.  When there is no frame
    pool, no destination, no frame, no surface or no texture, or a call
    throws, nothing happens at all. *)
Theorem Capture_UpdateTexture_D3D11 :
  ∀ dst frame env st s11 w,
    (∀ t close ot W H dW dH,
        frame = Capture.surface_texture t close →
        Capture.m_framePool st ≠ None → dst ≠ 0%N → t ≠ 0%N →
        objs w !! t = Some ot → o_kind ot = KTexture2D W H → 0 < o_refs ot →
        GetDesc11 dst w = Some (dW, dH) →
        D3D11.m_context s11 ≠ 0%N → (0 ≤ H < UINT_modulus)%Z →
        ∃ w',
          Capture.UpdateTexture dst frame env st
            (Some (RenderAPI.RenderAPI_D3D11 s11)) w
          = Some (Some (RenderAPI.RenderAPI_D3D11 s11), w')
          ∧ objs w' = objs w ∧ handles w' = handles w
          ∧ gpu_log w' = gpu_log w ++
              (if bool_decide (W = dW ∧ H = dH)
               then D3D11_flip_commands (D3D11.m_context s11) t dst W H
               else []))
    ∧ (Capture.m_framePool st = None ∨ dst = 0%N
       ∨ (∀ t close, frame = Capture.surface_texture t close → t = 0%N) →
       ∀ api, Capture.UpdateTexture dst frame env st api w = Some (api, w)).
Proof.
  intros dst frame env st s11 w. split.
  - intros t close ot W H dW dH -> Hpool Hdst Ht Hot Hkind Hrefs Hdd Hctx HH.
    unfold Capture.UpdateTexture.
    rewrite bool_decide_eq_false_2 by done.
    rewrite (proj2 (is_null_false dst) Hdst), (proj2 (is_null_false t) Ht). simpl.
    destruct (AddRef_Release_id t w ot Hot Hrefs) as (w1 & -> & Hh1 & Hl1 & Hk & Hrel). simpl.
    assert (GetDesc11 t w1 = Some (W, H)) as Hsd.
    { rewrite (GetDesc11_kind t w w1 Hk). unfold GetDesc11. rewrite Hot. simpl. by rewrite Hkind. }
    assert (GetDesc11 dst w1 = Some (dW, dH)) as Hdd1 by (by rewrite (GetDesc11_kind dst w w1 Hk)).
    destruct (decide (W = dW ∧ H = dH)) as [[<- <-]|Hne].
    + rewrite bool_decide_eq_true_2 by done.
      rewrite (D3D11_copy_equal_size t dst true s11 w1 W H) by done. simpl.
      destruct (Hrel (mkWorld (objs w1) (next_serial w1) (handles w1)
                        (gpu_log w1 ++ D3D11_flip_commands (D3D11.m_context s11) t dst W H))
                  eq_refl) as (w3 & -> & Ho3 & _ & Hh3 & Hl3).
      simpl. eexists. split; [done|]. simpl in *. repeat split; congruence.
    + rewrite bool_decide_eq_false_2 by done.
      assert (W ≠ dW ∨ H ≠ dH) as Hne'.
      { destruct (decide (W = dW)) as [->|?]; [right|by left]. intros ->. by apply Hne. }
      rewrite (D3D11_copy_mismatch t dst true s11 w1 W H dW dH) by done.
      simpl.
      destruct (Hrel w1 eq_refl) as (w3 & -> & Ho3 & _ & Hh3 & Hl3).
      simpl. eexists. split; [done|]. rewrite app_nil_r. repeat split; congruence.
  - intros Hno api. unfold Capture.UpdateTexture.
    destruct (bool_decide (Capture.m_framePool st = None)) eqn:Hp; [done|].
    destruct (is_null dst) eqn:Hd; [done|]. simpl.
    apply bool_decide_eq_false in Hp. apply is_null_false in Hd.
    destruct Hno as [?|[?|Hf]]; [done|done|].
    destruct frame; try done.
    rewrite (Hf capturedTexture Close_ok eq_refl). done.
Qed.

(** ** The web view *)

Lemma texture_owned_nonnull h o api w : texture_owned h o api w → h ≠ 0%N.
Proof. destruct api; by intros [? _]. Qed.

Lemma texture_owned_lookup h o api w : texture_owned h o api w → objs w !! h = Some o.
Proof. destruct api; by intros (_ & ? & _). Qed.

Lemma RenderAPI_Resize_destroys h o newW newH v wait hr api w :
  texture_owned h o api w → fresh_after_release h hr w →
  ∃ r out' api' w',
    RenderAPI.ResizeSharedTexture h newW newH (Some v) wait hr api w
    = Some (r, out', api', w')
    ∧ invalidated h o w'
    ∧ (∀ a, is_null (texture_device api) = false → hr = Some a →
         r = Success ∧ out' = Some a ∧ a ≠ 0%N
         ∧ objs w' !! a = Some (mkComObj (next_serial w) 1 (texture_kind api newW newH)))
    ∧ (is_null (texture_device api) = true ∨ hr = None →
         r ≠ Success ∧ out' = Some v ∧ objs w' !! h = None).
Proof.
  intros Hown Hfresh. destruct api as [st|st]; simpl in *.
  - destruct (D3D11_resize_is_destroy_then_create h o newW newH v hr st w Hown)
      as (w1 & _ & Ho1 & Hs1 & ->).
    rewrite D3D11_create_spec.
    destruct (is_null (D3D11.m_device st)).
    { simpl. eexists _, _, _, _. split; [reflexivity|].
      split; [intros o'; by rewrite Ho1, lookup_delete_eq|]. split; [done|].
      intros _. split; [done|]. split; [done|]. by rewrite Ho1, lookup_delete_eq. }
    destruct hr as [a|].
    2:{ simpl. eexists _, _, _, _. split; [reflexivity|].
        split; [intros o'; by rewrite Ho1, lookup_delete_eq|]. split; [done|].
        intros _. split; [done|]. split; [done|]. by rewrite Ho1, lookup_delete_eq. }
    destruct (Hfresh a eq_refl) as [Ha Hfree].
    destruct Hown as (_ & _ & _ & _ & Hser).
    assert (objs w1 !! a = None) as Hfree1.
    { rewrite Ho1. destruct Hfree as [->|?]; [apply lookup_delete_eq|].
      rewrite lookup_delete. by case_decide. }
    rewrite (com_new_Some a _ w1) by done. simpl.
    eexists _, _, _, _. split; [reflexivity|]. simpl. split.
    { intros o'. simpl. destruct (decide (a = h)) as [->|Hne].
      - rewrite lookup_insert_eq. intros [= <-]. simpl. lia.
      - by rewrite lookup_insert_ne, Ho1, lookup_delete_eq. }
    split; [|by intros [?|?]].
    intros ? _ [= <-]. rewrite lookup_insert_eq, Hs1. done.
  - destruct (D3D12_resize_is_destroy_then_create h o newW newH v wait hr st w Hown)
      as (st0 & w0 & st1 & w1 & _ & _ & Hgone & _ & Hkeep & Hs1 & Hdev & ->).
    rewrite D3D12_create_spec, Hdev.
    destruct (is_null (D3D12.m_d3d12Device st)).
    { simpl. eexists _, _, _, _. split; [reflexivity|].
      split; [intros o'; by rewrite Hgone|]. split; [done|].
      intros _. split; [done|]. split; done. }
    destruct hr as [a|].
    2:{ simpl. eexists _, _, _, _. split; [reflexivity|].
        split; [intros o'; by rewrite Hgone|]. split; [done|].
        intros _. split; [done|]. split; done. }
    destruct (Hfresh a eq_refl) as [Ha Hfree].
    destruct Hown as (_ & _ & _ & Hser & _).
    assert (objs w1 !! a = None) as Hfree1.
    { destruct Hfree as [->|?]; [done|]. by apply Hkeep. }
    rewrite (com_new_Some a _ w1) by done. simpl.
    eexists _, _, _, _. split; [reflexivity|]. simpl. split.
    { intros o'. simpl. destruct (decide (a = h)) as [->|Hne].
      - rewrite lookup_insert_eq. intros [= <-]. simpl. lia.
      - by rewrite lookup_insert_ne, Hgone. }
    split; [|by intros [?|?]].
    intros ? _ [= <-]. rewrite lookup_insert_eq, Hs1. done.
Qed.

(** X10.  [WebView::Resize] of a web view that has a controller and owns
    its texture returns [Success] whatever happens to the texture, with
    the new size recorded.  The old texture is destroyed in every case.
    When the back end has its device and the allocation succeeds, the web
    view holds the new texture: its pointer is the address the allocator
    answered with, not null, and that address denotes a new object of the
    new size with one reference.  When the back end has no device or the
    allocation fails, the web view keeps the pointer of the texture that
    has just been destroyed.  The allocator's answer is an address that
    is not null and not in use once the old texture is gone. *)
Theorem WebView_Resize_texture :
  ∀ width height ans api st w o,
    WebView.m_controller st ≠ 0%N → WebView.m_manager st = true →
    texture_owned (WebView.m_texturePtr st) o api w →
    fresh_after_release (WebView.m_texturePtr st) (WebView.resize_texture_hr ans) w →
    ∃ st' api' w',
      WebView.Resize width height ans (Some api) st w = Some (Success, st', Some api', w')
      ∧ WebView.m_width st' = width ∧ WebView.m_height st' = height
      ∧ invalidated (WebView.m_texturePtr st) o w'
      ∧ (∀ a, is_null (texture_device api) = false →
              WebView.resize_texture_hr ans = Some a →
              WebView.m_texturePtr st' = a ∧ a ≠ 0%N
              ∧ objs w' !! a
                = Some (mkComObj (next_serial w) 1 (texture_kind api width height)))
      ∧ (is_null (texture_device api) = true ∨ WebView.resize_texture_hr ans = None →
         WebView.m_texturePtr st' = WebView.m_texturePtr st
         ∧ objs w' !! WebView.m_texturePtr st' = None).
Proof.
  intros width height ans api st w o Hctl Hman Hown Hfresh.
  pose proof (texture_owned_nonnull _ _ _ _ Hown) as Hptr.
  unfold WebView.Resize.
  rewrite (proj2 (is_null_false _) Hctl). simpl.
  rewrite (proj2 (is_null_false _) Hptr), Hman. simpl.
  destruct (RenderAPI_Resize_destroys (WebView.m_texturePtr st) o width height 0%N
              (WebView.resize_wait ans) (WebView.resize_texture_hr ans) api w Hown Hfresh)
    as (r & out' & api' & w' & -> & Hinv & Hok & Hfail).
  simpl.
  destruct (is_null (texture_device api)) eqn:Hdev.
  { destruct (Hfail (or_introl eq_refl)) as (Hr & -> & Hgone).
    rewrite bool_decide_eq_false_2 by done. simpl.
    eexists _, api', w'. split; [reflexivity|].
    destruct (WebView.m_capture st); simpl; (split; [done|]); (split; [done|]);
      (split; [done|]); (split; [done|]); done. }
  destruct (WebView.resize_texture_hr ans) as [a|] eqn:Hhr.
  - destruct (Hok a eq_refl eq_refl) as (-> & -> & Ha & Hlook).
    rewrite bool_decide_eq_true_2 by done. simpl.
    eexists _, api', w'. split; [reflexivity|].
    destruct (WebView.m_capture st); simpl; (split; [done|]); (split; [done|]);
      (split; [done|]); (split; [by intros ? _ [= <-]|]); by intros [?|?].
  - destruct (Hfail (or_intror eq_refl)) as (Hr & -> & Hgone).
    rewrite bool_decide_eq_false_2 by done. simpl.
    eexists _, api', w'. split; [reflexivity|].
    destruct (WebView.m_capture st); simpl; (split; [done|]); (split; [done|]);
      (split; [done|]); (split; [done|]); done.
Qed.

(** X11.  [WebView::Shutdown] of a web view that has a manager and owns
    its texture: it returns with the web view [Destroyed], every pointer
    null and the capture session deleted; the texture is destroyed
    through the render API; and a second [Shutdown] does nothing, so
    that the destructor can follow an explicit [Shutdown]. *)
Theorem WebView_Shutdown_releases_once :
  ∀ api st w o,
    WebView.m_state st ≠ WebView.Destroyed → WebView.m_manager st = true →
    texture_owned (WebView.m_texturePtr st) o api w →
    ∃ st' api' w',
      WebView.Shutdown (Some api) st w = Some (st', Some api', w')
      ∧ st' = WebView.mkState (WebView.m_handle st) true (WebView.m_width st)
                (WebView.m_height st) WebView.Destroyed 0 0 0 0 0 None 0
      ∧ objs w' !! WebView.m_texturePtr st = None
      ∧ (∀ q, objs w !! q = None → objs w' !! q = None)
      ∧ WebView.Shutdown (Some api') st' w' = Some (st', Some api', w').
Proof.
  intros api [handle manager width height state env cc ctl wv hwnd cap tex] w o.
  simpl. intros Hstate -> Hown.
  pose proof (texture_owned_nonnull _ _ _ _ Hown) as Hptr.
  assert (∀ a w', WebView.Shutdown a
            (WebView.mkState handle true width height WebView.Destroyed 0 0 0 0 0 None 0) w'
          = Some (WebView.mkState handle true width height WebView.Destroyed 0 0 0 0 0 None 0,
                  a, w')) as Hagain by done.
  unfold WebView.Shutdown at 1.
  rewrite bool_decide_eq_false_2 by done. simpl.
  rewrite (proj2 (is_null_false _) Hptr). simpl.
  destruct api as [s11|s12]; simpl in *.
  - destruct Hown as (_ & Ho & (W & H & Hk) & Hrefs & _).
    unfold D3D11.DestroySharedTexture. rewrite (proj2 (is_null_false _) Hptr).
    rewrite (proj2 (GetDesc11_Some _ w W H)) by eauto. simpl.
    rewrite (Release_last _ w o Ho) by lia. simpl.
    eexists _, _, _. split; [reflexivity|]. split; [reflexivity|]. simpl.
    split; [apply lookup_delete_eq|]. split; [|apply Hagain].
    intros q Hq. rewrite lookup_delete. by case_decide.
  - destruct (D3D12_destroy_owned _ o s12 w Hown) as (st2 & w2 & -> & _ & Hgone & Hkeep & _).
    simpl. eexists _, _, _. split; [reflexivity|]. split; [reflexivity|].
    split; [done|]. split; [done|]. apply Hagain.
Qed.

(** The bits of the [LPARAM] of a key message. *)
Lemma WebView_key_lParam_bit scanCode isKeyDown n :
  (0 ≤ n)%Z →
  Z.testbit (WebView.key_lParam scanCode isKeyDown) n
  = (n =? 0)%Z
    || ((16 <=? n)%Z && (n <? 32)%Z && Z.testbit scanCode (n - 16))
    || (negb isKeyDown && (30 <=? n)%Z).
Proof.
  intros Hn. unfold WebView.key_lParam.
  assert (Z.testbit (Z.lor (to_UINT (Z.shiftl scanCode 16)) 1) n
          = (n =? 0)%Z || ((16 <=? n)%Z && (n <? 32)%Z && Z.testbit scanCode (n - 16))) as H0.
  { rewrite Z.lor_spec. unfold to_UINT, UINT_modulus.
    assert (Z.testbit 1 n = (n =? 0)%Z) as ->.
    { destruct (Z.eqb_spec n 0) as [->|Hne]; [done|].
      apply (Z.bits_above_log2 1 n); simpl; lia. }
    destruct (Z.ltb_spec n 32).
    - rewrite Z.mod_pow2_bits_low by lia. rewrite Z.shiftl_spec by lia.
      destruct (Z.leb_spec 16 n); simpl.
      + by rewrite orb_comm.
      + rewrite Z.testbit_neg_r by lia. simpl. by rewrite orb_false_r.
    - rewrite Z.mod_pow2_bits_high by lia. simpl.
      rewrite andb_false_r. simpl. by rewrite orb_false_r. }
  destruct isKeyDown; simpl.
  { rewrite H0. by rewrite orb_false_r. }
  rewrite Z.lor_spec, H0. f_equal.
  change (Capture.to_int32 (Z.lor (Z.shiftl 1 30) (Z.shiftl 1 31))) with (- 2 ^ 30)%Z.
  rewrite Z.bits_opp by done.
  replace (Z.pred (2 ^ 30)) with (Z.ones 30) by done.
  destruct (Z.leb_spec 30 n).
  - by rewrite Z.ones_spec_high by lia.
  - by rewrite Z.ones_spec_low by lia.
Qed.

(** X12.  [WebView::SendKeyEvent] on a web view with a host window posts
    one message and returns [Success]: [WM_KEYDOWN] or [WM_KEYUP], their
    system variants for a system key, with the virtual key code as
    [WPARAM].  The [LPARAM] has the repeat count 1 in its low word and
    the low byte of the scan code in bits 16 to 23; for a key that goes
    up, bits 30 and 31 (previous state, transition) are set, and, the
    two bits being or-ed in as a negative [int], so is every bit above
    them; for a key that goes down they are clear, for a scan code below
    [2^14].  Without a host window nothing is posted and the result is
    [ErrorNotInitialized]. *)
Theorem WebView_SendKeyEvent_message :
  ∀ virtualKeyCode scanCode isKeyDown isSystemKey st,
    (WebView.m_hostWindow st = 0%N →
     WebView.SendKeyEvent virtualKeyCode scanCode isKeyDown isSystemKey st
     = (ErrorNotInitialized, None))
    ∧ (WebView.m_hostWindow st ≠ 0%N →
       ∃ lParam,
         WebView.SendKeyEvent virtualKeyCode scanCode isKeyDown isSystemKey st
         = (Success,
            Some (match isKeyDown, isSystemKey with
                  | true, false => WebView.WM_KEYDOWN
                  | true, true => WebView.WM_SYSKEYDOWN
                  | false, false => WebView.WM_KEYUP
                  | false, true => WebView.WM_SYSKEYUP
                  end, virtualKeyCode, lParam))
         ∧ Z.land lParam (Z.ones 16) = 1%Z
         ∧ Z.land (Z.shiftr lParam 16) (Z.ones 8) = Z.land scanCode (Z.ones 8)
         ∧ (isKeyDown = false →
            (∀ n, (30 ≤ n)%Z → Z.testbit lParam n = true) ∧ (lParam < 0)%Z)
         ∧ (isKeyDown = true → (0 ≤ scanCode < 2 ^ 14)%Z →
            Z.testbit lParam 30 = false ∧ Z.testbit lParam 31 = false)).
Proof.
  intros vk sc down sys st. unfold WebView.SendKeyEvent. split.
  { intros ->. done. }
  intros Hwnd. rewrite (proj2 (is_null_false _) Hwnd).
  exists (WebView.key_lParam sc down). split.
  { by destruct down, sys. }
  split.
  { apply Z.bits_inj'. intros n Hn.
    rewrite Z.land_spec, WebView_key_lParam_bit by done.
    assert (Z.testbit 1 n = (n =? 0)%Z) as ->.
    { destruct (Z.eqb_spec n 0) as [->|Hne]; [done|].
      apply (Z.bits_above_log2 1 n); simpl; lia. }
    destruct (Z.ltb_spec n 16).
    - rewrite Z.ones_spec_low by lia.
      destruct (Z.leb_spec 16 n); [lia|]. destruct (Z.leb_spec 30 n); [lia|].
      simpl. rewrite andb_false_r. simpl. by rewrite !orb_false_r, andb_true_r.
    - rewrite Z.ones_spec_high by lia. rewrite andb_false_r.
      destruct (Z.eqb_spec n 0); [lia|done]. }
  split.
  { apply Z.bits_inj'. intros n Hn.
    rewrite !Z.land_spec, Z.shiftr_spec, WebView_key_lParam_bit by lia.
    destruct (Z.ltb_spec n 8).
    - rewrite Z.ones_spec_low by lia. rewrite !andb_true_r.
      destruct (Z.eqb_spec (n + 16) 0); [lia|].
      destruct (Z.leb_spec 16 (n + 16)); [|lia].
      destruct (Z.ltb_spec (n + 16) 32); [|lia].
      destruct (Z.leb_spec 30 (n + 16)); [lia|].
      simpl. rewrite andb_false_r, orb_false_r. f_equal. lia.
    - rewrite Z.ones_spec_high by lia. by rewrite !andb_false_r. }
  split.
  { intros ->. split.
    - intros n Hn. rewrite WebView_key_lParam_bit by lia.
      destruct (Z.leb_spec 30 n); [|lia]. simpl. by rewrite orb_true_r.
    - unfold WebView.key_lParam. apply Z.lor_neg. right. done. }
  intros -> Hsc.
  assert (∀ k, (14 ≤ k)%Z → Z.testbit sc k = false) as Hhigh.
  { intros k Hk. destruct (decide (sc = 0%Z)) as [->|?]; [apply Z.bits_0|].
    apply Z.bits_above_log2; [lia|].
    assert (Z.log2 sc < 14)%Z by (apply Z.log2_lt_pow2; lia). lia. }
  split; rewrite WebView_key_lParam_bit by lia.
  - change (30 - 16)%Z with 14%Z. rewrite Hhigh by lia. done.
  - change (31 - 16)%Z with 15%Z. rewrite Hhigh by lia. done.
Qed.

(** ** The manager *)

Lemma RenderAPI_create_then_destroy W H v a api w r out w1 :
  RenderAPI.CreateSharedTexture W H (Some v) (Some a) api w = Some (r, out, w1) →
  wrappers_of api !! a = None →
  (r = Success ∧ out = Some a ∧ a ≠ 0%N
   ∧ ∃ w2, RenderAPI.DestroySharedTexture a api w1 = Some (api, w2)
           ∧ objs w2 = objs w ∧ handles w2 = handles w ∧ gpu_log w2 = gpu_log w)
  ∨ (r = ErrorNotInitialized ∧ out = Some v ∧ w1 = w).
Proof.
  intros Hc Hcache. destruct api as [st|st]; simpl in *.
  - rewrite D3D11_create_spec in Hc. destruct (is_null (D3D11.m_device st)).
    { right. by injection Hc as <- <- <-. }
    destruct (com_new a _ w) as [w1'|] eqn:Hn; simpl in Hc; [|done].
    injection Hc as <- <- <-. left.
    apply com_new_inv in Hn as (Ha & Hfree & ->).
    split; [done|]. split; [done|]. split; [done|].
    unfold D3D11.DestroySharedTexture, GetDesc11. rewrite (proj2 (is_null_false a) Ha). simpl.
    rewrite lookup_insert_eq. simpl.
    unfold Release. simpl. rewrite lookup_insert_eq. simpl.
    eexists. split; [reflexivity|]. simpl.
    split; [|done]. rewrite delete_insert_eq. by apply delete_id.
  - rewrite D3D12_create_spec in Hc. destruct (is_null (D3D12.m_d3d12Device st)).
    { right. by injection Hc as <- <- <-. }
    destruct (com_new a _ w) as [w1'|] eqn:Hn; simpl in Hc; [|done].
    injection Hc as <- <- <-. left.
    apply com_new_inv in Hn as (Ha & Hfree & ->).
    split; [done|]. split; [done|]. split; [done|].
    unfold D3D12.DestroySharedTexture, D3D12.erase, GetDesc12.
    rewrite (proj2 (is_null_false a) Ha), Hcache. simpl.
    rewrite lookup_insert_eq. simpl.
    unfold Release. simpl. rewrite lookup_insert_eq. simpl.
    eexists. split; [reflexivity|]. simpl.
    split; [|done]. rewrite delete_insert_eq. by apply delete_id.
Qed.

Lemma RenderAPI_create_no_answer W H v api w r out w1 :
  RenderAPI.CreateSharedTexture W H (Some v) None api w = Some (r, out, w1) →
  r ≠ Success ∧ out = Some v ∧ w1 = w.
Proof.
  intros Hc. destruct api as [st|st]; simpl in *.
  - rewrite D3D11_create_spec in Hc.
    destruct (is_null (D3D11.m_device st)); by injection Hc as <- <- <-.
  - rewrite D3D12_create_spec in Hc.
    destruct (is_null (D3D12.m_d3d12Device st)); by injection Hc as <- <- <-.
Qed.

(** What [WebView::Initialize] leaves of a web view that has just been
    constructed, and what the destructor then undoes. *)
Lemma WebView_Initialize_then_Shutdown ans reg handle width height api w r wv reg' w1 :
  WebView.Initialize ans reg (Some api) (WebView.constructed handle width height true) w
  = Some (r, wv, reg', w1) →
  (∀ a, WebView.texture_hr ans = Some a → wrappers_of api !! a = None) →
  WebView.m_handle wv = handle
  ∧ ∃ wv' w2, WebView.Shutdown (Some api) wv w1 = Some (wv', Some api, w2)
              ∧ objs w2 = objs w ∧ handles w2 = handles w ∧ gpu_log w2 = gpu_log w.
Proof.
  unfold WebView.Initialize. intros Hi Hcache.
  destruct (WebView.CreateHostWindow ans reg) as [registered hwnd].
  destruct (is_null hwnd) eqn:Hwnd.
  { injection Hi as <- <- <- <-. split; [done|]. by eexists _, _. }
  simpl in Hi.
  destruct (RenderAPI.CreateSharedTexture width height (Some 0%N) (WebView.texture_hr ans) api w)
    as [[[result out] w1']|] eqn:Hc; simpl in Hi; [|done].
  destruct (WebView.texture_hr ans) as [a|] eqn:Hhr.
  - destruct (RenderAPI_create_then_destroy _ _ _ _ _ _ _ _ _ Hc (Hcache a eq_refl))
      as [(-> & -> & Ha & w2 & Hd & Ho & Hh & Hl)|(-> & -> & ->)].
    + rewrite bool_decide_eq_true_2 in Hi by done. simpl in Hi.
      injection Hi as <- <- <- <-. split; [done|].
      unfold WebView.Shutdown. simpl.
      rewrite (proj2 (is_null_false a) Ha). simpl. rewrite Hd. simpl.
      by eexists _, _.
    + simpl in Hi. injection Hi as <- <- <- <-. split; [done|]. by eexists _, _.
  - apply RenderAPI_create_no_answer in Hc as (Hr & -> & ->).
    rewrite bool_decide_eq_false_2 in Hi by done. simpl in Hi.
    injection Hi as <- <- <- <-. split; [done|]. by eexists _, _.
Qed.

(** X13.  [WebViewManager::CreateWebView] on an initialised manager takes
    the next handle, whether the web view can be created or not, and
    writes it to [outHandle].  While the handles in use are below the
    counter and the counter has not reached [2^32 - 1], the handle is not
    zero and not in use, the web views of the other handles stay, and the
    handle is in use afterwards exactly when the result is [Success]. *)
Theorem WebViewManager_CreateWebView_handle :
  ∀ width height ans m p r out m' p',
    handles_ok m → (WebViewManager.m_nextHandle m < 2 ^ 32 - 1)%Z →
    WebViewManager.m_initialized m = true →
    WebViewManager.CreateWebView width height ans m p = Some (r, out, m', p') →
    out = Some (WebViewManager.m_nextHandle m)
    ∧ WebViewManager.m_nextHandle m ≠ 0%Z
    ∧ WebViewManager.GetWebView (WebViewManager.m_nextHandle m) m = None
    ∧ WebViewManager.m_nextHandle m' = (WebViewManager.m_nextHandle m + 1)%Z
    ∧ handles_ok m'
    ∧ (∀ h, h ≠ WebViewManager.m_nextHandle m →
            WebViewManager.GetWebView h m' = WebViewManager.GetWebView h m)
    ∧ (r = Success ↔ is_Some (WebViewManager.GetWebView (WebViewManager.m_nextHandle m) m')).
Proof.
  intros width height ans m p r out m' p' [Hnext Hkeys] Hmax Hinit.
  assert (WebViewManager.m_instances m !! WebViewManager.m_nextHandle m = None) as Hfree.
  { destruct (WebViewManager.m_instances m !! WebViewManager.m_nextHandle m) eqn:E; [|done].
    assert (1 ≤ WebViewManager.m_nextHandle m < WebViewManager.m_nextHandle m)%Z
      by (apply Hkeys; eauto). lia. }
  assert (UINT_add (WebViewManager.m_nextHandle m) 1 = (WebViewManager.m_nextHandle m + 1)%Z)
    as Hadd.
  { unfold UINT_add, to_UINT, UINT_modulus. apply Z.mod_small. lia. }
  unfold WebViewManager.CreateWebView, WebViewManager.GenerateHandle. rewrite Hinit. simpl.
  destruct (WebView.Initialize _ _ _ _ _) as [[[[result wv] registered] w1]|]; simpl; [|done].
  rewrite Hfree, Hadd.
  destruct (decide (result = Success)) as [->|Hr].
  - simpl. intros [= <- <- <- <-]. simpl.
    split; [done|]. split; [lia|]. split; [done|]. split; [done|].
    split.
    { split; simpl; [lia|]. intros h [x Hx].
      destruct (decide (h = WebViewManager.m_nextHandle m)) as [->|Hne]; [lia|].
      rewrite lookup_insert_ne in Hx by done.
      assert (1 ≤ h < WebViewManager.m_nextHandle m)%Z by (apply Hkeys; eauto). lia. }
    split.
    { intros h Hh. unfold WebViewManager.GetWebView. simpl. by rewrite lookup_insert_ne. }
    split; [intros _|done]. unfold WebViewManager.GetWebView. simpl.
    rewrite lookup_insert_eq. eauto.
  - rewrite bool_decide_eq_false_2 by done. simpl.
    destruct (WebViewManager.destroy_WebView _ _ _) as [p2|]; simpl; [|done].
    intros [= <- <- <- <-]. simpl.
    split; [done|]. split; [lia|]. split; [done|]. split; [done|].
    split.
    { split; simpl; [lia|]. intros h Hx.
      assert (1 ≤ h < WebViewManager.m_nextHandle m)%Z by (by apply Hkeys). lia. }
    split; [done|].
    unfold WebViewManager.GetWebView. simpl. rewrite Hfree.
    split; [done|]. by intros [? ?].
Qed.

Lemma handles_ok_keys m m' :
  handles_ok m →
  WebViewManager.m_nextHandle m' = WebViewManager.m_nextHandle m →
  (∀ h, is_Some (WebViewManager.m_instances m' !! h) →
        is_Some (WebViewManager.m_instances m !! h)) →
  handles_ok m'.
Proof.
  intros [Hnext Hkeys] Hn Hsub. split; rewrite Hn; [done|].
  intros h Hh. apply Hkeys, Hsub, Hh.
Qed.

Lemma restore_each_keys m answers l : ∀ acc p acc' p',
  WebViewManager.restore_each m answers l acc p = Some (acc', p') →
  ∀ h, is_Some (acc' !! h) → is_Some (acc !! h) ∨ h ∈ l.*1.
Proof.
  induction l as [|[h0 wv] l IH]; intros acc p acc' p' H h Hh; simpl in *.
  { injection H as <- <-. by left. }
  destruct (WebView.OnDeviceRestored _ _ _ _) as [[wv' w]|]; simpl in H; [|done].
  destruct (IH _ _ _ _ H h Hh) as [[x Hx]|Hin].
  - apply lookup_insert_Some in Hx as [[<- _]|[_ Hx]]; [right; apply list_elem_of_here|eauto].
  - right. by apply list_elem_of_further.
Qed.

(** X14.  The handles in use stay below the counter: the bound holds
    for a manager as constructed, and [DestroyWebView], [ResizeWebView],
    [OnDeviceLost], [OnDeviceRestored] and [Shutdown] keep it, as
    [CreateWebView] does. *)
Theorem WebViewManager_handles_stay_below_the_counter :
  handles_ok WebViewManager.constructed
  ∧ ∀ m p, handles_ok m →
      (∀ h r m' p', WebViewManager.DestroyWebView h m p = Some (r, m', p') → handles_ok m')
      ∧ (∀ h width height ans r m' p',
           WebViewManager.ResizeWebView h width height ans m p = Some (r, m', p') →
           handles_ok m')
      ∧ (∀ envs, handles_ok (WebViewManager.OnDeviceLost envs m))
      ∧ (∀ answers m' p',
           WebViewManager.OnDeviceRestored answers m p = Some (m', p') → handles_ok m')
      ∧ (∀ m' p', WebViewManager.Shutdown m p = Some (m', p') → handles_ok m').
Proof.
  split.
  { split; simpl; [lia|]. intros h [x Hx]. by rewrite lookup_empty in Hx. }
  intros m p Hok. split; [|split; [|split; [|split]]].
  - intros h r m' p' H. unfold WebViewManager.DestroyWebView in H.
    destruct (WebViewManager.m_instances m !! h) as [wv|] eqn:E; simpl in H.
    + destruct (WebViewManager.destroy_WebView m wv p); simpl in H; [|done].
      injection H as <- <- <-. apply (handles_ok_keys m); [done|done|]. simpl.
      intros h' [x Hx]. apply lookup_delete_Some in Hx as [_ Hx]. eauto.
    + by injection H as <- <- <-.
  - intros h width height ans r m' p' H.
    unfold WebViewManager.ResizeWebView, WebViewManager.GetWebView in H.
    destruct (WebViewManager.m_instances m !! h) as [wv|] eqn:E; simpl in H.
    + destruct (WebView.Resize _ _ _ _ _ _) as [[[[? ?] ?] ?]|]; simpl in H; [|done].
      injection H as <- <- <-. apply (handles_ok_keys m); [done|done|]. simpl.
      intros h' [x Hx]. apply lookup_insert_Some in Hx as [[<- _]|[_ Hx]]; eauto.
    + by injection H as <- <- <-.
  - intros envs. apply (handles_ok_keys m); [done|done|]. simpl.
    intros h [x Hx]. rewrite map_lookup_imap in Hx.
    destruct (WebViewManager.m_instances m !! h) eqn:E; [eauto|done].
  - intros answers m' p' H. unfold WebViewManager.OnDeviceRestored in H.
    destruct (WebViewManager.restore_each _ _ _ _ _) as [[acc' p1]|] eqn:E; simpl in H; [|done].
    injection H as <- <-. apply (handles_ok_keys m); [done|done|]. simpl.
    intros h Hh. destruct (restore_each_keys _ _ _ _ _ _ _ E h Hh) as [?|Hin]; [done|].
    apply list_elem_of_fmap in Hin as ([h' wv] & -> & Hin). simpl.
    apply elem_of_map_to_list in Hin. eauto.
  - intros m' p' H. unfold WebViewManager.Shutdown in H.
    destruct (WebViewManager.m_shutdownComplete m).
    + by injection H as <- <-.
    + destruct (WebViewManager.destroy_all _ _ _); simpl in H; [|done].
      injection H as <- <-. apply (handles_ok_keys m); [done|done|]. simpl.
      intros h [x Hx]. by rewrite lookup_empty in Hx.
Qed.

(** X15.  [WebViewManager::DestroyWebView] returns [Success] exactly for
    a handle in use, and [ErrorInvalidHandle] otherwise, leaving manager
    and process as they are.  After a [Success] the handle is invalid
    and the other handles are as before: a second [DestroyWebView] and
    every delegated call on it report [ErrorInvalidHandle] (the queries
    [false]), post no message and change nothing. *)
Theorem WebViewManager_destroyed_handle_is_invalid :
  ∀ h m p r m' p',
    WebViewManager.DestroyWebView h m p = Some (r, m', p') →
    (r = Success ↔ is_Some (WebViewManager.GetWebView h m))
    ∧ (r ≠ Success → r = ErrorInvalidHandle ∧ m' = m ∧ p' = p)
    ∧ WebViewManager.GetWebView h m' = None
    ∧ (∀ h', h' ≠ h → WebViewManager.GetWebView h' m' = WebViewManager.GetWebView h' m)
    ∧ WebViewManager.DestroyWebView h m' p' = Some (ErrorInvalidHandle, m', p')
    ∧ (∀ width height ans,
         WebViewManager.ResizeWebView h width height ans m' p'
         = Some (ErrorInvalidHandle, m', p'))
    ∧ (∀ hr_ok,
         WebViewManager.Navigate h hr_ok m' = ErrorInvalidHandle
         ∧ WebViewManager.NavigateToString h hr_ok m' = ErrorInvalidHandle
         ∧ WebViewManager.ExecuteScript h hr_ok m' = ErrorInvalidHandle
         ∧ WebViewManager.GoBack h hr_ok m' = ErrorInvalidHandle
         ∧ WebViewManager.GoForward h hr_ok m' = ErrorInvalidHandle)
    ∧ (∀ value,
         WebViewManager.CanGoBack h value m' = false
         ∧ WebViewManager.CanGoForward h value m' = false)
    ∧ (∀ virtualKeyCode scanCode isKeyDown isSystemKey,
         WebViewManager.SendKeyEvent h virtualKeyCode scanCode isKeyDown isSystemKey m'
         = (ErrorInvalidHandle, None))
    ∧ (∀ frame env, WebViewManager.UpdateTexture h frame env m' p' = Some p').
Proof.
  intros h m p r m' p' H.
  assert ((r = Success ↔ is_Some (WebViewManager.GetWebView h m))
          ∧ (r ≠ Success → r = ErrorInvalidHandle ∧ m' = m ∧ p' = p)
          ∧ WebViewManager.m_instances m' !! h = None
          ∧ (∀ h', h' ≠ h → WebViewManager.GetWebView h' m' = WebViewManager.GetWebView h' m))
    as (Hr & Hfail & Hgone & Hother).
  { unfold WebViewManager.DestroyWebView, WebViewManager.GetWebView in *.
    destruct (WebViewManager.m_instances m !! h) as [wv|] eqn:E; simpl in H.
    - destruct (WebViewManager.destroy_WebView m wv p); simpl in H; [|done].
      injection H as <- <- <-. simpl. split; [split; eauto|]. split; [done|].
      split; [apply lookup_delete_eq|]. intros h' Hne. by rewrite lookup_delete_ne.
    - injection H as <- <- <-. split; [split; [done|by intros [? ?]]|]. done. }
  split; [done|]. split; [done|].
  unfold WebViewManager.DestroyWebView, WebViewManager.ResizeWebView, WebViewManager.Navigate,
    WebViewManager.NavigateToString, WebViewManager.ExecuteScript, WebViewManager.GoBack,
    WebViewManager.GoForward, WebViewManager.CanGoBack, WebViewManager.CanGoForward,
    WebViewManager.SendKeyEvent, WebViewManager.UpdateTexture.
  split; [done|]. split; [done|].
  unfold WebViewManager.GetWebView in *. rewrite Hgone. done.
Qed.

(** X16.  A [WebViewManager::CreateWebView] that fails leaves nothing
    behind: the web view is not stored, and the texture it may have
    created by then is destroyed with it, so that the objects of the
    heap, with their reference counts, and the render API are what they
    were.  The handle is used up all the same.  The render API is the
    one of the manager, and has no wrapper cached for the address the
    allocator answers. *)
Theorem WebViewManager_failed_CreateWebView_leaves_nothing :
  ∀ width height ans m p api r out m' p',
    WebViewManager.m_renderAPI m = true → WebViewManager.renderAPI p = Some api →
    (∀ a, WebView.texture_hr ans = Some a → wrappers_of api !! a = None) →
    WebViewManager.CreateWebView width height ans m p = Some (r, out, m', p') →
    r ≠ Success →
    WebViewManager.m_instances m' = WebViewManager.m_instances m
    ∧ objs (WebViewManager.heap p') = objs (WebViewManager.heap p)
    ∧ handles (WebViewManager.heap p') = handles (WebViewManager.heap p)
    ∧ gpu_log (WebViewManager.heap p') = gpu_log (WebViewManager.heap p)
    ∧ WebViewManager.renderAPI p' = Some api
    ∧ (WebViewManager.m_initialized m = true →
       out = Some (WebViewManager.m_nextHandle m)
       ∧ WebViewManager.m_nextHandle m' = UINT_add (WebViewManager.m_nextHandle m) 1).
Proof.
  intros width height ans m p api r out m' p' Hman Hapi Hcache H Hr.
  unfold WebViewManager.CreateWebView, WebViewManager.GenerateHandle in H.
  destruct (WebViewManager.m_initialized m).
  2:{ simpl in H. injection H as <- <- <- <-. done. }
  simpl in H. unfold WebViewManager.GetRenderAPI in H. simpl in H. rewrite Hman, Hapi in H.
  destruct (WebView.Initialize _ _ _ _ _) as [[[[result wv] registered] w1]|] eqn:Hi;
    simpl in H; [|done].
  destruct (WebView_Initialize_then_Shutdown _ _ _ _ _ _ _ _ _ _ _ Hi Hcache)
    as (_ & wv' & w2 & Hs & Ho & Hh & Hl).
  destruct (decide (result = Success)) as [->|Hres].
  { simpl in H.
    destruct (match WebViewManager.m_instances m !! WebViewManager.m_nextHandle m with
              | Some old => _ | None => _ end); simpl in H; [|done].
    by injection H as <- _ _ _. }
  rewrite bool_decide_eq_false_2 in H by done. simpl in H.
  unfold WebViewManager.destroy_WebView, WebViewManager.GetRenderAPI in H. simpl in H.
  rewrite Hman, Hapi, Hs in H. simpl in H.
  injection H as <- <- <- <-. simpl. done.
Qed.

(** X17.  A web view that [CreateWebView] has created and
    [DestroyWebView] destroys at once leaves nothing behind:
    [DestroyWebView] returns [Success] for the handle, the manager has
    the web views it had, and the objects of the heap, with their
    reference counts, and the render API are what they were before the
    creation.  The handles in use are below the counter; the render API
    is the one of the manager, and has no wrapper cached for the address
    the allocator answers. *)
Theorem WebViewManager_create_destroy_round_trip :
  ∀ width height ans m p api out m1 p1,
    handles_ok m →
    WebViewManager.m_renderAPI m = true → WebViewManager.renderAPI p = Some api →
    (∀ a, WebView.texture_hr ans = Some a → wrappers_of api !! a = None) →
    WebViewManager.CreateWebView width height ans m p = Some (Success, out, m1, p1) →
    ∃ handle m2 p2,
      out = Some handle
      ∧ WebViewManager.DestroyWebView handle m1 p1 = Some (Success, m2, p2)
      ∧ WebViewManager.m_instances m2 = WebViewManager.m_instances m
      ∧ objs (WebViewManager.heap p2) = objs (WebViewManager.heap p)
      ∧ handles (WebViewManager.heap p2) = handles (WebViewManager.heap p)
      ∧ gpu_log (WebViewManager.heap p2) = gpu_log (WebViewManager.heap p)
      ∧ WebViewManager.renderAPI p2 = Some api.
Proof.
  intros width height ans m p api out m1 p1 [Hnext Hkeys] Hman Hapi Hcache H.
  assert (WebViewManager.m_instances m !! WebViewManager.m_nextHandle m = None) as Hfree.
  { destruct (WebViewManager.m_instances m !! WebViewManager.m_nextHandle m) eqn:E; [|done].
    assert (1 ≤ WebViewManager.m_nextHandle m < WebViewManager.m_nextHandle m)%Z
      by (apply Hkeys; eauto). lia. }
  unfold WebViewManager.CreateWebView, WebViewManager.GenerateHandle in H.
  destruct (WebViewManager.m_initialized m); [|done].
  simpl in H. unfold WebViewManager.GetRenderAPI in H. simpl in H. rewrite Hman, Hapi in H.
  destruct (WebView.Initialize _ _ _ _ _) as [[[[result wv] registered] w1]|] eqn:Hi;
    simpl in H; [|done].
  destruct (WebView_Initialize_then_Shutdown _ _ _ _ _ _ _ _ _ _ _ Hi Hcache)
    as (_ & wv' & w2 & Hs & Ho & Hh & Hl).
  destruct (decide (result = Success)) as [->|Hres].
  2:{ rewrite bool_decide_eq_false_2 in H by done. simpl in H.
      destruct (WebViewManager.destroy_WebView _ _ _); simpl in H; [|done].
      by injection H as -> _ _ _. }
  simpl in H. rewrite Hfree in H. simpl in H. injection H as <- <- <-.
  eexists _, _, _. split; [reflexivity|].
  unfold WebViewManager.DestroyWebView. simpl. rewrite lookup_insert_eq.
  unfold WebViewManager.destroy_WebView, WebViewManager.GetRenderAPI. simpl.
  rewrite Hman, Hapi, Hs. simpl.
  split; [reflexivity|]. simpl.
  split; [|done]. rewrite delete_insert_eq. by apply delete_id.
Qed.

Lemma destroy_WebView_statics m wv p p' :
  WebViewManager.destroy_WebView m wv p = Some p' →
  WebViewManager.s_isShuttingDown p' = WebViewManager.s_isShuttingDown p.
Proof.
  unfold WebViewManager.destroy_WebView.
  destruct (WebView.Shutdown _ _ _) as [[[? ?] ?]|]; simpl; [|done].
  intros [= <-]. by destruct (WebViewManager.m_renderAPI m).
Qed.

Lemma destroy_all_statics m l : ∀ p p',
  WebViewManager.destroy_all m l p = Some p' →
  WebViewManager.s_isShuttingDown p' = WebViewManager.s_isShuttingDown p.
Proof.
  induction l as [|wv l IH]; intros p p' H; simpl in H.
  { by injection H as <-. }
  destruct (WebViewManager.destroy_WebView m wv p) as [p1|] eqn:E; simpl in H; [|done].
  rewrite (IH _ _ H). by apply destroy_WebView_statics in E.
Qed.

Lemma CreateWebView_shutdownComplete width height ans m p r out m' p' :
  WebViewManager.CreateWebView width height ans m p = Some (r, out, m', p') →
  WebViewManager.m_shutdownComplete m' = WebViewManager.m_shutdownComplete m.
Proof.
  unfold WebViewManager.CreateWebView, WebViewManager.GenerateHandle.
  destruct (WebViewManager.m_initialized m); simpl; [|by intros [= _ _ <- _]].
  destruct (WebView.Initialize _ _ _ _ _) as [[[[result wv] registered] w1]|]; simpl; [|done].
  destruct (bool_decide (result = Success)); simpl.
  - destruct (match WebViewManager.m_instances m !! WebViewManager.m_nextHandle m with
              | Some old => _ | None => _ end); simpl; [|done].
    by intros [= _ _ <- _].
  - destruct (WebViewManager.destroy_WebView _ _ _); simpl; [|done]. by intros [= _ _ <- _].
Qed.

(** X18.  [WebViewManager::Shutdown] does its work once in the life of a
    manager.  The first call that returns leaves the manager without web
    views, not initialised, and the process shutting down.  [Initialize]
    can succeed again after that, but [m_shutdownComplete] stays set, so
    that no later call of [Shutdown], the one in the destructor included,
    does anything: the manager then stays initialised, with the web views
    it has. *)
Theorem WebViewManager_Shutdown_only_once :
  ∀ m p m1 p1,
    WebViewManager.m_shutdownComplete m = false →
    WebViewManager.Shutdown m p = Some (m1, p1) →
    WebViewManager.m_instances m1 = ∅
    ∧ WebViewManager.IsInitialized m1 = false
    ∧ WebViewManager.IsShuttingDown p1 = true
    ∧ WebViewManager.Shutdown m1 p1 = Some (m1, p1)
    ∧ ∀ renderAPI_arg apartment controller_ok r m2 p2,
        WebViewManager.Initialize renderAPI_arg apartment controller_ok m1 p1 = (r, m2, p2) →
        WebViewManager.IsShuttingDown p2 = false
        ∧ (r = Success ↔ WebViewManager.IsInitialized m2 = true)
        ∧ ∀ width height ans r3 out m3 p3,
            WebViewManager.CreateWebView width height ans m2 p2 = Some (r3, out, m3, p3) →
            WebViewManager.Shutdown m3 p3 = Some (m3, p3).
Proof.
  intros m p m1 p1 Hsc H. unfold WebViewManager.Shutdown in H. rewrite Hsc in H.
  destruct (WebViewManager.destroy_all _ _ _) as [pd|] eqn:Hd; simpl in H; [|done].
  injection H as <- <-. apply destroy_all_statics in Hd. simpl in Hd.
  split; [done|]. split; [done|]. split; [done|]. split; [done|].
  intros renderAPI_arg apartment controller_ok r m2 p2 Hi.
  assert (WebViewManager.IsShuttingDown p2 = false
          ∧ (r = Success ↔ WebViewManager.IsInitialized m2 = true)
          ∧ WebViewManager.m_shutdownComplete m2 = true) as (H1 & H2 & H3).
  { unfold WebViewManager.Initialize in Hi. simpl in Hi.
    destruct (if renderAPI_arg then _ else _) as [api|].
    2:{ by injection Hi as <- <- <-. }
    destruct (RenderAPI.IsInitialized api); simpl in Hi.
    2:{ by injection Hi as <- <- <-. }
    unfold WebViewManager.InitializeWinRT in Hi. simpl in Hi.
    destruct apartment, (WebViewManager.s_dispatcherQueueController pd), controller_ok;
      simpl in Hi; by injection Hi as <- <- <-. }
  split; [done|]. split; [done|].
  intros width height ans r3 out m3 p3 Hc.
  apply CreateWebView_shutdownComplete in Hc.
  unfold WebViewManager.Shutdown. by rewrite Hc, H3.
Qed.

(** ** The plugin and the exported functions *)

(** What a render API that has just been created holds after the
    initialise event. *)
Lemma RenderAPI_initialize_holds dx12 api created env11 env12 wait w a w1 :
  objs w !! 0%N = None →
  RenderAPI.CreateRenderAPI dx12 api = Some created →
  RenderAPI.ProcessDeviceEvent kUnityGfxDeviceEventInitialize env11 env12 wait created w
  = Some (a, w1) →
  holds (RenderAPI_members a) w w1 ∧ wrappers_of a = ∅
  ∧ RenderAPI.GetAPIType a = api
  ∧ ((RenderAPI_event a = 0%N ∧ handles w1 = handles w)
     ∨ (is_null (RenderAPI_event a) = false ∧ (RenderAPI_event a ∉ handles w)
        ∧ handles w1 = {[RenderAPI_event a]} ∪ handles w)).
Proof.
  intros Hnull Hc Hp. unfold RenderAPI.CreateRenderAPI in Hc.
  destruct (Z.eqb_spec api RenderAPI.GraphicsAPI_Direct3D11) as [->|Hne].
  - injection Hc as <-. unfold RenderAPI.ProcessDeviceEvent in Hp.
    destruct (D3D11.ProcessDeviceEvent kUnityGfxDeviceEventInitialize env11 D3D11.initial w)
      as [[st1 w1']|] eqn:E; simpl in Hp; [|done].
    injection Hp as <- <-.
    destruct (D3D11_initialize_holds _ _ _ _ _ Hnull (or_introl eq_refl) E) as (H & Hh & _).
    simpl. split; [done|]. split; [done|]. split; [done|]. by left.
  - destruct dx12; simpl in Hc; [|done].
    destruct (Z.eqb_spec api RenderAPI.GraphicsAPI_Direct3D12) as [->|Hne2]; [|done].
    injection Hc as <-. unfold RenderAPI.ProcessDeviceEvent, D3D12.ProcessDeviceEvent in Hp.
    destruct (D3D12.initialize env12 D3D12.initial w) as [[st1 w1']|] eqn:E; simpl in Hp; [|done].
    injection Hp as <- <-.
    destruct (D3D12_initialize_holds _ 0%Z _ _ _ E) as (H & Hcache & _ & _ & Hh).
    simpl. split; [done|]. split; [done|]. split; [done|]. done.
Qed.

(** The destructor of a render API gives back what its members hold. *)
Lemma RenderAPI_destroy_holds wait a w0 w :
  heap_ok w0 → holds (RenderAPI_members a) w0 w → wrappers_of a = ∅ →
  ∃ w2, RenderAPI.destroy wait a w = Some w2 ∧ objs w2 = objs w0
        ∧ handles w2 = (if is_null (RenderAPI_event a) then handles w
                        else handles w ∖ {[RenderAPI_event a]}).
Proof.
  intros Hok H Hc. destruct a as [st|st]; simpl in *.
  - destruct (D3D11_ReleaseResources_holds st w0 w Hok H) as (w2 & -> & Ho & Hh & _).
    simpl. eauto.
  - destruct (D3D12_ReleaseResources_holds wait st w0 w Hok H Hc) as (fv & w2 & -> & Ho & Hh).
    simpl. eauto.
Qed.

Lemma RenderAPI_created_holds dx12 api created w :
  RenderAPI.CreateRenderAPI dx12 api = Some created →
  holds (RenderAPI_members created) w w ∧ wrappers_of created = ∅
  ∧ RenderAPI.GetAPIType created = api ∧ RenderAPI_event created = 0%N
  ∧ RenderAPI.IsInitialized created = false.
Proof.
  intros Hc. unfold RenderAPI.CreateRenderAPI in Hc.
  destruct (Z.eqb_spec api RenderAPI.GraphicsAPI_Direct3D11) as [->|Hne].
  - injection Hc as <-. simpl. split; [apply holds_refl|done].
  - destruct dx12; simpl in Hc; [|done].
    destruct (Z.eqb_spec api RenderAPI.GraphicsAPI_Direct3D12) as [->|Hne2]; [|done].
    injection Hc as <-. simpl. split; [apply holds_refl|done].
Qed.

(** [WebViewManager::Initialize] on a manager as constructed. *)
Lemma WebViewManager_Initialize_constructed apartment controller_ok p api r m p2 :
  WebViewManager.renderAPI p = Some api →
  WebViewManager.Initialize true apartment controller_ok WebViewManager.constructed p
  = (r, m, p2) →
  WebViewManager.heap p2 = WebViewManager.heap p
  ∧ WebViewManager.renderAPI p2 = Some api
  ∧ WebViewManager.s_isShuttingDown p2 = false
  ∧ r ≠ ErrorUnsupportedGraphicsAPI
  ∧ ((r = Success ∧ m = WebViewManager.mkState true false true ∅ 1 0 0 0 0
      ∧ RenderAPI.IsInitialized api = true)
     ∨ (r ≠ Success ∧ m = WebViewManager.constructed)).
Proof.
  intros Hapi. unfold WebViewManager.Initialize. simpl. rewrite Hapi.
  destruct (RenderAPI.IsInitialized api); simpl.
  2:{ intros [= <- <- <-]. simpl. repeat split; try done. by right. }
  unfold WebViewManager.InitializeWinRT. simpl.
  destruct apartment, (WebViewManager.s_dispatcherQueueController p), controller_ok; simpl;
    intros [= <- <- <-]; simpl; repeat split; try done; (by left) || (by right).
Qed.

(** X19.  A [Plugin::Initialize] that fails leaves nothing behind.  The
    plugin has no render API and no manager afterwards, whichever step
    failed, and the objects of the heap, with their reference counts, and
    the open event handles are what they were: what the render API had
    acquired from the host's device is given back.  [g_currentAPI] keeps
    the value asked for, and, unless the graphics API was refused as
    unsupported, the process is left marked as shutting down by the
    destructor of the manager.  The plugin has no render API and no
    manager at the start; every object of the heap is referenced, and
    nothing lives at the null address. *)
Theorem Plugin_failed_Initialize_leaves_nothing :
  ∀ api ans s p r s' p',
    heap_ok (WebViewManager.heap p) →
    WebViewManager.renderAPI p = None → Plugin.g_webViewManager s = None →
    Plugin.Initialize api ans s p = Some (r, s', p') → r ≠ Success →
    WebViewManager.renderAPI p' = None ∧ Plugin.g_webViewManager s' = None
    ∧ Plugin.IsInitialized p' = false
    ∧ objs (WebViewManager.heap p') = objs (WebViewManager.heap p)
    ∧ handles (WebViewManager.heap p') = handles (WebViewManager.heap p)
    ∧ Plugin.g_currentAPI s' = api
    ∧ (r = ErrorUnsupportedGraphicsAPI ↔
       RenderAPI.CreateRenderAPI (Plugin.WEBVIEW_TOOLKIT_DX12_SUPPORT ans) api = None)
    ∧ (r ≠ ErrorUnsupportedGraphicsAPI → WebViewManager.IsShuttingDown p' = true).
Proof.
  intros api ans s p r s' p' Hok Hnone Hman H Hr.
  unfold Plugin.Initialize in H. rewrite Hnone in H.
  destruct (RenderAPI.CreateRenderAPI _ api) as [created|] eqn:Hc.
  2:{ injection H as <- <- <-. simpl. unfold Plugin.IsInitialized. rewrite Hnone.
      repeat split; try done. }
  simpl in H.
  assert (∃ a w1, (if Plugin.g_unityInterfaces s
                   then Plugin.ProcessDeviceEvent kUnityGfxDeviceEventInitialize
                          (Plugin.set_currentAPI api s) ans created (WebViewManager.heap p)
                   else Some (created, WebViewManager.heap p)) = Some (a, w1)
                  ∧ holds (RenderAPI_members a) (WebViewManager.heap p) w1
                  ∧ wrappers_of a = ∅
                  ∧ ((RenderAPI_event a = 0%N ∧ handles w1 = handles (WebViewManager.heap p))
                     ∨ (is_null (RenderAPI_event a) = false
                        ∧ (RenderAPI_event a ∉ handles (WebViewManager.heap p))
                        ∧ handles w1 = {[RenderAPI_event a]} ∪ handles (WebViewManager.heap p))))
    as (a & w1 & Hinit & Hholds & Hcache & Hev).
  { destruct (Plugin.g_unityInterfaces s) eqn:Hu.
    - destruct (Plugin.ProcessDeviceEvent _ _ _ _ _) as [[a w1]|] eqn:E; [|done].
      unfold Plugin.ProcessDeviceEvent in E.
      destruct (RenderAPI_initialize_holds _ _ _ _ _ _ _ _ _ (proj1 Hok) Hc E)
        as (? & ? & _ & ?).
      by exists a, w1.
    - destruct (RenderAPI_created_holds _ _ _ (WebViewManager.heap p) Hc)
        as (? & ? & _ & ? & _).
      exists created, (WebViewManager.heap p). repeat split; try done. by left. }
  rewrite Hinit in H. simpl in H. rewrite Hman in H.
  destruct (WebViewManager.Initialize _ _ _ _ _) as [[result m] p2] eqn:Hi.
  apply (WebViewManager_Initialize_constructed _ _ _ a) in Hi
    as (Hheap & Hapi & _ & Hsup & [(-> & _ & _)|(Hres & ->)]); [| |done].
  { simpl in H. by injection H as <- _ _. }
  rewrite bool_decide_eq_false_2 in H by done. simpl in H.
  unfold WebViewManager.Shutdown in H. simpl in H.
  rewrite map_to_list_empty in H. simpl in H. rewrite Hapi, Hheap in H. simpl in H.
  destruct (RenderAPI_destroy_holds (Plugin.wait ans) a _ w1 Hok Hholds Hcache)
    as (w4 & Hd & Ho & Hh).
  rewrite Hd in H. simpl in H. injection H as <- <- <-. simpl.
  split; [done|]. split; [done|]. split; [done|]. split; [done|].
  split.
  { rewrite Hh. destruct Hev as [[-> ->]|(-> & Hnin & ->)]; [done|].
    apply set_eq. intros x. rewrite elem_of_difference, elem_of_union, elem_of_singleton.
    split; [by intros [[->|?] ?]|]. intros Hx. split; [by right|]. by intros ->. }
  split; [done|]. split; [|done].
  split; [done|done].
Qed.

(** What a [Plugin::Initialize] that succeeds has done. *)
Lemma Plugin_Initialize_inv api ans s p s' p' :
  objs (WebViewManager.heap p) !! 0%N = None →
  Plugin.Initialize api ans s p = Some (Success, s', p') →
  WebViewManager.renderAPI p = None ∧ Plugin.g_unityInterfaces s = true
  ∧ ∃ a,
      WebViewManager.renderAPI p' = Some a
      ∧ RenderAPI.GetAPIType a = api ∧ RenderAPI.IsInitialized a = true
      ∧ holds (RenderAPI_members a) (WebViewManager.heap p) (WebViewManager.heap p')
      ∧ s' = Plugin.mkState
               (Some (WebViewManager.mkState true false true ∅ 1 0
                        (Plugin.g_navigationCallback s) (Plugin.g_messageCallback s) 0))
               true api (Plugin.g_logCallback s) (Plugin.g_navigationCallback s)
               (Plugin.g_messageCallback s)
      ∧ WebViewManager.s_isShuttingDown p' = false.
Proof.
  intros Hnull H. unfold Plugin.Initialize in H.
  destruct (WebViewManager.renderAPI p) eqn:Hnone.
  { destruct (Plugin.g_webViewManager s); [|done].
    by destruct (WebViewManager.Initialize _ _ _ _ _) as [[? ?] ?]. }
  destruct (RenderAPI.CreateRenderAPI _ api) as [created|] eqn:Hc; [|done].
  simpl in H.
  destruct (Plugin.g_unityInterfaces s) eqn:Hu.
  - destruct (Plugin.ProcessDeviceEvent _ _ _ _ _) as [[a w1]|] eqn:E; simpl in H; [|done].
    unfold Plugin.ProcessDeviceEvent in E.
    destruct (RenderAPI_initialize_holds _ _ _ _ _ _ _ _ _ Hnull Hc E) as (Hh & _ & Ht & _).
    destruct (Plugin.g_webViewManager s) eqn:Hman; [done|].
    destruct (WebViewManager.Initialize _ _ _ _ _) as [[result m] p2] eqn:Hi.
    apply (WebViewManager_Initialize_constructed _ _ _ a) in Hi
      as (Hheap & Hapi & Hflag & _ & [(-> & -> & Hinit)|(Hres & ->)]); [| |done].
    2:{ rewrite bool_decide_eq_false_2 in H by done. simpl in H.
        destruct (WebViewManager.Shutdown _ _) as [[? p3]|]; simpl in H; [|done].
        destruct (WebViewManager.renderAPI p3); simpl in H; [|done].
        destruct (RenderAPI.destroy _ _ _); simpl in H; [|done].
        by injection H as -> _ _. }
    simpl in H. injection H as <- <-.
    split; [done|]. split; [done|]. exists a.
    split; [done|]. split; [done|]. split; [done|]. split; [by rewrite Hheap|].
    split; [|done]. destruct s as [mg ui ca lc nc mc]. simpl in *. subst.
    destruct (is_null nc) eqn:Hn, (is_null mc) eqn:Hm; simpl;
      try apply is_null_true in Hn; try apply is_null_true in Hm; by subst.
  - simpl in H. destruct (Plugin.g_webViewManager s) eqn:Hman; [done|].
    destruct (WebViewManager.Initialize _ _ _ _ _) as [[result m] p2] eqn:Hi.
    apply (WebViewManager_Initialize_constructed _ _ _ created) in Hi
      as (Hheap & Hapi & Hflag & _ & [(-> & -> & Hinit)|(Hres & ->)]); [| |done].
    { destruct (RenderAPI_created_holds _ _ _ (WebViewManager.heap p) Hc)
        as (_ & _ & _ & _ & Hf). congruence. }
    rewrite bool_decide_eq_false_2 in H by done. simpl in H.
    destruct (WebViewManager.Shutdown _ _) as [[? p3]|]; simpl in H; [|done].
    destruct (WebViewManager.renderAPI p3); simpl in H; [|done].
    destruct (RenderAPI.destroy _ _ _); simpl in H; [|done].
    by injection H as -> _ _.
Qed.

(** X20.  After a [Plugin::Initialize] that returns [Success] the plugin
    has a render API of the type asked for, initialised on the host's
    device, and a manager that is initialised, bound to that render API,
    without web views and with 1 as its next handle; the process is not
    shutting down.  Of the callbacks set before, the manager has the
    navigation and the message callback; it has no log callback and no
    device event callback, whatever was set.  [Success] is possible only
    when the plugin had no render API and has been loaded by the host.
    Nothing lives at the null address. *)
Theorem Plugin_Initialize_Success :
  ∀ api ans s p s' p',
    objs (WebViewManager.heap p) !! 0%N = None →
    Plugin.Initialize api ans s p = Some (Success, s', p') →
    WebViewManager.renderAPI p = None ∧ Plugin.g_unityInterfaces s = true
    ∧ Plugin.IsInitialized p' = true ∧ WebViewManager.IsShuttingDown p' = false
    ∧ Plugin.g_currentAPI s' = api
    ∧ (∃ a, WebViewManager.renderAPI p' = Some a ∧ RenderAPI.GetAPIType a = api)
    ∧ ∃ m, Plugin.GetWebViewManager s' = Some m
           ∧ WebViewManager.IsInitialized m = true
           ∧ WebViewManager.GetRenderAPI m p' = WebViewManager.renderAPI p'
           ∧ WebViewManager.m_instances m = ∅
           ∧ WebViewManager.m_nextHandle m = 1%Z
           ∧ WebViewManager.m_navigationCallback m = Plugin.g_navigationCallback s
           ∧ WebViewManager.m_messageCallback m = Plugin.g_messageCallback s
           ∧ WebViewManager.m_logCallback m = 0%N
           ∧ WebViewManager.m_deviceEventCallback m = 0%N.
Proof.
  intros api ans s p s' p' Hnull H.
  destruct (Plugin_Initialize_inv _ _ _ _ _ _ Hnull H)
    as (Hnone & Hu & a & Hapi & Ht & Hinit & _ & -> & Hflag).
  split; [done|]. split; [done|].
  split; [unfold Plugin.IsInitialized; by rewrite Hapi|].
  split; [done|]. split; [done|]. split; [eauto|].
  eexists. split; [reflexivity|]. done.
Qed.

(** X21.  [Plugin::Shutdown] gives up the render API without deleting
    it.  After an [Initialize] that succeeded it returns; the plugin has
    no manager and no render API, its callbacks and [g_currentAPI] are
    cleared, the process is shutting down; a second [Shutdown] does
    nothing.  The heap is the one before the [Shutdown]: every reference
    the render API took during [Initialize] is still counted.  Every
    object of the heap is referenced, and nothing lives at the null
    address. *)
Theorem Plugin_Shutdown_abandons_the_render_API :
  ∀ api ans s p s1 p1,
    heap_ok (WebViewManager.heap p) →
    Plugin.Initialize api ans s p = Some (Success, s1, p1) →
    ∃ a s2 p2,
      WebViewManager.renderAPI p1 = Some a
      ∧ Plugin.Shutdown s1 p1 = Some (s2, p2)
      ∧ s2 = Plugin.mkState None true RenderAPI.GraphicsAPI_Unknown 0 0 0
      ∧ WebViewManager.renderAPI p2 = None
      ∧ Plugin.IsInitialized p2 = false
      ∧ WebViewManager.IsShuttingDown p2 = true
      ∧ WebViewManager.heap p2 = WebViewManager.heap p1
      ∧ holds (RenderAPI_members a) (WebViewManager.heap p) (WebViewManager.heap p2)
      ∧ Plugin.Shutdown s2 p2 = Some (s2, p2).
Proof.
  intros api ans s p s1 p1 Hok H.
  destruct (Plugin_Initialize_inv _ _ _ _ _ _ (proj1 Hok) H)
    as (Hnone & Hu & a & Hapi & Ht & Hinit & Hholds & -> & Hflag).
  exists a. unfold Plugin.Shutdown. simpl.
  unfold WebViewManager.Shutdown. simpl. rewrite map_to_list_empty. simpl.
  eexists _, _. split; [done|]. split; [reflexivity|]. simpl.
  repeat split; done.
Qed.

(** X22.  Once [WebViewToolkit_SignalApplicationQuit] has been called,
    the exported calls on web views do nothing: those that return a
    result return [ErrorNotInitialized] (-3), [CreateWebView] without
    writing a handle; the queries return 0, [GetTexturePtr] the null
    pointer; no key message is posted, and the render event for all
    textures updates none.  A [WebViewToolkit_Initialize] on a plugin
    that is initialised returns [ErrorAlreadyInitialized] (-4) and ends
    that state. *)
Theorem Exports_refuse_after_SignalApplicationQuit :
  ∀ s p,
    let p' := Exports.WebViewToolkit_SignalApplicationQuit p in
    (∀ width height outHandle ans,
       Exports.WebViewToolkit_CreateWebView width height outHandle ans s p'
       = Some ((-3)%Z, outHandle, s, p'))
    ∧ (∀ handle, Exports.WebViewToolkit_DestroyWebView handle s p' = Some ((-3)%Z, s, p'))
    ∧ (∀ handle width height ans,
         Exports.WebViewToolkit_Resize handle width height ans s p' = Some ((-3)%Z, s, p'))
    ∧ (∀ handle, Exports.WebViewToolkit_GetTexturePtr handle s p' = 0%N)
    ∧ (∀ handle hr_ok,
         Exports.WebViewToolkit_Navigate handle hr_ok s p' = (-3)%Z
         ∧ Exports.WebViewToolkit_NavigateToString handle hr_ok s p' = (-3)%Z
         ∧ Exports.WebViewToolkit_ExecuteScript handle hr_ok s p' = (-3)%Z
         ∧ Exports.WebViewToolkit_GoBack handle hr_ok s p' = (-3)%Z
         ∧ Exports.WebViewToolkit_GoForward handle hr_ok s p' = (-3)%Z)
    ∧ (∀ handle value,
         Exports.WebViewToolkit_CanGoBack handle value s p' = 0%Z
         ∧ Exports.WebViewToolkit_CanGoForward handle value s p' = 0%Z)
    ∧ (∀ handle virtualKeyCode scanCode isKeyDown isSystemKey,
         Exports.WebViewToolkit_SendKeyEvent handle virtualKeyCode scanCode isKeyDown
           isSystemKey s p' = ((-3)%Z, None))
    ∧ (∀ eventID try_lock frames envs,
         Plugin.OnRenderEvent eventID try_lock frames envs s p' = Some p')
    ∧ (∀ graphicsAPI ans m,
         Plugin.g_webViewManager s = Some m → is_Some (WebViewManager.renderAPI p) →
         ∃ s'' p'',
           Exports.WebViewToolkit_Initialize graphicsAPI ans s p' = Some ((-4)%Z, s'', p'')
           ∧ WebViewManager.IsShuttingDown p'' = false).
Proof.
  intros s p p'.
  split; [done|]. split; [done|]. split; [done|]. split; [done|].
  split; [done|]. split; [done|]. split; [done|].
  split.
  { intros eventID try_lock frames envs.
    unfold Plugin.OnRenderEvent. destruct (_ =? _)%Z; [|done].
    by destruct (Plugin.g_webViewManager s). }
  intros graphicsAPI ans m Hm [a Ha].
  unfold Exports.WebViewToolkit_Initialize, Plugin.Initialize. simpl.
  rewrite Ha, Hm.
  destruct (WebViewManager.Initialize _ _ _ _ _) as [[r m'] p2] eqn:Hi. simpl.
  eexists _, _. split; [reflexivity|].
  unfold WebViewManager.Initialize in Hi. simpl in Hi.
  destruct (WebViewManager.m_initialized m); [by injection Hi as <- <- <-|].
  rewrite Ha in Hi.
  destruct (RenderAPI.IsInitialized a); simpl in Hi; [|by injection Hi as <- <- <-].
  unfold WebViewManager.InitializeWinRT in Hi. simpl in Hi.
  destruct (Plugin.apartment ans), (WebViewManager.s_dispatcherQueueController p),
    (Plugin.controller_ok ans); simpl in Hi; by injection Hi as <- <- <-.
Qed.

(** ** The web view: becoming ready, losing the device *)

(** What an [Initialize] of the web view that returns [Success] leaves. *)
Lemma WebView_Initialize_Success_inv ans reg api handle width height w st1 reg' w1 :
  WebView.Initialize ans reg (Some api) (WebView.constructed handle width height true) w
  = Some (Success, st1, reg', w1) →
  ∃ hwnd a,
    hwnd ≠ 0%N ∧ a ≠ 0%N ∧ WebView.texture_hr ans = Some a
    ∧ st1 = WebView.mkState handle true width height WebView.CreatingEnvironment
              0 0 0 0 hwnd None a
    ∧ is_Some (objs w1 !! a).
Proof.
  unfold WebView.Initialize. intros Hi.
  destruct (WebView.CreateHostWindow ans reg) as [registered hwnd].
  destruct (is_null hwnd) eqn:Hwnd; [done|]. apply is_null_false in Hwnd.
  simpl in Hi.
  destruct (RenderAPI.CreateSharedTexture width height (Some 0%N) (WebView.texture_hr ans) api w)
    as [[[result out] w1']|] eqn:Hc; simpl in Hi; [|done].
  destruct (decide (result = Success)) as [->|Hr].
  2:{ rewrite bool_decide_eq_false_2 in Hi by done. simpl in Hi. by injection Hi as -> _ _ _. }
  simpl in Hi. destruct (WebView.CreateEnvironment_ok ans); [|done].
  injection Hi as <- <- <-.
  destruct (WebView.texture_hr ans) as [a|] eqn:Hhr.
  2:{ by apply RenderAPI_create_no_answer in Hc as (? & _). }
  assert (out = Some a ∧ a ≠ 0%N ∧ is_Some (objs w1' !! a)) as (-> & Ha & Hlive).
  { destruct api as [s|s]; simpl in Hc;
      [rewrite D3D11_create_spec in Hc; destruct (is_null (D3D11.m_device s))
      |rewrite D3D12_create_spec in Hc; destruct (is_null (D3D12.m_d3d12Device s))];
      try done;
      (destruct (com_new a _ w) as [wn|] eqn:Hn; simpl in Hc; [|done]);
      injection Hc as <- <-; apply com_new_inv in Hn as (? & ? & ->); simpl;
      rewrite lookup_insert_eq; eauto. }
  exists hwnd, a. done.
Qed.

(** X23.  The way of a web view to [Ready].  After an [Initialize] that
    returns [Success] the web view has its window and its texture and
    waits for the environment; the handler of the environment makes it
    wait for the controller; until the handler of the controller has
    run, every call that needs the browser returns
    [ErrorNotInitialized], the queries [false], and so does [Resize].
    The handler of the controller makes the web view [Ready] exactly
    when the controller was created and gives its controller and its
    [CoreWebView2]; the web view then has a capture session and the
    texture of its initialisation, and the calls reach the browser.
    Otherwise it is in the state [Error], without capture session, and
    the calls keep returning [ErrorNotInitialized]. *)
Theorem WebView_ready_after_both_handlers :
  ∀ ans reg api handle width height w st1 reg' w1 environmentPtr st2
    result_ok controllerPtr cans st3,
    WebView.Initialize ans reg (Some api) (WebView.constructed handle width height true) w
    = Some (Success, st1, reg', w1) →
    environmentPtr ≠ 0%N →
    st2 = WebView.OnEnvironmentCreated true environmentPtr true st1 →
    WebView.OnCompositionControllerCreated result_ok controllerPtr cans (Some api) st2
    = Some st3 →
    WebView.m_state st1 = WebView.CreatingEnvironment
    ∧ WebView.m_state st2 = WebView.CreatingController
    ∧ WebView.m_hostWindow st1 ≠ 0%N
    ∧ WebView.m_texturePtr st1 ≠ 0%N ∧ is_Some (objs w1 !! WebView.m_texturePtr st1)
    ∧ (∀ st, st = st1 ∨ st = st2 ∨ (st = st3 ∧ WebView.IsReady st3 = false) →
         (∀ hr_ok,
            WebView.Navigate hr_ok st = ErrorNotInitialized
            ∧ WebView.NavigateToString hr_ok st = ErrorNotInitialized
            ∧ WebView.ExecuteScript hr_ok st = ErrorNotInitialized
            ∧ WebView.GoBack hr_ok st = ErrorNotInitialized
            ∧ WebView.GoForward hr_ok st = ErrorNotInitialized)
         ∧ (∀ value, WebView.CanGoBack value st = false
                     ∧ WebView.CanGoForward value st = false))
    ∧ (∀ st, st = st1 ∨ st = st2 →
         ∀ width' height' rans a' w',
           WebView.Resize width' height' rans a' st w'
           = Some (ErrorNotInitialized, st, a', w'))
    ∧ (WebView.IsReady st3 = true ↔
       result_ok = true ∧ controllerPtr ≠ 0%N
       ∧ is_Some (WebView.QueryInterface_Controller cans)
       ∧ is_Some (WebView.get_CoreWebView2 cans))
    ∧ (WebView.IsReady st3 = true →
       is_Some (WebView.m_capture st3)
       ∧ WebView.m_texturePtr st3 = WebView.m_texturePtr st1
       ∧ WebView.m_controller st3 ≠ 0%N
       ∧ WebView.Navigate true st3 = Success
       ∧ WebView.Navigate false st3 = ErrorNavigationFailed
       ∧ WebView.ExecuteScript true st3 = Success
       ∧ WebView.ExecuteScript false st3 = ErrorUnknown)
    ∧ (WebView.IsReady st3 = false →
       WebView.m_state st3 = WebView.Error ∧ WebView.m_capture st3 = None).
Proof.
  intros ans reg api handle width height w st1 reg' w1 environmentPtr st2
    result_ok controllerPtr cans st3 Hi Henv -> Hc.
  destruct (WebView_Initialize_Success_inv _ _ _ _ _ _ _ _ _ _ Hi)
    as (hwnd & a & Hwnd & Ha & _ & -> & Hlive).
  unfold WebView.OnEnvironmentCreated in *. simpl in *.
  rewrite (proj2 (is_null_false _) Henv) in *. simpl in *.
  split; [done|]. split; [done|]. split; [done|]. split; [done|]. split; [done|].
  unfold WebView.OnCompositionControllerCreated in Hc.
  destruct result_ok; simpl in Hc.
  2:{ injection Hc as <-. split.
      { intros st [->|[->|[-> _]]]; done. }
      split; [by intros st [->| ->]|].
      split; [split; [done|by intros [? _]]|]. done. }
  destruct (is_null controllerPtr) eqn:Hctl; simpl in Hc.
  { injection Hc as <-. apply is_null_true in Hctl. split.
    { intros st [->|[->|[-> _]]]; done. }
    split; [by intros st [->| ->]|].
    split; [split; [done|by intros (_ & ? & _)]|]. done. }
  apply is_null_false in Hctl.
  destruct (WebView.QueryInterface_Controller cans) as [controller|].
  2:{ injection Hc as <-. split.
      { intros st [->|[->|[-> _]]]; done. }
      split; [by intros st [->| ->]|].
      split; [split; [done|by intros (_ & _ & [? ?] & _)]|]. done. }
  destruct (is_null controller) eqn:Hcn; [done|]. apply is_null_false in Hcn.
  destruct (WebView.get_CoreWebView2 cans) as [webView|].
  2:{ injection Hc as <-. split.
      { intros st [->|[->|[-> _]]]; done. }
      split; [by intros st [->| ->]|].
      split; [split; [done|by intros (_ & _ & _ & [? ?])]|]. done. }
  destruct (is_null webView) eqn:Hwv; [done|].
  simpl in Hc. injection Hc as <-. simpl. split.
  { intros st [->|[->|[-> ?]]]; done. }
  split; [by intros st [->| ->]|].
  unfold WebView.Navigate, WebView.ExecuteScript. simpl. rewrite Hwv.
  split; [split; [eauto|done]|]. split; [|done].
  intros _. repeat split; eauto.
Qed.

(** X24.  [WebView::OnDeviceLost] shuts the capture session down, if
    the web view has one, drops the texture pointer without destroying
    the texture and puts the web view in the state [Error]; every other
    member stays as it is.  The session is what [WebViewCapture::Shutdown]
    leaves of it: the state its constructor leaves when no [Close]
    throws.  [WebView::OnDeviceRestored], on a web view that is not
    destroyed, be it after a loss or not, takes a new texture from the
    initialised render API, declares the web view [Ready], whatever its
    state was, and initialises the capture session again, on the capture
    device of the render API; nothing is released, so that a texture the
    web view still had stays in the heap.  When the texture cannot be
    created the web view is left as it was.  The allocator's answer is an
    address that is not null and not in use. *)
Theorem WebView_device_lost_and_restored :
  ∀ lost ans api st w,
    WebView.m_state st ≠ WebView.Destroyed → WebView.m_manager st = true →
    RenderAPI.IsInitialized api = true →
    (∀ a, WebView.restore_texture_hr ans = Some a → a ≠ 0%N ∧ objs w !! a = None) →
    WebView.OnDeviceLost lost st
    = WebView.mkState (WebView.m_handle st) (WebView.m_manager st) (WebView.m_width st)
        (WebView.m_height st) WebView.Error (WebView.m_environment st)
        (WebView.m_compositionController st) (WebView.m_controller st)
        (WebView.m_webView st) (WebView.m_hostWindow st)
        (Capture.Shutdown lost <$> WebView.m_capture st) 0
    ∧ (Capture.session_Close lost = true → Capture.framePool_Close lost = true →
       WebView.m_capture (WebView.OnDeviceLost lost st)
       = (λ _, Capture.constructed) <$> WebView.m_capture st)
    ∧ ∀ st0, st0 = st ∨ st0 = WebView.OnDeviceLost lost st →
        ∃ st2 w2,
          WebView.OnDeviceRestored ans (Some api) st0 w = Some (st2, w2)
          ∧ match WebView.restore_texture_hr ans with
            | Some a =>
                WebView.m_texturePtr st2 = a ∧ WebView.IsReady st2 = true
                ∧ WebView.m_capture st2
                  = (λ c, snd (Capture.Initialize
                                 (Some (Capture.mkWebView true (WebView.m_environment st0)
                                          (WebView.m_compositionController st0)
                                          (WebView.m_hostWindow st0)
                                          (WebView.m_width st0) (WebView.m_height st0)))
                                 (Capture.with_GetCaptureD3D11Device
                                    (RenderAPI.GetCaptureD3D11Device api)
                                    (WebView.restore_capture ans)) c))
                    <$> WebView.m_capture st0
                ∧ ∃ o, objs w2 = <[a := o]> (objs w) ∧ o_refs o = 1
            | None => st2 = st0 ∧ w2 = w
            end.
Proof.
  intros lost ans api st w Hstate Hman Hinit Hfresh.
  split.
  { unfold WebView.OnDeviceLost.
    destruct st as [handle manager width height state env cc ctl wv hwnd [cap|] tex]; done. }
  split.
  { intros Hs Hf. unfold WebView.OnDeviceLost.
    destruct (WebView.m_capture st) as [c|] eqn:E; simpl; [|by rewrite E].
    f_equal. destruct lost as [sc fc]. simpl in Hs, Hf. subst sc fc.
    destruct c as [c r v t item pool session d].
    unfold Capture.Shutdown, Capture.try_catch_all. simpl.
    by destruct session, pool, item, c, r, v, t, d. }
  intros st0 Hst0.
  assert (WebView.m_state st0 ≠ WebView.Destroyed ∧ WebView.m_manager st0 = true)
    as [Hs0 Hm0].
  { destruct Hst0 as [->| ->]; [done|].
    unfold WebView.OnDeviceLost. by destruct (WebView.m_capture st). }
  clear Hst0 Hstate Hman.
  unfold WebView.OnDeviceRestored, WebView.GetRenderAPI.
  rewrite bool_decide_eq_false_2 by done. rewrite Hm0, Hinit. simpl.
  destruct (WebView.restore_texture_hr ans) as [a|] eqn:Hhr.
  - destruct (Hfresh a eq_refl) as [Ha Hfree].
    assert (∃ k, RenderAPI.CreateSharedTexture (WebView.m_width st0) (WebView.m_height st0)
                   (Some (WebView.m_texturePtr st0)) (Some a) api w
                 = Some (Success, Some a,
                         mkWorld (<[a := mkComObj (next_serial w) 1 k]> (objs w))
                           (N.succ (next_serial w)) (handles w) (gpu_log w))) as [k ->].
    { destruct api as [s|s]; simpl in *.
      - rewrite D3D11_create_spec. unfold D3D11.IsInitialized in Hinit.
        destruct (is_null (D3D11.m_device s)); [done|].
        rewrite com_new_Some by done. simpl. eauto.
      - rewrite D3D12_create_spec. unfold D3D12.IsInitialized in Hinit.
        destruct (is_null (D3D12.m_d3d12Device s)); [done|].
        rewrite com_new_Some by done. simpl. eauto. }
    simpl. destruct (WebView.m_capture st0) eqn:E; simpl;
      eexists _, _; (split; [reflexivity|]); simpl; repeat split; eauto.
  - destruct (RenderAPI.CreateSharedTexture _ _ _ None api w) as [[[r out] w1]|] eqn:Hc.
    2:{ exfalso. destruct api as [s|s]; simpl in Hc;
          [rewrite D3D11_create_spec in Hc; by destruct (is_null (D3D11.m_device s))
          |rewrite D3D12_create_spec in Hc; by destruct (is_null (D3D12.m_d3d12Device s))]. }
    apply RenderAPI_create_no_answer in Hc as (Hr & -> & ->). simpl.
    rewrite bool_decide_eq_false_2 by done. simpl.
    eexists _, _. split; [reflexivity|]. split; [by destruct st0|done].
Qed.

(** ** The plugin keeps its manager and its render API together *)

Lemma WebView_Shutdown_keeps_api api wv w wv' api' w' :
  WebView.Shutdown api wv w = Some (wv', api', w') → is_Some api → is_Some api'.
Proof.
  unfold WebView.Shutdown. destruct (bool_decide _); [by intros [= _ <- _]|].
  simpl. destruct (negb _ && _); simpl.
  - destruct api as [a|]; [|by intros _ [? ?]].
    destruct (RenderAPI.DestroySharedTexture _ a w) as [[a' w1]|]; simpl; [|done].
    intros [= _ <- _] _. eauto.
  - by intros [= _ <- _].
Qed.

Lemma WebView_Resize_keeps_api width height ans api wv w r wv' api' w' :
  WebView.Resize width height ans api wv w = Some (r, wv', api', w') →
  is_Some api → is_Some api'.
Proof.
  unfold WebView.Resize. destruct (is_null _); [by intros [= _ _ <- _]|].
  simpl. destruct (negb _ && _); simpl.
  - destruct api as [a|]; [|by intros _ [? ?]].
    destruct (RenderAPI.ResizeSharedTexture _ _ _ _ _ _ a w) as [[[[? ?] a'] w1]|]; simpl;
      [|done].
    intros [= _ _ <- _] _. eauto.
  - by intros [= _ _ <- _].
Qed.

Lemma WebView_UpdateTexture_keeps_api frame env api wv w api' w' :
  WebView.UpdateTexture frame env api wv w = Some (api', w') → is_Some api → is_Some api'.
Proof.
  unfold WebView.UpdateTexture. destruct (WebView.m_capture wv); [|by intros [= <- _]].
  destruct (is_null _); [by intros [= <- _]|].
  unfold Capture.UpdateTexture. destruct (_ || _); [by intros [= <- _]|].
  destruct frame; try by intros [= <- _].
  destruct (is_null _); [by intros [= <- _]|].
  destruct (AddRef _ w) as [w1|]; simpl; [|done].
  destruct api as [a|]; simpl; [|done].
  destruct (RenderAPI.CopyCapturedTextureToUnityTexture _ _ _ _ a w1) as [[a' w2]|]; simpl;
    [|done].
  destruct (Release _ w2); simpl; [|done]. intros [= <- _] _. eauto.
Qed.

Lemma destroy_WebView_keeps_api m wv p p' :
  WebViewManager.destroy_WebView m wv p = Some p' →
  is_Some (WebViewManager.renderAPI p) → is_Some (WebViewManager.renderAPI p').
Proof.
  unfold WebViewManager.destroy_WebView, WebViewManager.GetRenderAPI.
  destruct (WebView.Shutdown _ wv _) as [[[wv' api'] w']|] eqn:E; simpl; [|done].
  intros [= <-] Hp. destruct (WebViewManager.m_renderAPI m); simpl; [|done].
  by apply (WebView_Shutdown_keeps_api _ _ _ _ _ _ E).
Qed.

Lemma destroy_all_keeps_api m l : ∀ p p',
  WebViewManager.destroy_all m l p = Some p' →
  is_Some (WebViewManager.renderAPI p) → is_Some (WebViewManager.renderAPI p').
Proof.
  induction l as [|wv l IH]; intros p p' H Hp; simpl in H.
  { by injection H as <-. }
  destruct (WebViewManager.destroy_WebView m wv p) as [p1|] eqn:E; simpl in H; [|done].
  apply (IH _ _ H). by apply (destroy_WebView_keeps_api _ _ _ _ E).
Qed.

Lemma WebViewManager_Shutdown_keeps_api m p m' p' :
  WebViewManager.Shutdown m p = Some (m', p') →
  is_Some (WebViewManager.renderAPI p) → is_Some (WebViewManager.renderAPI p').
Proof.
  unfold WebViewManager.Shutdown. destruct (WebViewManager.m_shutdownComplete m).
  { by intros [= _ <-]. }
  destruct (WebViewManager.destroy_all _ _ _) as [p2|] eqn:E; simpl; [|done].
  intros [= _ <-] Hp. by apply (destroy_all_keeps_api _ _ _ _ E).
Qed.

Lemma WebViewManager_Initialize_keeps_api arg apartment controller_ok m p r m' p' :
  WebViewManager.Initialize arg apartment controller_ok m p = (r, m', p') →
  WebViewManager.renderAPI p' = WebViewManager.renderAPI p.
Proof.
  unfold WebViewManager.Initialize, WebViewManager.InitializeWinRT. intros H.
  repeat case_match; simplify_eq/=; done.
Qed.

Lemma CreateWebView_keeps_api width height ans m p r out m' p' :
  WebViewManager.CreateWebView width height ans m p = Some (r, out, m', p') →
  is_Some (WebViewManager.renderAPI p) → is_Some (WebViewManager.renderAPI p').
Proof.
  unfold WebViewManager.CreateWebView, WebViewManager.GenerateHandle.
  destruct (WebViewManager.m_initialized m); simpl; [|by intros [= _ _ _ <-]].
  destruct (WebView.Initialize _ _ _ _ _) as [[[[result wv] registered] w1]|]; simpl; [|done].
  destruct (bool_decide (result = Success)); simpl.
  - destruct (WebViewManager.m_instances m !! WebViewManager.m_nextHandle m) as [old|].
    + destruct (WebViewManager.destroy_WebView _ old _) as [p2|] eqn:E; simpl; [|done].
      intros [= _ _ _ <-] Hp. by apply (destroy_WebView_keeps_api _ _ _ _ E).
    + simpl. by intros [= _ _ _ <-].
  - destruct (WebViewManager.destroy_WebView _ wv _) as [p2|] eqn:E; simpl; [|done].
    intros [= _ _ _ <-] Hp. by apply (destroy_WebView_keeps_api _ _ _ _ E).
Qed.

Lemma DestroyWebView_keeps_api handle m p r m' p' :
  WebViewManager.DestroyWebView handle m p = Some (r, m', p') →
  is_Some (WebViewManager.renderAPI p) → is_Some (WebViewManager.renderAPI p').
Proof.
  unfold WebViewManager.DestroyWebView.
  destruct (WebViewManager.m_instances m !! handle) as [wv|]; [|by intros [= _ _ <-]].
  destruct (WebViewManager.destroy_WebView m wv p) as [p2|] eqn:E; simpl; [|done].
  intros [= _ _ <-] Hp. by apply (destroy_WebView_keeps_api _ _ _ _ E).
Qed.

Lemma ResizeWebView_keeps_api handle width height ans m p r m' p' :
  WebViewManager.ResizeWebView handle width height ans m p = Some (r, m', p') →
  is_Some (WebViewManager.renderAPI p) → is_Some (WebViewManager.renderAPI p').
Proof.
  unfold WebViewManager.ResizeWebView, WebViewManager.GetRenderAPI.
  destruct (WebViewManager.GetWebView handle m) as [wv|]; [|by intros [= _ _ <-]].
  destruct (WebView.Resize _ _ _ _ wv _) as [[[[r' wv'] api'] w']|] eqn:E; simpl; [|done].
  intros [= _ _ <-] Hp. destruct (WebViewManager.m_renderAPI m); simpl; [|done].
  by apply (WebView_Resize_keeps_api _ _ _ _ _ _ _ _ _ _ E).
Qed.

Lemma UpdateTexture_keeps_api handle frame env m p p' :
  WebViewManager.UpdateTexture handle frame env m p = Some p' →
  is_Some (WebViewManager.renderAPI p) → is_Some (WebViewManager.renderAPI p').
Proof.
  unfold WebViewManager.UpdateTexture, WebViewManager.GetRenderAPI.
  destruct (WebViewManager.GetWebView handle m) as [wv|]; [|by intros [= <-]].
  destruct (WebView.UpdateTexture _ _ _ wv _) as [[api' w']|] eqn:E; simpl; [|done].
  intros [= <-] Hp. destruct (WebViewManager.m_renderAPI m); simpl; [|done].
  by apply (WebView_UpdateTexture_keeps_api _ _ _ _ _ _ _ E).
Qed.

Lemma update_each_keeps_api m frames envs l : ∀ p p',
  WebViewManager.update_each m frames envs l p = Some p' →
  is_Some (WebViewManager.renderAPI p) → is_Some (WebViewManager.renderAPI p').
Proof.
  induction l as [|[h wv] l IH]; intros p p' H Hp; simpl in H.
  { by injection H as <-. }
  unfold WebViewManager.GetRenderAPI in H.
  destruct (WebView.UpdateTexture _ _ _ wv _) as [[api' w']|] eqn:E; simpl in H; [|done].
  apply (IH _ _ H). destruct (WebViewManager.m_renderAPI m); simpl; [|done].
  by apply (WebView_UpdateTexture_keeps_api _ _ _ _ _ _ _ E).
Qed.

Lemma restore_each_keeps_api m answers l : ∀ acc p acc' p',
  WebViewManager.restore_each m answers l acc p = Some (acc', p') →
  WebViewManager.renderAPI p' = WebViewManager.renderAPI p.
Proof.
  induction l as [|[h wv] l IH]; intros acc p acc' p' H; simpl in H.
  { by injection H as _ <-. }
  destruct (WebView.OnDeviceRestored _ _ wv _) as [[wv' w']|]; simpl in H; [|done].
  by rewrite (IH _ _ _ _ H).
Qed.

(** X25.  The plugin has a manager only while it has a render API: the
    manager's pointer to the render API never outlives it.  This holds
    when the plugin is loaded, and [Initialize], [Shutdown], the graphics
    device events, the render events, the callback setters and the
    exported calls that create, destroy and resize web views keep it. *)
Theorem Plugin_has_a_manager_only_with_a_render_API :
  (∀ p, Plugin_consistent Plugin.loaded p)
  ∧ ∀ s p, Plugin_consistent s p →
      (∀ api ans r s' p',
         Plugin.Initialize api ans s p = Some (r, s', p') → Plugin_consistent s' p')
      ∧ (∀ s' p', Plugin.Shutdown s p = Some (s', p') → Plugin_consistent s' p')
      ∧ (∀ e ans lost restored s' p',
           Plugin.OnGraphicsDeviceEvent e ans lost restored s p = Some (s', p') →
           Plugin_consistent s' p')
      ∧ (∀ graphics renderer ans lost restored s' p',
           Plugin.UnityPluginLoad graphics renderer ans lost restored s p = Some (s', p') →
           Plugin_consistent s' p')
      ∧ (∀ eventID try_lock frames envs p',
           Plugin.OnRenderEvent eventID try_lock frames envs s p = Some p' →
           Plugin_consistent s p')
      ∧ (∀ eventID data frame env p',
           Plugin.OnRenderEventAndData eventID data frame env s p = Some p' →
           Plugin_consistent s p')
      ∧ (∀ callback,
           Plugin_consistent (Plugin.SetLogCallback callback s) p
           ∧ Plugin_consistent (Plugin.SetNavigationCallback callback s) p
           ∧ Plugin_consistent (Plugin.SetMessageCallback callback s) p
           ∧ Plugin_consistent (Plugin.SetDeviceEventCallback callback s) p)
      ∧ (∀ width height outHandle ans rv out' s' p',
           Exports.WebViewToolkit_CreateWebView width height outHandle ans s p
           = Some (rv, out', s', p') → Plugin_consistent s' p')
      ∧ (∀ handle rv s' p',
           Exports.WebViewToolkit_DestroyWebView handle s p = Some (rv, s', p') →
           Plugin_consistent s' p')
      ∧ (∀ handle width height ans rv s' p',
           Exports.WebViewToolkit_Resize handle width height ans s p = Some (rv, s', p') →
           Plugin_consistent s' p').
Proof.
  split; [by intros p [? ?]|].
  intros s p Hc.
  assert (∀ e ans lost restored s0 s' p',
            Plugin.g_webViewManager s0 = Plugin.g_webViewManager s →
            Plugin.OnGraphicsDeviceEvent e ans lost restored s0 p = Some (s', p') →
            Plugin_consistent s' p') as Hevent.
  { intros e ans lost restored s0 s' p' Hs0 H. unfold Plugin.OnGraphicsDeviceEvent in H.
    destruct (match WebViewManager.renderAPI p with Some api => _ | None => _ end)
      as [p1|] eqn:E1; simpl in H; [|done].
    assert (is_Some (WebViewManager.renderAPI p) → is_Some (WebViewManager.renderAPI p1))
      as Hp1.
    { intros [a Ha]. rewrite Ha in E1.
      destruct (Plugin.ProcessDeviceEvent _ _ _ _ _) as [[a' w']|]; simpl in E1; [|done].
      injection E1 as <-. simpl. eauto. }
    rewrite Hs0 in H. unfold Plugin_consistent in Hc.
    destruct (Plugin.g_webViewManager s) as [m|] eqn:Hm.
    2:{ injection H as <- <-. intros [x Hx]. rewrite Hs0 in Hx. done. }
    specialize (Hp1 (Hc ltac:(eauto))).
    destruct e.
    - destruct (WebViewManager.OnDeviceRestored _ _ _) as [[m' p2]|] eqn:E2; simpl in H; [|done].
      injection H as <- <-. intros _. unfold WebViewManager.OnDeviceRestored in E2.
      destruct (WebViewManager.restore_each _ _ _ _ _) as [[acc p3]|] eqn:E3; simpl in E2;
        [|done].
      injection E2 as _ <-. by rewrite (restore_each_keeps_api _ _ _ _ _ _ _ E3).
    - injection H as <- <-. by intros _.
    - injection H as <- <-. by intros _.
    - destruct (WebViewManager.OnDeviceRestored _ _ _) as [[m' p2]|] eqn:E2; simpl in H; [|done].
      injection H as <- <-. intros _. unfold WebViewManager.OnDeviceRestored in E2.
      destruct (WebViewManager.restore_each _ _ _ _ _) as [[acc p3]|] eqn:E3; simpl in E2;
        [|done].
      injection E2 as _ <-. by rewrite (restore_each_keeps_api _ _ _ _ _ _ _ E3).
    - injection H as <- <-. by intros _. }
  split.
  { intros api ans r s' p' H. unfold Plugin.Initialize in H.
    destruct (WebViewManager.renderAPI p) as [a|] eqn:Ha.
    - destruct (Plugin.g_webViewManager s) as [m|] eqn:Hm.
      + destruct (WebViewManager.Initialize _ _ _ m p) as [[r' m'] p1] eqn:Hi.
        injection H as _ <- <-. intros _.
        rewrite (WebViewManager_Initialize_keeps_api _ _ _ _ _ _ _ _ Hi), Ha. eauto.
      + injection H as _ <- <-. intros _. rewrite Ha. eauto.
    - assert (Plugin.g_webViewManager s = None) as Hm.
      { destruct (Plugin.g_webViewManager s) eqn:E; [|done].
        destruct (Hc ltac:(eauto)) as [? ?]. congruence. }
      destruct (RenderAPI.CreateRenderAPI _ api) as [created|].
      2:{ injection H as _ <- <-. intros [x Hx]. simpl in Hx. by rewrite Hm in Hx. }
      simpl in H.
      destruct (if Plugin.g_unityInterfaces s then _ else _) as [[a1 w1]|]; simpl in H; [|done].
      rewrite Hm in H.
      destruct (WebViewManager.Initialize _ _ _ _ _) as [[result m] p2] eqn:Hi.
      apply WebViewManager_Initialize_keeps_api in Hi. simpl in Hi.
      destruct (negb _).
      + destruct (WebViewManager.Shutdown m p2) as [[? p3]|]; simpl in H; [|done].
        destruct (WebViewManager.renderAPI p3); simpl in H; [|done].
        destruct (RenderAPI.destroy _ _ _); simpl in H; [|done].
        injection H as _ <- <-. by intros [? ?].
      + injection H as _ <- <-. intros _. rewrite Hi. eauto. }
  split.
  { intros s' p' H. unfold Plugin.Shutdown in H.
    destruct (Plugin.g_webViewManager s) as [m|] eqn:Hm.
    - destruct (WebViewManager.Shutdown m p) as [[m' p1]|]; simpl in H; [|done].
      injection H as <- <-. by intros [? ?].
    - destruct (WebViewManager.renderAPI p) eqn:Ha; simpl in H.
      + injection H as <- <-. by intros [? ?].
      + injection H as <- <-. intros [x Hx]. by rewrite Hm in Hx. }
  split; [intros e ans lost restored s' p' H; by apply (Hevent _ _ _ _ s _ _ eq_refl H)|].
  split.
  { intros graphics renderer ans lost restored s' p' H. unfold Plugin.UnityPluginLoad in H.
    destruct (graphics && renderer).
    - eapply Hevent; [|exact H]. done.
    - injection H as <- <-. exact Hc. }
  split.
  { intros eventID try_lock frames envs p' H Hs. specialize (Hc Hs).
    unfold Plugin.OnRenderEvent in H. destruct (_ =? _)%Z; [|by injection H as <-].
    destruct (Plugin.g_webViewManager s) as [m|]; [|by injection H as <-].
    destruct (_ && _); [|by injection H as <-].
    unfold WebViewManager.UpdateAllTextures in H.
    destruct (negb try_lock); [by injection H as <-|].
    by apply (update_each_keeps_api _ _ _ _ _ _ H). }
  split.
  { intros eventID data frame env p' H Hs. specialize (Hc Hs).
    unfold Plugin.OnRenderEventAndData in H. destruct (_ =? _)%Z; [|by injection H as <-].
    destruct (Plugin.g_webViewManager s) as [m|]; [|by injection H as <-].
    destruct (is_null data); [by injection H as <-|].
    by apply (UpdateTexture_keeps_api _ _ _ _ _ _ H). }
  split.
  { intros callback. unfold Plugin_consistent in *. simpl.
    repeat split; intros [x Hx]; apply Hc;
      by destruct (Plugin.g_webViewManager s); [eauto|]. }
  split.
  { intros width height outHandle ans rv out' s' p' H.
    unfold Exports.WebViewToolkit_CreateWebView in H.
    destruct (WebViewManager.IsShuttingDown p); [by injection H as _ _ <- <-|].
    unfold Plugin.GetWebViewManager in H.
    destruct (Plugin.g_webViewManager s) as [m|] eqn:Hm; [|by injection H as _ _ <- <-].
    destruct outHandle; [|by injection H as _ _ <- <-].
    destruct (WebViewManager.CreateWebView _ _ _ m p) as [[[[r o] m'] p1]|] eqn:E; simpl in H;
      [|done].
    injection H as _ _ <- <-. intros _.
    apply (CreateWebView_keeps_api _ _ _ _ _ _ _ _ _ E). apply Hc. eauto. }
  split.
  { intros handle rv s' p' H. unfold Exports.WebViewToolkit_DestroyWebView in H.
    destruct (WebViewManager.IsShuttingDown p); [by injection H as _ <- <-|].
    unfold Plugin.GetWebViewManager in H.
    destruct (Plugin.g_webViewManager s) as [m|] eqn:Hm; [|by injection H as _ <- <-].
    destruct (WebViewManager.DestroyWebView _ m p) as [[[r m'] p1]|] eqn:E; simpl in H; [|done].
    injection H as _ <- <-. intros _.
    apply (DestroyWebView_keeps_api _ _ _ _ _ _ E). apply Hc. eauto. }
  intros handle width height ans rv s' p' H. unfold Exports.WebViewToolkit_Resize in H.
  destruct (WebViewManager.IsShuttingDown p); [by injection H as _ <- <-|].
  unfold Plugin.GetWebViewManager in H.
  destruct (Plugin.g_webViewManager s) as [m|] eqn:Hm; [|by injection H as _ <- <-].
  destruct (WebViewManager.ResizeWebView _ _ _ _ m p) as [[[r m'] p1]|] eqn:E; simpl in H;
    [|done].
  injection H as _ <- <-. intros _.
  apply (ResizeWebView_keeps_api _ _ _ _ _ _ _ _ _ E). apply Hc. eauto.
Qed.

Lemma Result_value_Success r : Result_value r = 0%Z ↔ r = Success.
Proof. by destruct r. Qed.

(** X26.  [WebViewToolkit_CreateWebView] writes the handle to
    [outHandle] only when it returns 0; with a null [outHandle] it
    returns [ErrorNotInitialized] (-3) and creates nothing.  After a
    result of 0 the handle written is the one the manager gave out, and
    [WebViewToolkit_GetTexturePtr] returns for it a pointer that is not
    null and denotes a live object of the heap.  The handles in use are
    below the manager's counter. *)
Theorem Exports_CreateWebView_handle_and_texture :
  ∀ width height outHandle ans s p rv out' s' p',
    (∀ m, Plugin.g_webViewManager s = Some m → handles_ok m) →
    Exports.WebViewToolkit_CreateWebView width height outHandle ans s p
    = Some (rv, out', s', p') →
    (rv ≠ 0%Z → out' = outHandle)
    ∧ (outHandle = None → rv = (-3)%Z ∧ s' = s ∧ p' = p)
    ∧ (rv = 0%Z →
       ∃ m handle,
         Plugin.g_webViewManager s = Some m
         ∧ handle = WebViewManager.m_nextHandle m ∧ out' = Some handle
         ∧ Exports.WebViewToolkit_GetTexturePtr handle s' p' ≠ 0%N
         ∧ is_Some (objs (WebViewManager.heap p')
                      !! Exports.WebViewToolkit_GetTexturePtr handle s' p')).
Proof.
  intros width height outHandle ans s p rv out' s' p' Hok H.
  unfold Exports.WebViewToolkit_CreateWebView, Plugin.GetWebViewManager in H.
  destruct (WebViewManager.IsShuttingDown p) eqn:Hsd.
  { injection H as <- <- <- <-. done. }
  destruct (Plugin.g_webViewManager s) as [m|] eqn:Hm.
  2:{ injection H as <- <- <- <-. done. }
  destruct outHandle as [v|].
  2:{ injection H as <- <- <- <-. done. }
  destruct (WebViewManager.CreateWebView _ _ _ m p) as [[[[result handle] m'] p1]|] eqn:Hc;
    simpl in H; [|done].
  injection H as <- <- <- <-.
  split.
  { intros Hrv. rewrite bool_decide_eq_false_2; [done|].
    intros ->. by apply Hrv. }
  split; [done|].
  intros ->%Result_value_Success. simpl.
  destruct (Hok m eq_refl) as [Hnext Hkeys].
  assert (WebViewManager.m_instances m !! WebViewManager.m_nextHandle m = None) as Hfree.
  { destruct (WebViewManager.m_instances m !! WebViewManager.m_nextHandle m) eqn:E; [|done].
    assert (1 ≤ WebViewManager.m_nextHandle m < WebViewManager.m_nextHandle m)%Z
      by (apply Hkeys; eauto). lia. }
  unfold WebViewManager.CreateWebView, WebViewManager.GenerateHandle in Hc.
  destruct (WebViewManager.m_initialized m); [|done].
  simpl in Hc. unfold WebViewManager.GetRenderAPI in Hc. simpl in Hc.
  destruct (WebView.Initialize _ _ _ _ _) as [[[[result wv] registered] w1]|] eqn:Hi;
    simpl in Hc; [|done].
  destruct (decide (result = Success)) as [->|Hres].
  2:{ rewrite bool_decide_eq_false_2 in Hc by done. simpl in Hc.
      destruct (WebViewManager.destroy_WebView _ _ _); simpl in Hc; [|done].
      by injection Hc as -> _ _ _. }
  simpl in Hc. rewrite Hfree in Hc. simpl in Hc. injection Hc as <- <- <-.
  destruct (if WebViewManager.m_renderAPI m then WebViewManager.renderAPI p else None)
    as [api|] eqn:Hapi.
  2:{ unfold WebView.Initialize in Hi.
      destruct (WebView.CreateHostWindow _ _) as [? hwnd].
      destruct (is_null hwnd); by simpl in Hi. }
  destruct (WebView_Initialize_Success_inv _ _ _ _ _ _ _ _ _ _ Hi)
    as (hwnd & a & _ & Ha & _ & -> & Hlive).
  exists m, (WebViewManager.m_nextHandle m).
  split; [done|]. split; [done|]. split; [done|].
  unfold Exports.WebViewToolkit_GetTexturePtr, Plugin.GetWebViewManager,
    WebViewManager.GetWebView, WebViewManager.IsShuttingDown in *. simpl.
  rewrite Hsd, lookup_insert_eq. simpl. done.
Qed.

(** ** Witnesses *)

Lemma D3D12_texture_lifecycle_round_trip_witness :
  ∃ w1 st2 w2 w3 w4,
    D3D12.CreateSharedTexture 4 3 (Some 0%N) (Some 80%N) ex_st12 ex_w12
    = Some (Success, Some 80%N, w1)
    ∧ D3D12.BeginRenderToTexture 80 (Some 81%N) ex_st12 w1 = Some (st2, w2)
    ∧ D3D12.EndRenderToTexture 80 st2 w2 = Some w3
    ∧ D3D12.DestroySharedTexture 80 st2 w3 = Some (ex_st12, w4)
    ∧ objs w4 = objs ex_w12 ∧ handles w4 = handles ex_w12.
Proof.
  destruct (D3D12_texture_lifecycle_round_trip 4 3 0 80 81 ex_st12 ex_w12)
    as (w1 & st2 & w2 & w3 & w4 & H1 & H2 & _ & H3 & H4 & H5 & H6 & _).
  - reflexivity.
  - reflexivity.
  - reflexivity.
  - vm_compute. reflexivity.
  - intros [=].
  - vm_compute. reflexivity.
  - intros [=].
  - intros [=].
  - vm_compute. reflexivity.
  - exists w1, st2, w2, w3, w4. repeat split; assumption.
Defined.

Lemma D3D12_render_bracket_balanced_witness :
  ∃ st1 w1 w2 l,
    D3D12.BeginRenderToTexture 30 None ex_st12 ex_w12 = Some (st1, w1)
    ∧ D3D12.EndRenderToTexture 30 st1 w1 = Some w2
    ∧ gpu_log w2 = gpu_log ex_w12 ++ l
    ∧ views_acquired l = views_released l
    ∧ length (views_acquired l) ≤ 1.
Proof.
  destruct (D3D12.BeginRenderToTexture 30 None ex_st12 ex_w12) as [[st1 w1]|] eqn:HB;
    [|by vm_compute in HB].
  destruct (D3D12.EndRenderToTexture 30 st1 w1) as [w2|] eqn:HE.
  2:{ vm_compute in HB. injection HB as <- <-. by vm_compute in HE. }
  assert (cached_view_is_texture 30 ex_st12 ex_w12) as Htex.
  { intros wr o Hc Ho. vm_compute in Hc. injection Hc as <-.
    vm_compute in Ho. by injection Ho as <-. }
  destruct (D3D12_render_bracket_balanced 30 None ex_st12 ex_w12 st1 w1 w2 Htex HB HE)
    as (l & Hl & Hbal & Hlen & _).
  by exists st1, w1, w2, l.
Defined.

Lemma WebView_Resize_texture_witness :
  ∃ st' api' w',
    WebView.Resize 8 6 ex_resize_answers (Some (RenderAPI.RenderAPI_D3D11 ex_st11))
      ex_view ex_w11 = Some (Success, st', Some api', w')
    ∧ WebView.m_width st' = 8%Z ∧ WebView.m_height st' = 6%Z
    ∧ invalidated 5 (mkComObj 0 1 (KTexture2D 4 3)) w'
    ∧ WebView.m_texturePtr st' = 9%N
    ∧ objs w' !! 9%N = Some (mkComObj 3 1 (KTexture2D 8 6)).
Proof.
  destruct (WebView_Resize_texture 8 6 ex_resize_answers (RenderAPI.RenderAPI_D3D11 ex_st11)
              ex_view ex_w11 (mkComObj 0 1 (KTexture2D 4 3)))
    as (st' & api' & w' & H & HW & HH & Hinv & Hnew & _).
  - done.
  - done.
  - simpl. split; [done|]. split; [vm_compute; reflexivity|].
    split; [by exists 4%Z, 3%Z|]. split; [done|]. simpl. lia.
  - intros a [= <-]. split; [done|]. right. vm_compute. reflexivity.
  - destruct (Hnew 9%N eq_refl eq_refl) as (Hptr & _ & Hlook).
    by exists st', api', w'.
Defined.

Lemma WebView_Shutdown_releases_once_witness :
  ∃ st' api' w',
    WebView.Shutdown (Some (RenderAPI.RenderAPI_D3D11 ex_st11)) ex_view ex_w11
    = Some (st', Some api', w')
    ∧ objs w' !! 5%N = None
    ∧ WebView.Shutdown (Some api') st' w' = Some (st', Some api', w').
Proof.
  destruct (WebView_Shutdown_releases_once (RenderAPI.RenderAPI_D3D11 ex_st11)
              ex_view ex_w11 (mkComObj 0 1 (KTexture2D 4 3)))
    as (st' & api' & w' & H & _ & Hgone & _ & Hagain).
  - done.
  - done.
  - simpl. split; [done|]. split; [vm_compute; reflexivity|].
    split; [by exists 4%Z, 3%Z|]. split; [done|]. simpl. lia.
  - by exists st', api', w'.
Defined.

Lemma ex_manager_handles_ok : handles_ok ex_manager.
Proof. split; simpl; [lia|]. intros h [x Hx]. by rewrite lookup_empty in Hx. Defined.

Lemma WebViewManager_CreateWebView_handle_witness :
  ∃ r out m' p',
    WebViewManager.CreateWebView 8 6 ex_init_answers ex_manager ex_process
    = Some (r, out, m', p')
    ∧ out = Some 1%Z ∧ WebViewManager.m_nextHandle m' = 2%Z
    ∧ (r = Success ↔ is_Some (WebViewManager.GetWebView 1 m')).
Proof.
  destruct (WebViewManager.CreateWebView 8 6 ex_init_answers ex_manager ex_process)
    as [[[[r out] m'] p']|] eqn:H; [|by vm_compute in H].
  destruct (WebViewManager_CreateWebView_handle 8 6 ex_init_answers ex_manager ex_process
              r out m' p' ex_manager_handles_ok) as (Ho & _ & _ & Hn & _ & _ & Hr);
    [done|done|done|].
  by exists r, out, m', p'.
Defined.

Lemma WebViewManager_destroyed_handle_is_invalid_witness :
  ∃ m1 p1 m2 p2,
    WebViewManager.CreateWebView 8 6 ex_init_answers ex_manager ex_process
    = Some (Success, Some 1%Z, m1, p1)
    ∧ WebViewManager.DestroyWebView 1 m1 p1 = Some (Success, m2, p2)
    ∧ WebViewManager.GetWebView 1 m2 = None
    ∧ WebViewManager.DestroyWebView 1 m2 p2 = Some (ErrorInvalidHandle, m2, p2).
Proof.
  destruct (WebViewManager.CreateWebView 8 6 ex_init_answers ex_manager ex_process)
    as [[[[r out] m1] p1]|] eqn:HC; [|by vm_compute in HC].
  assert (r = Success ∧ out = Some 1%Z) as [-> ->]
    by (vm_compute in HC; by injection HC as <- <- _ _).
  destruct (WebViewManager.DestroyWebView 1 m1 p1) as [[[r2 m2] p2]|] eqn:HD.
  2:{ vm_compute in HC. injection HC as <- <-. by vm_compute in HD. }
  assert (r2 = Success) as ->.
  { vm_compute in HC. injection HC as <- <-. vm_compute in HD. by injection HD as <- _ _. }
  destruct (WebViewManager_destroyed_handle_is_invalid 1 m1 p1 Success m2 p2 HD)
    as (_ & _ & Hgone & _ & Hagain & _).
  by exists m1, p1, m2, p2.
Defined.

Lemma WebViewManager_failed_CreateWebView_leaves_nothing_witness :
  ∃ m' p',
    WebViewManager.CreateWebView 8 6 ex_init_answers_no_environment ex_manager ex_process
    = Some (ErrorWebViewCreationFailed, Some 1%Z, m', p')
    ∧ WebViewManager.m_instances m' = ∅
    ∧ objs (WebViewManager.heap p') = objs ex_w11
    ∧ WebViewManager.m_nextHandle m' = 2%Z.
Proof.
  destruct (WebViewManager.CreateWebView 8 6 ex_init_answers_no_environment ex_manager
              ex_process) as [[[[r out] m'] p']|] eqn:H; [|by vm_compute in H].
  assert (r = ErrorWebViewCreationFailed ∧ out = Some 1%Z) as [-> ->]
    by (vm_compute in H; by injection H as <- <- _ _).
  destruct (WebViewManager_failed_CreateWebView_leaves_nothing 8 6
              ex_init_answers_no_environment ex_manager ex_process
              (RenderAPI.RenderAPI_D3D11 ex_st11) ErrorWebViewCreationFailed (Some 1%Z) m' p')
    as (Hi & Ho & _ & _ & _ & Hn); [done|done|done|done|done|].
  exists m', p'. split; [done|]. split; [done|]. split; [done|]. by destruct (Hn eq_refl).
Defined.

Lemma WebViewManager_create_destroy_round_trip_witness :
  ∃ m1 p1 m2 p2,
    WebViewManager.CreateWebView 8 6 ex_init_answers ex_manager ex_process
    = Some (Success, Some 1%Z, m1, p1)
    ∧ WebViewManager.DestroyWebView 1 m1 p1 = Some (Success, m2, p2)
    ∧ WebViewManager.m_instances m2 = ∅
    ∧ objs (WebViewManager.heap p2) = objs ex_w11.
Proof.
  destruct (WebViewManager.CreateWebView 8 6 ex_init_answers ex_manager ex_process)
    as [[[[r out] m1] p1]|] eqn:HC; [|by vm_compute in HC].
  assert (r = Success ∧ out = Some 1%Z) as [-> ->]
    by (vm_compute in HC; by injection HC as <- <- _ _).
  destruct (WebViewManager_create_destroy_round_trip 8 6 ex_init_answers ex_manager ex_process
              (RenderAPI.RenderAPI_D3D11 ex_st11) (Some 1%Z) m1 p1 ex_manager_handles_ok)
    as (h & m2 & p2 & [= <-] & HD & Hi & Ho & _); [done|done|done|done|].
  by exists m1, p1, m2, p2.
Defined.

Lemma WebViewManager_Shutdown_only_once_witness :
  ∃ m1 p1,
    WebViewManager.Shutdown ex_manager ex_process = Some (m1, p1)
    ∧ WebViewManager.IsInitialized m1 = false
    ∧ WebViewManager.Shutdown m1 p1 = Some (m1, p1)
    ∧ ∀ r m2 p2,
        WebViewManager.Initialize true WebViewManager.apartment_initialized true m1 p1
        = (r, m2, p2) →
        (r = Success ↔ WebViewManager.IsInitialized m2 = true)
        ∧ WebViewManager.Shutdown m2 p2 = Some (m2, p2).
Proof.
  destruct (WebViewManager.Shutdown ex_manager ex_process) as [[m1 p1]|] eqn:H;
    [|by vm_compute in H].
  destruct (WebViewManager_Shutdown_only_once ex_manager ex_process m1 p1 eq_refl H)
    as (_ & Hinit & _ & Hagain & Hre).
  exists m1, p1. split; [done|]. split; [done|]. split; [done|].
  intros r m2 p2 Hi. destruct (Hre _ _ _ _ _ _ Hi) as (_ & Hr & Hc). split; [done|].
  destruct (decide (WebViewManager.m_shutdownComplete m2 = true)) as [E|E].
  - unfold WebViewManager.Shutdown. by rewrite E.
  - exfalso. apply E. clear -H Hi. vm_compute in H. injection H as <- <-.
    vm_compute in Hi. by injection Hi as _ <- _.
Defined.

Lemma ex_host_heap_ok : heap_ok (WebViewManager.heap ex_process_host).
Proof. apply heap_ok_check. vm_compute. reflexivity. Defined.

Lemma Plugin_failed_Initialize_leaves_nothing_witness :
  ∃ s' p',
    Plugin.Initialize RenderAPI.GraphicsAPI_Direct3D11
      (ex_answers WebViewManager.throws_other) ex_plugin ex_process_host
    = Some (ErrorUnknown, s', p')
    ∧ WebViewManager.renderAPI p' = None ∧ Plugin.g_webViewManager s' = None
    ∧ objs (WebViewManager.heap p') = objs ex_w11_host
    ∧ WebViewManager.IsShuttingDown p' = true.
Proof.
  destruct (Plugin.Initialize RenderAPI.GraphicsAPI_Direct3D11
              (ex_answers WebViewManager.throws_other) ex_plugin ex_process_host)
    as [[[r s'] p']|] eqn:H; [|by vm_compute in H].
  assert (r = ErrorUnknown) as -> by (vm_compute in H; by injection H as <- _ _).
  destruct (Plugin_failed_Initialize_leaves_nothing RenderAPI.GraphicsAPI_Direct3D11
              (ex_answers WebViewManager.throws_other) ex_plugin ex_process_host
              ErrorUnknown s' p' ex_host_heap_ok eq_refl eq_refl H)
    as (Hr & Hm & _ & Ho & _ & _ & _ & Hs); [done|].
  exists s', p'. repeat split; try done. by apply Hs.
Defined.

Lemma Plugin_Initialize_Success_witness :
  ∃ s' p' m,
    Plugin.Initialize RenderAPI.GraphicsAPI_Direct3D11
      (ex_answers WebViewManager.apartment_initialized) ex_plugin ex_process_host
    = Some (Success, s', p')
    ∧ Plugin.IsInitialized p' = true
    ∧ Plugin.GetWebViewManager s' = Some m
    ∧ WebViewManager.m_navigationCallback m = 22%N
    ∧ WebViewManager.m_messageCallback m = 23%N
    ∧ WebViewManager.m_logCallback m = 0%N.
Proof.
  destruct (Plugin.Initialize RenderAPI.GraphicsAPI_Direct3D11
              (ex_answers WebViewManager.apartment_initialized) ex_plugin ex_process_host)
    as [[[r s'] p']|] eqn:H; [|by vm_compute in H].
  assert (r = Success) as -> by (vm_compute in H; by injection H as <- _ _).
  destruct (Plugin_Initialize_Success _ _ _ _ _ _ (proj1 ex_host_heap_ok) H)
    as (_ & _ & Hi & _ & _ & _ & m & Hm & _ & _ & _ & _ & Hn & Hmsg & Hl & _).
  by exists s', p', m.
Defined.

Lemma Plugin_Shutdown_abandons_the_render_API_witness :
  ∃ s1 p1 a s2 p2,
    Plugin.Initialize RenderAPI.GraphicsAPI_Direct3D11
      (ex_answers WebViewManager.apartment_initialized) ex_plugin ex_process_host
    = Some (Success, s1, p1)
    ∧ WebViewManager.renderAPI p1 = Some a
    ∧ Plugin.Shutdown s1 p1 = Some (s2, p2)
    ∧ WebViewManager.renderAPI p2 = None
    ∧ holds (RenderAPI_members a) ex_w11_host (WebViewManager.heap p2).
Proof.
  destruct (Plugin.Initialize RenderAPI.GraphicsAPI_Direct3D11
              (ex_answers WebViewManager.apartment_initialized) ex_plugin ex_process_host)
    as [[[r s1] p1]|] eqn:H; [|by vm_compute in H].
  assert (r = Success) as -> by (vm_compute in H; by injection H as <- _ _).
  destruct (Plugin_Shutdown_abandons_the_render_API _ _ _ _ _ _ ex_host_heap_ok H)
    as (a & s2 & p2 & Ha & Hs & _ & Hn & _ & _ & _ & Hh & _).
  by exists s1, p1, a, s2, p2.
Defined.

Lemma WebView_ready_after_both_handlers_witness :
  ∃ st1 reg' w1 st3,
    WebView.Initialize ex_init_answers false (Some (RenderAPI.RenderAPI_D3D11 ex_st11))
      (WebView.constructed 1 8 6 true) ex_w11 = Some (Success, st1, reg', w1)
    ∧ WebView.OnCompositionControllerCreated true 32 ex_controller_answers
        (Some (RenderAPI.RenderAPI_D3D11 ex_st11))
        (WebView.OnEnvironmentCreated true 31 true st1) = Some st3
    ∧ WebView.Navigate true st1 = ErrorNotInitialized
    ∧ WebView.IsReady st3 = true
    ∧ is_Some (WebView.m_capture st3)
    ∧ WebView.Navigate true st3 = Success.
Proof.
  destruct (WebView.Initialize ex_init_answers false (Some (RenderAPI.RenderAPI_D3D11 ex_st11))
              (WebView.constructed 1 8 6 true) ex_w11) as [[[[r st1] reg'] w1]|] eqn:Hi;
    [|by vm_compute in Hi].
  assert (r = Success) as -> by (vm_compute in Hi; by injection Hi as <- _ _ _).
  destruct (WebView.OnCompositionControllerCreated true 32 ex_controller_answers
              (Some (RenderAPI.RenderAPI_D3D11 ex_st11))
              (WebView.OnEnvironmentCreated true 31 true st1)) as [st3|] eqn:Hc.
  2:{ vm_compute in Hi. injection Hi as <- _ _. by vm_compute in Hc. }
  destruct (WebView_ready_after_both_handlers ex_init_answers false
              (RenderAPI.RenderAPI_D3D11 ex_st11) 1 8 6 ex_w11 st1 reg' w1 31
              (WebView.OnEnvironmentCreated true 31 true st1) true 32 ex_controller_answers st3
              Hi ltac:(intros [=]) eq_refl Hc)
    as (_ & _ & _ & _ & _ & Hbefore & _ & Hiff & Hready & _).
  assert (WebView.IsReady st3 = true) as Hr.
  { apply Hiff. split; [done|]. split; [intros [=]|]. split; simpl; eauto. }
  destruct (Hready Hr) as (Hcap & _ & _ & Hnav & _).
  exists st1, reg', w1, st3. split; [done|]. split; [done|].
  split; [|done]. by destruct (Hbefore st1 (or_introl eq_refl)) as [Hn _]; destruct (Hn true).
Defined.

Lemma WebView_device_lost_and_restored_witness :
  WebView.m_capture ex_view_capturing = Some ex_capture_started
  ∧ Capture.m_session ex_capture_started = Some (Capture.mkSession true)
  ∧ WebView.m_capture (WebView.OnDeviceLost (Capture.mkShutdownEnv true true)
                         ex_view_capturing) = Some Capture.constructed
  ∧ ∃ st2 w2 c,
      WebView.OnDeviceRestored ex_restore_answers (Some (RenderAPI.RenderAPI_D3D11 ex_st11))
        (WebView.OnDeviceLost (Capture.mkShutdownEnv true true) ex_view_capturing) ex_w11
      = Some (st2, w2)
      ∧ WebView.m_texturePtr st2 = 9%N ∧ WebView.IsReady st2 = true
      ∧ WebView.m_capture st2 = Some c
      ∧ Capture.m_session c = Some (Capture.mkSession true)
      ∧ is_Some (objs w2 !! 5%N).
Proof.
  destruct (WebView_device_lost_and_restored (Capture.mkShutdownEnv true true)
              ex_restore_answers (RenderAPI.RenderAPI_D3D11 ex_st11) ex_view_capturing ex_w11)
    as (_ & Hlost & Hrestore).
  - done.
  - done.
  - done.
  - intros a [= <-]. split; [intros [=]|]. vm_compute. reflexivity.
  - split; [reflexivity|]. split; [reflexivity|].
    split; [exact (Hlost eq_refl eq_refl)|].
    destruct (Hrestore _ (or_intror eq_refl)) as (st2 & w2 & H & Ht & Hr & Hc & o & Ho & _).
    rewrite (Hlost eq_refl eq_refl) in Hc.
    exists st2, w2. eexists. split; [exact H|]. split; [exact Ht|]. split; [exact Hr|].
    split; [exact Hc|]. split; [vm_compute; reflexivity|].
    rewrite Ho. rewrite lookup_insert_ne by (intros [=]). vm_compute. eauto.
Defined.

Lemma Exports_CreateWebView_handle_and_texture_witness :
  ∃ out' s' p',
    Exports.WebViewToolkit_CreateWebView 8 6 (Some 0%Z) ex_init_answers
      ex_plugin_initialized ex_process = Some (0%Z, out', s', p')
    ∧ out' = Some 1%Z
    ∧ Exports.WebViewToolkit_GetTexturePtr 1 s' p' ≠ 0%N.
Proof.
  destruct (Exports.WebViewToolkit_CreateWebView 8 6 (Some 0%Z) ex_init_answers
              ex_plugin_initialized ex_process) as [[[[rv out'] s'] p']|] eqn:H;
    [|by vm_compute in H].
  assert (rv = 0%Z) as -> by (vm_compute in H; by injection H as <- _ _ _).
  destruct (Exports_CreateWebView_handle_and_texture 8 6 (Some 0%Z) ex_init_answers
              ex_plugin_initialized ex_process 0%Z out' s' p')
    as (_ & _ & Hs).
  - intros m [= <-]. exact ex_manager_handles_ok.
  - exact H.
  - destruct (Hs eq_refl) as (m & handle & [= <-] & -> & -> & Hptr & _).
    by exists (Some 1%Z), s', p'.
Defined.
